(* ===== verification/_CoqProject ===== *)
-Q . S2P
Prelude.v
PyStr.v
PyFloat.v
PyInt.v
PyDict.v
PyPath.v
DocSite.v
Schema.v
DbCli.v
KbSetup.v
Upload.v
SchemaDocs.v
QueryDocs.v
Aggregator.v
Backend.v
Cache.v
Strategies.v
StrategyProps.v
Router.v
Merger.v
Corrections.v
Chat.v
Catalog.v
QueryAnalysis.v
Credentials.v
RetrievalCli.v
Pipeline.v
Ui.v
DataSource.v
AppKbs.v
KbDeployment.v
DeployCustomer.v
