(* ===== verification/Prelude.v ===== *)
(** * A verification development of dbkb, a database knowledge assistant

    The program (repository lowrycito/dbkb, Python) answers
    natural-language questions about a customer database by consulting
    Amazon Bedrock knowledge bases, keeps a chat history, and folds user
    corrections back into the knowledge bases.  Its parts, and how they
    interact:

    - the retrieval engine [AdvancedRetrieval]
      (src/src/advanced_retrieval/retrieval_techniques.py): six retrieval
      strategies (standard, query expansion, HyDE, multi-strategy,
      relationship, SQL optimisation), each memoised in the client's
      cache [self.cache] with a time-to-live, the deduplicate/rank/
      truncate step they share, and the answer synthesis of
      [advanced_rag_query]; its command line ([__main__]);
    - the HTTP service src/app.py: the router
      [classify_query_and_get_targets], the multi-source merger
      [multi_kb_query] and the single-source endpoints, which create
      retrieval clients through src/utils/retrieval.py; the chat
      persistence endpoints and the application registry, over a MySQL
      database reached with credentials from SSM;
    - the correction loop [FeedbackProcessor]
      (src/src/training/feedback_processor.py) and its command line
      src/train_from_feedback.py;
    - offline tools: the query catalog deduplicator
      src/extract_deduplicated.py and the SQL query analyser
      src/src/query_analysis/query_parser.py;
    - the documentation pipeline src/main.py: [extract-schema] reads a
      database section of a configparser file, connects
      (src/src/schema_extraction/db_connection.py), extracts the schema
      dict (extract_schema.py) and writes it as JSON, then optionally the
      markdown site of src/src/documentation/schema_to_markdown.py;
      [analyze-queries] runs the query analyser, [generate-docs] the two
      markdown generators, [upload] sends docs/ to S3
      (src/src/bedrock_setup/upload_to_s3.py), [setup-kb] creates the
      Bedrock knowledge base, its data source and ingestion job
      (setup_knowledge_base.py), and [run-all] chains the steps;
    - maintenance scripts: the data-source scripts, the application
      registry update, and the per-customer deployment
      (src/infrastructure/deploy_customer.py, which reads
      customer_configs.yaml and calls the Pulumi program
      per_kb_deployment.py).

    A question reaches [multi_kb_query]; the router picks targets from
    the application's knowledge bases (looked up in the chat database);
    each target gets a fresh client whose [advanced_rag_query] runs the
    multi-strategy retrieval (standard, expansion and HyDE, each calling
    the knowledge base and the text generator through the cache), ranks
    the contexts and asks the generator for the answer; the merger
    combines the answers, primary first.  The correction loop runs apart,
    over the feedback tables of the chat database.

    ** Files, modules and what they model

    - [Prelude] (this file): the scope [dbkb_scope]; [result], a Python
      call returning or raising; the state-and-exception monad [M] with
      [let*], [raise] and [try_catch] (try/except, keeping the state
      reached before the exception); [no_raise]; the tactics
      [bool_props] and [case_ifs]; the hint databases [dbkb] and
      [dbkb_rw]; generic list lemmas.
    - [PyStr]: Python [str] operations on ASCII strings: [lower],
      [in], [replace], slicing, [title], [strip], [split] (on
      whitespace and on a separator string), [join], [str(int)],
      character classes, the regex helpers [take_while] and
      [drop_while], the truth value of a string ([truthy],
      [truthy_opt]) and [f"{x}"] of a value that may be [None]
      ([py_opt]).
    - [PyFloat]: the IEEE double [count / total * 100] and its [.1f]
      formatting, each step rounded half-even as CPython does.
    - [PyInt]: [int(s)] on a string (whitespace, sign, digits with
      single underscores) and its round trip with [str].
    - [Aggregator] (module [Aggregator]): the score interface
      [ScoreOrder] (Python's [>] on floats, a strict weak order), the
      dedup loop keyed by the content's MD5 ([dedup_contexts]), the
      stable descending sort ([sort_by_score]) and the slice
      ([select_top]).
    - [Backend]: the knowledge base and the generator as an oracle
      [Backend] (a call may raise), the client state [ClientState] (the
      cache dict, the clock, the log of backend calls) and the result
      dict [StrategyResult].
    - [Cache]: [generate_cache_key] and the cache protocol [memoize]
      (fresh hit, or compute, store and return; an exception returns the
      error dict without storing).
    - [Strategies]: one definition per method of [AdvancedRetrieval],
      each [memoize] around its body, over the oracle and the client's
      knowledge base; [StrategyProps]: their theorems.
    - [Router]: [classify_query_and_get_targets] (forced modes, keyword
      counts of the smart mode, Python truthiness of optional ids).
    - [Merger]: the server state [Server] (clock, lazily created global
      client, log of calls), [multi_kb_query] (target selection, fan-out
      with a fresh client per target, merge, response, the HTTP 400 that
      its own [except] turns into a 500), [query_knowledge_base],
      [/relationship], [/optimize], [/health], [lifespan], the global
      exception handler, and the Lambda helpers of utils/retrieval.py.
    - [Corrections]: the store of the tables [query_feedback],
      [training_data], [kb_improvement_log] with their auto-increment
      counters and clock; [process_pending_feedback] as a function on the
      store with the failing [INSERT] as an oracle; [store_step] (submit,
      run, tick); the command line [train_main].
    - [Chat]: the chat database (application, company, user,
      chat_sessions, chat_messages, counters, connection availability, the
      uuid stream) and [get_application_kbs], [ensure_user_and_company],
      [create_or_get_chat_session], [save_chat_message] as computations
      in [M]; [chat_step] for any sequence of requests.
    - [Catalog]: extract_deduplicated.py: the regular expressions as
      scanners with Python's leftmost/greedy/lazy semantics, the
      normalisation behind [hash_query], the extraction loop
      ([extraction_loop]) and the catalog ([main]); [spec_loop] is its
      specification as a grouping of the files' keys.
    - [QueryAnalysis]: query_parser.py: [analyze_query] over the three
      SQL parsers as an oracle, the merge of their answers, the
      complexity score (a rational), [analyze_query_batch], and the file
      driver [process_query_file] with [os.path] on POSIX paths.
    - [Credentials]: [get_ssm_client], [get_db_credentials] (with the
      global cache), [get_chat_db_config], [get_chat_db_connection]; the
      process state counts the calls to SSM and MySQL, whose answers are
      indexed by call number.
    - [RetrievalCli]: the [__main__] block of retrieval_techniques.py:
      argument checks, the constructor's knowledge-base check, dispatch,
      exit status.
    - [PyDict], [PyPath]: Python dicts as association lists in
      insertion order ([dget], [dset], [dkeys]), [sorted] ([sort_by]),
      the [defaultdict] and [Counter] loops ([dappend], [count_all]) and
      their reference definitions ([uniq], [tabulate], [with_key]);
      [os.path] on POSIX paths ([path_join], [dirname], [basename],
      [splitext]) and [posixpath.normpath] ([normpath]).
    - [DocSite]: a markdown page as a list of text and link pieces, a
      site as the dict of files written, link resolution against the
      page's directory and [broken_links].
    - [Schema]: the dict [SchemaData] of extract_schema.py, the loop of
      each extraction method over the rows of its catalogue query
      ([table_row] ... [index_row], [mysql_index_row]), [schema_of] the
      five loops composed, [connect_by_params] and
      [extract_schema_to_json] over a [Server] oracle, with the number of
      open connections in the state [ExtractState]; the methods of
      [MySQLSchemaExtractor] ([mysql_extract_tables] ...).
    - [DbCli]: [config] of db_connection.py over a parsed [database.ini]
      (sections, [DEFAULT], [has_section], [items]), [connect_to_db],
      and the [__main__] blocks of db_connection.py and
      extract_schema.py, with the lines they print ([CliState]).
    - [AppKbs]: update_application_kbs.py on the chat database of
      [Chat], with the lines it prints.
    - [DataSource]: create_new_data_source.py and update_kb_data_source.py
      over a [bedrock-agent] oracle, with the clock and the log of calls
      ([ScriptState]); modules [Create] and [Update] for each [main].
    - [KbDeployment]: per_kb_deployment.py inside a Pulumi program, as
      state passing over the resources it registers and the outputs it
      exports ([Program]); the AWS lookups return plain values, as the
      provider's invokes do.
    - [DeployCustomer]: deploy_customer.py over the parsed
      customer_configs.yaml ([Loaded]), with the lines it prints; the
      script is a plain process, so its call of [deploy_customer_kb]
      raises the Pulumi SDK's no-engine exception (a section variable)
      before declaring anything.
    - [Ui]: [serve_js], [serve_ui] (the [API_ENDPOINT] placeholder and
      the fallback page) and the [__main__] block of app.py over a
      record of files and environment variables.
    - [SchemaDocs]: every page of [SchemaMarkdownGenerator]
      ([index_page], [tables_summary_page], [table_page],
      [relationships_page]) and [generate_markdown_from_json].
    - [QueryDocs]: every page of [QueryMarkdownGenerator]
      ([index_page], [pattern_page], [usage_page]) written by
      [generate_all_docs] through the writer interface [MdWriter], whose
      instances are the site of [DocSite] and the file system of
      [Pipeline]; the schema JSON it may read is a [SchemaView].
    - [KbSetup]: the methods of [BedrockKnowledgeBaseSetup] and the
      script's [main] as computations in [M] over the log of Bedrock
      calls and sleeps; the three waiter loops are one [wait_loop].
    - [Upload]: [upload_file_to_s3], [upload_directory_to_s3] over an
      [os.walk] of a local tree, the bucket check and
      [upload_documentation], over an S3 oracle; exceptions carry their
      class, which each [except] tests.
    - [Pipeline]: the world of main.py (files, directories, open
      connections, S3 and Bedrock logs), one definition per subcommand,
      [run_command] and [main]'s exit status, [generate_markdown_from_json]
      of queries_to_markdown.py on every shape of JSON it may read;
      configparser, [json.load], the database server and the other
      generators a JSON file may reach are section variables.

    ** What the theorems show

    - Aggregation (C1-C3): the selected contexts are at most [k],
      pairwise distinct by content, sorted by descending score and taken
      from the input; the dedup keeps the best context of each content;
      the sort is a stable permutation.
    - Cache and strategies (C6, C7, C34): every reachable cache
      holds well-formed results for its keys; a failed call is not
      cached; cache keys are injective.
    - Application registry (C31): after update_application_kbs.py the
      registry and the router send epic's database questions to the new
      knowledge base, and no other application changes.
    - Routing and merging (C4, C5, C10, C38): targets name configured
      knowledge bases; the merged answer; every target is answered;
      /relationship loses its contexts.
    - Schema extraction and documentation (C11-C14): the extracted dict
      is consistent (keys, foreign keys against references, primary-key
      and index flags); a PostgreSQL extraction returns it and closes
      its connection, a failing query leaks the connection; composed
      with the generator, the only broken links of the site are those of
      the tables summary.
    - Knowledge-base setup (C15-C18): the setup always terminates within
      305 calls and 2400 s of sleep; a knowledge base that becomes ready
      is returned after exactly the polls needed; one that never does,
      or a failed ingestion job, is reported as success.
    - Upload (C20): a failed upload raises out of
      [upload_documentation].
    - Pipeline (C21, C23): [run-all] always exits with 1 and never
      reaches S3 or Bedrock; [analyze-queries] rejects the lines of its
      own input format.
    - Customer deployment (C19, C28, C30): inside a Pulumi program,
      [deploy_customer_kb] always raises [AttributeError] at the
      listener rule after declaring four resources, among them one
      target group whose name is the sanitized customer name (spaces and
      underscores made hyphens, letters lowered) cut to 32 characters;
      run from deploy_customer.py, a plain process, every complete
      entry is reported as a failed deployment.
    - Server start (C22): a [PORT] written by [str] of an integer
      starts uvicorn on that port ([int(str(n)) = n]), an unset one on
      8000.
    - Data-source scripts (C24, C37, C39): the polling loop on
      [time.time()] always ends (the fuel suffices), polls at most
      [2 * max_wait_minutes] times, and create_new_data_source.py never
      deletes a data source although it announces a replacement.
    - Query documentation (C25-C27): the broken links of the site are
      exactly the links to tables used once; the page of a category
      counts exactly the queries whose [category] field (or
      [Uncategorized]) is that category, whether or not the usage loop
      raises; a self-join raises IndexError.
    - Corrections (C8, C9, C32, C33): the closed form of a run, the
      improvement log, the store invariant (fresh counters, unique ids,
      referential integrity) of every reachable store, and that history
      only grows.
    - Chat (C35): a new session id is never stored, so messages to it
      are refused.
    - Catalog (C29): the extraction loop refines the grouping
      specification.
    - Command lines of the extraction (C36, C40): [extract_schema]'s
      [__main__] prints the number of distinct tables and closes its
      connection; the connection test of db_connection.py closes every
      connection it opens and prints one of three outcomes.
    - Beyond the numbered claims: [serve_ui] leaves no
      placeholder for an endpoint that shares no character with it;
      the MySQL extraction's error path leaks its connection like the
      PostgreSQL one ([DbCli.extract_schema_main_leaks]); an unknown
      application is a 500, one failing paraphrase aborts an expansion,
      a [MySQL] db_type is rejected, [advanced_rag_query] never
      raises, a fresh cache entry is served without a backend call,
      every documentation file is uploaded once, [extract-schema
      --generate-docs] writes every page, and the links from the query
      pages to the schema pages resolve, and the [defaultdict] loops
      equal the reference grouping (theorems of [Merger],
      [StrategyProps], [Pipeline], [Strategies], [Upload] and
      [QueryDocs] kept from earlier claims); the task definition of
      per_kb_deployment.py gets the log group's name as its region
      ([KbDeployment.create_kb_ecs_service_task]).

    ** Modelling choices, bounds and fuel

    - Every recursion is structural (over a list, a string or a
      counter), and every definition computes; witnesses and examples
      are evaluated with [vm_compute].  The one loop on the clock, the
      [while time.time() - start < max_wait_seconds] of the data-source
      scripts, recurses on a fuel of [max_wait_minutes * 2 + 1]
      iterations ([DataSource.monitor_fuel]): each iteration but the
      last sleeps 30 seconds, so the clock ends the loop first (C24).  The
      waiter loops of setup_knowledge_base.py are [for] loops over
      [range(waiter_max_attempts)]: [wait_loop] recurses on that count
      (60, 60 and 180), which is also what bounds the setup (C15).
    - [os.walk] is modelled by the list of files below a directory, in
      the order of the local tree; the file system of main.py is a dict
      of paths with the set of directories, and a write needs its parent
      directory.
    - External services (Bedrock, SSM, MySQL, the SQL parsers, file
      readers) are oracles: records or section variables whose answers
      may be exceptions; the theorems hold for every oracle.
    - MD5 digests are modelled by the digested string (taken
      collision-free); strings are ASCII [string]s and the Python string
      and [re] operations get their ASCII behaviour; float scores are any
      strict weak order ([ScoreOrder]); the complexity score, a sum of
      halves, is in [Q].
    - Python dicts are association lists in insertion order (or [gmap]
      where order is not observed); sets are duplicate-free lists.

    ** Not modelled

    - The shared Pulumi stack (src/infrastructure/__main__.py) and the
      operations scripts (src/create_opensearch_policies.py,
      src/diagnose_infrastructure.py,
      src/check_bedrock_service_principals.py): resource declarations
      with no logic of their own and one-off boto3 calls whose results
      are printed.
    - The Pulumi engine itself: [KbDeployment] is the program run
      inside it (registrations and lookups succeed, lookups return plain
      values); [DeployCustomer] runs without it, where the SDK's
      exception, whatever its text, is a section variable.
    - Floats outside the percentages of the query documentation:
      [PyFloat] covers quotients of positive ints below [2^1000] (no
      subnormals or overflow), which is every count the reports print.
    - JSON [null] in the query objects (a field is a string, a list of
      strings, or absent).
    - [configparser]'s [%] interpolation and its parsing of the file
      text: [DbCli] starts from the parsed sections, [Pipeline] from a
      parser given as a section variable.
    - Python's import machinery: that extract_schema.py, run as a
      script, stops at its relative import is recorded as a finding.
    - The text of SQL queries sent to the databases (their answers are
      the oracle), the static-file mount and what uvicorn does once
      started.
    - Logging and printing, except where printed text is the output.

*)

From stdpp Require Export base list strings.
From Stdlib Require Export Sorted ZArith Lia.

(** stdpp makes [String.append] opaque to [simpl]; the models compute
    with it, so it unfolds again when applied to a constructor. *)
#[global] Arguments String.append : simpl nomatch.

Declare Scope dbkb_scope.
Delimit Scope dbkb_scope with dbkb.
Open Scope dbkb_scope.

(** ** Results: a Python call either returns or raises *)

Inductive result (A : Type) : Type :=
| Ok (a : A)
| Err (msg : string).
Arguments Ok {A} a.
Arguments Err {A} msg.

(** ** A state monad with exceptions

    [M S A] threads a state [S] through a computation that may raise.
    The state reached when an exception is raised is kept, as in Python,
    where a mutation done before a [raise] is not undone. *)

Definition M (S A : Type) : Type := S -> result A * S.

Definition ret {S A} (a : A) : M S A := fun s => (Ok a, s).

Definition bind {S A B} (c : M S A) (k : A -> M S B) : M S B :=
  fun s =>
    match c s with
    | (Ok a, s') => k a s'
    | (Err e, s') => (Err e, s')
    end.

Definition raise {S A} (msg : string) : M S A := fun s => (Err msg, s).

Definition mget {S} : M S S := fun s => (Ok s, s).

Definition mput {S} (s : S) : M S unit := fun _ => (Ok tt, s).

Definition mmodify {S} (f : S -> S) : M S unit := fun s => (Ok tt, f s).

(** [try: c except Exception as e: h(str(e))] *)
Definition try_catch {S A} (c : M S A) (h : string -> M S A) : M S A :=
  fun s =>
    match c s with
    | (Ok a, s') => (Ok a, s')
    | (Err e, s') => h e s'
    end.

Notation "'let*' x := c 'in' k" := (bind c (fun x => k))
  (at level 10, x name, c at level 100, k at level 200) : dbkb_scope.
Notation "'let*' ' p := c 'in' k" := (bind c (fun x => match x with p => k end))
  (at level 10, p pattern, c at level 100, k at level 200) : dbkb_scope.
Notation "c ;;; k" := (bind c (fun _ => k))
  (at level 100, right associativity) : dbkb_scope.

(** Sequencing a computation over a list, collecting the results
    (a Python [for] loop that appends to a list). *)
Fixpoint mmap {S A B} (f : A -> M S B) (l : list A) : M S (list B) :=
  match l with
  | [] => ret []
  | x :: l' => let* y := f x in let* ys := mmap f l' in ret (y :: ys)
  end.

Lemma bind_ret {S A B} (a : A) (k : A -> M S B) : bind (ret a) k = k a.
Proof. reflexivity. Qed.

Lemma bind_assoc {S A B C} (c : M S A) (k1 : A -> M S B) (k2 : B -> M S C) s :
  bind (bind c k1) k2 s = bind c (fun a => bind (k1 a) k2) s.
Proof. unfold bind. destruct (c s) as [[a|e] s']; reflexivity. Qed.

Lemma bind_ok {S A B} (c : M S A) (k : A -> M S B) s a s' :
  c s = (Ok a, s') -> bind c k s = k a s'.
Proof. unfold bind. intros ->. reflexivity. Qed.

Lemma bind_err {S A B} (c : M S A) (k : A -> M S B) s e s' :
  c s = (Err e, s') -> bind c k s = (Err e, s').
Proof. unfold bind. intros ->. reflexivity. Qed.

(** A computation that never raises: every [try] has a handler that
    returns. *)
Definition no_raise {S A} (c : M S A) : Prop := forall s, exists a s', c s = (Ok a, s').

Lemma no_raise_ret {S A} (a : A) : no_raise (S:=S) (ret a).
Proof. intros s. eauto. Qed.

Lemma no_raise_bind {S A B} (c : M S A) (k : A -> M S B) :
  no_raise c -> (forall a, no_raise (k a)) -> no_raise (bind c k).
Proof.
  intros Hc Hk s. destruct (Hc s) as (a & s' & Hs). unfold bind. rewrite Hs. apply Hk.
Qed.

Lemma no_raise_try_catch {S A} (c : M S A) (h : string -> M S A) :
  (forall e, no_raise (h e)) -> no_raise (try_catch c h).
Proof.
  intros Hh s. unfold try_catch. destruct (c s) as [[a|e] s']; eauto. apply Hh.
Qed.

(** A property of the state that a computation keeps, whether it
    returns or raises. *)
Definition preserves {S A} (I : S -> Prop) (c : M S A) : Prop := forall s, I s -> I (snd (c s)).

Lemma preserves_ret {S A} (I : S -> Prop) (a : A) : preserves I (ret a).
Proof. by intros s. Qed.

Lemma preserves_raise {S A} (I : S -> Prop) e : preserves (A:=A) I (raise e).
Proof. by intros s. Qed.

Lemma preserves_bind {S A B} (I : S -> Prop) (c : M S A) (k : A -> M S B) :
  preserves I c -> (forall a, preserves I (k a)) -> preserves I (bind c k).
Proof.
  intros Hc Hk s Hs. unfold bind. specialize (Hc s Hs). destruct (c s) as [[a|e] s']; [by apply Hk|done].
Qed.

Lemma preserves_mmap {S A B} (I : S -> Prop) (f : A -> M S B) l :
  (forall x, In x l -> preserves I (f x)) -> preserves I (mmap f l).
Proof.
  induction l as [|x l IH]; intros Hf; [apply preserves_ret|]. cbn.
  apply preserves_bind; [apply Hf; by left|]. intros y. apply preserves_bind; [apply IH; intros; apply Hf; by right|].
  intros. apply preserves_ret.
Qed.

Lemma preserves_try_catch {S A} (I : S -> Prop) (c : M S A) (h : string -> M S A) :
  preserves I c -> (forall e, preserves I (h e)) -> preserves I (try_catch c h).
Proof.
  intros Hc Hh s Hs. unfold try_catch. specialize (Hc s Hs). destruct (c s) as [[a|e] s']; [done|by apply Hh].
Qed.

(** ** Automation *)

Create HintDb dbkb discriminated.
Create Rewrite HintDb dbkb_rw.

#[export] Hint Rewrite @bind_ret : dbkb_rw.
#[export] Hint Resolve no_raise_ret no_raise_bind no_raise_try_catch : dbkb.
#[export] Hint Resolve preserves_ret preserves_raise preserves_bind preserves_try_catch : dbkb.

(** Turn the boolean tests of the code into propositions. *)
Ltac bool_props :=
  repeat match goal with
  | H : (_ && _)%bool = true |- _ => apply andb_prop in H as [? ?]
  | H : (_ || _)%bool = false |- _ => apply orb_false_elim in H as [? ?]
  | H : negb _ = true |- _ => apply negb_true_iff in H
  | H : negb _ = false |- _ => apply negb_false_iff in H
  | H : String.eqb _ _ = true |- _ => apply String.eqb_eq in H
  | H : String.eqb _ _ = false |- _ => apply String.eqb_neq in H
  | H : Nat.leb _ _ = true |- _ => apply Nat.leb_le in H
  | H : Nat.leb _ _ = false |- _ => apply Nat.leb_gt in H
  | H : Nat.ltb _ _ = true |- _ => apply Nat.ltb_lt in H
  | H : Nat.ltb _ _ = false |- _ => apply Nat.ltb_ge in H
  end.

(** Case on every [if] of the goal, remembering the test. *)
Ltac case_ifs :=
  repeat match goal with
  | |- context [if ?b then _ else _] =>
      let E := fresh "E" in destruct b eqn:E
  end.

(** ** Generic list lemmas *)

Lemma Forall_take {A} (P : A -> Prop) n (l : list A) :
  Forall P l -> Forall P (take n l).
Proof.
  revert l. induction n as [|n IH]; intros [|x l] H; simpl; auto.
  inversion H; subst. constructor; auto.
Qed.

Lemma in_take {A} (x : A) n (l : list A) : In x (take n l) -> In x l.
Proof.
  revert l. induction n as [|n IH]; intros [|y l]; simpl; try tauto.
  intros [->|Hin]; [left | right]; auto.
Qed.

Lemma in_drop {A} (x : A) n (l : list A) : In x (drop n l) -> In x l.
Proof.
  revert l. induction n as [|n IH]; intros [|y l]; simpl; auto.
Qed.

Lemma take_drop_in {A} (x : A) n (l : list A) :
  In x l -> In x (take n l) \/ In x (drop n l).
Proof.
  intros Hin. rewrite <- (take_drop n l) in Hin.
  apply in_app_or in Hin. tauto.
Qed.

Lemma length_take_le {A} n (l : list A) : length (take n l) <= n.
Proof. rewrite length_take. lia. Qed.

Lemma NoDup_map_take {A B} (f : A -> B) k (l : list A) :
  List.NoDup (map f l) -> List.NoDup (map f (take k l)).
Proof.
  revert l. induction k as [|k IH]; intros [|x l] Hnd; simpl; [constructor..|].
  inversion Hnd as [|? ? Hnin Hnd']; subst. constructor; [|auto].
  intros Hin. apply Hnin. apply in_map_iff in Hin as (y & <- & Hy).
  apply in_map, (in_take _ k), Hy.
Qed.

Lemma NoDup_map_same {A B} (f : A -> B) (l : list A) x y :
  List.NoDup (map f l) -> In x l -> In y l -> f x = f y -> x = y.
Proof.
  induction l as [|a l IH]; simpl; [done|]. intros Hnd. inversion Hnd as [|? ? Hn Hnd'].
  intros [<-|Hx] [<-|Hy] Hxy; auto; exfalso; apply Hn; [rewrite Hxy|rewrite <-Hxy]; by apply in_map.
Qed.

Lemma NoDup_map_perm {A B} (f : A -> B) (l l' : list A) :
  Permutation l l' -> List.NoDup (map f l) -> List.NoDup (map f l').
Proof. intros Hp. apply Permutation_NoDup, Permutation_map, Hp. Qed.

Lemma Sorted_take {A} (R : A -> A -> Prop) k (l : list A) :
  Sorted R l -> Sorted R (take k l).
Proof.
  revert l. induction k as [|k IH]; intros [|x l] Hs; simpl; [constructor..|].
  inversion Hs as [|? ? Hs' Hhd]; subst. constructor; [auto|].
  destruct k as [|k], l as [|y l]; simpl; constructor. by inversion Hhd.
Qed.

(** A property kept by every step of a loop is kept by the loop. *)
Lemma fold_left_inv {A B} (P : A -> Prop) (f : A -> B -> A) (l : list B) (a : A) :
  (forall a b, P a -> P (f a b)) -> P a -> P (fold_left f l a).
Proof. intros Hf. revert a. induction l as [|b l IH]; intros a Ha; cbn; auto. Qed.

Lemma fold_left_inv_in {A B} (P : A -> Prop) (f : A -> B -> A) (l : list B) (a : A) :
  (forall a b, In b l -> P a -> P (f a b)) -> P a -> P (fold_left f l a).
Proof.
  revert a. induction l as [|b l IH]; intros a Hf Ha; cbn; [done|].
  apply IH; [intros; apply Hf; [by right|done]|]. apply Hf; [by left|done].
Qed.

#[export] Hint Resolve in_take in_drop length_take_le Forall_take : dbkb.
