(* ===== verification/PyStr.v ===== *)
(** * Python string operations used by the engine

    The ASCII behaviour of the [str] methods the code calls: [lower()]
    (router, feedback processor), the operator [in] (router keyword
    tests), [replace] (feedback processor), the slice [s[:n]] (merger,
    answer fallbacks, optimisation prompt), [title()] (merger labels),
    [strip()] and [split('\n')] (query expansion), [str(n)] (cache keys)
    and [sep.join(l)]. *)

From S2P Require Import Prelude.
From Stdlib Require Import Ascii DecimalString.

Open Scope string_scope.

Module PyStr.

(** ** Characters *)

Definition is_upper (c : ascii) : bool :=
  let n := nat_of_ascii c in (65 <=? n)%nat && (n <=? 90)%nat.

Definition is_lower (c : ascii) : bool :=
  let n := nat_of_ascii c in (97 <=? n)%nat && (n <=? 122)%nat.

Definition is_alpha (c : ascii) : bool := is_upper c || is_lower c.

Definition is_digit (c : ascii) : bool :=
  let n := nat_of_ascii c in (48 <=? n)%nat && (n <=? 57)%nat.

(** The regex class [\w] on ASCII: letters, digits and underscore. *)
Definition is_word (c : ascii) : bool := is_alpha c || is_digit c || Ascii.eqb c "_"%char.

(** [str.isspace] on one character: tab, newline, vertical tab, form
    feed, carriage return, the separators 0x1c-0x1f and space. *)
Definition is_space (c : ascii) : bool :=
  let n := nat_of_ascii c in
  ((9 <=? n)%nat && (n <=? 13)%nat) || ((28 <=? n)%nat && (n <=? 32)%nat).

Definition char_lower (c : ascii) : ascii :=
  if is_upper c then ascii_of_nat (nat_of_ascii c + 32) else c.

Definition char_upper (c : ascii) : ascii :=
  if is_lower c then ascii_of_nat (nat_of_ascii c - 32) else c.

Definition newline : ascii := ascii_of_nat 10.

(** ["\n"] as a string *)
Definition nl : string := String newline EmptyString.

(** ** [s.lower()] *)
Fixpoint lower (s : string) : string :=
  match s with
  | EmptyString => EmptyString
  | String c s' => String (char_lower c) (lower s')
  end.

(** ** [sub in s]: some suffix of [s] starts with [sub]. *)
Fixpoint contains (sub s : string) : bool :=
  String.prefix sub s ||
  match s with
  | EmptyString => false
  | String _ s' => contains sub s'
  end.

(** ** [s[:n]] *)
Definition slice_to (n : nat) (s : string) : string := String.substring 0 n s.

(** ** [s.replace(old, new)]: every non-overlapping occurrence of [old],
    scanned from the left, is replaced by [new].  [skip] counts the
    characters of a match still to be dropped.  (Python inserts [new]
    between all characters when [old] is empty; the code only replaces
    non-empty literals.) *)
Fixpoint replace_go (old new : string) (skip : nat) (s : string) : string :=
  match s with
  | EmptyString => EmptyString
  | String c s' =>
      match skip with
      | S k => replace_go old new k s'
      | O =>
          if String.prefix old s
          then new +:+ replace_go old new (String.length old - 1) s'
          else String c (replace_go old new 0 s')
      end
  end.

Definition replace (old new s : string) : string :=
  if String.eqb old "" then s else replace_go old new 0 s.

(** ** A string with each character mapped *)
Fixpoint smap (f : ascii -> ascii) (s : string) : string :=
  match s with
  | EmptyString => EmptyString
  | String c s' => String (f c) (smap f s')
  end.

(** ** [s[n:]] *)
Fixpoint sdrop (n : nat) (s : string) : string :=
  match n, s with
  | O, _ => s
  | S n', String _ s' => sdrop n' s'
  | S _, EmptyString => EmptyString
  end.

(** ** [c in s] for one character, and "no character of [t] occurs in
    [u]". *)
Fixpoint char_in (c : ascii) (s : string) : bool :=
  match s with
  | EmptyString => false
  | String c' s' => Ascii.eqb c c' || char_in c s'
  end.

Fixpoint chars_disjoint (t u : string) : bool :=
  match t with
  | EmptyString => true
  | String c t' => negb (char_in c u) && chars_disjoint t' u
  end.

(** ** [s.title()]: a letter is upper-cased when it follows a non-letter
    and lower-cased when it follows a letter. *)
Fixpoint title_go (prev_cased : bool) (s : string) : string :=
  match s with
  | EmptyString => EmptyString
  | String c s' =>
      if is_alpha c
      then String (if prev_cased then char_lower c else char_upper c) (title_go true s')
      else String c (title_go false s')
  end.

Definition title (s : string) : string := title_go false s.

(** ** The longest prefix of characters satisfying [p], and the rest. *)
Fixpoint take_while (p : ascii -> bool) (s : string) : string :=
  match s with
  | EmptyString => EmptyString
  | String c s' => if p c then String c (take_while p s') else EmptyString
  end.

Fixpoint drop_while (p : ascii -> bool) (s : string) : string :=
  match s with
  | EmptyString => EmptyString
  | String c s' => if p c then drop_while p s' else s
  end.

(** ** [s.strip()] *)
Fixpoint lstrip (s : string) : string :=
  match s with
  | EmptyString => EmptyString
  | String c s' => if is_space c then lstrip s' else s
  end.

Fixpoint rstrip (s : string) : string :=
  match s with
  | EmptyString => EmptyString
  | String c s' =>
      let r := rstrip s' in
      if String.eqb r "" && is_space c then EmptyString else String c r
  end.

Definition strip (s : string) : string := rstrip (lstrip s).

(** ** [s.split(sep)] for a one-character separator: [k] separators give
    [k+1] pieces, empty pieces included. *)
Fixpoint split_on (sep : ascii) (s : string) : list string :=
  match s with
  | EmptyString => [EmptyString]
  | String c s' =>
      let rest := split_on sep s' in
      if Ascii.eqb c sep then EmptyString :: rest
      else match rest with
           | r :: rs => String c r :: rs
           | [] => [String c EmptyString]
           end
  end.

(** ** [s.split(sep)] for a non-empty string separator: the occurrences
    are taken from the left without overlap; [skip] counts the
    characters of a match still to be dropped, [cur] is the piece being
    read.  (Python raises on an empty separator; the code only splits on
    non-empty literals.) *)
Fixpoint split_go (sep : string) (skip : nat) (cur : string) (s : string) : list string :=
  match s with
  | EmptyString => [cur]
  | String c s' =>
      match skip with
      | S k => split_go sep k cur s'
      | O => if String.prefix sep s then cur :: split_go sep (String.length sep - 1) "" s'
             else split_go sep 0 (cur +:+ String c "") s'
      end
  end.

Definition split_str (sep s : string) : list string :=
  if String.eqb sep "" then [s] else split_go sep 0 "" s.

(** ** [sep.join(l)] *)
Definition join (sep : string) (l : list string) : string := String.concat sep l.

(** ** [str(n)] for a natural number *)
Definition str_nat (n : nat) : string := NilEmpty.string_of_uint (Nat.to_uint n).

(** ** [str(z)] for an integer *)
Definition str_int (z : Z) : string := NilEmpty.string_of_int (Z.to_int z).

(** ** Truth values and [None] in f-strings *)

(** A string is truthy when it is not empty. *)
Definition truthy (s : string) : bool := negb (String.eqb s "").

(** [if x:] on a value that may be [None]. *)
Definition truthy_opt (s : option string) : bool := match s with Some s => truthy s | None => false end.

(** [f"{x}"] of a value that may be [None]. *)
Definition py_opt (o : option string) : string := match o with Some x => x | None => "None" end.

(** ** Lemmas *)

Ltac ascii_dec_refl :=
  repeat match goal with
  | |- context [ascii_dec ?a ?a] => destruct (ascii_dec a a); [|congruence]
  end.

Lemma slength_append (a b : string) :
  String.length (a +:+ b) = (String.length a + String.length b)%nat.
Proof. induction a as [|x a IH]; simpl; [reflexivity|]. rewrite IH. reflexivity. Qed.

Lemma sappend_nil_r (a : string) : a +:+ "" = a.
Proof. induction a as [|c a IH]; cbn; [done|]. by rewrite IH. Qed.

Lemma sappend_assoc (a b c : string) : (a +:+ b) +:+ c = a +:+ (b +:+ c).
Proof. induction a as [|x a IH]; cbn; [done|]. by rewrite IH. Qed.

Lemma sappend_cancel_l (a x y : string) : a +:+ x = a +:+ y -> x = y.
Proof. induction a as [|c a IH]; cbn; [done|]. intros [= H]. auto. Qed.

Lemma sappend_cancel_r (a b c : string) : a +:+ c = b +:+ c -> a = b.
Proof.
  revert b. induction a as [|x a IH]; intros b E.
  - destruct b as [|y b]; [done|]. apply (f_equal String.length) in E. rewrite !slength_append in E. cbn in E. lia.
  - destruct b as [|y b].
    + apply (f_equal String.length) in E. rewrite !slength_append in E. cbn in E. lia.
    + cbn in E. injection E as -> E. by rewrite (IH b E).
Qed.

Lemma length_lower s : String.length (lower s) = String.length s.
Proof. induction s; simpl; auto. Qed.

Lemma substring_0_length_le n s : String.length (String.substring 0 n s) <= n.
Proof.
  revert n. induction s as [|c s IH]; intros [|n]; simpl; try lia.
  specialize (IH n). lia.
Qed.

Lemma slice_to_length n s : String.length (slice_to n s) <= n.
Proof. apply substring_0_length_le. Qed.

Lemma slice_to_prefix n s : String.prefix (slice_to n s) s = true.
Proof.
  unfold slice_to. revert n.
  induction s as [|c s IH]; intros [|n]; simpl; auto; ascii_dec_refl; apply IH.
Qed.

Lemma slice_to_short n s : String.length s <= n -> slice_to n s = s.
Proof.
  unfold slice_to. revert n. induction s as [|c s IH]; intros [|n] Hle; simpl in *;
    try reflexivity; try lia.
  f_equal. apply IH. lia.
Qed.

Lemma prefix_sdrop p s : String.prefix p s = true -> p +:+ sdrop (String.length p) s = s.
Proof.
  revert s. induction p as [|c p IH]; intros [|d s]; cbn; try done.
  destruct (ascii_dec c d) as [<-|]; [|done]. intros H. by rewrite IH.
Qed.

Lemma prefix_app_l p s : String.prefix p (p +:+ s) = true.
Proof.
  induction p as [|c p IH]; simpl.
  - destruct s; reflexivity.
  - ascii_dec_refl. exact IH.
Qed.

Lemma contains_prefix sub s : String.prefix sub s = true -> contains sub s = true.
Proof. destruct s; simpl; intros ->; reflexivity. Qed.

Lemma contains_app_l p s : contains p (p +:+ s) = true.
Proof. apply contains_prefix, prefix_app_l. Qed.

Lemma contains_empty s : contains "" s = true.
Proof. destruct s; reflexivity. Qed.

(** A substring of a suffix is a substring. *)
Lemma contains_cons sub c s : contains sub s = true -> contains sub (String c s) = true.
Proof. intros H. simpl. rewrite H. apply orb_true_r. Qed.

Lemma contains_app_r sub p s : contains sub s = true -> contains sub (p +:+ s) = true.
Proof. induction p; simpl; auto using contains_cons. intros H. rewrite IHp; auto using orb_true_r. Qed.


(** *** [replace] *)

Lemma replace_go_skip old new k s : replace_go old new k s = replace_go old new 0 (sdrop k s).
Proof. revert s. induction k as [|k IH]; intros [|c s]; simpl; auto. Qed.

Lemma replace_go_cons old new c s :
  replace_go old new 0 (String c s) =
    if String.prefix old (String c s)
    then new +:+ replace_go old new 0 (sdrop (String.length old - 1) s)
    else String c (replace_go old new 0 s).
Proof. simpl. rewrite replace_go_skip. reflexivity. Qed.

Lemma contains_cons_eq sub c s :
  contains sub (String c s) = String.prefix sub (String c s) || contains sub s.
Proof. reflexivity. Qed.

Lemma slength_sdrop k s : String.length (sdrop k s) <= String.length s.
Proof. revert s. induction k as [|k IH]; intros [|c s]; simpl; auto. Qed.

Lemma contains_sdrop t k s : contains t (sdrop k s) = true -> contains t s = true.
Proof. revert s. induction k as [|k IH]; intros [|c s]; simpl; auto. intros H%IH. by apply contains_cons. Qed.

(** An occurrence of [t] in [a ++ b] that cannot start inside [a]
    (the first character of [t] is not a character of [a]) is in [b]. *)
Lemma contains_app_disjoint t a b :
  chars_disjoint t a = true -> t <> "" -> contains t (a +:+ b) = true -> contains t b = true.
Proof.
  destruct t as [|h t']; [done|]. simpl. intros [Hh%negb_true_iff _]%andb_prop _.
  induction a as [|x a IH]; simpl in *; [done|].
  apply orb_false_elim in Hh as [Hx Hh].
  intros [Hp|Hc]%orb_prop; [|auto].
  destruct (ascii_dec h x); [subst; by rewrite Ascii.eqb_refl in Hx|done].
Qed.

(** No character of [p] is in [new], so a prefix of the replaced string
    is a prefix of the original. *)
Lemma prefix_replace_go p old new s :
  new <> "" -> chars_disjoint p new = true ->
  String.prefix p (replace_go old new 0 s) = true -> String.prefix p s = true.
Proof.
  intros Hn. revert s. induction p as [|x p IH]; intros s Hd; [destruct s; done|].
  simpl in Hd. apply andb_prop in Hd as [Hx Hd].
  destruct s as [|c s]; [done|]. rewrite replace_go_cons.
  destruct (String.prefix old (String c s)).
  - destruct new as [|y new]; [done|]. simpl in *. apply negb_true_iff, orb_false_elim in Hx as [Hx _].
    destruct (ascii_dec x y); [subst; by rewrite Ascii.eqb_refl in Hx|done].
  - simpl. destruct (ascii_dec x c); [subst; apply IH, Hd|done].
Qed.

Lemma replace_go_preserves_absent t old new s :
  new <> "" -> t <> "" -> chars_disjoint t new = true ->
  contains t (replace_go old new 0 s) = true -> contains t s = true.
Proof.
  intros Hn Ht Hd. remember (String.length s) as n eqn:Hl.
  assert (Hle : String.length s <= n) by lia. clear Hl. revert s Hle.
  induction n as [|n IH]; intros [|c s] Hle; simpl in Hle; try lia; try done.
  rewrite replace_go_cons.
  destruct (String.prefix old (String c s)) eqn:Hp.
  - intros H%contains_app_disjoint; [|done..].
    apply contains_cons, (contains_sdrop _ (String.length old - 1)), IH; [|done].
    pose proof (slength_sdrop (String.length old - 1) s). lia.
  - assert (HR : String c (replace_go old new 0 s) = replace_go old new 0 (String c s))
      by (rewrite replace_go_cons, Hp; reflexivity).
    rewrite contains_cons_eq, HR. intros [Hq|Hq]%orb_prop.
    + by apply contains_prefix, (prefix_replace_go _ old new).
    + apply contains_cons, IH; [lia|done].
Qed.

(** After [s.replace(old, new)], [old] no longer occurs when no character
    of [old] is in [new]. *)
Lemma replace_removes old new s :
  old <> "" -> new <> "" -> chars_disjoint old new = true -> contains old (replace old new s) = false.
Proof.
  intros Ho Hn Hd. unfold replace. destruct (String.eqb_spec old "") as [->|_]; [done|].
  apply not_true_iff_false. remember (String.length s) as n eqn:Hl.
  assert (Hle : String.length s <= n) by lia. clear Hl. revert s Hle.
  induction n as [|n IH]; intros [|c s] Hle; simpl in Hle; try lia;
    try (destruct old; [done|]; discriminate).
  rewrite replace_go_cons. destruct (String.prefix old (String c s)) eqn:Hp.
  - intros H%contains_app_disjoint; [|done..]. revert H. apply IH.
    pose proof (slength_sdrop (String.length old - 1) s). lia.
  - assert (HR : String c (replace_go old new 0 s) = replace_go old new 0 (String c s))
      by (rewrite replace_go_cons, Hp; reflexivity).
    rewrite contains_cons_eq, HR. intros [Hq|Hq]%orb_prop.
    + apply (prefix_replace_go _ old new) in Hq; [congruence|done..].
    + revert Hq. apply IH. lia.
Qed.

Lemma replace_keeps_absent t old new s :
  new <> "" -> t <> "" -> chars_disjoint t new = true ->
  contains t s = false -> contains t (replace old new s) = false.
Proof.
  intros Hn Ht Hd Hs. unfold replace. destruct (String.eqb old ""); [done|].
  apply not_true_iff_false. intros H. apply replace_go_preserves_absent in H; [congruence|done..].
Qed.

(** ** [str.split(sep)] and [sep.join] *)

Lemma split_on_cons_shape sep s : exists r rs, split_on sep s = r :: rs.
Proof.
  induction s as [|c s (r & rs & IH)]; cbn; [eauto|]. rewrite IH.
  destruct (Ascii.eqb c sep); eauto.
Qed.

Lemma char_in_app c a b : char_in c (a +:+ b) = char_in c a || char_in c b.
Proof. induction a as [|d a IH]; cbn; [done|]. by rewrite IH, orb_assoc. Qed.

Lemma split_on_parts sep s : Forall (fun x => char_in sep x = false) (split_on sep s).
Proof.
  induction s as [|c s IH]; cbn; [by constructor|].
  destruct (Ascii.eqb_spec c sep) as [->|Hne]; [by constructor|].
  destruct (split_on sep s) as [|r rs]; [by repeat constructor; cbn; rewrite (proj2 (Ascii.eqb_neq sep c)) by congruence|].
  inversion IH; subst. constructor; [|done]. cbn. rewrite (proj2 (Ascii.eqb_neq sep c)) by congruence. done.
Qed.

(** Splitting at a separator splits each side. *)
Lemma split_on_app_sep sep x y : split_on sep (x +:+ String sep y) = (split_on sep x ++ split_on sep y)%list.
Proof.
  induction x as [|c x IH]; cbn.
  - by rewrite Ascii.eqb_refl.
  - rewrite IH. destruct (Ascii.eqb c sep); [done|].
    destruct (split_on_cons_shape sep x) as (r & rs & ->). done.
Qed.

Lemma split_on_absent sep x : char_in sep x = false -> split_on sep x = [x].
Proof.
  induction x as [|c x IH]; cbn; [done|]. intros [Hc Hx]%orb_false_iff. rewrite IH by done.
  rewrite Ascii.eqb_sym, Hc. done.
Qed.

(** [sep.join] then [split(sep)] gives the parts back, when none of
    them holds the separator. *)
Lemma split_on_join sep l :
  l <> [] -> Forall (fun x => char_in sep x = false) l -> split_on sep (join (String sep EmptyString) l) = l.
Proof.
  unfold join. induction l as [|x l IH]; [done|]. intros _ Hl. inversion Hl as [|? ? Hx Hl']; subst.
  destruct l as [|y l]; [by apply split_on_absent|].
  change (String.concat (String sep "") (x :: y :: l)) with (x +:+ String sep (String.concat (String sep "") (y :: l))).
  rewrite split_on_app_sep, split_on_absent by done. rewrite IH by done. done.
Qed.

(** Without an occurrence of the separator, [split] gives the string. *)
Lemma split_go_absent sep cur s : contains sep s = false -> split_go sep 0 cur s = [cur +:+ s].
Proof.
  revert cur. induction s as [|c s IH]; intros cur H; cbn; [by rewrite sappend_nil_r|].
  cbn in H. apply orb_false_iff in H as [Hp Hc]. rewrite Hp, IH by done. by rewrite sappend_assoc.
Qed.

Lemma split_str_absent sep s : contains sep s = false -> split_str sep s = [s].
Proof. intros H. unfold split_str. destruct (String.eqb sep ""); [done|]. by rewrite split_go_absent. Qed.

(** *** Character maps *)

Lemma lower_smap s : lower s = smap char_lower s.
Proof. induction s as [|c s IH]; cbn; [done|by rewrite IH]. Qed.

Lemma smap_smap f g s : smap f (smap g s) = smap (fun c => f (g c)) s.
Proof. induction s as [|c s IH]; cbn; [done|by rewrite IH]. Qed.

Lemma smap_ext f g s : (forall c, f c = g c) -> smap f s = smap g s.
Proof. intros H. induction s as [|c s IH]; cbn; [done|by rewrite H, IH]. Qed.

(** Replacing one character by one character maps the string. *)
Lemma replace_char a b s :
  replace (String a EmptyString) (String b EmptyString) s = smap (fun c => if ascii_dec c a then b else c) s.
Proof.
  unfold replace. cbn [String.eqb]. induction s as [|c s IH]; [done|].
  simpl. rewrite IH. destruct (ascii_dec a c), (ascii_dec c a); subst; try done; by destruct s.
Qed.

#[export] Hint Resolve slice_to_length slice_to_prefix contains_app_l contains_app_r : dbkb.

End PyStr.
