(* ===== verification/PyFloat.v ===== *)
(** * Python floats, as far as the percentages of the reports use them

    The query documentation prints [f"{percentage:.1f}%"] with
    [percentage = (count / total) * 100], [count] and [total] being
    [int]s.  [int / int] is the correctly rounded IEEE-754 double of the
    quotient, [* 100] rounds the exact product again, and the [.1f]
    format prints the decimal that is nearest to the double's exact
    value, ties to even (CPython's [dtoa] in mode 3).  All three use
    round-half-even.

    A positive double is a pair [(m, e)] of value [m * 2^e] with a
    53-bit significand [m].  The quotients here are at least
    [1/total] and at most [total]: they never leave the normal range
    for totals below [2^1000], so subnormals and overflow are not
    modelled. *)

From S2P Require Import Prelude PyStr.
From Stdlib Require Import ZArith Lia.

Open Scope Z_scope.

Module PyFloat.
Import PyStr.

(** [a / b] rounded to the nearest integer, ties to even ([b > 0]). *)
Definition round_ne (a b : Z) : Z :=
  let q := a / b in
  let r := a mod b in
  if 2 * r <? b then q
  else if b <? 2 * r then q + 1
  else if Z.even q then q else q + 1.

Record double := mkDouble { mant : Z; expo : Z }.

(** The quotient [n / (d * 2^e)] as a fraction of integers. *)
Definition scaled (n d e : Z) : Z * Z :=
  if e <=? 0 then (n * 2 ^ (- e), d) else (n, d * 2 ^ e).

(** [float(n) / float(d)] for [int]s [n, d > 0]: the exponent puts the
    quotient in [[2^52, 2^53)] before rounding. *)
Definition of_ratio (n d : Z) : double :=
  let e0 := Z.log2 n - Z.log2 d - 52 in
  let '(a, b) := scaled n d e0 in
  let e := if a <? 2 ^ 52 * b then e0 - 1 else e0 in
  let '(a', b') := scaled n d e in
  mkDouble (round_ne a' b') e.

(** [x * k] for a positive [int] [k] below [2^53]. *)
Definition mul_int (x : double) (k : Z) : double :=
  let p := mant x * k in
  let s := Z.log2 p - 52 in
  if s <=? 0 then mkDouble p (expo x)
  else mkDouble (round_ne p (2 ^ s)) (expo x + s).

(** The value of [x] times ten, rounded to an integer: the digits of
    [format(x, '.1f')]. *)
Definition tenths (x : double) : Z :=
  if 0 <=? expo x then mant x * 10 * 2 ^ expo x
  else round_ne (mant x * 10) (2 ^ (- expo x)).

(** [format(x, '.1f')] of a non-negative double. *)
Definition fixed1 (tenth : Z) : string :=
  str_int (tenth / 10) +:+ "." +:+ str_int (tenth mod 10).

(** [(count / total) * 100 if total > 0 else 0], formatted [.1f]; the
    [0] of the [else] is an [int], which [.1f] prints [0.0]. *)
Definition percentage_text (count total : nat) : string :=
  if (total =? 0)%nat then "0.0"
  else if (count =? 0)%nat then "0.0"
  else fixed1 (tenths (mul_int (of_ratio (Z.of_nat count) (Z.of_nat total)) 100)).

End PyFloat.
