(* ===== verification/PyInt.v ===== *)
(** * Python's [int(s)] on a string

    [int(s)] strips the whitespace of [str.isspace] around [s], takes an
    optional sign and then decimal digits, where a single underscore may
    separate two digits; anything else raises [ValueError] ([None]
    here).  [py_int] inverts [str] on integers ([py_int_str_int]). *)

From S2P Require Import Prelude PyStr.
From Stdlib Require Import Ascii ZArith Lia DecimalString DecimalPos.

Open Scope string_scope.

Module PyInt.
Import PyStr.

Definition digit_value (c : ascii) : Z := Z.of_nat (nat_of_ascii c) - 48.

(** The digits after the sign, accumulated from the left; [need_digit]
    holds at the start and after an underscore. *)
Fixpoint parse_digits (s : string) (acc : Z) (need_digit : bool) : option Z :=
  match s with
  | EmptyString => if need_digit then None else Some acc
  | String c s' =>
      if is_digit c then parse_digits s' (10 * acc + digit_value c) false
      else if Ascii.eqb c "_" && negb need_digit then parse_digits s' acc true
      else None
  end.

(** [int(s)] *)
Definition py_int (s : string) : option Z :=
  match strip s with
  | EmptyString => None
  | String c r =>
      if Ascii.eqb c "-" then option_map Z.opp (parse_digits r 0 true)
      else if Ascii.eqb c "+" then parse_digits r 0 true
      else parse_digits (String c r) 0 true
  end.

(** ** [int(str(z)) == z] *)

(** The value of a decimal numeral read from the left. *)
Fixpoint horner (u : Decimal.uint) (acc : Z) : Z :=
  match u with
  | Decimal.Nil => acc
  | Decimal.D0 l => horner l (10 * acc + 0)
  | Decimal.D1 l => horner l (10 * acc + 1)
  | Decimal.D2 l => horner l (10 * acc + 2)
  | Decimal.D3 l => horner l (10 * acc + 3)
  | Decimal.D4 l => horner l (10 * acc + 4)
  | Decimal.D5 l => horner l (10 * acc + 5)
  | Decimal.D6 l => horner l (10 * acc + 6)
  | Decimal.D7 l => horner l (10 * acc + 7)
  | Decimal.D8 l => horner l (10 * acc + 8)
  | Decimal.D9 l => horner l (10 * acc + 9)
  end.

Lemma of_uint_acc_horner u p : Z.pos (Pos.of_uint_acc u p) = horner u (Z.pos p).
Proof.
  revert p. induction u; intros p; cbn [Pos.of_uint_acc horner]; try rewrite IHu; [done|..]; f_equal; lia.
Qed.

Lemma of_uint_horner u : Z.of_N (Pos.of_uint u) = horner u 0.
Proof. induction u; cbn [Pos.of_uint horner]; [done|exact IHu|..]; apply of_uint_acc_horner. Qed.

(** Evaluate the character tests on literal characters. *)
Ltac eval_chars :=
  repeat match goal with
  | |- context [is_digit ?c] => let b := eval vm_compute in (is_digit c) in change (is_digit c) with b
  | |- context [digit_value ?c] => let b := eval vm_compute in (digit_value c) in change (digit_value c) with b
  | |- context [Ascii.eqb ?c ?d] => let b := eval vm_compute in (Ascii.eqb c d) in change (Ascii.eqb c d) with b
  end; cbn iota beta.

Lemma parse_string_of_uint u acc :
  parse_digits (NilEmpty.string_of_uint u) acc false = Some (horner u acc).
Proof. revert acc. induction u; intros acc; cbn; [done|..]; eval_chars; rewrite IHu; do 2 f_equal; lia. Qed.

(** No character of a numeral is a space. *)
Fixpoint no_space (s : string) : bool :=
  match s with EmptyString => true | String c s' => negb (is_space c) && no_space s' end.

Lemma rstrip_no_space s : no_space s = true -> rstrip s = s.
Proof.
  induction s as [|c s IH]; cbn; [done|]. intros [Hc Hs]%andb_prop. rewrite IH by done.
  apply negb_true_iff in Hc. by rewrite Hc, andb_false_r.
Qed.

Lemma strip_no_space s : no_space s = true -> strip s = s.
Proof.
  intros H. unfold strip. destruct s as [|c s']; [done|]. pose proof H as H'. cbn in H'.
  apply andb_prop in H' as [Hc _]. apply negb_true_iff in Hc. cbn [lstrip]. rewrite Hc. by apply rstrip_no_space.
Qed.

Lemma no_space_uint u : no_space (NilEmpty.string_of_uint u) = true.
Proof. induction u; cbn; [done|..]; exact IHu. Qed.

(** [int(str(z))] is [z]. *)
Theorem py_int_str_int z : py_int (str_int z) = Some z.
Proof.
  unfold py_int, str_int. destruct z as [|p|p]; [reflexivity|..]; cbn [Z.to_int NilEmpty.string_of_int];
    [rewrite strip_no_space by apply no_space_uint|rewrite strip_no_space by (cbn; apply no_space_uint)];
    pose proof (Unsigned.to_uint_nonnil p) as Hn; pose proof (of_uint_horner (Pos.to_uint p)) as Hh;
    rewrite Unsigned.of_to in Hh;
    destruct (Pos.to_uint p); try done; cbn in Hh |- *; eval_chars; rewrite parse_string_of_uint; cbn; by rewrite <-Hh.
Qed.

End PyInt.
