(* ===== verification/PyDict.v ===== *)
(** * Python dicts and [sorted], shared by the offline tools

    A Python dict keyed by strings is an association list in insertion
    order: [d[k] = v] replaces the value of a present key in place and
    appends a new key at the end, [d[k].f = ...] on a present key
    changes its value where it is, and iteration follows the list.
    [defaultdict(int)] counters are dicts of [nat] whose update starts
    from 0.

    [sorted(l, key=..., reverse=...)] is stable (equal keys keep their
    order, with or without [reverse]); [sort_by before l] is the stable
    insertion sort that puts [x] ahead of [y] exactly when [before x y]
    holds, [before] being the strict order of the keys ([<] for an
    ascending sort, [>] for [reverse=True]). *)

From S2P Require Import Prelude.
From stdpp Require Import list.

Open Scope string_scope.

Module PyDict.

Section Dict.
Context {V : Type}.
Implicit Types (d : list (string * V)) (k : string).

(** [d.get(k)] *)
Fixpoint dget k d : option V :=
  match d with
  | [] => None
  | (k', v) :: d' => if String.eqb k k' then Some v else dget k d'
  end.

(** [k in d] *)
Definition dmem k d : bool := match dget k d with Some _ => true | None => false end.

(** [d[k] = v] *)
Fixpoint dset k (v : V) d : list (string * V) :=
  match d with
  | [] => [(k, v)]
  | (k', v') :: d' => if String.eqb k k' then (k', v) :: d' else (k', v') :: dset k v d'
  end.

(** An in-place change of the value of a present key
    ([d[k][field] = ...], [d[k].append(...)]); nothing when [k] is
    absent (the code checks [k in d] first). *)
Fixpoint dmodify k (f : V -> V) d : list (string * V) :=
  match d with
  | [] => []
  | (k', v') :: d' => if String.eqb k k' then (k', f v') :: d' else (k', v') :: dmodify k f d'
  end.

Definition dkeys d : list string := map fst d.

Lemma dget_dset k k' v d : dget k (dset k' v d) = if String.eqb k k' then Some v else dget k d.
Proof.
  induction d as [|[k0 v0] d IH]; cbn; [done|].
  destruct (String.eqb_spec k' k0) as [->|Hne]; cbn.
  - by destruct (String.eqb k k0).
  - rewrite IH. destruct (String.eqb_spec k k0), (String.eqb_spec k k'); congruence.
Qed.

Lemma dget_dmodify k k' f d : dget k (dmodify k' f d) = if String.eqb k k' then f <$> dget k d else dget k d.
Proof.
  induction d as [|[k0 v0] d IH]; cbn; [by destruct (String.eqb k k')|].
  destruct (String.eqb_spec k' k0) as [->|Hne]; cbn.
  - by destruct (String.eqb k k0).
  - rewrite IH. destruct (String.eqb_spec k k0), (String.eqb_spec k k'); congruence.
Qed.

Lemma dget_In k d v : dget k d = Some v -> In (k, v) d.
Proof.
  induction d as [|[k0 v0] d IH]; cbn; [done|].
  destruct (String.eqb_spec k k0) as [->|]; [intros [= ->]; by left|]. intros; right; auto.
Qed.

Lemma dget_None k d : dget k d = None <-> ~ In k (dkeys d).
Proof.
  induction d as [|[k0 v0] d IH]; cbn; [tauto|].
  destruct (String.eqb_spec k k0) as [->|]; [split; [done|tauto]|]. rewrite IH. intuition congruence.
Qed.

Lemma dmem_true k d : dmem k d = true <-> In k (dkeys d).
Proof.
  unfold dmem. destruct (dget k d) eqn:E; split; intros H; try done.
  - apply dget_In in E. apply (in_map fst) in E. exact E.
  - by apply dget_None in E.
Qed.

Lemma dkeys_dmodify k f d : dkeys (dmodify k f d) = dkeys d.
Proof. unfold dkeys. induction d as [|[k0 v0] d IH]; cbn; [done|]. destruct (String.eqb k k0); cbn; by rewrite ?IH. Qed.

Lemma dkeys_dset_in k v d : In k (dkeys d) -> dkeys (dset k v d) = dkeys d.
Proof.
  unfold dkeys. induction d as [|[k0 v0] d IH]; cbn; [done|].
  destruct (String.eqb_spec k k0) as [->|Hne]; cbn; [done|]. intros [->|H]; [done|]. by rewrite IH.
Qed.

Lemma dkeys_dset_notin k v d : ~ In k (dkeys d) -> dkeys (dset k v d) = (dkeys d ++ [k])%list.
Proof.
  unfold dkeys. induction d as [|[k0 v0] d IH]; cbn; [done|].
  destruct (String.eqb_spec k k0) as [->|Hne]; cbn; [tauto|]. intros H. rewrite IH; tauto.
Qed.

Lemma dkeys_dset_NoDup k v d : NoDup (dkeys d) -> NoDup (dkeys (dset k v d)).
Proof.
  intros H. destruct (in_dec String.string_dec k (dkeys d)) as [Hin|Hin].
  - by rewrite dkeys_dset_in.
  - rewrite dkeys_dset_notin by done. apply NoDup_app. split; [done|]. split; [|apply NoDup_singleton].
    intros x Hx ->%list_elem_of_singleton. apply Hin. by apply list_elem_of_In.
Qed.

(** With duplicate-free keys, a pair of the dict is the answer of
    [dget]. *)
Lemma In_dget k v d : NoDup (dkeys d) -> In (k, v) d -> dget k d = Some v.
Proof.
  induction d as [|[k0 v0] d IH]; cbn; [done|]. intros Hnd Hin. apply NoDup_cons in Hnd as [Hn Hnd].
  destruct Hin as [Heq|Hin]; [injection Heq as -> ->; by rewrite String.eqb_refl|].
  destruct (String.eqb_spec k k0) as [->|Hne]; [|by apply IH].
  exfalso. apply Hn, list_elem_of_In. apply (in_map fst) in Hin. exact Hin.
Qed.

(** The pairs of [dmodify]: with duplicate-free keys, only the
    modified key's value changes. *)
Lemma In_dmodify k f d k' v :
  NoDup (dkeys d) -> In (k', v) (dmodify k f d) ->
  (k' <> k /\ In (k', v) d) \/ (k' = k /\ exists v0, dget k d = Some v0 /\ v = f v0).
Proof.
  induction d as [|[k0 v0] d IH]; cbn; [done|]. intros Hnd. apply NoDup_cons in Hnd as [Hn Hnd].
  destruct (String.eqb_spec k k0) as [->|Hne]; cbn.
  - intros [Heq|H]; [injection Heq as <- <-; right; eauto|].
    destruct (String.eqb_spec k' k0) as [->|]; [|left; auto].
    exfalso. apply Hn, list_elem_of_In. apply (in_map fst) in H. exact H.
  - intros [Heq|H]; [injection Heq as <- <-; left; auto|].
    destruct (IH Hnd H) as [[? ?]|(-> & v1 & ? & ->)]; [left; auto|right].
    split; [done|]. exists v1. by destruct (String.eqb_spec k k0).
Qed.

(** A property of every entry of a dict. *)
Definition dall (P : string -> V -> Prop) d : Prop := forall k v, dget k d = Some v -> P k v.

Lemma dall_nil P : dall P [].
Proof. by intros ? ?. Qed.

Lemma dall_dset (P : string -> V -> Prop) k v d : dall P d -> P k v -> dall P (dset k v d).
Proof.
  intros Hd Hv k' v'. rewrite dget_dset. destruct (String.eqb_spec k' k) as [->|]; [by intros [= <-]|auto].
Qed.

Lemma dall_dmodify (P Q : string -> V -> Prop) k f d :
  dall P d -> (forall v, dget k d = Some v -> P k v -> Q k (f v)) -> (forall k' v, k' <> k -> P k' v -> Q k' v) ->
  dall Q (dmodify k f d).
Proof.
  intros Hd Hk Ho k' v'. rewrite dget_dmodify. destruct (String.eqb_spec k' k) as [->|Hne].
  - destruct (dget k d) eqn:E; cbn; [intros [= <-]; auto|done].
  - auto.
Qed.

Lemma dall_impl (P Q : string -> V -> Prop) d : dall P d -> (forall k v, P k v -> Q k v) -> dall Q d.
Proof. intros HP HQ k v Hk. auto. Qed.

Lemma dall_and (P Q : string -> V -> Prop) d : dall P d -> dall Q d -> dall (fun k v => P k v /\ Q k v) d.
Proof. intros HP HQ k v Hk. auto. Qed.

(** With duplicate-free keys, [dall] holds of every pair. *)
Lemma dall_In (P : string -> V -> Prop) d k v : NoDup (dkeys d) -> dall P d -> In (k, v) d -> P k v.
Proof. intros Hnd HP Hin. apply HP, In_dget; done. Qed.

(** An in-place change that keeps a view of the values keeps the view
    of the dict. *)
Lemma dget_dmodify_view {B} (h : V -> B) k k' f d :
  (forall v, h (f v) = h v) -> h <$> dget k' (dmodify k f d) = h <$> dget k' d.
Proof.
  intros Hf. rewrite dget_dmodify. destruct (String.eqb k' k); [|done].
  destruct (dget k' d); cbn; by rewrite ?Hf.
Qed.

(** The list of everything the values hold, after an in-place change
    that adds [e] to the present key's value or changes nothing of it. *)
Lemma flat_map_dmodify_add {B} (g : string * V -> list B) k f d e :
  In k (dkeys d) -> (forall v, Permutation (g (k, f v)) (g (k, v) ++ e)) ->
  Permutation (flat_map g (dmodify k f d)) (flat_map g d ++ e).
Proof.
  unfold dkeys. induction d as [|[k0 v0] d IH]; cbn; [done|]. intros Hin Hg.
  destruct (String.eqb_spec k k0) as [->|Hne]; cbn.
  - rewrite Hg, <-!app_assoc. apply Permutation_app_head, Permutation_app_comm.
  - destruct Hin as [->|Hin]; [done|]. rewrite <-app_assoc. apply Permutation_app_head. auto.
Qed.

Lemma flat_map_dmodify_same {B} (g : string * V -> list B) k f d :
  (forall v, g (k, f v) = g (k, v)) -> flat_map g (dmodify k f d) = flat_map g d.
Proof.
  induction d as [|[k0 v0] d IH]; cbn; [done|]. intros Hg.
  destruct (String.eqb_spec k k0) as [->|Hne]; cbn; [by rewrite Hg|]. by rewrite IH.
Qed.

(** Assigning a new key appends it. *)
Lemma dset_notin k v d : ~ In k (dkeys d) -> dset k v d = (d ++ [(k, v)])%list.
Proof.
  unfold dkeys. induction d as [|[k0 v0] d IH]; cbn; [done|].
  destruct (String.eqb_spec k k0) as [->|Hne]; [tauto|]. intros H. rewrite IH; tauto.
Qed.

(** [for k, v in d: acc[k] = v] copies a dict whose keys are new. *)
Lemma fold_dset_copy d acc :
  NoDup (dkeys (acc ++ d)%list) -> fold_left (fun db p => dset p.1 p.2 db) d acc = (acc ++ d)%list.
Proof.
  revert acc. induction d as [|[k v] d IH]; intros acc Hnd; cbn; [by rewrite app_nil_r|].
  unfold dkeys in Hnd. rewrite map_app in Hnd. cbn in Hnd.
  apply NoDup_app in Hnd as (Hacc & Hdis & Hkd). apply NoDup_cons in Hkd as [Hk Hd].
  rewrite dset_notin.
  - rewrite IH, <-app_assoc; [done|]. unfold dkeys. rewrite <-app_assoc, map_app. cbn.
    apply NoDup_app. split; [done|]. split; [exact Hdis|]. by apply NoDup_cons.
  - intros Hin. apply (Hdis k); [by apply list_elem_of_In|]. by left.
Qed.

(** The keys of a dict built by assignments are duplicate-free. *)
Lemma fold_dset_NoDup {A} (key : A -> string) (val : A -> V) xs d :
  NoDup (dkeys d) -> NoDup (dkeys (fold_left (fun db x => dset (key x) (val x) db) xs d)).
Proof.
  revert d. induction xs as [|x xs IH]; intros d Hd; cbn; [done|]. by apply IH, dkeys_dset_NoDup.
Qed.

End Dict.

(** [counter[k] += 1] on a [defaultdict(int)]. *)
Definition bump (k : string) (d : list (string * nat)) : list (string * nat) :=
  dset k (S (default 0 (dget k d))) d.

(** [for x in xs: counter[x] += 1] *)
Definition count_all (xs : list string) (d : list (string * nat)) : list (string * nat) :=
  fold_left (fun acc x => bump x acc) xs d.

(** [d[k].append(x)] on a [defaultdict(list)]. *)
Definition dappend {A} (k : string) (x : A) (d : list (string * list A)) : list (string * list A) :=
  dset k (default [] (dget k d) ++ [x])%list d.

(** The loops [for x in xs: d[key(x)] = upd(x, d.get(key(x), v0))] that
    fill a [defaultdict]: [bump] and [dappend] are two of them. *)
Definition dupdate {A V} (key : A -> string) (v0 : V) (upd : A -> V -> V) (acc : list (string * V)) (x : A)
  : list (string * V) :=
  dset (key x) (upd x (default v0 (dget (key x) acc))) acc.

(** The reference the loops are compared with: the keys in order of
    first occurrence, each with a value computed from the whole list. *)
Definition uniq (l : list string) : list string := rev (remove_dups (rev l)).

Definition tabulate {V} (f : string -> V) (l : list string) : list (string * V) := map (fun k => (k, f k)) l.

Section Sort.
Context {A : Type} (before : A -> A -> bool).

(** One insertion of the stable sort: [x] goes ahead of the first
    element that does not come strictly before it. *)
Fixpoint insert_by (x : A) (l : list A) : list A :=
  match l with
  | [] => [x]
  | y :: l' => if before y x then y :: insert_by x l' else x :: y :: l'
  end.

(** [sorted(l, key=..., reverse=...)] *)
Definition sort_by (l : list A) : list A := fold_right insert_by [] l.

Lemma insert_by_perm x l : Permutation (insert_by x l) (x :: l).
Proof.
  induction l as [|y l IH]; cbn; [done|].
  destruct (before y x); [|done]. rewrite IH. apply perm_swap.
Qed.

Lemma sort_by_perm l : Permutation (sort_by l) l.
Proof. induction l as [|x l IH]; cbn; [done|]. by rewrite insert_by_perm, IH. Qed.

Lemma length_sort_by l : length (sort_by l) = length l.
Proof. apply Permutation_length, sort_by_perm. Qed.

End Sort.

(** ** The counting and grouping loops against their reference *)

Lemma In_uniq x l : In x (uniq l) <-> In x l.
Proof.
  unfold uniq. rewrite <-in_rev, <-list_elem_of_In, elem_of_remove_dups, list_elem_of_In. symmetry. apply in_rev.
Qed.

Lemma NoDup_uniq l : NoDup (uniq l).
Proof. unfold uniq. apply NoDup_ListNoDup, NoDup_rev, NoDup_ListNoDup, NoDup_remove_dups. Qed.

Lemma uniq_snoc l x : uniq (l ++ [x]) = if in_dec String.string_dec x l then uniq l else (uniq l ++ [x])%list.
Proof.
  unfold uniq. rewrite rev_app_distr. cbn [rev app remove_dups].
  destruct (decide_rel _ _ _) as [Hx|Hx]; rewrite list_elem_of_In, <-in_rev in Hx;
    destruct (in_dec _ x l); try done.
Qed.

(** The keys of a dict built by assignments from [{}]: each assigned key
    once, in order of first assignment. *)
Lemma dkeys_fold_dset {A V} (key : A -> string) (val : A -> V) xs :
  dkeys (fold_left (fun db x => dset (key x) (val x) db) xs []) = uniq (map key xs).
Proof.
  induction xs as [|x xs IH] using rev_ind; [done|].
  rewrite fold_left_app, map_app. cbn [fold_left map]. rewrite uniq_snoc.
  destruct (in_dec String.string_dec (key x) (map key xs)) as [Hin|Hin].
  - rewrite dkeys_dset_in; [done|]. by rewrite IH, In_uniq.
  - rewrite dkeys_dset_notin, IH; [done|]. by rewrite IH, In_uniq.
Qed.

Section Tabulate.
Context {V : Type}.

Lemma dget_tabulate (f : string -> V) l k : dget k (tabulate f l) = if in_dec String.string_dec k l then Some (f k) else None.
Proof.
  unfold tabulate. induction l as [|k' l IH]; [done|]. cbn [map dget]. rewrite IH.
  destruct (String.eqb_spec k k') as [->|Hne].
  - destruct (in_dec _ k' (k' :: l)) as [|H]; [done|]. by destruct H; left.
  - destruct (in_dec _ k l) as [H|H], (in_dec _ k (k' :: l)) as [H'|H']; try done.
    + by destruct H'; right.
    + destruct H' as [E|H']; [congruence|done].
Qed.

Lemma dset_tabulate_in (f : string -> V) l k v :
  NoDup l -> In k l -> dset k v (tabulate f l) = tabulate (fun k' => if String.eqb k' k then v else f k') l.
Proof.
  induction l as [|k' l IH]; intros Hnd Hk; [done|]. rewrite NoDup_cons in Hnd. destruct Hnd as [Hn Hnd]. cbn.
  destruct (String.eqb_spec k k') as [->|Hne].
  - rewrite String.eqb_refl. f_equal. apply map_ext_in. intros y Hy. destruct (String.eqb_spec y k'); [|done].
    subst. by rewrite list_elem_of_In in Hn.
  - destruct Hk as [->|Hk]; [done|]. apply String.eqb_neq in Hne as Hne'. rewrite String.eqb_sym, Hne'. f_equal. by apply IH.
Qed.

Lemma dset_tabulate_notin (f : string -> V) l k v :
  ~ In k l -> dset k v (tabulate f l) = (tabulate (fun k' => if String.eqb k' k then v else f k') l ++ [(k, v)])%list.
Proof.
  induction l as [|k' l IH]; intros Hk; [done|]. cbn. apply not_in_cons in Hk as [Hne Hk].
  apply String.eqb_neq in Hne as E. rewrite E, String.eqb_sym, E. f_equal. by apply IH.
Qed.

End Tabulate.

Section Loops.
Context {A V : Type} (key : A -> string) (v0 : V) (upd : A -> V -> V) (g : list A -> string -> V).
Hypothesis g_absent : forall ys k, ~ In k (map key ys) -> g ys k = v0.
Hypothesis g_snoc : forall ys x k, g (ys ++ [x]) k = if String.eqb k (key x) then upd x (g ys k) else g ys k.

(** One more element updates the reference of the prefix. *)
Lemma dupdate_tabulate ys x :
  dupdate key v0 upd (tabulate (g ys) (uniq (map key ys))) x = tabulate (g (ys ++ [x])) (uniq (map key (ys ++ [x]))).
Proof.
  unfold dupdate. rewrite dget_tabulate, map_app. cbn [map]. rewrite uniq_snoc.
  assert (Hg : forall k, g (ys ++ [x]) k = if String.eqb k (key x) then upd x (g ys k) else g ys k) by apply g_snoc.
  destruct (in_dec _ (key x) (uniq (map key ys))) as [Hi|Hi], (in_dec _ (key x) (map key ys)) as [Hi'|Hi'];
    rewrite ?In_uniq in Hi; try done.
  - rewrite dset_tabulate_in by (rewrite ?In_uniq; auto using NoDup_uniq). unfold tabulate. apply map_ext.
    intros k. rewrite Hg. by destruct (String.eqb_spec k (key x)) as [->|].
  - rewrite dset_tabulate_notin by (by rewrite In_uniq). unfold tabulate. rewrite map_app. cbn [map default].
    f_equal; [apply map_ext; intros k; rewrite Hg; destruct (String.eqb_spec k (key x)) as [->|]; [|done]|];
      by rewrite ?Hg, ?String.eqb_refl, ?(g_absent ys (key x)).
Qed.

(** The loop over [xs] computes the reference of [xs]. *)
Theorem fold_dupdate xs : fold_left (dupdate key v0 upd) xs [] = tabulate (g xs) (uniq (map key xs)).
Proof.
  change (@nil (string * V)) with (tabulate (g []) (uniq (map key []))).
  enough (H : forall ys, fold_left (dupdate key v0 upd) xs (tabulate (g ys) (uniq (map key ys))) =
                        tabulate (g (ys ++ xs)) (uniq (map key (ys ++ xs)))) by apply H.
  induction xs as [|x xs IH]; intros ys; cbn; [by rewrite app_nil_r|].
  rewrite dupdate_tabulate, IH. by rewrite <-app_assoc.
Qed.

End Loops.

(** The members of [xs] with key [k], in order. *)
Definition with_key {A} (key : A -> string) (xs : list A) (k : string) : list A :=
  List.filter (fun y => String.eqb (key y) k) xs.

Lemma with_key_absent {A} (key : A -> string) ys k : ~ In k (map key ys) -> with_key key ys k = [].
Proof.
  induction ys as [|y ys IH]; intros Hk; [done|]. cbn in *. apply not_in_cons in Hk as [Hne Hk].
  destruct (String.eqb_spec (key y) k); [congruence|]. by apply IH.
Qed.

Lemma with_key_snoc {A} (key : A -> string) ys x k :
  with_key key (ys ++ [x]) k = if String.eqb k (key x) then (with_key key ys k ++ [x])%list else with_key key ys k.
Proof.
  unfold with_key. rewrite List.filter_app. cbn [List.filter]. rewrite (String.eqb_sym (key x) k).
  destruct (String.eqb k (key x)); [done|by rewrite app_nil_r].
Qed.

(** [defaultdict(list)] grouping: each key with the values of its
    members, in order. *)
Corollary group_spec {A B} (key : A -> string) (val : A -> B) (xs : list A) :
  fold_left (fun acc x => dappend (key x) (val x) acc) xs [] = tabulate (fun k => map val (with_key key xs k)) (uniq (map key xs)).
Proof.
  apply (fold_dupdate key [] (fun x l => l ++ [val x])%list (fun ys k => map val (with_key key ys k))).
  - intros ys k Hk. by rewrite with_key_absent.
  - intros ys x k. rewrite with_key_snoc. destruct (String.eqb k (key x)); [|done]. by rewrite map_app.
Qed.

Lemma with_key_map {A} (key : A -> string) xs k : length (with_key key xs k) = length (with_key id (map key xs) k).
Proof.
  unfold with_key. induction xs as [|x xs IH]; [done|]. cbn [map List.filter id].
  destruct (String.eqb (key x) k); cbn [length]; by rewrite IH.
Qed.

Lemma with_key_nonempty {A} (key : A -> string) xs k : In k (map key xs) -> with_key key xs k <> [].
Proof.
  unfold with_key. induction xs as [|x xs IH]; [done|]. cbn [map List.filter]. intros [<-|Hk]; [by rewrite String.eqb_refl|].
  destruct (String.eqb (key x) k); [done|]. by apply IH.
Qed.

(** [defaultdict(int)] counting: each key with its number of occurrences. *)
Corollary count_spec (xs : list string) :
  count_all xs [] = tabulate (fun k => length (with_key id xs k)) (uniq xs).
Proof.
  rewrite <-(map_id xs) at 2. unfold count_all, bump.
  apply (fold_dupdate id 0 (fun _ n => S n) (fun ys k => length (with_key id ys k))).
  - intros ys k Hk. by rewrite with_key_absent.
  - intros ys x k. rewrite with_key_snoc. destruct (String.eqb k (id x)); [|done]. rewrite length_app. cbn. lia.
Qed.

#[export] Hint Resolve sort_by_perm insert_by_perm dkeys_dset_NoDup : dbkb.
#[export] Hint Rewrite @dkeys_dmodify @length_sort_by : dbkb_rw.

End PyDict.
