(* ===== verification/PyPath.v ===== *)
(** * [os.path] on POSIX paths, and [posixpath.normpath]

    The path functions the tools call on file names: [basename],
    [dirname], [splitext] and [join] of two paths, and [normpath], which
    resolves the [.] and [..] components of a relative link against the
    directory of the page that holds it. *)

From S2P Require Import Prelude PyStr.
From Stdlib Require Import Ascii.

Open Scope string_scope.

Module PyPath.
Import PyStr.

(** [p.rfind(c)] *)
Fixpoint rfind_go (c : ascii) (s : string) (i : nat) (acc : option nat) : option nat :=
  match s with
  | EmptyString => acc
  | String d s' => rfind_go c s' (S i) (if Ascii.eqb c d then Some i else acc)
  end.

Definition rfind (c : ascii) (s : string) : option nat := rfind_go c s 0%nat None.

Definition slash : ascii := "/"%char.
Definition dot : ascii := "."%char.

(** [os.path.basename] *)
Definition basename (p : string) : string :=
  match rfind slash p with Some i => sdrop (S i) p | None => p end.

Fixpoint all_char (c : ascii) (s : string) : bool :=
  match s with EmptyString => true | String d s' => Ascii.eqb c d && all_char c s' end.

(** [head.rstrip('/')] *)
Fixpoint rstrip_char (c : ascii) (s : string) : string :=
  match s with
  | EmptyString => EmptyString
  | String d s' => let r := rstrip_char c s' in
                   if String.eqb r "" && Ascii.eqb c d then EmptyString else String d r
  end.

(** [os.path.dirname]: the head up to the last slash, without its
    trailing slashes unless it is made of slashes only. *)
Definition dirname (p : string) : string :=
  let head := match rfind slash p with Some i => String.substring 0%nat (S i) p | None => "" end in
  if negb (String.eqb head "") && negb (all_char slash head) then rstrip_char slash head else head.

(** [os.path.splitext]: the extension starts at the last dot of the
    last component, unless only dots precede it there. *)
Definition splitext (p : string) : string * string :=
  let start := match rfind slash p with Some i => S i | None => 0%nat end in
  match rfind dot p with
  | Some d =>
      if (start <=? d)%nat && negb (all_char dot (String.substring start (d - start)%nat p))
      then (String.substring 0%nat d p, sdrop d p)
      else (p, "")
  | None => (p, "")
  end.

(** [os.path.join(a, b)] for a relative [b] *)
Definition path_join (a b : string) : string :=
  if String.eqb a "" then b
  else if String.eqb (sdrop (String.length a - 1)%nat a) "/" then a +:+ b else a +:+ "/" +:+ b.

(** The loop of [posixpath.normpath] on one component, the new
    components kept in reverse. *)
Definition normpath_step (absolute : bool) (acc : list string) (comp : string) : list string :=
  if String.eqb comp "" || String.eqb comp "." then acc
  else if negb (String.eqb comp "..") || (negb absolute && match acc with [] => true | _ => false end)
          || match acc with c :: _ => String.eqb c ".." | [] => false end
  then comp :: acc
  else match acc with [] => [] | _ :: acc' => acc' end.

(** One or two leading slashes are kept, three or more become one. *)
Definition initial_slashes (p : string) : string :=
  if String.prefix "/" p then
    if String.prefix "//" p && negb (String.prefix "///" p) then "//" else "/"
  else "".

(** The components [normpath] keeps. *)
Definition norm_comps (absolute : bool) (p : string) : list string :=
  rev (fold_left (normpath_step absolute) (split_on slash p) []).

(** [posixpath.normpath] *)
Definition normpath (p : string) : string :=
  if String.eqb p "" then "." else
  let lead := initial_slashes p in
  let path := lead +:+ join "/" (norm_comps (negb (String.eqb lead "")) p) in
  if String.eqb path "" then "." else path.

(** ** Lemmas *)

(** A component [normpath] keeps as it is. *)
Definition plain (x : string) : bool :=
  negb (String.eqb x "") && negb (String.eqb x ".") && negb (String.eqb x "..") && negb (char_in slash x).

Lemma step_plain abs acc x : plain x = true -> normpath_step abs acc x = x :: acc.
Proof.
  unfold plain, normpath_step. intros H. repeat (apply andb_prop in H as [H ?]).
  apply negb_true_iff in H. rewrite H. cbn. destruct (String.eqb x "."); [done|]. cbn.
  destruct (String.eqb x ".."); done.
Qed.

Lemma fold_plain abs acc l :
  Forall (fun x => plain x = true) l -> fold_left (normpath_step abs) l acc = (rev l ++ acc)%list.
Proof.
  revert acc. induction l as [|x l IH]; intros acc Hl; [done|]. inversion Hl; subst. cbn.
  rewrite step_plain, IH by done. by rewrite <-app_assoc.
Qed.

Lemma step_dotdot abs acc d : plain d = true -> normpath_step abs (d :: acc) ".." = acc.
Proof.
  unfold normpath_step. intros H. cbn. destruct (String.eqb_spec d "..") as [->|]; [by vm_compute in H|]. by rewrite andb_false_r.
Qed.

(** [./] is dropped, and [d/..] cancels out. *)
Lemma norm_comps_dot abs a b :
  norm_comps abs (a +:+ String slash ("." +:+ String slash b)) = norm_comps abs (a +:+ String slash b).
Proof.
  unfold norm_comps. rewrite !split_on_app_sep. change (split_on slash ".") with ["."].
  rewrite !fold_left_app. cbn [fold_left]. done.
Qed.

Lemma norm_comps_dotdot abs a d b :
  plain d = true ->
  norm_comps abs (a +:+ String slash (d +:+ String slash (".." +:+ String slash b))) = norm_comps abs (a +:+ String slash b).
Proof.
  intros Hd. unfold norm_comps. rewrite !split_on_app_sep.
  assert (Hs : split_on slash d = [d]).
  { apply split_on_absent. unfold plain in Hd. repeat (apply andb_prop in Hd as [Hd ?]). by apply negb_true_iff. }
  rewrite Hs. change (split_on slash "..") with [".."]. rewrite !fold_left_app. cbn [fold_left].
  by rewrite (step_plain abs _ d Hd), (step_dotdot abs _ d Hd).
Qed.

(** The components below a directory. *)
Lemma norm_comps_below abs a l :
  Forall (fun x => plain x = true) l -> l <> [] ->
  norm_comps abs (a +:+ String slash (join "/" l)) = (norm_comps abs a ++ l)%list.
Proof.
  intros Hl Hne. unfold norm_comps. rewrite split_on_app_sep, split_on_join; [|done|].
  - rewrite fold_left_app, fold_plain by done. by rewrite rev_app_distr, rev_involutive.
  - eapply Forall_impl; [exact Hl|]. intros x Hx. unfold plain in Hx. repeat (apply andb_prop in Hx as [Hx ?]). by apply negb_true_iff.
Qed.


(** ** [dirname] and [join] below a directory without a trailing slash *)

Lemma rfind_go_app c x y i acc :
  rfind_go c (x +:+ y) i acc = rfind_go c y (i + String.length x) (rfind_go c x i acc).
Proof.
  revert i acc. induction x as [|d x IH]; intros i acc; cbn; [by rewrite Nat.add_0_r|].
  rewrite IH. by rewrite Nat.add_succ_r.
Qed.

Lemma rfind_go_absent c y i acc : char_in c y = false -> rfind_go c y i acc = acc.
Proof.
  revert i acc. induction y as [|d y IH]; intros i acc; cbn; [done|]. intros [Hd Hy]%orb_false_iff.
  rewrite Hd. by apply IH.
Qed.

Lemma substring_app_sep a c f : String.substring 0 (S (String.length a)) (a +:+ String c f) = a +:+ String c "".
Proof. induction a as [|d a IH]; cbn; [by destruct f|]. by rewrite IH. Qed.

Lemma rstrip_char_app_sep c a : rstrip_char c (a +:+ String c "") = rstrip_char c a.
Proof.
  induction a as [|d a IH]; cbn; [by rewrite Ascii.eqb_refl|]. by rewrite IH.
Qed.

Lemma all_char_rstrip c s : all_char c s = true -> rstrip_char c s = "".
Proof.
  induction s as [|d s IH]; cbn; [done|]. intros [Hd Hs]%andb_prop. rewrite IH by done. cbn. by rewrite Hd.
Qed.

Lemma all_char_app c a b : all_char c (a +:+ b) = all_char c a && all_char c b.
Proof. induction a as [|d a IH]; cbn; [done|]. by rewrite IH, andb_assoc. Qed.

(** A non-empty [a] with [a.rstrip('/') == a] does not end with a
    slash. *)
Lemma rstrip_last a : a <> "" -> rstrip_char slash a = a -> sdrop (String.length a - 1) a <> "/".
Proof.
  induction a as [|c a IH]; [done|]. intros _ H. cbn -[Ascii.eqb slash] in H.
  destruct a as [|c' a'].
  - cbn -[Ascii.eqb slash] in H. destruct (Ascii.eqb slash c) eqn:E; [done|]. cbn. intros [= ->].
    by rewrite Ascii.eqb_refl in E.
  - destruct (String.eqb (rstrip_char slash (String c' a')) "" && Ascii.eqb slash c) eqn:E; [done|].
    injection H as H. cbn [String.length]. replace (S (S (String.length a')) - 1) with (S (String.length (String c' a') - 1)) by (cbn; lia).
    cbn [sdrop]. apply IH; [done|exact H].
Qed.

Lemma path_join_below a b : a <> "" -> rstrip_char slash a = a -> path_join a b = a +:+ String slash b.
Proof.
  intros Ha Hr. unfold path_join. rewrite (proj2 (String.eqb_neq a "") Ha).
  destruct (String.eqb_spec (sdrop (String.length a - 1) a) "/") as [E|]; [by destruct (rstrip_last a Ha Hr E)|].
  reflexivity.
Qed.

Lemma dirname_below a f :
  a <> "" -> rstrip_char slash a = a -> char_in slash f = false -> dirname (a +:+ String slash f) = a.
Proof.
  intros Ha Hr Hf. unfold dirname, rfind. rewrite rfind_go_app. cbn [rfind_go]. rewrite Ascii.eqb_refl.
  rewrite rfind_go_absent by done. rewrite Nat.add_0_l, substring_app_sep.
  assert (Hall : all_char slash a = false).
  { destruct (all_char slash a) eqn:E; [|done]. apply all_char_rstrip in E. congruence. }
  rewrite all_char_app, Hall. destruct a; [done|]. cbn [String.append String.eqb negb andb].
  change (String a (a0 +:+ String slash "")) with (String a a0 +:+ String slash ""). by rewrite rstrip_char_app_sep.
Qed.

(** ** [normpath] of a relative path *)

(** What [normpath] keeps is never empty, never [.], and has no slash. *)
Definition good_comp (x : string) : Prop := x <> "" /\ x <> "." /\ char_in slash x = false.

Lemma norm_comps_good abs p : Forall good_comp (norm_comps abs p).
Proof.
  unfold norm_comps. apply Forall_rev.
  apply (fold_left_inv_in (Forall good_comp)); [|constructor].
  intros acc comp Hin Hacc. pose proof (proj1 (List.Forall_forall _ _) (split_on_parts slash p) comp Hin) as Hc.
  unfold normpath_step. destruct (String.eqb_spec comp "") as [->|H1]; [done|].
  destruct (String.eqb_spec comp ".") as [->|H2]; [done|]. cbn.
  destruct (_ || _ || _); [by constructor|]. destruct acc; [constructor|by inversion Hacc].
Qed.

Lemma join_good_empty l : Forall good_comp l -> join "/" l = "" -> l = [].
Proof.
  intros Hl Hj. destruct l as [|x l]; [done|]. exfalso.
  assert (Hs : split_on slash (join (String slash "") (x :: l)) = x :: l).
  { apply split_on_join; [done|]. eapply Forall_impl; [exact Hl|]. by intros ? (_ & _ & ?). }
  change (join (String slash "") (x :: l)) with (join "/" (x :: l)) in Hs. rewrite Hj in Hs. cbn in Hs.
  injection Hs as <- _. inversion Hl as [|? ? (H & _) _]. done.
Qed.

Lemma join_good_dot l : Forall good_comp l -> join "/" l <> ".".
Proof.
  intros Hl Hj. destruct l as [|x l]; [done|].
  assert (Hs : split_on slash (join (String slash "") (x :: l)) = x :: l).
  { apply split_on_join; [done|]. eapply Forall_impl; [exact Hl|]. by intros ? (_ & _ & ?). }
  change (join (String slash "") (x :: l)) with (join "/" (x :: l)) in Hs. rewrite Hj in Hs. cbn in Hs.
  injection Hs as <- _. inversion Hl as [|? ? (_ & H & _) _]. done.
Qed.

Lemma normpath_relative p :
  String.prefix "/" p = false -> p <> "" ->
  normpath p = (if String.eqb (join "/" (norm_comps false p)) "" then "." else join "/" (norm_comps false p)).
Proof.
  intros Hp Hne. unfold normpath, initial_slashes. rewrite Hp. apply String.eqb_neq in Hne. by rewrite Hne.
Qed.

(** Two relative paths with the same [normpath] have the same kept
    components. *)
Lemma normpath_relative_inj p q :
  String.prefix "/" p = false -> p <> "" -> String.prefix "/" q = false -> q <> "" ->
  normpath p = normpath q -> norm_comps false p = norm_comps false q.
Proof.
  intros Hp Hp' Hq Hq'. rewrite !normpath_relative by done.
  pose proof (norm_comps_good false p) as Gp. pose proof (norm_comps_good false q) as Gq.
  destruct (String.eqb_spec (join "/" (norm_comps false p)) "") as [Ep|Ep],
           (String.eqb_spec (join "/" (norm_comps false q)) "") as [Eq|Eq]; intros E.
  - by rewrite (join_good_empty _ Gp Ep), (join_good_empty _ Gq Eq).
  - by destruct (join_good_dot _ Gq).
  - by destruct (join_good_dot _ Gp).
  - assert (Hsplit : forall l, Forall good_comp l -> join "/" l <> "" -> split_on slash (join "/" l) = l).
    { intros l Hl Hj. change (join "/" l) with (join (String slash "") l). apply split_on_join.
      - by intros ->. - eapply Forall_impl; [exact Hl|]. by intros ? (_ & _ & ?). }
    rewrite <-(Hsplit _ Gp Ep), <-(Hsplit _ Gq Eq). by rewrite E.
Qed.

(** ** Paths below a relative directory *)

(** [a/c1/.../cn] *)
Definition under (a : string) (l : list string) : string := a +:+ String slash (join "/" l).

Lemma under_one a x : under a [x] = a +:+ String slash x.
Proof. done. Qed.

Lemma under_two a d x : under a [d; x] = a +:+ String slash (d +:+ String slash x).
Proof. done. Qed.

Lemma prefix_slash_app a x : a <> "" -> String.prefix "/" (a +:+ x) = String.prefix "/" a.
Proof. destruct a as [|c a]; [done|]. intros _. destruct a, x; reflexivity. Qed.

Lemma rstrip_char_app c a b : b <> "" -> rstrip_char c b = b -> rstrip_char c (a +:+ b) = a +:+ b.
Proof.
  intros Hb Hr. induction a as [|d a IH]; [done|]. cbn [String.append rstrip_char]. rewrite IH.
  destruct (String.eqb_spec (a +:+ b) "") as [E|]; [|done]. destruct a; cbn in E; subst; done.
Qed.

Lemma plain_md t : char_in slash t = false -> plain (t +:+ ".md") = true.
Proof.
  intros Ht. unfold plain.
  assert (Hl : String.length (t +:+ ".md") = String.length t + 3) by (rewrite slength_append; reflexivity).
  destruct (String.eqb_spec (t +:+ ".md") "") as [E|]; [rewrite E in Hl; cbn in Hl; lia|].
  destruct (String.eqb_spec (t +:+ ".md") ".") as [E|]; [rewrite E in Hl; cbn in Hl; lia|].
  destruct (String.eqb_spec (t +:+ ".md") "..") as [E|]; [rewrite E in Hl; cbn in Hl; lia|]. cbn.
  by rewrite char_in_app, Ht.
Qed.

Lemma rstrip_no_slash c d : char_in c d = false -> rstrip_char c d = d.
Proof.
  induction d as [|c' d IH]; [done|]. cbn. intros [Hc Hd]%orb_false_iff. rewrite IH, Hc by done. by rewrite andb_false_r.
Qed.

(** [/d] for a plain component [d] has no trailing slash. *)
Lemma rstrip_plain d : plain d = true -> rstrip_char slash (String slash d) = String slash d.
Proof.
  unfold plain. intros H. repeat (apply andb_prop in H as [H ?]). apply negb_true_iff in H.
  cbn [rstrip_char]. rewrite rstrip_no_slash by (by apply negb_true_iff). by rewrite H.
Qed.

Section Relative.
Variable a : string.
Hypothesis a_nonempty : a <> "".
Hypothesis a_relative : String.prefix "/" a = false.

Lemma under_relative l : String.prefix "/" (under a l) = false /\ under a l <> "".
Proof. unfold under. rewrite prefix_slash_app by done. split; [done|]. by destruct a. Qed.

Lemma normpath_dot b : normpath (a +:+ String slash ("." +:+ String slash b)) = normpath (a +:+ String slash b).
Proof.
  rewrite !normpath_relative; try (rewrite prefix_slash_app by done; done); try (by destruct a).
  by rewrite norm_comps_dot.
Qed.

Lemma normpath_dotdot d b :
  plain d = true -> normpath (a +:+ String slash (d +:+ String slash (".." +:+ String slash b))) = normpath (a +:+ String slash b).
Proof.
  intros Hd. rewrite !normpath_relative; try (rewrite prefix_slash_app by done; done); try (by destruct a).
  by rewrite norm_comps_dotdot.
Qed.

(** Paths below [a] have the same [normpath] only if they name the same
    components. *)
Lemma normpath_under_inj l1 l2 :
  Forall (fun x => plain x = true) l1 -> l1 <> [] -> Forall (fun x => plain x = true) l2 -> l2 <> [] ->
  normpath (under a l1) = normpath (under a l2) -> l1 = l2.
Proof.
  intros H1 N1 H2 N2 E. destruct (under_relative l1), (under_relative l2).
  apply normpath_relative_inj in E; [|done..]. unfold under in E.
  rewrite !norm_comps_below in E by done. by apply app_inv_head in E.
Qed.

Lemma under_sub_stripped d : plain d = true -> rstrip_char slash (a +:+ String slash d) = a +:+ String slash d.
Proof. intros Hd. apply rstrip_char_app; [done|]. by apply rstrip_plain. Qed.

Hypothesis a_stripped : rstrip_char slash a = a.

Lemma path_join_sub d x : plain d = true -> path_join (a +:+ String slash d) x = a +:+ String slash (d +:+ String slash x).
Proof.
  intros Hd. rewrite path_join_below by (try apply under_sub_stripped; by try destruct a).
  by rewrite sappend_assoc.
Qed.

Lemma dirname_sub d f :
  plain d = true -> char_in slash f = false -> dirname (a +:+ String slash (d +:+ String slash f)) = a +:+ String slash d.
Proof.
  intros Hd Hf. change (String slash (d +:+ String slash f)) with (String slash d +:+ String slash f).
  rewrite <-sappend_assoc. apply dirname_below; [by destruct a|by apply under_sub_stripped|done].
Qed.

End Relative.

End PyPath.
