(* ===== verification/DocSite.v ===== *)
(** * Generated markdown files and their links

    The documentation generators write markdown files with
    [open(path, 'w')] and a sequence of [f.write] calls.  A page is the
    list of pieces it writes, text or an inline link [[label](target)],
    and [render] is the text the file holds.  A site is the dict of the
    files written, by path; writing a path again replaces the file.

    A relative link resolves against the directory of its page:
    [normpath(join(dirname(page), target))].  It is broken when no file
    of the site has that normalised path. *)

From S2P Require Import Prelude PyStr PyDict PyPath.
From stdpp Require Import list.
From Stdlib Require Import Ascii.

Open Scope string_scope.

Module DocSite.
Import PyStr PyDict PyPath.

Inductive Inline := Txt (s : string) | Lnk (label target : string).

Definition Page := list Inline.

Definition render_inline (i : Inline) : string :=
  match i with Txt s => s | Lnk l t => "[" +:+ l +:+ "](" +:+ t +:+ ")" end.

(** The content of the file. *)
Definition render (p : Page) : string := String.concat "" (map render_inline p).

Definition link_targets (p : Page) : list string :=
  flat_map (fun i => match i with Lnk _ t => [t] | Txt _ => [] end) p.

Definition Site := list (string * Page).

(** [with open(path, 'w') as f: ...] *)
Definition write_page (path : string) (p : Page) (site : Site) : Site := dset path p site.

(** The path a link of the page [page] designates. *)
Definition resolve (page target : string) : string := normpath (path_join (dirname page) target).

(** Whether the site has a file at the normalised path [q]. *)
Definition site_has (site : Site) (q : string) : bool := existsb (fun k => String.eqb (normpath k) q) (dkeys site).

(** The links of the site that lead nowhere, with their page. *)
Definition broken_links (site : Site) : list (string * string) :=
  flat_map (fun '(path, page) =>
              map (fun t => (path, t)) (List.filter (fun t => negb (site_has site (resolve path t))) (link_targets page)))
           site.

(** ** Lemmas *)

Lemma link_targets_app (p q : Page) : link_targets (p ++ q)%list = (link_targets p ++ link_targets q)%list.
Proof. apply flat_map_app. Qed.

Lemma in_dkeys_dset {V} k k' (v : V) d : In k (dkeys (dset k' v d)) <-> k = k' \/ In k (dkeys d).
Proof.
  destruct (in_dec String.string_dec k' (dkeys d)) as [Hin|Hin].
  - rewrite dkeys_dset_in by done. split; [by right|]. by intros [->|].
  - rewrite dkeys_dset_notin by done. rewrite in_app_iff. cbn. intuition congruence.
Qed.

Lemma site_has_intro site k q : In k (dkeys site) -> normpath k = q -> site_has site q = true.
Proof. intros Hk <-. apply existsb_exists. exists k. split; [done|]. apply String.eqb_refl. Qed.

Lemma site_has_elim site q : site_has site q = true -> exists k, In k (dkeys site) /\ normpath k = q.
Proof. intros (k & Hk & E)%existsb_exists. apply String.eqb_eq in E. eauto. Qed.

(** A page's links are broken exactly when they do not resolve. *)
Lemma in_broken_links site p t :
  NoDup (dkeys site) ->
  In (p, t) (broken_links site) <-> exists page, dget p site = Some page /\ In t (link_targets page) /\
                                               site_has site (resolve p t) = false.
Proof.
  intros Hnd. unfold broken_links. rewrite in_flat_map. split.
  - intros ([p' page] & Hin & Hm). apply in_map_iff in Hm as (t' & [= <- <-] & Hf).
    apply filter_In in Hf as [Ht Hn]. exists page. split; [by apply In_dget|]. split; [done|]. by apply negb_true_iff.
  - intros (page & Hp & Ht & Hn). exists (p, page). split; [by apply dget_In|].
    apply in_map_iff. exists t. split; [done|]. apply filter_In. split; [done|]. by rewrite Hn.
Qed.

Lemma in_link_targets_flat_map {A} x (f : A -> Page) l :
  In x (link_targets (flat_map f l)) <-> exists y, In y l /\ In x (link_targets (f y)).
Proof.
  unfold link_targets. rewrite in_flat_map. split.
  - intros (i & (y & Hy & Hi)%in_flat_map & Hx). exists y. split; [done|]. apply in_flat_map. eauto.
  - intros (y & Hy & (i & Hi & Hx)%in_flat_map). exists i. split; [|done]. apply in_flat_map. eauto.
Qed.

(** Text only has no link. *)
Lemma link_targets_map_txt {A} (f : A -> Inline) l :
  (forall y, exists s, f y = Txt s) -> link_targets (map f l) = [].
Proof.
  intros Hf. induction l as [|y l IH]; [done|]. cbn. destruct (Hf y) as [s ->]. exact IH.
Qed.

Lemma link_targets_txt s p : link_targets (Txt s :: p) = link_targets p.
Proof. done. Qed.

Lemma link_targets_lnk l t p : link_targets (Lnk l t :: p) = t :: link_targets p.
Proof. done. Qed.

Lemma link_targets_nil : link_targets [] = [].
Proof. done. Qed.

Lemma site_keys_NoDup (site : Site) path p : NoDup (dkeys site) -> NoDup (dkeys (write_page path p site)).
Proof. apply dkeys_dset_NoDup. Qed.

Lemma dget_write_page site path p k page :
  dget k (write_page path p site) = Some page -> (k = path /\ page = p) \/ dget k site = Some page.
Proof.
  unfold write_page. rewrite dget_dset. destruct (String.eqb_spec k path) as [->|]; [intros [= <-]; by left|by right].
Qed.

(** ** Resolving links between pages below a relative directory *)

Section Resolve.
Variable out : string.
Hypothesis out_nonempty : out <> "".
Hypothesis out_stripped : rstrip_char slash out = out.
Hypothesis out_relative : String.prefix "/" out = false.

(** A link of a page of [out] leads below [out]. *)
Lemma resolve_top f x : char_in slash f = false -> resolve (under out [f]) x = normpath (out +:+ String slash x).
Proof. intros Hf. unfold resolve. rewrite under_one, dirname_below by done. by rewrite path_join_below. Qed.

Lemma resolve_sub d f x :
  plain d = true -> char_in slash f = false ->
  resolve (under out [d; f]) x = normpath (out +:+ String slash (d +:+ String slash x)).
Proof. intros Hd Hf. unfold resolve. rewrite under_two, dirname_sub by done. by rewrite path_join_sub. Qed.

(** A link [./x] of a page of [out/d] leads to [out/d/x]. *)
Lemma resolve_dot d f x :
  plain d = true -> char_in slash f = false ->
  resolve (under out [d; f]) ("./" +:+ x) = normpath (under out [d; x]).
Proof.
  intros Hd Hf. rewrite resolve_sub, under_two by done.
  change (String slash (d +:+ String slash ("./" +:+ x))) with (String slash d +:+ String slash ("." +:+ String slash x)).
  rewrite <-sappend_assoc, normpath_dot by (rewrite ?prefix_slash_app; by try destruct out). by rewrite sappend_assoc.
Qed.

(** A link [../x] of a page of [out/d] leads to [out/x]. *)
Lemma resolve_dotdot d f x :
  plain d = true -> char_in slash f = false ->
  resolve (under out [d; f]) ("../" +:+ x) = normpath (out +:+ String slash x).
Proof. intros Hd Hf. rewrite resolve_sub by done. by apply normpath_dotdot. Qed.

(** Two paths below [out] are the same file only if they name the same
    components. *)
Lemma under_same_file l1 l2 :
  Forall (fun x => plain x = true) l1 -> l1 <> [] -> Forall (fun x => plain x = true) l2 -> l2 <> [] ->
  normpath (under out l1) = normpath (under out l2) -> l1 = l2.
Proof. apply normpath_under_inj; done. Qed.

End Resolve.

Create Rewrite HintDb links.
#[export] Hint Rewrite link_targets_app link_targets_txt link_targets_lnk link_targets_nil : links.
#[export] Hint Rewrite @link_targets_map_txt using (intros []; eexists; reflexivity) : links.

(** Split the links of a page into the links of its parts. *)
Ltac links_in H :=
  autorewrite with links in H;
  repeat match type of H with
         | In _ (_ ++ _) => apply in_app_iff in H as [H|H]
         | In _ [] => destruct H
         end.

End DocSite.
