(* ===== verification/Schema.v ===== *)
(** * Schema extraction (src/src/schema_extraction/extract_schema.py and
      db_connection.py)

    [PostgreSQLSchemaExtractor] and [MySQLSchemaExtractor] build the dict
    [schema_data['tables']] from five catalogue queries run in order
    (tables, columns, primary keys, foreign keys, indexes), then save it
    as JSON.  The two classes differ in their SQL, in the MySQL
    extractor's [SELECT DATABASE()] and in the index columns, which
    PostgreSQL returns as an array and MySQL as a comma-separated
    [GROUP_CONCAT]; their loops are the same code.

    The answers of the queries are an oracle ([Connection]): a list of
    rows or an exception, which every method re-raises.  Dicts are
    [PyDict] association lists in insertion order.  The extractor's
    state is [schema_data], the file it saves and the connections left
    open; [connect_by_params] opens a connection and closes it again when
    a statement after the connect fails. *)

From S2P Require Import Prelude PyStr PyDict.
From stdpp Require Import list.
From Stdlib Require Import Ascii.

Open Scope string_scope.

Module Schema.
Import PyStr PyDict.

(** ** The dict [schema_data['tables']] *)

(** [column['foreign_key']] (lines 246-250) *)
Record ColumnForeignKey := mkColumnForeignKey {
  cfk_table : string; cfk_column : string; cfk_constraint : string }.

(** A column's dict (lines 131-140). *)
Record ColumnInfo := mkColumnInfo {
  col_name : string;
  data_type : string;
  is_nullable : bool;
  col_default : option string;
  col_description : string;
  is_primary_key : bool;
  foreign_key : option ColumnForeignKey;
  has_index : bool
}.

(** An entry of [foreign_keys] (lines 253-260). *)
Record ForeignKey := mkForeignKey {
  fk_column : string; ref_table : string; ref_column : string; constraint_name : string }.

(** An entry of [referenced_by] (lines 264-268). *)
Record Reference := mkReference { rb_table : string; rb_column : string; via_foreign_key : string }.

(** An entry of [indexes] (lines 321-326). *)
Record IndexInfo := mkIndexInfo {
  idx_name : string; idx_columns : list string; is_unique : bool; is_primary : bool }.

(** A table's dict (lines 66-74). *)
Record TableInfo := mkTableInfo {
  t_name : string;
  t_description : string;
  columns : list (string * ColumnInfo);
  primary_key : option (list string);
  foreign_keys : list ForeignKey;
  indexes : list IndexInfo;
  referenced_by : list Reference
}.

Definition SchemaData := list (string * TableInfo).

Definition set_columns (f : list (string * ColumnInfo) -> list (string * ColumnInfo)) (t : TableInfo) : TableInfo :=
  mkTableInfo (t_name t) (t_description t) (f (columns t)) (primary_key t) (foreign_keys t) (indexes t) (referenced_by t).
Definition set_primary_key (pk : list string) (t : TableInfo) : TableInfo :=
  mkTableInfo (t_name t) (t_description t) (columns t) (Some pk) (foreign_keys t) (indexes t) (referenced_by t).
Definition add_foreign_key (fk : ForeignKey) (t : TableInfo) : TableInfo :=
  mkTableInfo (t_name t) (t_description t) (columns t) (primary_key t) (foreign_keys t ++ [fk])%list (indexes t) (referenced_by t).
Definition add_index (i : IndexInfo) (t : TableInfo) : TableInfo :=
  mkTableInfo (t_name t) (t_description t) (columns t) (primary_key t) (foreign_keys t) (indexes t ++ [i])%list (referenced_by t).
Definition add_reference (r : Reference) (t : TableInfo) : TableInfo :=
  mkTableInfo (t_name t) (t_description t) (columns t) (primary_key t) (foreign_keys t) (indexes t) (referenced_by t ++ [r])%list.

Definition mark_primary_key (c : ColumnInfo) : ColumnInfo :=
  mkColumnInfo (col_name c) (data_type c) (is_nullable c) (col_default c) (col_description c) true (foreign_key c) (has_index c).
Definition set_column_fk (fk : ColumnForeignKey) (c : ColumnInfo) : ColumnInfo :=
  mkColumnInfo (col_name c) (data_type c) (is_nullable c) (col_default c) (col_description c) (is_primary_key c) (Some fk) (has_index c).
Definition mark_indexed (c : ColumnInfo) : ColumnInfo :=
  mkColumnInfo (col_name c) (data_type c) (is_nullable c) (col_default c) (col_description c) (is_primary_key c) (foreign_key c) true.

(** ** The rows of the catalogue queries *)

Record TableRow := mkTableRow { tr_name : string; tr_description : option string }.
Record ColumnRow := mkColumnRow {
  cr_table : string; cr_column : string; cr_data_type : string;
  cr_char_max_length : option Z; cr_numeric_precision : option Z; cr_numeric_scale : option Z;
  cr_is_nullable : string; cr_default : option string; cr_description : option string }.
Record KeyRow := mkKeyRow { kr_table : string; kr_column : string }.
Record FkRow := mkFkRow {
  fr_table : string; fr_column : string; fr_foreign_table : string; fr_foreign_column : string;
  fr_constraint : string }.
(** An index row; its columns are an array in PostgreSQL and a string in
    MySQL. *)
Record IndexRow (C : Type) := mkIndexRow {
  ir_table : string; ir_index : string; ir_columns : C; ir_unique : bool; ir_primary : bool }.
Arguments mkIndexRow {C}.
Arguments ir_table {C}. Arguments ir_index {C}. Arguments ir_columns {C}.
Arguments ir_unique {C}. Arguments ir_primary {C}.

(** The answers of one connection to the five queries. *)
Record Connection (C : Type) := mkConnection {
  tables_rows : result (list TableRow);
  columns_rows : result (list ColumnRow);
  primary_key_rows : result (list KeyRow);
  foreign_key_rows : result (list FkRow);
  index_rows : result (list (IndexRow C))
}.
Arguments mkConnection {C}.
Arguments tables_rows {C}. Arguments columns_rows {C}. Arguments primary_key_rows {C}.
Arguments foreign_key_rows {C}. Arguments index_rows {C}.

(** ** The loops *)

(** [x or default] on a string that may be [None] or empty. *)
Definition py_or (o : option string) (d : string) : string :=
  match o with Some s => if String.eqb s "" then d else s | None => d end.

(** Truthiness of an integer column that may be [NULL]. *)
Definition truthy_int (o : option Z) : bool :=
  match o with Some z => negb (Z.eqb z 0) | None => false end.

(** The body of the loop of [extract_tables] (lines 64-74). *)
Definition new_table (r : TableRow) : TableInfo :=
  mkTableInfo (tr_name r) (py_or (tr_description r) ("Table " +:+ tr_name r)) [] None [] [] [].

Definition table_row (s : SchemaData) (r : TableRow) : SchemaData := dset (tr_name r) (new_table r) s.

(** [full_data_type] (lines 121-128) *)
Definition full_data_type (r : ColumnRow) : string :=
  let dt := cr_data_type r in
  if truthy_int (cr_char_max_length r) then dt +:+ "(" +:+ str_int (default 0%Z (cr_char_max_length r)) +:+ ")"
  else if truthy_int (cr_numeric_precision r) && truthy_int (cr_numeric_scale r) then
    dt +:+ "(" +:+ str_int (default 0%Z (cr_numeric_precision r)) +:+ "," +:+ str_int (default 0%Z (cr_numeric_scale r)) +:+ ")"
  else if truthy_int (cr_numeric_precision r) then dt +:+ "(" +:+ str_int (default 0%Z (cr_numeric_precision r)) +:+ ")"
  else dt.

(** The column's dict (lines 131-140). *)
Definition column_info (r : ColumnRow) : ColumnInfo :=
  mkColumnInfo (cr_column r) (full_data_type r) (String.eqb (cr_is_nullable r) "YES") (cr_default r)
    (py_or (cr_description r) ("Column " +:+ cr_column r +:+ " in " +:+ cr_table r)) false None false.

(** The body of the loop of [extract_columns] (lines 112-140). *)
Definition column_row (s : SchemaData) (r : ColumnRow) : SchemaData :=
  if negb (dmem (cr_table r) s) then s
  else dmodify (cr_table r) (set_columns (dset (cr_column r) (column_info r))) s.

(** [column_name in self.schema_data['tables'][table_name]['columns']] *)
Definition has_column (s : SchemaData) (t c : string) : bool :=
  match dget t s with Some ti => dmem c (columns ti) | None => false end.

(** The body of the loop of [extract_primary_keys] (lines 179-193):
    the grouping dict [pk_columns] and the marking of the column. *)
Definition pk_row (acc : SchemaData * list (string * list string)) (r : KeyRow) : SchemaData * list (string * list string) :=
  let '(s, pk_columns) := acc in
  let t := kr_table r in let c := kr_column r in
  if negb (dmem t s) then acc else
  let pk_columns := dappend t c pk_columns in
  let s := if has_column s t c then dmodify t (set_columns (dmodify c mark_primary_key)) s else s in
  (s, pk_columns).

(** Lines 195-197: [primary_key] of each grouped table. *)
Definition assign_primary_keys (pk_columns : list (string * list string)) (s : SchemaData) : SchemaData :=
  fold_left (fun s '(t, cols) => dmodify t (set_primary_key cols) s) pk_columns s.

(** Lines 179-197: the loop, then the assignment of [primary_key]. *)
Definition primary_keys (rows : list KeyRow) (s : SchemaData) : SchemaData :=
  let '(s, pk_columns) := fold_left pk_row rows (s, []) in
  assign_primary_keys pk_columns s.

(** The body of the loop of [extract_foreign_keys] (lines 236-269). *)
Definition fk_row (s : SchemaData) (r : FkRow) : SchemaData :=
  let t := fr_table r in let c := fr_column r in let ft := fr_foreign_table r in
  if negb (dmem t s) || negb (dmem ft s) then s else
  let s := if has_column s t c
           then dmodify t (set_columns (dmodify c (set_column_fk (mkColumnForeignKey ft (fr_foreign_column r) (fr_constraint r))))) s
           else s in
  let s := dmodify t (add_foreign_key (mkForeignKey c ft (fr_foreign_column r) (fr_constraint r))) s in
  dmodify ft (add_reference (mkReference t c (fr_constraint r))) s.

(** The body of the loop of [extract_indexes] (lines 313-332), on the
    index's columns as a list. *)
Definition index_row (s : SchemaData) (r : IndexRow (list string)) : SchemaData :=
  let t := ir_table r in
  if negb (dmem t s) then s else
  let s := dmodify t (add_index (mkIndexInfo (ir_index r) (ir_columns r) (ir_unique r) (ir_primary r))) s in
  fold_left (fun s c => if has_column s t c then dmodify t (set_columns (dmodify c mark_indexed)) s else s)
            (ir_columns r) s.

(** MySQL's row (lines 618-626): [column_names_str.split(',')]. *)
Definition mysql_index_row (r : IndexRow string) : IndexRow (list string) :=
  mkIndexRow (ir_table r) (ir_index r) (split_on ","%char (ir_columns r)) (ir_unique r) (ir_primary r).

(** ** The extractors *)

(** The state of a run: the extractor's [schema_data], the content of
    [schema_data.json] once saved, and the connections open. *)
Record ExtractState := mkExtractState {
  schema_data : SchemaData;
  saved : option SchemaData;
  open_connections : nat
}.

Abbreviation X := (M ExtractState).

(** One method: [cur.execute(query)], then the loop over the rows; an
    exception is logged and re-raised. *)
Definition run_query {R} (q : result (list R)) (loop : list R -> SchemaData -> SchemaData) : X unit :=
  fun st => match q with
            | Ok rows => (Ok tt, mkExtractState (loop rows (schema_data st)) (saved st) (open_connections st))
            | Err e => (Err e, st)
            end.

Definition extract_tables {C} (conn : Connection C) : X unit :=
  run_query (tables_rows conn) (fun rows s => fold_left table_row rows s).
Definition extract_columns {C} (conn : Connection C) : X unit :=
  run_query (columns_rows conn) (fun rows s => fold_left column_row rows s).
Definition extract_primary_keys {C} (conn : Connection C) : X unit :=
  run_query (primary_key_rows conn) primary_keys.
Definition extract_foreign_keys {C} (conn : Connection C) : X unit :=
  run_query (foreign_key_rows conn) (fun rows s => fold_left fk_row rows s).
Definition pg_extract_indexes (conn : Connection (list string)) : X unit :=
  run_query (index_rows conn) (fun rows s => fold_left index_row rows s).
Definition mysql_extract_indexes (conn : Connection string) : X unit :=
  run_query (index_rows conn) (fun rows s => fold_left index_row (map mysql_index_row rows) s).

(** The other methods of [MySQLSchemaExtractor] (lines 377-591) run the
    loops of their PostgreSQL namesakes over the rows of
    [information_schema] for the database [SELECT DATABASE()] names. *)
Definition mysql_extract_tables (conn : Connection string) : X unit :=
  run_query (tables_rows conn) (fun rows s => fold_left table_row rows s).
Definition mysql_extract_columns (conn : Connection string) : X unit :=
  run_query (columns_rows conn) (fun rows s => fold_left column_row rows s).
Definition mysql_extract_primary_keys (conn : Connection string) : X unit :=
  run_query (primary_key_rows conn) primary_keys.
Definition mysql_extract_foreign_keys (conn : Connection string) : X unit :=
  run_query (foreign_key_rows conn) (fun rows s => fold_left fk_row rows s).

(** [save_schema_data] *)
Definition save_schema_data : X unit :=
  fun st => (Ok tt, mkExtractState (schema_data st) (Some (schema_data st)) (open_connections st)).

(** The constructors' [self.schema_data = {'tables': {}}] (lines 18-24
    and 350-355). *)
Definition init_extractor : X unit :=
  fun st => (Ok tt, mkExtractState [] (saved st) (open_connections st)).

(** [PostgreSQLSchemaExtractor.extract_all] (lines 26-36) *)
Definition pg_extract_all (conn : Connection (list string)) : X SchemaData :=
  extract_tables conn ;;; extract_columns conn ;;; extract_primary_keys conn ;;;
  extract_foreign_keys conn ;;; pg_extract_indexes conn ;;; save_schema_data ;;;
  (fun st => (Ok (schema_data st), st)).

(** [MySQLSchemaExtractor.extract_all] (lines 365-375) *)
Definition mysql_extract_all (conn : Connection string) : X SchemaData :=
  mysql_extract_tables conn ;;; mysql_extract_columns conn ;;; mysql_extract_primary_keys conn ;;;
  mysql_extract_foreign_keys conn ;;; mysql_extract_indexes conn ;;; save_schema_data ;;;
  (fun st => (Ok (schema_data st), st)).

(** Whether all five queries of a connection answer. *)
Definition all_answered {C} (conn : Connection C) : bool :=
  match tables_rows conn, columns_rows conn, primary_key_rows conn, foreign_key_rows conn, index_rows conn with
  | Ok _, Ok _, Ok _, Ok _, Ok _ => true
  | _, _, _, _, _ => false
  end.

(** ** Connecting *)

Inductive Dialect := PostgreSQL | MySQL.

(** The database server: whether the driver's [connect] succeeds,
    whether the statements run on the new connection ([SET search_path],
    [USE], [SELECT version()]) succeed, and the answers of the catalogue
    queries, which for MySQL depend on [SELECT DATABASE()]. *)
Record Server := mkServer {
  connect_ok : Dialect -> bool;
  session_ok : Dialect -> bool;
  pg_answers : Connection (list string);
  mysql_database : result (option string);
  mysql_answers : option string -> Connection string
}.

(** [connect_by_params] (db_connection.py, lines 83-142): a connection
    whose later statement fails is closed before the exception goes on. *)
Definition connect_by_params (srv : Server) (db_type : string) : X Dialect :=
  fun st =>
    let d := if String.eqb db_type "postgresql" then Some PostgreSQL
             else if String.eqb db_type "mysql" then Some MySQL else None in
    match d with
    | None => (Err ("Unsupported database type: " +:+ db_type), st)
    | Some d =>
        if negb (connect_ok srv d) then (Err "Connection error", st)
        else if negb (session_ok srv d) then (Err "Connection error", st)
        else (Ok d, mkExtractState (schema_data st) (saved st) (S (open_connections st)))
    end.

(** [MySQLSchemaExtractor.__init__] (lines 350-363): [SELECT DATABASE()]. *)
Definition mysql_extractor (srv : Server) : X (Connection string) :=
  init_extractor ;;;
  fun st => match mysql_database srv with
            | Ok db => (Ok (mysql_answers srv db), st)
            | Err e => (Err e, st)
            end.

Definition close_connection : X unit :=
  fun st => (Ok tt, mkExtractState (schema_data st) (saved st) (pred (open_connections st))).

(** [extract_schema_to_json] (lines 655-678), from a fresh extractor:
    the connection is closed only when the extraction succeeds. *)
Definition extract_schema_to_json (srv : Server) (db_type : string) : X SchemaData :=
  let* d := connect_by_params srv db_type in
  let* schema := (if String.eqb db_type "postgresql" then init_extractor ;;; pg_extract_all (pg_answers srv)
                  else if String.eqb db_type "mysql" then
                    let* conn := mysql_extractor srv in mysql_extract_all conn
                  else raise ("Unsupported database type: " +:+ db_type)) in
  close_connection ;;;
  ret schema.

(** ** What the extraction computes *)

(** The five loops of [extract_all], on the rows of the five queries. *)
Definition schema_of (tables : list TableRow) (cols : list ColumnRow) (pks : list KeyRow) (fks : list FkRow)
    (idxs : list (IndexRow (list string))) : SchemaData :=
  fold_left index_row idxs (fold_left fk_row fks (primary_keys pks (fold_left column_row cols (fold_left table_row tables [])))).

(** The primary-key flag and the index flag of a column, as the table
    shows them. *)
Definition pk_flag (ti : TableInfo) (c : string) : option bool := is_primary_key <$> dget c (columns ti).
Definition index_flag (ti : TableInfo) (c : string) : option bool := has_index <$> dget c (columns ti).

(** A column is flagged [is_primary_key] exactly when it is in the
    table's [primary_key]. *)
Definition pk_consistent (ti : TableInfo) : Prop :=
  forall c b, pk_flag ti c = Some b -> (b = true <-> exists pk, primary_key ti = Some pk /\ In c pk).

(** A column is flagged [has_index] exactly when an index of the table
    covers it. *)
Definition index_consistent (ti : TableInfo) : Prop :=
  forall c b, index_flag ti c = Some b -> (b = true <-> exists i, In i (indexes ti) /\ In c (idx_columns i)).

(** The foreign keys as edges [(table, column, referenced table,
    constraint)], read from the [foreign_keys] lists and from the
    [referenced_by] lists. *)
Definition fk_edges (s : SchemaData) : list (string * string * string * string) :=
  flat_map (fun '(t, ti) => map (fun fk => (t, fk_column fk, ref_table fk, constraint_name fk)) (foreign_keys ti)) s.
Definition ref_edges (s : SchemaData) : list (string * string * string * string) :=
  flat_map (fun '(x, ti) => map (fun r => (rb_table r, rb_column r, x, via_foreign_key r)) (referenced_by ti)) s.

(** A table as [extract_columns] leaves it: no key, index or reference,
    no column flagged. *)
Definition unannotated (ti : TableInfo) : Prop :=
  primary_key ti = None /\ foreign_keys ti = [] /\ indexes ti = [] /\ referenced_by ti = [] /\
  forall c b, pk_flag ti c = Some b \/ index_flag ti c = Some b -> b = false.

Lemma tables_unannotated rows s :
  dall (fun _ => unannotated) s -> dall (fun _ => unannotated) (fold_left table_row rows s).
Proof.
  revert s. induction rows as [|r rows IH]; intros s Hs; cbn; [done|]. apply IH, dall_dset; [done|].
  unfold unannotated, pk_flag, index_flag; cbn. repeat split; intros ? ? [?|?]; done.
Qed.

Lemma columns_unannotated rows s :
  dall (fun _ => unannotated) s -> dall (fun _ => unannotated) (fold_left column_row rows s).
Proof.
  revert s. induction rows as [|r rows IH]; intros s Hs; cbn; [done|]. apply IH.
  unfold column_row. destruct (dmem (cr_table r) s); cbn; [|done].
  eapply dall_dmodify; [exact Hs| |done]. intros ti _ (H1 & H2 & H3 & H4 & H5).
  unfold unannotated, pk_flag, index_flag in *; cbn. repeat split; try done.
  intros c b. rewrite !dget_dset. destruct (String.eqb c (cr_column r)); [intros [[= <-]|[= <-]]; done|apply H5].
Qed.

(** The grouping loop of [extract_primary_keys]: the flags follow the
    grouped columns. *)
Definition pk_loop_inv (acc : SchemaData * list (string * list string)) : Prop :=
  NoDup (dkeys acc.2) /\
  dall (fun t ti => primary_key ti = None /\
          forall c b, pk_flag ti c = Some b -> (b = true <-> In c (default [] (dget t acc.2)))) acc.1.

Lemma pk_row_inv acc r : pk_loop_inv acc -> pk_loop_inv (pk_row acc r).
Proof.
  destruct acc as [s P]. unfold pk_row. destruct (dmem (kr_table r) s) eqn:Ht; cbn; [|done].
  intros [HP Hs]. split; [by apply dkeys_dset_NoDup|]. cbn.
  assert (Hdef : forall t, default [] (dget t (dappend (kr_table r) (kr_column r) P)) =
                  if String.eqb t (kr_table r) then (default [] (dget t P) ++ [kr_column r])%list else default [] (dget t P)).
  { intros t. unfold dappend. rewrite dget_dset. destruct (String.eqb_spec t (kr_table r)) as [->|]; done. }
  destruct (has_column s (kr_table r) (kr_column r)) eqn:Hc.
  - eapply dall_dmodify; [exact Hs| |].
    + intros ti Hti [Hpk Hf]. split; [done|]. intros c b. rewrite Hdef, String.eqb_refl, in_app_iff. cbn.
      unfold pk_flag; cbn. rewrite dget_dmodify. destruct (String.eqb_spec c (kr_column r)) as [->|Hne].
      * unfold has_column in Hc. rewrite Hti in Hc. destruct (dget (kr_column r) (columns ti)); [|done].
        intros [= <-]. cbn. tauto.
      * intros Hb. rewrite (Hf c b Hb). intuition congruence.
    + intros t ti Hne [Hpk Hf]. split; [done|]. intros c b Hb. rewrite Hdef. apply String.eqb_neq in Hne. rewrite Hne. auto.
  - intros t ti Hti. destruct (Hs t ti Hti) as [Hpk Hf]. split; [done|]. intros c b Hb. rewrite Hdef.
    destruct (String.eqb_spec t (kr_table r)) as [->|]; [|auto].
    rewrite (Hf c b Hb), in_app_iff. cbn. unfold has_column, dmem in Hc. rewrite Hti in Hc.
    unfold pk_flag in Hb. destruct (String.eqb_spec c (kr_column r)) as [->|]; [|intuition congruence].
    by destruct (dget (kr_column r) (columns ti)).
Qed.

Lemma pk_loop_inv_fold rows acc : pk_loop_inv acc -> pk_loop_inv (fold_left pk_row rows acc).
Proof. revert acc. induction rows as [|r rows IH]; intros acc H; cbn; [done|]. by apply IH, pk_row_inv. Qed.

Lemma assign_primary_keys_dget P s t :
  NoDup (dkeys P) ->
  dget t (assign_primary_keys P s) = (match dget t P with Some cols => set_primary_key cols | None => id end) <$> dget t s.
Proof.
  unfold assign_primary_keys. revert s. induction P as [|[t0 c0] P IH]; intros s Hnd; cbn.
  - by destruct (dget t s).
  - apply NoDup_cons in Hnd as [Hn Hnd]. rewrite IH by done. rewrite dget_dmodify.
    destruct (String.eqb_spec t t0) as [->|Hne]; [|done].
    rewrite (proj2 (dget_None t0 P)) by (intros Hin; apply Hn, list_elem_of_In, Hin). by destruct (dget t0 s).
Qed.

(** The keys of the tables never change after [extract_tables]. *)
Lemma pk_row_keys acc r : dkeys (pk_row acc r).1 = dkeys acc.1.
Proof.
  destruct acc as [s P]. unfold pk_row. destruct (dmem (kr_table r) s); cbn [fst snd negb]; [|done].
  destruct (has_column s (kr_table r) (kr_column r)); cbn [fst]; by rewrite ?dkeys_dmodify.
Qed.

Lemma primary_keys_keys rows s : dkeys (primary_keys rows s) = dkeys s.
Proof.
  unfold primary_keys.
  assert (H : forall acc, dkeys (fold_left pk_row rows acc).1 = dkeys acc.1).
  { induction rows as [|r rows IH]; intros acc; cbn [fold_left]; [done|]. by rewrite IH, pk_row_keys. }
  specialize (H (s, [])). destruct (fold_left pk_row rows (s, [])) as [s' P]. cbn [fst] in H. rewrite <-H.
  unfold assign_primary_keys. clear H. revert s'. induction P as [|[t c] P IH]; intros s'; cbn [fold_left]; [done|].
  by rewrite IH, dkeys_dmodify.
Qed.

Lemma pk_flag_set_columns ti c g c' :
  (forall x, is_primary_key (g x) = is_primary_key x) -> pk_flag (set_columns (dmodify c g) ti) c' = pk_flag ti c'.
Proof. intros Hg. unfold pk_flag. cbn. by apply dget_dmodify_view. Qed.

Lemma index_flag_set_columns ti c g c' :
  (forall x, has_index (g x) = has_index x) -> index_flag (set_columns (dmodify c g) ti) c' = index_flag ti c'.
Proof. intros Hg. unfold index_flag. cbn. by apply dget_dmodify_view. Qed.

(** A table as [extract_primary_keys] leaves it, apart from its keys. *)
Definition unindexed (ti : TableInfo) : Prop :=
  indexes ti = [] /\ foreign_keys ti = [] /\ referenced_by ti = [] /\ forall c b, index_flag ti c = Some b -> b = false.

Lemma pk_row_unindexed rows acc :
  dall (fun _ => unindexed) acc.1 -> dall (fun _ => unindexed) (fold_left pk_row rows acc).1.
Proof.
  revert acc. induction rows as [|r rows IH]; intros [s P] Hs; cbn [fold_left]; [done|]. apply IH.
  unfold pk_row. destruct (dmem (kr_table r) s); cbn [negb fst]; [|done].
  destruct (has_column s (kr_table r) (kr_column r)); cbn [fst]; [|done].
  eapply dall_dmodify; [exact Hs| |done]. intros ti _ (H1 & H2 & H3 & H4).
  repeat split; try done. intros c b. rewrite index_flag_set_columns by done. apply H4.
Qed.

(** After [extract_primary_keys], a column is flagged exactly when it
    is in the table's [primary_key]; no table has an index, a foreign
    key or a reference yet. *)
Lemma primary_keys_consistent rows (s : SchemaData) :
  dall (fun _ => unannotated) s -> dall (fun _ ti => pk_consistent ti /\ unindexed ti) (primary_keys rows s).
Proof.
  intros Hs. unfold primary_keys.
  assert (Hinv : pk_loop_inv (fold_left pk_row rows (s, []))).
  { apply pk_loop_inv_fold. split; [constructor|]. intros t ti Hti.
    destruct (Hs t ti Hti) as (Hpk & _ & _ & _ & Hf). split; [done|].
    intros c b Hb. rewrite (Hf c b (or_introl Hb)). cbn. split; [done|intros []]. }
  assert (Hrest : dall (fun _ => unindexed) (fold_left pk_row rows (s, [])).1).
  { apply pk_row_unindexed. intros t ti Hti. destruct (Hs t ti Hti) as (_ & H2 & H3 & H4 & H5).
    repeat split; try done. intros c b Hb. exact (H5 c b (or_intror Hb)). }
  destruct (fold_left pk_row rows (s, [])) as [s' P]. destruct Hinv as [HP Hs']. cbn [fst snd] in *.
  intros t ti. rewrite assign_primary_keys_dget by done.
  destruct (dget t s') as [ti0|] eqn:E; [|done]. intros Heq.
  destruct (Hs' t ti0 E) as [Hpk Hf]. destruct (Hrest t ti0 E) as (Hi & Hfk & Hr & Hix).
  destruct (dget t P) as [cols|] eqn:EP; cbn in Heq; injection Heq as <-.
  - split; [|done]. intros c b Hb. rewrite (Hf c b Hb). cbn.
    split; [eauto|intros (pk & [= <-] & H); done].
  - split; [|done]. intros c b Hb. rewrite (Hf c b Hb), Hpk. cbn. split; [done|intros (? & ? & _); done].
Qed.

(** ** The foreign-key loop *)

(** Every table's [foreign_keys] and [referenced_by] describe the same
    edges, whose two ends are tables of the dict. *)
Definition fk_inv (keys : list string) (s : SchemaData) : Prop :=
  dkeys s = keys /\ Permutation (fk_edges s) (ref_edges s) /\
  (forall e, In e (fk_edges s) -> In e.1.1.1 keys /\ In e.1.2 keys).

Lemma fk_row_dall (Q : TableInfo -> Prop) s r :
  (forall ti c x, Q ti -> Q (set_columns (dmodify c (set_column_fk x)) ti)) ->
  (forall ti fk, Q ti -> Q (add_foreign_key fk ti)) -> (forall ti rf, Q ti -> Q (add_reference rf ti)) ->
  dall (fun _ => Q) s -> dall (fun _ => Q) (fk_row s r).
Proof.
  intros H1 H2 H3 Hs. unfold fk_row. destruct (_ || _); [done|].
  apply (dall_dmodify (fun _ => Q)); [|intros; auto|done]. apply (dall_dmodify (fun _ => Q)); [|intros; auto|done].
  destruct (has_column _ _ _); [|done]. apply (dall_dmodify (fun _ => Q)); [done|intros; auto|done].
Qed.

Lemma fk_row_inv keys s r : fk_inv keys s -> fk_inv keys (fk_row s r).
Proof.
  intros (Hk & Hp & Hi). unfold fk_row.
  destruct (dmem (fr_table r) s) eqn:Ht, (dmem (fr_foreign_table r) s) eqn:Hft; cbn [negb orb]; try done.
  apply dmem_true in Ht, Hft.
  set (s1 := if has_column s (fr_table r) (fr_column r)
             then dmodify (fr_table r) (set_columns (dmodify (fr_column r)
                    (set_column_fk (mkColumnForeignKey (fr_foreign_table r) (fr_foreign_column r) (fr_constraint r))))) s
             else s).
  assert (Hs1 : dkeys s1 = dkeys s /\ fk_edges s1 = fk_edges s /\ ref_edges s1 = ref_edges s).
  { subst s1. destruct (has_column _ _ _); [|done]. rewrite dkeys_dmodify.
    split; [done|]. split; apply flat_map_dmodify_same; done. }
  destruct Hs1 as (Hk1 & Hf1 & Hr1).
  set (e := (fr_table r, fr_column r, fr_foreign_table r, fr_constraint r)).
  set (s2 := dmodify (fr_table r) (add_foreign_key (mkForeignKey (fr_column r) (fr_foreign_table r) (fr_foreign_column r) (fr_constraint r))) s1).
  assert (Hf2 : Permutation (fk_edges s2) (fk_edges s1 ++ [e])%list).
  { apply flat_map_dmodify_add; [by rewrite Hk1|]. intros v. cbn. by rewrite map_app. }
  assert (Hr2 : ref_edges s2 = ref_edges s1) by (apply flat_map_dmodify_same; done).
  assert (Hk2 : dkeys s2 = dkeys s) by (subst s2; by rewrite dkeys_dmodify).
  assert (Hf3 : fk_edges (dmodify (fr_foreign_table r) (add_reference (mkReference (fr_table r) (fr_column r) (fr_constraint r))) s2) = fk_edges s2)
    by (apply flat_map_dmodify_same; done).
  assert (Hr3 : Permutation (ref_edges (dmodify (fr_foreign_table r) (add_reference (mkReference (fr_table r) (fr_column r) (fr_constraint r))) s2)) (ref_edges s2 ++ [e])%list).
  { apply flat_map_dmodify_add; [by rewrite Hk2|]. intros v. cbn. by rewrite map_app. }
  split; [by rewrite dkeys_dmodify, Hk2|]. rewrite Hf3. split.
  - rewrite Hf2, Hr3, Hr2, Hf1, Hr1. by apply Permutation_app_tail.
  - intros e' He'. apply (Permutation_in _ Hf2) in He'. rewrite Hf1 in He'.
    apply in_app_iff in He' as [He|[<-|[]]]; [auto|]. rewrite <-Hk. cbn. done.
Qed.

Lemma fk_loop_inv keys rows s : fk_inv keys s -> fk_inv keys (fold_left fk_row rows s).
Proof. revert s. induction rows as [|r rows IH]; intros s H; cbn [fold_left]; [done|]. by apply IH, fk_row_inv. Qed.

Lemma fk_loop_dall (Q : TableInfo -> Prop) rows s :
  (forall ti c x, Q ti -> Q (set_columns (dmodify c (set_column_fk x)) ti)) ->
  (forall ti fk, Q ti -> Q (add_foreign_key fk ti)) -> (forall ti rf, Q ti -> Q (add_reference rf ti)) ->
  dall (fun _ => Q) s -> dall (fun _ => Q) (fold_left fk_row rows s).
Proof.
  intros H1 H2 H3. revert s. induction rows as [|r rows IH]; intros s H; cbn [fold_left]; [done|].
  by apply IH, fk_row_dall.
Qed.

(** ** The index loop *)

(** The marking loop of one index (lines 329-332). *)
Definition mark_columns (t : string) (cols : list string) (s : SchemaData) : SchemaData :=
  fold_left (fun s c => if has_column s t c then dmodify t (set_columns (dmodify c mark_indexed)) s else s) cols s.

Lemma index_row_unfold s r :
  index_row s r = if negb (dmem (ir_table r) s) then s
                  else mark_columns (ir_table r) (ir_columns r)
                         (dmodify (ir_table r) (add_index (mkIndexInfo (ir_index r) (ir_columns r) (ir_unique r) (ir_primary r))) s).
Proof. reflexivity. Qed.

Lemma mark_columns_dall (Q : TableInfo -> Prop) t cols s :
  (forall ti c, Q ti -> Q (set_columns (dmodify c mark_indexed) ti)) ->
  dall (fun _ => Q) s -> dall (fun _ => Q) (mark_columns t cols s).
Proof.
  intros HQ. unfold mark_columns. revert s. induction cols as [|c cols IH]; intros s Hs; cbn [fold_left]; [done|].
  apply IH. destruct (has_column s t c); [|done]. apply (dall_dmodify (fun _ => Q)); [done|intros; auto|done].
Qed.

Lemma index_row_dall (Q : TableInfo -> Prop) s r :
  (forall ti c, Q ti -> Q (set_columns (dmodify c mark_indexed) ti)) -> (forall ti i, Q ti -> Q (add_index i ti)) ->
  dall (fun _ => Q) s -> dall (fun _ => Q) (index_row s r).
Proof.
  intros H1 H2 Hs. rewrite index_row_unfold. destruct (negb _); [done|].
  apply mark_columns_dall; [done|]. apply (dall_dmodify (fun _ => Q)); [done|intros; auto|done].
Qed.

Lemma mark_columns_keys_edges t cols s :
  dkeys (mark_columns t cols s) = dkeys s /\ fk_edges (mark_columns t cols s) = fk_edges s /\
  ref_edges (mark_columns t cols s) = ref_edges s.
Proof.
  unfold mark_columns. revert s. induction cols as [|c cols IH]; intros s; cbn [fold_left]; [done|]. cbv beta.
  edestruct IH as (-> & -> & ->).
  destruct (has_column s t c); [|done]. rewrite dkeys_dmodify. split; [done|]. split; by apply flat_map_dmodify_same.
Qed.

Lemma index_row_fk_inv keys s r : fk_inv keys s -> fk_inv keys (index_row s r).
Proof.
  intros H. rewrite index_row_unfold. destruct (negb _); [done|]. destruct H as (Hk & Hp & Hi). unfold fk_inv.
  destruct (mark_columns_keys_edges (ir_table r) (ir_columns r)
     (dmodify (ir_table r) (add_index (mkIndexInfo (ir_index r) (ir_columns r) (ir_unique r) (ir_primary r))) s)) as (-> & -> & ->).
  set (ix := add_index (mkIndexInfo (ir_index r) (ir_columns r) (ir_unique r) (ir_primary r))).
  assert (E1 : fk_edges (dmodify (ir_table r) ix s) = fk_edges s) by (apply flat_map_dmodify_same; done).
  assert (E2 : ref_edges (dmodify (ir_table r) ix s) = ref_edges s) by (apply flat_map_dmodify_same; done).
  by rewrite dkeys_dmodify, E1, E2.
Qed.

(** The index flags are right up to the columns [extra] still to mark. *)
Definition index_upto (extra : list string) (ti : TableInfo) : Prop :=
  forall c b, index_flag ti c = Some b -> (b = true \/ In c extra <-> exists i, In i (indexes ti) /\ In c (idx_columns i)).

Lemma mark_columns_upto t cols s :
  dall (fun t' ti => if String.eqb t' t then index_upto cols ti else index_consistent ti) s ->
  dall (fun t' ti => index_consistent ti) (mark_columns t cols s).
Proof.
  unfold mark_columns. revert s. induction cols as [|c cols IH]; intros s Hs; cbn [fold_left].
  - intros t' ti Hti. specialize (Hs t' ti Hti). cbv beta in Hs. destruct (String.eqb t' t); [|exact Hs].
    intros c b Hb. rewrite <-(Hs c b Hb). cbn. tauto.
  - apply IH. destruct (has_column s t c) eqn:Hc.
    + eapply (dall_dmodify (fun t' ti => if String.eqb t' t then index_upto (c :: cols) ti else index_consistent ti)
                           (fun t' ti => if String.eqb t' t then index_upto cols ti else index_consistent ti) t);
        [exact Hs| |].
      * intros ti Hti Hup. rewrite String.eqb_refl in Hup |- *. intros c' b.
        unfold index_flag; cbn. rewrite dget_dmodify. destruct (String.eqb_spec c' c) as [->|Hne].
        -- unfold has_column, dmem in Hc. rewrite Hti in Hc. destruct (dget c (columns ti)) as [ci|] eqn:E; [|done].
           intros [= <-]. cbn. rewrite <-(Hup c (has_index ci)) by (unfold index_flag; by rewrite E). cbn. tauto.
        -- intros Hb. rewrite <-(Hup c' b Hb). cbn. intuition congruence.
      * intros t' ti Hne. apply String.eqb_neq in Hne. rewrite Hne. auto.
    + intros t' ti Hti. specialize (Hs t' ti Hti). cbv beta in Hs |- *.
      destruct (String.eqb_spec t' t) as [->|]; [|exact Hs].
      intros c' b Hb. rewrite <-(Hs c' b Hb). cbn. unfold has_column, dmem in Hc. rewrite Hti in Hc.
      unfold index_flag in Hb. destruct (String.eqb_spec c' c) as [->|]; [|intuition congruence].
      by destruct (dget c (columns ti)).
Qed.

Lemma index_row_consistent s r :
  dall (fun _ => index_consistent) s -> dall (fun _ => index_consistent) (index_row s r).
Proof.
  intros Hs. rewrite index_row_unfold. destruct (negb _); [done|]. apply mark_columns_upto.
  eapply (dall_dmodify (fun _ => index_consistent)); [exact Hs| |].
  - intros ti _ Hti. rewrite String.eqb_refl. intros c b Hb. pose proof (Hti c b Hb) as Hc. cbn [indexes add_index].
    split.
    + intros [Hbt|Hin].
      * destruct (proj1 Hc Hbt) as (i' & Hi' & Hc'). exists i'. rewrite in_app_iff. auto.
      * eexists. rewrite in_app_iff. split; [right; left; reflexivity|exact Hin].
    + intros (i' & Hi' & Hc'). apply in_app_iff in Hi' as [Hi'|[<-|[]]]; [left; apply Hc; eauto|right; exact Hc'].
  - intros t' ti Hne Hti. apply String.eqb_neq in Hne. by rewrite Hne.
Qed.

(** ** The whole extraction *)

Lemma tables_keys rows (s : SchemaData) : NoDup (dkeys s) -> NoDup (dkeys (fold_left table_row rows s)).
Proof. revert s. induction rows as [|r rows IH]; intros s H; cbn [fold_left]; [done|]. by apply IH, dkeys_dset_NoDup. Qed.

Lemma columns_keys rows (s : SchemaData) : dkeys (fold_left column_row rows s) = dkeys s.
Proof.
  revert s. induction rows as [|r rows IH]; intros s; cbn [fold_left]; [done|]. rewrite IH.
  unfold column_row. destruct (negb _); [done|]. apply dkeys_dmodify.
Qed.

Lemma unindexed_no_edges (s : SchemaData) :
  NoDup (dkeys s) -> dall (fun _ => unindexed) s -> fk_edges s = [] /\ ref_edges s = [].
Proof.
  intros Hnd Hs. unfold fk_edges, ref_edges.
  assert (H : forall t ti, In (t, ti) s -> foreign_keys ti = [] /\ referenced_by ti = []).
  { intros t ti Hin. destruct (dall_In _ _ _ _ Hnd Hs Hin) as (_ & H1 & H2 & _). done. }
  clear Hs Hnd. induction s as [|[t ti] s IH]; [done|]. cbn.
  destruct (H t ti (or_introl eq_refl)) as [-> ->]. apply IH. intros; apply (H t0 ti0); by right.
Qed.

Lemma pk_consistent_ext ti ti' :
  pk_consistent ti -> (forall c, pk_flag ti' c = pk_flag ti c) -> primary_key ti' = primary_key ti -> pk_consistent ti'.
Proof. intros H Hf Hp c b. rewrite Hf, Hp. apply H. Qed.

(** A table without index and without a flagged column. *)
Definition no_index (ti : TableInfo) : Prop := indexes ti = [] /\ forall c b, index_flag ti c = Some b -> b = false.

Lemma no_index_consistent ti : no_index ti -> index_consistent ti.
Proof. intros [Hi Hf] c b Hb. rewrite (Hf c b Hb), Hi. split; [done|]. by intros (? & [] & _). Qed.

Lemma fk_loop_pk_index rows s :
  dall (fun _ ti => pk_consistent ti /\ no_index ti) s ->
  dall (fun _ ti => pk_consistent ti /\ no_index ti) (fold_left fk_row rows s).
Proof.
  apply fk_loop_dall.
  - intros ti c x [Hpk [Hi Hf]]. split; [apply (pk_consistent_ext ti); [done| |done]; intros; by apply pk_flag_set_columns|].
    split; [done|]. intros c' b. rewrite index_flag_set_columns by done. apply Hf.
  - intros ti fk [Hpk [Hi Hf]]. exact (conj Hpk (conj Hi Hf)).
  - intros ti rf [Hpk [Hi Hf]]. exact (conj Hpk (conj Hi Hf)).
Qed.

Lemma index_loop_pk rows s :
  dall (fun _ => pk_consistent) s -> dall (fun _ => pk_consistent) (fold_left index_row rows s).
Proof.
  apply fold_left_inv. intros s' r. apply index_row_dall.
  - intros ti c Hpk. apply (pk_consistent_ext ti); [done| |done]. intros; by apply pk_flag_set_columns.
  - intros ti i Hpk. by apply (pk_consistent_ext ti).
Qed.

(** The schema the five loops build is consistent: its tables are
    those of the first query, each foreign key is recorded once in its
    table's [foreign_keys] and once in the referenced table's
    [referenced_by], between two extracted tables, and the column flags
    [is_primary_key] and [has_index] agree with the tables'
    [primary_key] and [indexes]. *)
(** The foreign-key edges of an extracted schema, seen from both ends. *)
Lemma schema_of_fk_inv tables cols pks fks idxs :
  fk_inv (dkeys (fold_left table_row tables [])) (schema_of tables cols pks fks idxs).
Proof.
  unfold schema_of.
  set (s0 := fold_left table_row tables []).
  set (s2 := primary_keys pks (fold_left column_row cols s0)).
  assert (Hnd0 : NoDup (dkeys s0)) by (apply tables_keys; constructor).
  assert (Hk2 : dkeys s2 = dkeys s0) by (subst s2; by rewrite primary_keys_keys, columns_keys).
  assert (Hp2 : dall (fun _ ti => pk_consistent ti /\ unindexed ti) s2).
  { apply primary_keys_consistent, columns_unannotated, tables_unannotated, dall_nil. }
  apply (fold_left_inv (fk_inv (dkeys s0)) index_row idxs); [intros; by apply index_row_fk_inv|]. apply fk_loop_inv.
  unfold fk_inv. destruct (unindexed_no_edges s2) as [-> ->]; [by rewrite Hk2|by eapply dall_impl; [exact Hp2|]; intros ? ? []|].
  split; [done|]. split; [done|]. intros e [].
Qed.

(** C11: The dict built by the five extraction loops has one entry per
    table row and no duplicate key; its foreign keys and the references
    they add to the referenced tables correspond one to one and name
    tables of the dict; every table keeps [primary_key] and the
    [is_primary_key] and [is_indexed] flags of its columns consistent. *)
Theorem extracted_schema_consistent tables cols pks fks idxs :
  let s := schema_of tables cols pks fks idxs in
  dkeys s = dkeys (fold_left table_row tables []) /\ NoDup (dkeys s) /\
  Permutation (fk_edges s) (ref_edges s) /\
  (forall e, In e (fk_edges s) -> In e.1.1.1 (dkeys s) /\ In e.1.2 (dkeys s)) /\
  dall (fun _ ti => pk_consistent ti /\ index_consistent ti) s.
Proof.
  cbv zeta. pose proof (schema_of_fk_inv tables cols pks fks idxs) as Hinv. unfold schema_of in *.
  set (s0 := fold_left table_row tables []) in *.
  set (s2 := primary_keys pks (fold_left column_row cols s0)) in *.
  set (s3 := fold_left fk_row fks s2) in *.
  assert (Hnd0 : NoDup (dkeys s0)) by (apply tables_keys; constructor).
  assert (Hk2 : dkeys s2 = dkeys s0) by (subst s2; by rewrite primary_keys_keys, columns_keys).
  assert (Hp2 : dall (fun _ ti => pk_consistent ti /\ unindexed ti) s2).
  { apply primary_keys_consistent, columns_unannotated, tables_unannotated, dall_nil. }
  assert (Hq3 : dall (fun _ ti => pk_consistent ti /\ no_index ti) s3).
  { apply fk_loop_pk_index. eapply dall_impl; [exact Hp2|]. intros _ ti (Hpk & Hi & _ & _ & Hf). done. }
  destruct Hinv as (Hk & Hp & Hi). rewrite Hk. split; [done|]. split; [done|]. split; [done|]. split; [done|].
  apply dall_and.
  - apply index_loop_pk. eapply dall_impl; [exact Hq3|]. by intros ? ? [].
  - apply (fold_left_inv (dall (fun _ => index_consistent)) index_row idxs s3); [intros; by apply index_row_consistent|].
    eapply dall_impl; [exact Hq3|]. intros ? ? [_ H]. by apply no_index_consistent.
Qed.

(** ** The extractors *)

(** A run of the five methods from a state whose dict is [s0]: the dict
    of [schema_of], saved, when every query answers; an exception and
    nothing saved otherwise. *)
Lemma extract_steps {C} (idx : list (IndexRow C) -> list (IndexRow (list string))) (conn : Connection C) st :
  let run := (extract_tables conn ;;; extract_columns conn ;;; extract_primary_keys conn ;;;
              extract_foreign_keys conn ;;;
              run_query (index_rows conn) (fun rows s => fold_left index_row (idx rows) s) ;;; save_schema_data ;;;
              (fun st => (Ok (schema_data st), st))) in
  schema_data st = [] ->
  match tables_rows conn, columns_rows conn, primary_key_rows conn, foreign_key_rows conn, index_rows conn with
  | Ok ts, Ok cs, Ok ps, Ok fs, Ok xs =>
      let s := schema_of ts cs ps fs (idx xs) in run st = (Ok s, mkExtractState s (Some s) (open_connections st))
  | _, _, _, _, _ => exists e st', run st = (Err e, st') /\ saved st' = saved st /\ open_connections st' = open_connections st
  end.
Proof.
  intros run Hs. subst run. destruct st as [s0 sv oc]; cbn in Hs; subst s0.
  unfold extract_tables, extract_columns, extract_primary_keys, extract_foreign_keys, run_query, bind.
  destruct (tables_rows conn), (columns_rows conn), (primary_key_rows conn), (foreign_key_rows conn), (index_rows conn);
    cbn; eauto.
Qed.

(** The run of [extract_schema_to_json(..., 'postgresql')] on a working
    connection whose five catalogue queries answer. *)
Lemma pg_extract_run srv st ts cs ps fs xs :
  connect_ok srv PostgreSQL = true -> session_ok srv PostgreSQL = true ->
  tables_rows (pg_answers srv) = Ok ts -> columns_rows (pg_answers srv) = Ok cs ->
  primary_key_rows (pg_answers srv) = Ok ps -> foreign_key_rows (pg_answers srv) = Ok fs -> index_rows (pg_answers srv) = Ok xs ->
  let s := schema_of ts cs ps fs xs in
  extract_schema_to_json srv "postgresql" st = (Ok s, mkExtractState s (Some s) (open_connections st)).
Proof.
  intros Hc Hs E1 E2 E3 E4 E5.
  unfold extract_schema_to_json, connect_by_params, pg_extract_all, pg_extract_indexes, extract_tables, extract_columns,
    extract_primary_keys, extract_foreign_keys, run_query, save_schema_data, init_extractor, close_connection, bind, ret.
  cbn. rewrite Hc, Hs, E1, E2, E3, E4, E5. reflexivity.
Qed.

Lemma mysql_extract_run srv st db ts cs ps fs xs :
  connect_ok srv MySQL = true -> session_ok srv MySQL = true -> mysql_database srv = Ok db ->
  tables_rows (mysql_answers srv db) = Ok ts -> columns_rows (mysql_answers srv db) = Ok cs ->
  primary_key_rows (mysql_answers srv db) = Ok ps -> foreign_key_rows (mysql_answers srv db) = Ok fs ->
  index_rows (mysql_answers srv db) = Ok xs ->
  let s := schema_of ts cs ps fs (map mysql_index_row xs) in
  extract_schema_to_json srv "mysql" st = (Ok s, mkExtractState s (Some s) (open_connections st)).
Proof.
  intros Hc Hs Hdb E1 E2 E3 E4 E5.
  unfold extract_schema_to_json, connect_by_params, mysql_extractor, mysql_extract_all, mysql_extract_indexes,
    mysql_extract_tables, mysql_extract_columns, mysql_extract_primary_keys, mysql_extract_foreign_keys, run_query,
    save_schema_data, init_extractor, close_connection, bind, ret.
  cbn. rewrite Hc, Hs, Hdb. cbn. rewrite E1, E2, E3, E4, E5. reflexivity.
Qed.

(** Every catalogue query answers exactly when [all_answered] says so. *)
Lemma all_answered_rows {C} (conn : Connection C) :
  all_answered conn = true -> exists ts cs ps fs xs,
    tables_rows conn = Ok ts /\ columns_rows conn = Ok cs /\ primary_key_rows conn = Ok ps /\
    foreign_key_rows conn = Ok fs /\ index_rows conn = Ok xs.
Proof.
  unfold all_answered. destruct (tables_rows _) as [ts|], (columns_rows _) as [cs|], (primary_key_rows _) as [ps|],
    (foreign_key_rows _) as [fs|], (index_rows _) as [xs|]; try done. intros _. by exists ts, cs, ps, fs, xs.
Qed.

(** C12: [extract_schema_to_json(..., 'postgresql')]: with a working
    connection and five answers, the dict of [schema_of], saved, and the
    connection closed again. *)
Theorem extract_schema_postgresql srv st :
  connect_ok srv PostgreSQL = true -> session_ok srv PostgreSQL = true -> all_answered (pg_answers srv) = true ->
  exists ts cs ps fs xs,
    let s := schema_of ts cs ps fs xs in
    extract_schema_to_json srv "postgresql" st = (Ok s, mkExtractState s (Some s) (open_connections st)) /\
    tables_rows (pg_answers srv) = Ok ts /\ columns_rows (pg_answers srv) = Ok cs /\
    primary_key_rows (pg_answers srv) = Ok ps /\ foreign_key_rows (pg_answers srv) = Ok fs /\
    index_rows (pg_answers srv) = Ok xs.
Proof.
  intros Hc Hs (ts & cs & ps & fs & xs & E1 & E2 & E3 & E4 & E5)%all_answered_rows.
  exists ts, cs, ps, fs, xs. split; [by apply pg_extract_run|done].
Qed.

(** [extract_schema_to_json(..., 'mysql')]: the same dict, on the
    connection's answers for the database [SELECT DATABASE()] names, the
    index columns split at the commas of their [GROUP_CONCAT]. *)
Theorem extract_schema_mysql srv st db :
  connect_ok srv MySQL = true -> session_ok srv MySQL = true -> mysql_database srv = Ok db ->
  all_answered (mysql_answers srv db) = true ->
  exists ts cs ps fs xs,
    let s := schema_of ts cs ps fs (map mysql_index_row xs) in
    extract_schema_to_json srv "mysql" st = (Ok s, mkExtractState s (Some s) (open_connections st)) /\
    tables_rows (mysql_answers srv db) = Ok ts /\ columns_rows (mysql_answers srv db) = Ok cs /\
    primary_key_rows (mysql_answers srv db) = Ok ps /\ foreign_key_rows (mysql_answers srv db) = Ok fs /\
    index_rows (mysql_answers srv db) = Ok xs.
Proof.
  intros Hc Hs Hdb (ts & cs & ps & fs & xs & E1 & E2 & E3 & E4 & E5)%all_answered_rows.
  exists ts, cs, ps, fs, xs. split; [by apply (mysql_extract_run srv st db)|done].
Qed.

(** When a catalogue query raises, [extract_all] raises with nothing
    saved and the connections as they were. *)
Lemma pg_extract_all_error (conn : Connection (list string)) st :
  schema_data st = [] -> all_answered conn = false ->
  exists e st', pg_extract_all conn st = (Err e, st') /\ saved st' = saved st /\ open_connections st' = open_connections st.
Proof.
  intros Hs Ha. pose proof (extract_steps id conn st Hs) as E. cbv zeta in E. unfold all_answered in Ha.
  unfold pg_extract_all, pg_extract_indexes.
  unfold extract_tables, extract_columns, extract_primary_keys, extract_foreign_keys in E |- *.
  destruct (tables_rows conn), (columns_rows conn), (primary_key_rows conn), (foreign_key_rows conn), (index_rows conn);
    try done; exact E.
Qed.

Lemma mysql_extract_all_error (conn : Connection string) st :
  schema_data st = [] -> all_answered conn = false ->
  exists e st', mysql_extract_all conn st = (Err e, st') /\ saved st' = saved st /\ open_connections st' = open_connections st.
Proof.
  intros Hs Ha. pose proof (extract_steps (map mysql_index_row) conn st Hs) as E. cbv zeta in E. unfold all_answered in Ha.
  unfold mysql_extract_all, mysql_extract_indexes, mysql_extract_tables, mysql_extract_columns,
    mysql_extract_primary_keys, mysql_extract_foreign_keys.
  unfold extract_tables, extract_columns, extract_primary_keys, extract_foreign_keys in E.
  destruct (tables_rows conn), (columns_rows conn), (primary_key_rows conn), (foreign_key_rows conn), (index_rows conn);
    try done; exact E.
Qed.

(** C13: A catalogue query that raises makes [extract_schema_to_json] raise
    (it re-raises): nothing is saved, and the connection opened for the
    extraction stays open, since [conn.close()] is reached only on
    success. *)
Theorem extract_schema_error_leaks_connection srv st :
  connect_ok srv PostgreSQL = true -> session_ok srv PostgreSQL = true -> all_answered (pg_answers srv) = false ->
  exists e st', extract_schema_to_json srv "postgresql" st = (Err e, st') /\ saved st' = saved st /\
                open_connections st' = S (open_connections st).
Proof.
  intros Hc Hs Ha.
  destruct (pg_extract_all_error (pg_answers srv) (mkExtractState [] (saved st) (S (open_connections st))) eq_refl Ha)
    as (e & st' & Hr & Hsv & Hoc).
  exists e, st'. split; [|done].
  unfold extract_schema_to_json, connect_by_params, init_extractor, bind. cbn -[pg_extract_all]. rewrite Hc, Hs.
  cbn -[pg_extract_all]. by rewrite Hr.
Qed.

(** The same leak on a MySQL server. *)
Lemma extract_schema_mysql_error srv st db :
  connect_ok srv MySQL = true -> session_ok srv MySQL = true -> mysql_database srv = Ok db ->
  all_answered (mysql_answers srv db) = false ->
  exists e st', extract_schema_to_json srv "mysql" st = (Err e, st') /\ saved st' = saved st /\
                open_connections st' = S (open_connections st).
Proof.
  intros Hc Hs Hdb Ha.
  destruct (mysql_extract_all_error (mysql_answers srv db) (mkExtractState [] (saved st) (S (open_connections st))) eq_refl Ha)
    as (e & st' & Hr & Hsv & Hoc).
  exists e, st'. split; [|done].
  unfold extract_schema_to_json, connect_by_params, mysql_extractor, init_extractor, bind. cbn -[mysql_extract_all].
  rewrite Hc, Hs. cbn -[mysql_extract_all]. rewrite Hdb. cbn -[mysql_extract_all]. by rewrite Hr.
Qed.

(** A PostgreSQL server with one table, whose catalogue query for the
    indexes answers [idx]. *)
Definition one_table_server (idx : result (list (IndexRow (list string)))) : Server :=
  mkServer (fun _ => true) (fun _ => true)
           (mkConnection (Ok [mkTableRow "customers" None]) (Ok []) (Ok [mkKeyRow "customers" "id"]) (Ok []) idx)
           (Ok None) (fun _ => mkConnection (Ok []) (Ok []) (Ok []) (Ok []) (Ok [])).

Lemma extract_schema_postgresql_witness :
  exists ts cs ps fs xs,
    let s := schema_of ts cs ps fs xs in
    extract_schema_to_json (one_table_server (Ok [])) "postgresql" (mkExtractState [] None 0) = (Ok s, mkExtractState s (Some s) 0) /\
    tables_rows (pg_answers (one_table_server (Ok []))) = Ok ts /\ columns_rows (pg_answers (one_table_server (Ok []))) = Ok cs /\
    primary_key_rows (pg_answers (one_table_server (Ok []))) = Ok ps /\ foreign_key_rows (pg_answers (one_table_server (Ok []))) = Ok fs /\
    index_rows (pg_answers (one_table_server (Ok []))) = Ok xs.
Proof. apply extract_schema_postgresql; reflexivity. Defined.

Lemma extract_schema_error_leaks_connection_witness :
  exists e st', extract_schema_to_json (one_table_server (Err "relation pg_index is not readable")) "postgresql"
                                       (mkExtractState [] None 0) = (Err e, st') /\
                saved st' = None /\ open_connections st' = 1%nat.
Proof. apply (extract_schema_error_leaks_connection _ (mkExtractState [] None 0)); reflexivity. Defined.

End Schema.
