(* ===== verification/DbCli.v ===== *)
(** * The command lines of the schema extraction
      (src/src/schema_extraction/db_connection.py and the [__main__]
      block of extract_schema.py)

    [config] reads a section of [database.ini] with [configparser]: the
    file next to db_connection.py, parsed into its sections ([IniData],
    [[]] when the file is missing, which [parser.read] ignores).
    [connect_to_db] opens a connection from the parameters of a section;
    the [__main__] block of db_connection.py tests a PostgreSQL and a
    MySQL connection, the one of extract_schema.py extracts the schema
    of the database of the section [mysql] and prints its number of
    tables.

    The database server the drivers reach with given parameters is an
    oracle ([Schema.Server]).  A command line's state is the extraction
    state of [Schema] with the lines printed ([CliState]). *)

From S2P Require Import Prelude PyStr PyDict Schema.
From stdpp Require Import list.
From Stdlib Require Import ZArith.

Open Scope string_scope.

Module DbCli.
Import PyStr PyDict Schema.

(** ** [configparser] *)

(** A parsed file: its sections in order, each with its options in
    order; the section [DEFAULT] holds the defaults. *)
Definition IniData := list (string * list (string * string)).

(** [db[param[0]] = param[1]] *)
Definition put (db : list (string * string)) (p : string * string) : list (string * string) := dset p.1 p.2 db.

(** [parser.has_section(section)]: [DEFAULT] is not a section. *)
Definition has_section (ini : IniData) (section : string) : bool :=
  negb (String.eqb section "DEFAULT") && dmem section ini.

(** [parser.items(section)]: a copy of the defaults updated with the
    options of the section.  Values are taken as written (no [%]
    interpolation). *)
Definition items (ini : IniData) (section : string) : list (string * string) :=
  fold_left put (default [] (dget "DEFAULT" ini) ++ default [] (dget section ini)) [].

(** [config] (lines 14-30) *)
Definition config (ini : IniData) (filename section : string) : result (list (string * string)) :=
  if has_section ini section then Ok (fold_left put (items ini section) [])
  else Err ("Section " +:+ section +:+ " not found in the " +:+ filename +:+ " file").

(** ** The output of a command line *)

Record CliState := mkCliState { ext : ExtractState; stdout : list string }.

Abbreviation Cli := (M CliState).

Definition lift {A} (c : X A) : Cli A :=
  fun st => let '(r, e) := c (ext st) in (r, mkCliState e (stdout st)).

Definition lift_result {A} (r : result A) : Cli A := fun st => (r, st).

Definition print (line : string) : Cli unit :=
  fun st => (Ok tt, mkCliState (ext st) (stdout st ++ [line])).

(** ** [connect_to_db] and the connection test *)

Section Connect.
(** The server the driver reaches with the parameters of a section. *)
Variable server_of : list (string * string) -> Server.

(** [psycopg2.connect] or [mysql.connector.connect] with the section's
    options as keyword arguments, then [cur.execute('SELECT version()')]: a connection whose statement
    fails is closed by the [except] before the exception goes on. *)
Definition open_db (srv : Server) (d : Dialect) : X Dialect :=
  fun st => if negb (connect_ok srv d) then (Err "Connection error", st)
            else if negb (session_ok srv d) then (Err "Connection error", st)
            else (Ok d, mkExtractState (schema_data st) (saved st) (S (open_connections st))).

(** [connect_to_db] (lines 32-80) *)
Definition connect_to_db (ini : IniData) (section : string) : X Dialect :=
  match config ini "database.ini" section with
  | Err e => raise e
  | Ok params =>
      if String.eqb section "postgresql" then open_db (server_of params) PostgreSQL
      else if String.eqb section "mysql" then open_db (server_of params) MySQL
      else raise ("Unsupported database type: " +:+ section)
  end.

(** The [__main__] block of db_connection.py (lines 143-161); a
    connection object is always truthy, so each [if] holds. *)
Definition db_connection_main (ini : IniData) : Cli unit :=
  try_catch
    (lift (connect_to_db ini "postgresql") ;;; print "PostgreSQL connection successful!" ;;; lift close_connection ;;;
     lift (connect_to_db ini "mysql") ;;; print "MySQL connection successful!" ;;; lift close_connection)
    (fun e => print ("Failed to connect: " +:+ e)).

End Connect.

(** ** The [__main__] block of extract_schema.py *)

(** The arguments of [extract_schema_to_json(host, port, dbname, user,
    password, schema, 'mysql')]. *)
Record ConnArgs := mkConnArgs {
  a_host : string; a_port : string; a_dbname : string; a_user : string; a_password : string;
  a_schema : option string
}.

(** [params[k]]: [KeyError(k)], whose [str] is the quoted key. *)
Definition param (params : list (string * string)) (k : string) : result string :=
  match dget k params with Some v => Ok v | None => Err ("'" +:+ k +:+ "'") end.

(** The arguments [params['host'], ..., params.get('schema')],
    evaluated from left to right. *)
Definition conn_args (params : list (string * string)) : result ConnArgs :=
  match param params "host" with Err e => Err e | Ok h =>
  match param params "port" with Err e => Err e | Ok p =>
  match param params "database" with Err e => Err e | Ok d =>
  match param params "user" with Err e => Err e | Ok u =>
  match param params "password" with Err e => Err e | Ok pw =>
    Ok (mkConnArgs h p d u pw (dget "schema" params))
  end end end end end.

Section ExtractMain.
(** The server that [connect_by_params] reaches with given arguments. *)
Variable server_at : ConnArgs -> Server.

(** Lines 679-703. *)
Definition extract_schema_main (ini : IniData) : Cli unit :=
  try_catch
    (let* params := lift_result (config ini "database.ini" "mysql") in
     let* args := lift_result (conn_args params) in
     let* schema_data := lift (extract_schema_to_json (server_at args) "mysql") in
     print ("Extracted schema information for " +:+ str_int (Z.of_nat (length schema_data)) +:+ " tables"))
    (fun e => print ("Error: " +:+ e)).

End ExtractMain.

(** ** [config] *)

Lemma items_NoDup ini section : NoDup (dkeys (items ini section)).
Proof. unfold items, put. apply (fold_dset_NoDup fst snd). constructor. Qed.

(** The loop of [config] copies [parser.items(section)]. *)
Lemma config_items ini filename section :
  has_section ini section = true -> config ini filename section = Ok (items ini section).
Proof.
  intros H. unfold config. rewrite H. unfold put. rewrite (fold_dset_copy _ []); [done|]. apply items_NoDup.
Qed.

(** ** Connections *)

(** The extraction state with one more connection open. *)
Definition opened (e : ExtractState) : ExtractState :=
  mkExtractState (schema_data e) (saved e) (S (open_connections e)).

Lemma open_db_cases srv d st :
  open_db srv d st = (Ok d, opened st) \/ open_db srv d st = (Err "Connection error", st).
Proof. unfold open_db. destruct (connect_ok srv d), (session_ok srv d); cbn; auto. Qed.

Section ConnectLemmas.
Variable server_of : list (string * string) -> Server.

(** [connect_to_db] returns with one more connection open, or raises
    with none: its [except] closes what it opened. *)
Lemma connect_to_db_cases ini section st :
  (exists d, connect_to_db server_of ini section st = (Ok d, opened st)) \/
  (exists e, connect_to_db server_of ini section st = (Err e, st)).
Proof.
  unfold connect_to_db. destruct (config ini "database.ini" section) as [params|e]; [|right; by eexists].
  destruct (String.eqb section "postgresql"); [|destruct (String.eqb section "mysql")];
    [destruct (open_db_cases (server_of params) PostgreSQL st) as [H|H]
    |destruct (open_db_cases (server_of params) MySQL st) as [H|H]|]; rewrite ?H; eauto.
Qed.

Lemma lift_connect ini section st :
  (exists d, lift (connect_to_db server_of ini section) st = (Ok d, mkCliState (opened (ext st)) (stdout st))) \/
  (exists e, lift (connect_to_db server_of ini section) st = (Err e, st)).
Proof.
  unfold lift. destruct (connect_to_db_cases ini section (ext st)) as [[d ->]|[e ->]]; [left; by eexists|right; exists e; by destruct st].
Qed.

(** C40: The connection test of db_connection.py closes every connection
    it opens, whatever the configuration and the servers answer, and
    prints one of three outcomes: the PostgreSQL failure, the PostgreSQL
    success and the MySQL failure, or both successes; MySQL is tried
    only after PostgreSQL succeeded. *)
Theorem db_connection_main_closes ini st :
  let st' := snd (db_connection_main server_of ini st) in
  ext st' = ext st /\
  ((exists e, stdout st' = (stdout st ++ ["Failed to connect: " +:+ e])%list) \/
   (exists e, stdout st' = (stdout st ++ ["PostgreSQL connection successful!"; "Failed to connect: " +:+ e])%list) \/
   stdout st' = (stdout st ++ ["PostgreSQL connection successful!"; "MySQL connection successful!"])%list).
Proof.
  destruct st as [[sd sv oc] out]. unfold db_connection_main, try_catch, bind.
  destruct (lift_connect ini "postgresql" (mkCliState (mkExtractState sd sv oc) out)) as [[d H]|[e H]]; rewrite H;
    [|split; [done|left; by exists e]].
  cbn [print lift close_connection opened ext stdout schema_data saved open_connections pred].
  destruct (lift_connect ini "mysql" (mkCliState (mkExtractState sd sv oc) (out ++ ["PostgreSQL connection successful!"])))
    as [[d' H']|[e H']]; rewrite H'; cbn; (split; [done|]); rewrite <-app_assoc; [right; right|right; left; exists e]; done.
Qed.

End ConnectLemmas.

(** ** The extraction command line *)

(** [len(schema_data['tables'])]: one table per distinct name of the
    table rows. *)
Lemma length_schema_of ts cs ps fs xs : length (schema_of ts cs ps fs xs) = length (uniq (map tr_name ts)).
Proof.
  destruct (schema_of_fk_inv ts cs ps fs xs) as [Hk _].
  rewrite <-(length_map fst), <-(dkeys_fold_dset tr_name new_table). fold (dkeys (schema_of ts cs ps fs xs)).
  by rewrite Hk.
Qed.

Section ExtractLemmas.
Variable server_at : ConnArgs -> Server.

(** Once the arguments are read, the block prints what the extraction
    returns or raises. *)
Lemma extract_schema_main_run ini params args st :
  config ini "database.ini" "mysql" = Ok params -> conn_args params = Ok args ->
  extract_schema_main server_at ini st =
  match extract_schema_to_json (server_at args) "mysql" (ext st) with
  | (Ok s, e) => (Ok tt, mkCliState e (stdout st ++ ["Extracted schema information for " +:+ str_int (Z.of_nat (length s)) +:+ " tables"])%list)
  | (Err m, e) => (Ok tt, mkCliState e (stdout st ++ ["Error: " +:+ m])%list)
  end.
Proof.
  intros Hc Ha. unfold extract_schema_main, try_catch, bind, lift_result, lift. rewrite Hc, Ha. cbn beta iota.
  by destruct (extract_schema_to_json (server_at args) "mysql" (ext st)) as [[s|m] e].
Qed.

(** C36: [python -m ...extract_schema] on a configuration whose section
    [mysql] has the five parameters, against a MySQL server that
    answers: it prints the number of distinct table names the catalogue
    returned and closes its connection. *)
Theorem extract_schema_main_counts ini params args db st :
  config ini "database.ini" "mysql" = Ok params -> conn_args params = Ok args ->
  connect_ok (server_at args) MySQL = true -> session_ok (server_at args) MySQL = true ->
  mysql_database (server_at args) = Ok db -> all_answered (mysql_answers (server_at args) db) = true ->
  let st' := snd (extract_schema_main server_at ini st) in
  open_connections (ext st') = open_connections (ext st) /\
  exists ts, tables_rows (mysql_answers (server_at args) db) = Ok ts /\
    stdout st' = (stdout st ++ ["Extracted schema information for " +:+ str_int (Z.of_nat (length (uniq (map tr_name ts))))
                                +:+ " tables"])%list.
Proof.
  intros Hc Ha Hk Hs Hdb Hall. rewrite (extract_schema_main_run ini params args st Hc Ha).
  destruct (extract_schema_mysql (server_at args) (ext st) db Hk Hs Hdb Hall) as (ts & cs & ps & fs & xs & Hrun & Ht & _).
  rewrite Hrun. split; [done|]. exists ts. split; [done|]. by rewrite length_schema_of.
Qed.

(** A catalogue query that raises is reported as [Error: ...], and the
    connection [connect_by_params] opened stays open. *)
Theorem extract_schema_main_leaks ini params args db st :
  config ini "database.ini" "mysql" = Ok params -> conn_args params = Ok args ->
  connect_ok (server_at args) MySQL = true -> session_ok (server_at args) MySQL = true ->
  mysql_database (server_at args) = Ok db -> all_answered (mysql_answers (server_at args) db) = false ->
  let st' := snd (extract_schema_main server_at ini st) in
  open_connections (ext st') = S (open_connections (ext st)) /\
  exists e, stdout st' = (stdout st ++ ["Error: " +:+ e])%list.
Proof.
  intros Hc Ha Hk Hs Hdb Hall. rewrite (extract_schema_main_run ini params args st Hc Ha).
  destruct (extract_schema_mysql_error (server_at args) (ext st) db Hk Hs Hdb Hall) as (e & st' & Hrun & _ & Hoc).
  rewrite Hrun. split; [done|]. by exists e.
Qed.

(** The repository ships no [database.ini]: the block prints the
    missing section. *)
Example extract_schema_main_no_ini st :
  stdout (snd (extract_schema_main server_at [] st)) =
  (stdout st ++ ["Error: Section mysql not found in the database.ini file"])%list.
Proof. reflexivity. Qed.

End ExtractLemmas.

(** ** Samples *)

Definition shop_ini : IniData :=
  [("DEFAULT", [("port", "3306")]);
   ("mysql", [("host", "localhost"); ("database", "shop"); ("user", "app"); ("password", "secret")])].

(** A MySQL server whose catalogue lists [orders] twice and [customers]. *)
Definition shop_server (a : ConnArgs) : Server :=
  mkServer (fun _ => true) (fun _ => true) (mkConnection (Ok []) (Ok []) (Ok []) (Ok []) (Ok []))
           (Ok (Some (a_dbname a)))
           (fun _ => mkConnection (Ok [mkTableRow "orders" None; mkTableRow "customers" (Some "People"); mkTableRow "orders" None])
                                  (Ok []) (Ok []) (Ok []) (Ok [])).

Lemma extract_schema_main_counts_witness :
  let st := mkCliState (mkExtractState [] None 0) [] in
  let st' := snd (extract_schema_main shop_server shop_ini st) in
  open_connections (ext st') = 0 /\
  exists ts, tables_rows (mysql_answers (shop_server (mkConnArgs "localhost" "3306" "shop" "app" "secret" None)) (Some "shop")) = Ok ts /\
    stdout st' = ["Extracted schema information for " +:+ str_int (Z.of_nat (length (uniq (map tr_name ts)))) +:+ " tables"].
Proof.
  exact (extract_schema_main_counts shop_server shop_ini (items shop_ini "mysql")
           (mkConnArgs "localhost" "3306" "shop" "app" "secret" None) (Some "shop")
           (mkCliState (mkExtractState [] None 0) []) eq_refl eq_refl eq_refl eq_refl eq_refl eq_refl).
Defined.

Example shop_output :
  stdout (snd (extract_schema_main shop_server shop_ini (mkCliState (mkExtractState [] None 0) []))) =
  ["Extracted schema information for 2 tables"].
Proof. vm_compute. reflexivity. Qed.

End DbCli.
