(* ===== verification/KbSetup.v ===== *)
(** * Knowledge-base setup (src/src/bedrock_setup/setup_knowledge_base.py)

    [BedrockKnowledgeBaseSetup] creates a knowledge base, its S3 data
    source and an ingestion job through the [bedrock-agent] client, and
    waits for each with a polling loop: [for attempt in range(N)] asks
    for the status, [break]s when it is final, sleeps when it is
    transient and returns [None] otherwise.  Every method catches
    [ClientError] and returns [None] (or [False]).

    The client is an oracle [Bedrock]: the answer of each creation call
    and the status answered at each poll, a [ClientError] being [Err].
    The state is the list of the calls made, in order, [time.sleep]
    included, so the number of calls and the time slept are read off it.
    Logging is not modelled. *)

From S2P Require Import Prelude PyStr.
From Stdlib Require Import QArith.

Open Scope string_scope.

Module KbSetup.
Import PyStr.

(** Chunking of the data source (lines 8-10). *)
Definition PARENT_CHUNK_MAX_TOKENS : nat := 4000.
Definition CHILD_CHUNK_MAX_TOKENS : nat := 800.
Definition CHUNK_OVERLAP_TOKENS : nat := 150.

(** One result of [retrieve]; the code only logs its fields. *)
Record RetrievalResult := mkRetrievalResult { rr_uri : option string; rr_score : option Q; rr_text : option string }.

(** The calls to the service and to [time.sleep]. *)
Inductive Call :=
| CreateKnowledgeBase (name description role model collection index : string)
| GetKnowledgeBase (kb : string)
| CreateDataSource (kb name description bucket : string) (prefixes : list string) (levels : list nat) (overlap : nat)
| GetDataSource (kb ds : string)
| StartIngestionJob (kb ds : string)
| GetIngestionJob (kb ds job : string)
| UpdateKnowledgeBase (kb model : string) (vector_weight keyword_weight : Q)
| Retrieve (kb query : string) (n : nat)
| Sleep (seconds : nat).

(** What the service answers: the id of a created resource, the
    [status] field at the [i]-th poll of a waiter ([None] when absent),
    a [ClientError] as [Err]. *)
Record Bedrock := mkBedrock {
  create_kb_answer : result string;
  kb_status : nat -> result (option string);
  create_ds_answer : result string;
  ds_status : nat -> result (option string);
  start_job_answer : result string;
  job_status : nat -> result (option string);
  update_kb_answer : result unit;
  retrieve_answer : result (option (list RetrievalResult))
}.

Abbreviation X := (M (list Call)).

Definition call {A} (c : Call) (answer : result A) : X A := fun log => (answer, (log ++ [c])%list).

(** [time.sleep(n)] *)
Definition sleep (n : nat) : X unit := call (Sleep n) (Ok tt).

(** [if not embedding_model_arn: embedding_model_arn = ...] (lines 37-38 and 230-231) *)
Definition embedding_model (region : string) (arn : option string) : string :=
  match arn with
  | Some a => if truthy a then a else "arn:aws:bedrock:" +:+ region +:+ "::foundation-model/cohere.embed-english-v3"
  | None => "arn:aws:bedrock:" +:+ region +:+ "::foundation-model/cohere.embed-english-v3"
  end.

Definition role_arn : string := "arn:aws:iam::836255806547:role/service-role/AmazonBedrockExecutionRoleForKnowledgeBase".

(** [f"arn:aws:aoss:{region}:836255806547:collection/{kb_name.lower().replace('-', '')[:32]}"] *)
Definition collection_arn (region kb_name : string) : string :=
  "arn:aws:aoss:" +:+ region +:+ ":836255806547:collection/" +:+ slice_to 32 (replace "-" "" (lower kb_name)).

(** [f"{kb_name.lower().replace('-', '_')}_index"] *)
Definition vector_index_name (kb_name : string) : string := replace "-" "_" (lower kb_name) +:+ "_index".

(** ** The polling loops *)

(** What a waiter does with a status: [break], [time.sleep] and poll
    again, or [return None]. *)
Inductive Verdict := Proceed | Pause | Abort.

(** How a waiter's [for] loop ends: by [break], by running out of
    attempts, or by [return None]. *)
Inductive WaitExit := Broke | Exhausted | Aborted.

Definition in_list (s : option string) (l : list string) : bool :=
  match s with Some s => existsb (String.eqb s) l | None => false end.

(** Lines 85-93 and 155-163. *)
Definition resource_verdict (status : option string) : Verdict :=
  if in_list status ["READY"] then Proceed
  else if in_list status ["CREATING"; "UPDATING"] then Pause
  else Abort.

(** Lines 199-210: [FAILED] and an unexpected status both return [None]. *)
Definition job_verdict (status : option string) : Verdict :=
  if in_list status ["COMPLETE"] then Proceed
  else if in_list status ["FAILED"] then Abort
  else if in_list status ["STARTING"; "IN_PROGRESS"] then Pause
  else Abort.

(** [for attempt in range(attempt, attempt + n)]: poll, then act on the
    verdict. *)
Fixpoint wait_loop (get : nat -> X (option string)) (verdict : option string -> Verdict) (delay attempt n : nat)
  : X WaitExit :=
  match n with
  | O => ret Exhausted
  | S n' =>
      let* status := get attempt in
      match verdict status with
      | Proceed => ret Broke
      | Pause => sleep delay ;;; wait_loop get verdict delay (S attempt) n'
      | Abort => ret Aborted
      end
  end.

(** ** The methods *)

Section Methods.
Variables (bd : Bedrock) (region : string).

(** [create_knowledge_base] (lines 27-98) *)
Definition create_knowledge_base (kb_name kb_description : string) (arn : option string) : X (option string) :=
  try_catch
    (let model := embedding_model region arn in
     let* kb_id := call (CreateKnowledgeBase kb_name kb_description role_arn model (collection_arn region kb_name)
                                             (vector_index_name kb_name)) (create_kb_answer bd) in
     let* exit := wait_loop (fun i => call (GetKnowledgeBase kb_id) (kb_status bd i)) resource_verdict 5 0 60 in
     match exit with Aborted => ret None | Broke | Exhausted => ret (Some kb_id) end)
    (fun _ => ret None).

(** [create_data_source] (lines 100-168) *)
Definition create_data_source (kb_id ds_name ds_description s3_bucket s3_prefix : string) : X (option string) :=
  try_catch
    (let* ds_id := call (CreateDataSource kb_id ds_name ds_description s3_bucket
                                          (if truthy s3_prefix then [s3_prefix] else [])
                                          [PARENT_CHUNK_MAX_TOKENS; CHILD_CHUNK_MAX_TOKENS] CHUNK_OVERLAP_TOKENS)
                        (create_ds_answer bd) in
     let* exit := wait_loop (fun i => call (GetDataSource kb_id ds_id) (ds_status bd i)) resource_verdict 5 0 60 in
     match exit with Aborted => ret None | Broke | Exhausted => ret (Some ds_id) end)
    (fun _ => ret None).

(** [start_ingestion_job] (lines 170-217): the [for]'s [else] only logs a
    warning, and the job id is returned. *)
Definition start_ingestion_job (kb_id ds_id : string) : X (option string) :=
  try_catch
    (let* job_id := call (StartIngestionJob kb_id ds_id) (start_job_answer bd) in
     let* exit := wait_loop (fun i => call (GetIngestionJob kb_id ds_id job_id) (job_status bd i)) job_verdict 10 0 180 in
     match exit with Aborted => ret None | Broke | Exhausted => ret (Some job_id) end)
    (fun _ => ret None).

(** [configure_hybrid_search] (lines 219-255) *)
Definition configure_hybrid_search (kb_id : string) (arn : option string) (vector_weight keyword_weight : Q) : X bool :=
  try_catch
    (call (UpdateKnowledgeBase kb_id (embedding_model region arn) vector_weight keyword_weight) (update_kb_answer bd) ;;;
     ret true)
    (fun _ => ret false).

(** [test_retrieval] (lines 257-292): [response.get('retrievalResults', [])]. *)
Definition test_retrieval (kb_id query_text : string) (num_results : nat) : X (option (list RetrievalResult)) :=
  try_catch
    (let* r := call (Retrieve kb_id query_text num_results) (retrieve_answer bd) in
     ret (Some (match r with Some l => l | None => [] end)))
    (fun _ => ret None).

(** [create_and_configure_knowledge_base] (lines 294-341) *)
Definition create_and_configure_knowledge_base (kb_name kb_description s3_bucket s3_prefix : string)
    (test_query : option string) : X (option string * option string) :=
  let* kb := create_knowledge_base kb_name kb_description None in
  match kb with
  | Some kb_id =>
      if negb (truthy kb_id) then ret (None, None) else
      let* ds := create_data_source kb_id (kb_name +:+ "-data-source") ("Documentation data source for " +:+ kb_name)
                                    s3_bucket s3_prefix in
      match ds with
      | Some ds_id =>
          if negb (truthy ds_id) then ret (Some kb_id, None) else
          let* job := start_ingestion_job kb_id ds_id in
          if negb (truthy_opt job) then ret (Some kb_id, Some ds_id) else
          configure_hybrid_search kb_id None (7 # 10) (3 # 10) ;;;
          (if truthy_opt test_query then
             let* _ := test_retrieval kb_id (match test_query with Some q => q | None => "" end) 5 in ret tt
           else ret tt) ;;;
          ret (Some kb_id, Some ds_id)
      | None => ret (Some kb_id, None)
      end
  | None => ret (None, None)
  end.

(** The script (lines 343-371): exit status 1 when no knowledge base id
    came back, 0 otherwise. *)
Definition setup_main (name description bucket prefix : string) (test_query : option string) : X nat :=
  let* '(kb_id, _) := create_and_configure_knowledge_base name description bucket prefix test_query in
  ret (if truthy_opt kb_id then 0 else 1)%nat.

End Methods.

(** ** What a run costs *)

Definition is_api (c : Call) : bool := match c with Sleep _ => false | _ => true end.
Definition slept_for (c : Call) : nat := match c with Sleep n => n | _ => 0%nat end.

(** The calls to the service among [l], and the seconds [l] sleeps. *)
Definition api_calls (l : list Call) : nat := length (List.filter is_api l).
Definition slept (l : list Call) : nat := list_sum (map slept_for l).

(** [m] appends to the log, makes at most [a] service calls and sleeps
    at most [s] seconds, whatever the service answers. *)
Definition bounded {A} (m : X A) (a s : nat) : Prop :=
  forall log, exists r new, m log = (r, log ++ new)%list /\ (api_calls new <= a)%nat /\ (slept new <= s)%nat.

Lemma api_calls_app l1 l2 : api_calls (l1 ++ l2) = (api_calls l1 + api_calls l2)%nat.
Proof. unfold api_calls. by rewrite List.filter_app, length_app. Qed.

Lemma slept_app l1 l2 : slept (l1 ++ l2) = (slept l1 + slept l2)%nat.
Proof. unfold slept. by rewrite map_app, list_sum_app. Qed.

Lemma bounded_mono {A} (m : X A) a s a' s' : (a <= a')%nat -> (s <= s')%nat -> bounded m a s -> bounded m a' s'.
Proof. intros Ha Hs Hm log. destruct (Hm log) as (r & new & E & H1 & H2). exists r, new. split; [done|lia]. Qed.

Lemma bounded_ret {A} (x : A) : bounded (ret x) 0 0.
Proof. intros log. exists (Ok x), []. rewrite app_nil_r. split; [done|]. cbn. lia. Qed.

Lemma bounded_call {A} c (ans : result A) : is_api c = true -> bounded (call c ans) 1 0.
Proof. intros Hc log. exists ans, [c]. split; [done|]. unfold api_calls, slept. destruct c; try discriminate; cbn; lia. Qed.

Lemma bounded_sleep n : bounded (sleep n) 0 n.
Proof. intros log. exists (Ok tt), [Sleep n]. split; [done|]. unfold api_calls, slept. cbn. lia. Qed.

Lemma bounded_bind {A B} (m : X A) (k : A -> X B) a1 s1 a2 s2 :
  bounded m a1 s1 -> (forall x, bounded (k x) a2 s2) -> bounded (bind m k) (a1 + a2) (s1 + s2).
Proof.
  intros Hm Hk log. destruct (Hm log) as ([x|e] & new & E & H1 & H2); unfold bind; rewrite E.
  - destruct (Hk x (log ++ new)%list) as (r & new' & E' & H1' & H2'). exists r, (new ++ new')%list.
    rewrite E', app_assoc, api_calls_app, slept_app. split; [done|lia].
  - exists (Err e), new. split; [done|lia].
Qed.

Lemma bounded_try_catch {A} (c : X A) (h : string -> X A) a1 s1 a2 s2 :
  bounded c a1 s1 -> (forall e, bounded (h e) a2 s2) -> bounded (try_catch c h) (a1 + a2) (s1 + s2).
Proof.
  intros Hc Hh log. destruct (Hc log) as ([x|e] & new & E & H1 & H2); unfold try_catch; rewrite E.
  - exists (Ok x), new. split; [done|lia].
  - destruct (Hh e (log ++ new)%list) as (r & new' & E' & H1' & H2'). exists r, (new ++ new')%list.
    rewrite E', app_assoc, api_calls_app, slept_app. split; [done|lia].
Qed.

(** A waiter of [n] attempts polls at most [n] times and sleeps at most
    [n] times [delay]. *)
Lemma wait_loop_bounded get verdict delay attempt n :
  (forall i, bounded (get i) 1 0) -> bounded (wait_loop get verdict delay attempt n) n (delay * n).
Proof.
  intros Hget. revert attempt. induction n as [|n IH]; intros attempt; cbn [wait_loop]; [eapply bounded_mono; [..|apply bounded_ret]; lia|].
  replace (S n) with (1 + n)%nat by lia. replace (delay * (1 + n))%nat with (0 + (delay + delay * n))%nat by lia.
  apply bounded_bind; [apply Hget|]. intros st. destruct (verdict st).
  - eapply bounded_mono; [..|apply bounded_ret]; lia.
  - replace n with (0 + n)%nat at 1 by lia. apply bounded_bind; [apply bounded_sleep|]. intros _. apply IH.
  - eapply bounded_mono; [..|apply bounded_ret]; lia.
Qed.

Create HintDb kb_bounds discriminated.
#[export] Hint Resolve bounded_ret bounded_sleep : kb_bounds.

(** ** How a waiter ends *)

Section Waiter.
Variables (g : Call) (ans : nat -> result (option string)) (verdict : option string -> Verdict) (delay : nat).

Definition paused (i : nat) : Prop := exists st, ans i = Ok st /\ verdict st = Pause.

(** A status that becomes final at poll [k] ends the loop after [k + 1]
    polls and [k] sleeps. *)
Lemma wait_loop_ready attempt n k log :
  (k < n)%nat -> (forall j, (j < k)%nat -> paused (attempt + j)) ->
  (exists st, ans (attempt + k) = Ok st /\ verdict st = Proceed) ->
  wait_loop (fun i => call g (ans i)) verdict delay attempt n log =
  (Ok Broke, log ++ concat (repeat [g; Sleep delay] k) ++ [g])%list.
Proof.
  revert attempt n log. induction k as [|k IH]; intros attempt n log Hk Hp Hr; destruct n as [|n]; try lia.
  - destruct Hr as (st & E & V). rewrite Nat.add_0_r in E. cbn [wait_loop]. unfold bind, call. rewrite E. cbn. by rewrite V.
  - destruct (Hp 0%nat ltac:(lia)) as (st & E & V). rewrite Nat.add_0_r in E. cbn [wait_loop]. unfold bind, call at 1.
    rewrite E, V. unfold sleep, call at 1. cbn -[wait_loop]. rewrite (IH (S attempt) n).
    + by rewrite <-!app_assoc.
    + lia.
    + intros j Hj. rewrite Nat.add_succ_comm. apply Hp. lia.
    + by rewrite Nat.add_succ_comm.
Qed.

(** A status that stays transient for all [n] polls ends the loop with
    the attempts exhausted, after [n] polls and [n] sleeps. *)
Lemma wait_loop_exhausted attempt n log :
  (forall j, (j < n)%nat -> paused (attempt + j)) ->
  wait_loop (fun i => call g (ans i)) verdict delay attempt n log =
  (Ok Exhausted, log ++ concat (repeat [g; Sleep delay] n))%list.
Proof.
  revert attempt log. induction n as [|n IH]; intros attempt log Hp; [by rewrite app_nil_r|].
  destruct (Hp 0%nat ltac:(lia)) as (st & E & V). rewrite Nat.add_0_r in E. cbn [wait_loop]. unfold bind, call at 1.
  rewrite E, V. unfold sleep, call at 1. cbn -[wait_loop].
  rewrite IH by (intros j Hj; rewrite Nat.add_succ_comm; apply Hp; lia). by rewrite <-!app_assoc.
Qed.

End Waiter.

(** ** A waiter inside its method *)

Section WaiterMethod.
Variables (c : Call) (ans : result string) (mk : string -> Call) (st : nat -> result (option string))
          (verdict : option string -> Verdict) (delay n : nat).

Definition waiter_method : X (option string) :=
  try_catch (let* id := call c ans in
             let* exit := wait_loop (fun i => call (mk id) (st i)) verdict delay 0 n in
             match exit with Aborted => ret None | Broke | Exhausted => ret (Some id) end)
            (fun _ => ret None).

Lemma waiter_method_ready id k log :
  ans = Ok id -> (k < n)%nat -> (forall j, (j < k)%nat -> paused st verdict j) ->
  (exists s, st k = Ok s /\ verdict s = Proceed) ->
  waiter_method log = (Ok (Some id), log ++ [c] ++ concat (repeat [mk id; Sleep delay] k) ++ [mk id])%list.
Proof.
  intros Ha Hk Hp Hr. unfold waiter_method, try_catch, bind at 1, call at 1. rewrite Ha.
  unfold bind at 1. cbv beta iota. rewrite (wait_loop_ready (mk id) st verdict delay 0 n k) by done. by rewrite <-app_assoc.
Qed.

Lemma waiter_method_exhausted id log :
  ans = Ok id -> (forall j, (j < n)%nat -> paused st verdict j) ->
  waiter_method log = (Ok (Some id), log ++ [c] ++ concat (repeat [mk id; Sleep delay] n))%list.
Proof.
  intros Ha Hp. unfold waiter_method, try_catch, bind at 1, call at 1. rewrite Ha.
  unfold bind at 1. cbv beta iota. rewrite (wait_loop_exhausted (mk id) st verdict delay 0 n) by done. by rewrite <-app_assoc.
Qed.

Lemma waiter_method_aborted id log s :
  ans = Ok id -> (0 < n)%nat -> st 0%nat = Ok s -> verdict s = Abort ->
  waiter_method log = (Ok None, log ++ [c; mk id])%list.
Proof.
  intros Ha Hn E V. unfold waiter_method, try_catch, bind, call. rewrite Ha. destruct n as [|n']; [lia|]. cbn.
  by rewrite E, V, <-app_assoc.
Qed.

End WaiterMethod.

Lemma create_knowledge_base_waiter bd region name desc arn :
  create_knowledge_base bd region name desc arn =
  waiter_method (CreateKnowledgeBase name desc role_arn (embedding_model region arn) (collection_arn region name)
                                     (vector_index_name name))
                (create_kb_answer bd) GetKnowledgeBase (kb_status bd) resource_verdict 5 60.
Proof. reflexivity. Qed.

Lemma create_data_source_waiter bd kb name desc bucket prefix :
  create_data_source bd kb name desc bucket prefix =
  waiter_method (CreateDataSource kb name desc bucket (if truthy prefix then [prefix] else [])
                                  [PARENT_CHUNK_MAX_TOKENS; CHILD_CHUNK_MAX_TOKENS] CHUNK_OVERLAP_TOKENS)
                (create_ds_answer bd) (GetDataSource kb) (ds_status bd) resource_verdict 5 60.
Proof. reflexivity. Qed.

Lemma start_ingestion_job_waiter bd kb ds :
  start_ingestion_job bd kb ds =
  waiter_method (StartIngestionJob kb ds) (start_job_answer bd) (GetIngestionJob kb ds) (job_status bd) job_verdict 10 180.
Proof. reflexivity. Qed.

(** The transient statuses of a knowledge base or data source. *)
Definition transient (r : result (option string)) : Prop := r = Ok (Some "CREATING") \/ r = Ok (Some "UPDATING").

Lemma transient_paused (st : nat -> result (option string)) j : transient (st j) -> paused st resource_verdict j.
Proof. intros [E|E]; eexists; (split; [exact E|reflexivity]). Qed.

(** ** The methods return, in bounded time *)

Ltac weaken_ret := eapply bounded_mono; [..|apply bounded_ret]; lia.
Ltac api_call := apply bounded_call; reflexivity.

Section Runs.
Variables (bd : Bedrock) (region : string).

(** A waiter inside a [try] whose handler returns [None]. *)
Lemma waiter_method_bounded (c : Call) (ans : result string) (g : string -> nat -> X (option string)) verdict delay n :
  is_api c = true -> (forall id i, bounded (g id i) 1 0) ->
  bounded (try_catch (let* id := call c ans in
                      let* exit := wait_loop (g id) verdict delay 0 n in
                      match exit with Aborted => ret None | Broke | Exhausted => ret (Some id) end)
                     (fun _ => ret None)) (S n) (delay * n).
Proof.
  intros Hc Hg. replace (S n) with ((1 + (n + 0)) + 0)%nat by lia. replace (delay * n)%nat with ((0 + (delay * n + 0)) + 0)%nat by lia.
  apply bounded_try_catch; [|intros; apply bounded_ret]. apply bounded_bind; [by apply bounded_call|].
  intros id. apply bounded_bind; [by apply wait_loop_bounded|]. intros []; apply bounded_ret.
Qed.

Lemma waiter_method_no_raise (c : X string) (k : string -> X (option string)) :
  no_raise (try_catch (bind c k) (fun _ => ret None)).
Proof. apply no_raise_try_catch. intros _. apply no_raise_ret. Qed.

Lemma create_knowledge_base_bounded n d arn : bounded (create_knowledge_base bd region n d arn) 61 300.
Proof. apply (waiter_method_bounded _ _ _ _ 5 60); [done|intros; api_call]. Qed.

Lemma create_data_source_bounded kb n d b p : bounded (create_data_source bd kb n d b p) 61 300.
Proof. apply (waiter_method_bounded _ _ _ _ 5 60); [done|intros; api_call]. Qed.

Lemma start_ingestion_job_bounded kb ds : bounded (start_ingestion_job bd kb ds) 181 1800.
Proof. apply (waiter_method_bounded _ _ _ _ 10 180); [done|intros; api_call]. Qed.

Lemma configure_hybrid_search_bounded kb arn vw kw : bounded (configure_hybrid_search bd region kb arn vw kw) 1 0.
Proof.
  unfold configure_hybrid_search. apply (bounded_mono _ ((1 + 0) + 0) ((0 + 0) + 0)); [lia|lia|].
  apply bounded_try_catch; [apply bounded_bind; [api_call|intros; apply bounded_ret]|intros; apply bounded_ret].
Qed.

Lemma test_retrieval_bounded kb q k : bounded (test_retrieval bd kb q k) 1 0.
Proof.
  unfold test_retrieval. apply (bounded_mono _ ((1 + 0) + 0) ((0 + 0) + 0)); [lia|lia|].
  apply bounded_try_catch; [apply bounded_bind; [api_call|intros; apply bounded_ret]|intros; apply bounded_ret].
Qed.

Lemma create_and_configure_bounded name desc bucket prefix q :
  bounded (create_and_configure_knowledge_base bd region name desc bucket prefix q) 305 2400.
Proof.
  unfold create_and_configure_knowledge_base.
  apply (bounded_bind _ _ 61 300 244 2100); [apply create_knowledge_base_bounded|]. intros [kb|]; [|weaken_ret].
  destruct (negb (truthy kb)); [weaken_ret|].
  apply (bounded_bind _ _ 61 300 183 1800); [apply create_data_source_bounded|]. intros [ds|]; [|weaken_ret].
  destruct (negb (truthy ds)); [weaken_ret|].
  apply (bounded_bind _ _ 181 1800 2 0); [apply start_ingestion_job_bounded|]. intros job.
  destruct (negb (truthy_opt job)); [weaken_ret|].
  apply (bounded_bind _ _ 1 0 1 0); [apply configure_hybrid_search_bounded|]. intros _.
  apply (bounded_bind _ _ 1 0 0 0); [|intros; apply bounded_ret].
  destruct (truthy_opt q); [|weaken_ret]. apply (bounded_bind _ _ 1 0 0 0); [apply test_retrieval_bounded|intros; apply bounded_ret].
Qed.

Lemma create_and_configure_no_raise name desc bucket prefix q :
  no_raise (create_and_configure_knowledge_base bd region name desc bucket prefix q).
Proof.
  unfold create_and_configure_knowledge_base, create_knowledge_base, create_data_source, start_ingestion_job,
    configure_hybrid_search, test_retrieval.
  apply no_raise_bind; [apply waiter_method_no_raise|]. intros [kb|]; [|apply no_raise_ret].
  destruct (negb (truthy kb)); [apply no_raise_ret|].
  apply no_raise_bind; [apply waiter_method_no_raise|]. intros [ds|]; [|apply no_raise_ret].
  destruct (negb (truthy ds)); [apply no_raise_ret|].
  apply no_raise_bind; [apply waiter_method_no_raise|]. intros job. destruct (negb (truthy_opt job)); [apply no_raise_ret|].
  apply no_raise_bind; [apply no_raise_try_catch; intros; apply no_raise_ret|]. intros _.
  apply no_raise_bind; [|intros; apply no_raise_ret]. destruct (truthy_opt q); [|apply no_raise_ret].
  apply no_raise_bind; [apply no_raise_try_catch; intros; apply no_raise_ret|intros; apply no_raise_ret].
Qed.

(** C15: Whatever the service answers, [create_and_configure_knowledge_base]
    returns (it never raises a [ClientError]) after at most 305 calls to
    the service and at most 2400 seconds of [time.sleep]: 60 polls of 5 s
    for the knowledge base and for the data source, 180 polls of 10 s
    for the ingestion job. *)
Theorem create_and_configure_terminates name desc bucket prefix q log :
  exists r new, create_and_configure_knowledge_base bd region name desc bucket prefix q log = (Ok r, log ++ new)%list /\
                (api_calls new <= 305)%nat /\ (slept new <= 2400)%nat.
Proof.
  destruct (create_and_configure_bounded name desc bucket prefix q log) as (r & new & E & H1 & H2).
  destruct (create_and_configure_no_raise name desc bucket prefix q log) as (x & log' & E').
  rewrite E in E'. injection E' as -> _. eauto.
Qed.

(** C16: A knowledge base that the service reports [CREATING] or
    [UPDATING] for the first [k] polls and [READY] at poll [k], with
    [k < 60], is returned by [create_knowledge_base] after exactly
    [k + 1] polls and [k] sleeps of 5 seconds. *)
Theorem create_knowledge_base_ready name desc arn kb_id k log :
  create_kb_answer bd = Ok kb_id -> (k < 60)%nat -> (forall j, (j < k)%nat -> transient (kb_status bd j)) ->
  kb_status bd k = Ok (Some "READY") ->
  create_knowledge_base bd region name desc arn log =
  (Ok (Some kb_id), log ++ [CreateKnowledgeBase name desc role_arn (embedding_model region arn) (collection_arn region name)
                                                (vector_index_name name)] ++
                    concat (repeat [GetKnowledgeBase kb_id; Sleep 5] k) ++ [GetKnowledgeBase kb_id])%list.
Proof.
  intros Hc Hk Hp Hr. rewrite create_knowledge_base_waiter. apply waiter_method_ready; [done|done| |].
  - intros j Hj. by apply transient_paused, Hp.
  - by exists (Some "READY").
Qed.

(** C17: A knowledge base still [CREATING] or [UPDATING] at all 60 polls
    is returned as if it had been created: [create_knowledge_base] gives
    its id after 60 polls and 300 seconds of sleep, where its docstring
    promises an id only when the creation succeeded; the loop has no
    [else] clause. *)
Theorem create_knowledge_base_not_ready name desc arn kb_id log :
  create_kb_answer bd = Ok kb_id -> (forall j, (j < 60)%nat -> transient (kb_status bd j)) ->
  exists new, create_knowledge_base bd region name desc arn log = (Ok (Some kb_id), log ++ new)%list /\
              api_calls new = 61%nat /\ slept new = 300%nat.
Proof.
  intros Hc Hp. rewrite create_knowledge_base_waiter. erewrite waiter_method_exhausted; [|done|].
  - eexists. split; [reflexivity|]. split; reflexivity.
  - intros j Hj. by apply transient_paused, Hp.
Qed.

(** C18: When the ingestion job reports [FAILED] at its first poll,
    [create_and_configure_knowledge_base] returns the knowledge base and
    data source ids, as it does on success, and the script exits with
    status 0; hybrid search is not configured. *)
Theorem ingestion_failure_reported_as_success name desc bucket prefix q kb_id ds_id job_id log :
  create_kb_answer bd = Ok kb_id -> truthy kb_id = true -> kb_status bd 0%nat = Ok (Some "READY") ->
  create_ds_answer bd = Ok ds_id -> truthy ds_id = true -> ds_status bd 0%nat = Ok (Some "READY") ->
  start_job_answer bd = Ok job_id -> job_status bd 0%nat = Ok (Some "FAILED") ->
  exists new, create_and_configure_knowledge_base bd region name desc bucket prefix q log = (Ok (Some kb_id, Some ds_id), log ++ new)%list /\
              Forall (fun c => match c with UpdateKnowledgeBase _ _ _ _ => False | _ => True end) new /\
              fst (setup_main bd region name desc bucket prefix q log) = Ok 0%nat.
Proof.
  intros Hc Hkt Hk Hd Hdt Hds Hj Hjs.
  assert (E : exists new, create_and_configure_knowledge_base bd region name desc bucket prefix q log =
                          (Ok (Some kb_id, Some ds_id), log ++ new)%list /\
                          Forall (fun c => match c with UpdateKnowledgeBase _ _ _ _ => False | _ => True end) new).
  { unfold create_and_configure_knowledge_base.
    erewrite (bind_ok _ _ log (Some kb_id))
      by (rewrite create_knowledge_base_waiter; apply (waiter_method_ready _ _ _ _ _ _ _ _ 0); [done|lia|lia|by eexists]).
    rewrite Hkt. cbn [negb].
    erewrite (bind_ok _ _ _ (Some ds_id))
      by (rewrite create_data_source_waiter; apply (waiter_method_ready _ _ _ _ _ _ _ _ 0); [done|lia|lia|by eexists]).
    rewrite Hdt. cbn [negb].
    erewrite (bind_ok _ _ _ None) by (rewrite start_ingestion_job_waiter; eapply waiter_method_aborted; [done|lia|exact Hjs|done]).
    cbn. rewrite <-!app_assoc. eexists. split; [reflexivity|]. by repeat constructor. }
  destruct E as (new & E & Hf). exists new. split; [done|]. split; [done|].
  unfold setup_main. erewrite bind_ok by exact E. cbn. by rewrite Hkt.
Qed.

End Runs.

(** ** A sample service *)

(** The knowledge base becomes ready at poll [ready_at]; the data source
    is ready at once; the ingestion job always reports [job]. *)
Definition sample_bedrock (ready_at : nat) (job : string) : Bedrock :=
  mkBedrock (Ok "KB123") (fun i => if (i <? ready_at)%nat then Ok (Some "CREATING") else Ok (Some "READY"))
            (Ok "DS456") (fun _ => Ok (Some "READY")) (Ok "JOB789") (fun _ => Ok (Some job)) (Ok tt) (Ok (Some [])).

Lemma sample_transient ready_at job j : (j < ready_at)%nat -> transient (kb_status (sample_bedrock ready_at job) j).
Proof. intros Hj. left. cbn [sample_bedrock kb_status]. apply Nat.ltb_lt in Hj. by rewrite Hj. Qed.

Lemma create_knowledge_base_ready_witness :
  create_knowledge_base (sample_bedrock 3 "COMPLETE") "us-east-1" "pic-dbkb" "Database Schema Knowledge Base" None [] =
  (Ok (Some "KB123"),
   [] ++ [CreateKnowledgeBase "pic-dbkb" "Database Schema Knowledge Base" role_arn (embedding_model "us-east-1" None)
                              (collection_arn "us-east-1" "pic-dbkb") (vector_index_name "pic-dbkb")] ++
   concat (repeat [GetKnowledgeBase "KB123"; Sleep 5] 3) ++ [GetKnowledgeBase "KB123"])%list.
Proof. apply create_knowledge_base_ready; [reflexivity|lia|intros; by apply sample_transient|reflexivity]. Defined.

Lemma create_knowledge_base_not_ready_witness :
  exists new, create_knowledge_base (sample_bedrock 60 "COMPLETE") "us-east-1" "pic-dbkb" "Database Schema Knowledge Base" None []
              = (Ok (Some "KB123"), [] ++ new)%list /\ api_calls new = 61%nat /\ slept new = 300%nat.
Proof. apply create_knowledge_base_not_ready; [reflexivity|intros; by apply sample_transient]. Defined.

Lemma ingestion_failure_reported_as_success_witness :
  exists new, create_and_configure_knowledge_base (sample_bedrock 0 "FAILED") "us-east-1" "pic-dbkb"
                "Database Schema Knowledge Base" "docs-bucket" "dbkb" None [] = (Ok (Some "KB123", Some "DS456"), [] ++ new)%list /\
              Forall (fun c => match c with UpdateKnowledgeBase _ _ _ _ => False | _ => True end) new /\
              fst (setup_main (sample_bedrock 0 "FAILED") "us-east-1" "pic-dbkb" "Database Schema Knowledge Base"
                              "docs-bucket" "dbkb" None []) = Ok 0%nat.
Proof. apply (ingestion_failure_reported_as_success _ _ _ _ _ _ _ "KB123" "DS456" "JOB789"); reflexivity. Defined.

End KbSetup.
