(* ===== verification/Upload.v ===== *)
(** * Upload of the documentation to S3 (src/src/bedrock_setup/upload_to_s3.py)

    [upload_documentation] checks the bucket with [head_bucket], then
    uploads every file below [docs/schema] and [docs/queries] with
    [upload_directory_to_s3], which walks the directory and uploads each
    file with [upload_file_to_s3] under the key [prefix/relative path],
    with a content type chosen by the file's extension.

    The local files are the list [files] of their paths in the order
    [os.walk] yields them, with the directories [dirs]; paths are
    relative to the base directory and normalised.  S3 is an oracle
    [S3]: the answer to [head_bucket], to [create_bucket] and to each
    upload.  The state is the list of the calls made to S3.

    Errors carry the name of their exception class.  [head_bucket] and
    [create_bucket] raise [ClientError]; [S3Client.upload_file] turns a
    failed upload into [S3UploadFailedError] (boto3's [S3Transfer]
    re-raises the [ClientError] of the transfer that way), which the
    [except ClientError] of [upload_file_to_s3] does not catch. *)

From S2P Require Import Prelude PyStr PyPath.
From Stdlib Require Import Ascii.

Open Scope string_scope.

Module Upload.
Import PyStr PyPath.

Inductive S3Call :=
| HeadBucket (bucket : string)
| CreateBucket (bucket : string) (location : option string)
| UploadFile (local bucket key : string) (content_type : option string).

Record S3 := mkS3 {
  head_bucket_answer : string -> result unit;
  create_bucket_answer : string -> option string -> result unit;
  upload_answer : string -> string -> string -> result unit
}.

Record Local := mkLocal { files : list string; dirs : list string }.

Abbreviation X := (M (list S3Call)).

Definition s3_call {A} (c : S3Call) (answer : result A) : X A := fun log => (answer, (log ++ [c])%list).

(** An error of the class [cls]. *)
Definition error_of (cls msg : string) : string := cls +:+ ": " +:+ msg.

Definition is_class (cls e : string) : bool := String.prefix (cls +:+ ":") e.

(** [try: c except cls: h] *)
Definition try_except (cls : string) {A} (c : X A) (h : string -> X A) : X A :=
  fun log => match c log with
             | (Err e, log') => if is_class cls e then h e log' else (Err e, log')
             | r => r
             end.

(** The client methods, with the exception each one raises. *)
Definition head_bucket (s3 : S3) (b : string) : X unit :=
  s3_call (HeadBucket b) (match head_bucket_answer s3 b with Ok u => Ok u | Err e => Err (error_of "ClientError" e) end).

Definition create_bucket (s3 : S3) (b : string) (loc : option string) : X unit :=
  s3_call (CreateBucket b loc)
          (match create_bucket_answer s3 b loc with Ok u => Ok u | Err e => Err (error_of "ClientError" e) end).

Definition s3_upload_file (s3 : S3) (local b key : string) (ct : option string) : X unit :=
  s3_call (UploadFile local b key ct)
          (match upload_answer s3 local b key with Ok u => Ok u | Err e => Err (error_of "S3UploadFailedError" e) end).

(** [upload_file_to_s3] (lines 13-44), with an object name. *)
Definition upload_file_to_s3 (s3 : S3) (file_path bucket object_name : string) (content_type : option string) : X bool :=
  try_except "ClientError" (s3_upload_file s3 file_path bucket object_name content_type ;;; ret true)
             (fun _ => ret false).

(** The default [content_type_mapping] (lines 61-71). *)
Definition content_type_mapping : list (string * string) :=
  [(".md", "text/markdown"); (".txt", "text/plain"); (".json", "application/json"); (".html", "text/html");
   (".pdf", "application/pdf"); (".png", "image/png"); (".jpg", "image/jpeg"); (".jpeg", "image/jpeg");
   (".svg", "image/svg+xml")].

Fixpoint assoc_get (k : string) (l : list (string * string)) : option string :=
  match l with [] => None | (k', v) :: l' => if String.eqb k k' then Some v else assoc_get k l' end.

Definition content_type (file : string) : option string := assoc_get (lower (snd (splitext (basename file)))) content_type_mapping.

(** [os.path.relpath(local_path, directory)] of a file below [directory]. *)
Definition below (directory f : string) : option string :=
  if String.prefix (directory +:+ "/") f then Some (sdrop (S (String.length directory)) f) else None.

(** The files [os.walk(directory)] yields, with their relative paths. *)
Definition walk (L : Local) (directory : string) : list (string * string) :=
  flat_map (fun f => match below directory f with Some r => [(f, r)] | None => [] end) (files L).

(** [os.path.join(prefix, relative_path).replace('\\', '/')] *)
Definition s3_key (prefix rel : string) : string := replace "\" "/" (path_join prefix rel).

(** The loop of [upload_directory_to_s3] (lines 73-90): every file is
    uploaded, a failed one only clears [success]. *)
Fixpoint upload_each (s3 : S3) (bucket prefix : string) (l : list (string * string)) (success : bool) : X bool :=
  match l with
  | [] => ret success
  | (f, rel) :: l' =>
      let* ok := upload_file_to_s3 s3 f bucket (s3_key prefix rel) (content_type f) in
      upload_each s3 bucket prefix l' (success && ok)
  end.

(** [upload_directory_to_s3] (lines 46-92), with the default mapping. *)
Definition upload_directory_to_s3 (s3 : S3) (L : Local) (directory bucket prefix : string) : X bool :=
  if negb (existsb (String.eqb directory) (dirs L)) then ret false
  else upload_each s3 bucket prefix (walk L directory) true.

(** [check_bucket_exists] (lines 94-112) *)
Definition check_bucket_exists (s3 : S3) (bucket : string) : X bool :=
  try_except "ClientError" (head_bucket s3 bucket ;;; ret true) (fun _ => ret false).

(** [create_bucket_if_not_exists] (lines 114-143) *)
Definition create_bucket_if_not_exists (s3 : S3) (bucket : string) (region : option string) : X bool :=
  let* exists_ := check_bucket_exists s3 bucket in
  if exists_ then ret true else
  try_except "ClientError"
    (create_bucket s3 bucket (match region with None => None | Some r => if String.eqb r "us-east-1" then None else Some r end)
     ;;; ret true)
    (fun _ => ret false).

(** [upload_documentation] (lines 145-190), the base directory being the
    one the paths of [L] are relative to. *)
Definition upload_documentation (s3 : S3) (L : Local) (bucket key_prefix : string) : X bool :=
  let schema_dir := path_join "docs" "schema" in
  let queries_dir := path_join "docs" "queries" in
  let* exists_ := check_bucket_exists s3 bucket in
  if negb exists_ then ret false else
  let* schema_success :=
    (if existsb (String.eqb schema_dir) (dirs L)
     then upload_directory_to_s3 s3 L schema_dir bucket (key_prefix +:+ "/schema/") else ret true) in
  let* queries_success :=
    (if existsb (String.eqb queries_dir) (dirs L)
     then upload_directory_to_s3 s3 L queries_dir bucket (key_prefix +:+ "/queries/") else ret true) in
  ret (schema_success && queries_success).

(** ** Lemmas *)

Lemma replace_char_absent c new s : char_in c s = false -> replace (String c "") new s = s.
Proof.
  intros H. unfold replace. cbn [String.eqb]. induction s as [|d s IH]; [done|].
  cbn in H. apply orb_false_iff in H as [Hd Hs]. rewrite replace_go_cons. cbn [String.prefix].
  destruct (ascii_dec c d) as [<-|Hne]; [by rewrite Ascii.eqb_refl in Hd|]. by rewrite IH.
Qed.

(** The key of a file below a directory prefix ending in a slash. *)
Lemma s3_key_under kp rel :
  kp <> "" -> char_in "\"%char (kp +:+ "/") = false -> char_in "\"%char rel = false ->
  s3_key (kp +:+ "/") rel = kp +:+ "/" +:+ rel.
Proof.
  intros Hk Hs Hr. unfold s3_key, path_join.
  assert (E : String.eqb (kp +:+ "/") "" = false) by (destruct kp; done). rewrite E.
  assert (L : sdrop (String.length (kp +:+ "/") - 1) (kp +:+ "/") = "/").
  { rewrite slength_append. cbn [String.length]. replace (String.length kp + 1 - 1) with (String.length kp) by lia.
    clear. induction kp; done. }
  rewrite L. cbn [String.eqb Ascii.eqb Bool.eqb]. rewrite sappend_assoc. apply replace_char_absent.
  rewrite <-sappend_assoc, char_in_app, Hs. exact Hr.
Qed.

Section Uploads.
Variables (s3 : S3) (bucket prefix : string).

Definition upload_call (fr : string * string) : S3Call := UploadFile fr.1 bucket (s3_key prefix fr.2) (content_type fr.1).

Definition uploads_ok (l : list (string * string)) : Prop :=
  Forall (fun fr => upload_answer s3 fr.1 bucket (s3_key prefix fr.2) = Ok tt) l.

(** When every upload succeeds, each file is uploaded once, in order,
    under its key, and the flag is kept. *)
Lemma upload_each_ok l success log :
  uploads_ok l -> upload_each s3 bucket prefix l success log = (Ok success, log ++ map upload_call l)%list.
Proof.
  revert success log. induction l as [|[f r] l IH]; intros success log Hl; [by rewrite app_nil_r|].
  inversion Hl as [|? ? Hf Hl']; subst. cbn [upload_each]. unfold bind at 1, upload_file_to_s3, try_except, bind, s3_upload_file, s3_call.
  cbn [fst snd] in Hf. rewrite Hf. cbn -[upload_each]. rewrite andb_true_r, IH by done. by rewrite <-app_assoc.
Qed.

(** The first upload that fails raises out of the loop: the files after
    it are never uploaded. *)
Lemma upload_each_fail l1 f r l2 e success log :
  uploads_ok l1 -> upload_answer s3 f bucket (s3_key prefix r) = Err e ->
  upload_each s3 bucket prefix (l1 ++ (f, r) :: l2) success log =
  (Err (error_of "S3UploadFailedError" e), log ++ map upload_call l1 ++ [upload_call (f, r)])%list.
Proof.
  revert success log. induction l1 as [|[f1 r1] l1 IH]; intros success log Hl He.
  - cbn [app upload_each]. unfold bind at 1, upload_file_to_s3, try_except, bind, s3_upload_file, s3_call. rewrite He. done.
  - inversion Hl as [|? ? Hf Hl']; subst. cbn [app upload_each].
    unfold bind at 1, upload_file_to_s3, try_except, bind, s3_upload_file, s3_call. cbn [fst snd] in Hf. rewrite Hf.
    cbn -[upload_each]. rewrite IH by done. by rewrite <-app_assoc.
Qed.

End Uploads.

Lemma check_bucket_ok s3 b log :
  head_bucket_answer s3 b = Ok tt -> check_bucket_exists s3 b log = (Ok true, log ++ [HeadBucket b])%list.
Proof. intros H. unfold check_bucket_exists, try_except, head_bucket, s3_call, bind. by rewrite H. Qed.

Lemma dir_present L d : In d (dirs L) -> existsb (String.eqb d) (dirs L) = true.
Proof. intros H. apply existsb_exists. exists d. by rewrite String.eqb_refl. Qed.

(** The keys of the files of a directory uploaded under [kp/sub/]. *)
Lemma upload_calls_keys b kp sub L d :
  kp <> "" -> char_in "\"%char (kp +:+ "/" +:+ sub +:+ "/") = false ->
  Forall (fun f => char_in "\"%char f = false) (files L) ->
  map (upload_call b (kp +:+ "/" +:+ sub +:+ "/")) (walk L d) =
  map (fun fr => UploadFile fr.1 b (kp +:+ "/" +:+ sub +:+ "/" +:+ fr.2) (content_type fr.1)) (walk L d).
Proof.
  intros Hk Hs Hf. apply map_ext_in. intros [f r] Hin. unfold upload_call. cbn [fst snd]. f_equal.
  unfold walk in Hin. apply in_flat_map in Hin as (f' & Hf' & Hin). unfold below in Hin.
  destruct (String.prefix _ f') eqn:P; [|done]. destruct Hin as [[= <- <-]|[]].
  replace (kp +:+ "/" +:+ sub +:+ "/") with ((kp +:+ "/" +:+ sub) +:+ "/") by (by rewrite !sappend_assoc).
  rewrite s3_key_under; [by rewrite !sappend_assoc|by destruct kp|by rewrite !sappend_assoc|].
  assert (Hc : char_in "\"%char f' = false) by exact (proj1 (List.Forall_forall _ _) Hf f' Hf').
  rewrite <-(prefix_sdrop _ _ P), char_in_app in Hc. apply orb_false_iff in Hc as [_ Hc].
  rewrite slength_append, Nat.add_1_r in Hc. exact Hc.
Qed.

Lemma upload_directory_ok s3 L d b p log :
  In d (dirs L) -> uploads_ok s3 b p (walk L d) ->
  upload_directory_to_s3 s3 L d b p log = (Ok true, log ++ map (upload_call b p) (walk L d))%list.
Proof. intros Hd Hu. unfold upload_directory_to_s3. rewrite dir_present by done. by apply upload_each_ok. Qed.

(** When the bucket answers and every upload succeeds,
    [upload_documentation] returns [True] after uploading every file
    below [docs/schema], then every file below [docs/queries], once each
    and in the order of the walk, to the key [<prefix>/schema/<relative
    path>] (resp. [queries]) with the content type of its extension. *)
Theorem upload_documentation_uploads_all s3 L b kp log :
  head_bucket_answer s3 b = Ok tt -> In "docs/schema" (dirs L) -> In "docs/queries" (dirs L) ->
  kp <> "" -> char_in "\"%char kp = false -> Forall (fun f => char_in "\"%char f = false) (files L) ->
  uploads_ok s3 b (kp +:+ "/schema/") (walk L "docs/schema") ->
  uploads_ok s3 b (kp +:+ "/queries/") (walk L "docs/queries") ->
  upload_documentation s3 L b kp log =
  (Ok true, log ++ [HeadBucket b] ++
            map (fun fr => UploadFile fr.1 b (kp +:+ "/schema/" +:+ fr.2) (content_type fr.1)) (walk L "docs/schema") ++
            map (fun fr => UploadFile fr.1 b (kp +:+ "/queries/" +:+ fr.2) (content_type fr.1)) (walk L "docs/queries"))%list.
Proof.
  intros Hb Hs Hq Hk Hkc Hf Us Uq. unfold upload_documentation.
  erewrite bind_ok by (by apply check_bucket_ok). cbn [negb].
  change (path_join "docs" "schema") with "docs/schema". change (path_join "docs" "queries") with "docs/queries".
  rewrite !dir_present by done.
  erewrite bind_ok by (by apply upload_directory_ok). erewrite bind_ok by (by apply upload_directory_ok).
  cbn [andb ret]. rewrite <-!app_assoc. do 3 f_equal.
  change (kp +:+ "/schema/") with (kp +:+ "/" +:+ "schema" +:+ "/").
  change (kp +:+ "/queries/") with (kp +:+ "/" +:+ "queries" +:+ "/").
  rewrite !upload_calls_keys by (try done; rewrite !char_in_app, Hkc; reflexivity). done.
Qed.

(** C20: A failed upload of a file below [docs/schema] makes
    [upload_documentation] raise [S3UploadFailedError] right after that
    upload: the later files and all of [docs/queries] are never
    uploaded, and [False] is never returned, since the [except
    ClientError] of [upload_file_to_s3] does not catch it. *)
Theorem upload_failure_aborts s3 L b kp l1 f r l2 e log :
  head_bucket_answer s3 b = Ok tt -> In "docs/schema" (dirs L) -> walk L "docs/schema" = (l1 ++ (f, r) :: l2)%list ->
  uploads_ok s3 b (kp +:+ "/schema/") l1 -> upload_answer s3 f b (s3_key (kp +:+ "/schema/") r) = Err e ->
  upload_documentation s3 L b kp log =
  (Err (error_of "S3UploadFailedError" e),
   log ++ [HeadBucket b] ++ map (upload_call b (kp +:+ "/schema/")) l1 ++ [upload_call b (kp +:+ "/schema/") (f, r)])%list.
Proof.
  intros Hb Hs Hw Hu He. unfold upload_documentation.
  erewrite bind_ok by (by apply check_bucket_ok). cbn [negb].
  change (path_join "docs" "schema") with "docs/schema". rewrite dir_present by done.
  erewrite bind_err.
  2: { unfold upload_directory_to_s3. rewrite dir_present, Hw by done. by apply upload_each_fail. }
  by rewrite <-!app_assoc.
Qed.

(** ** A sample upload *)

Definition sample_local : Local :=
  mkLocal ["docs/schema/index.md"; "docs/schema/tables/orders.md"; "docs/queries/index.md"; "README.md"]
          ["docs"; "docs/schema"; "docs/schema/tables"; "docs/queries"].

Definition sample_s3 (failing : string) : S3 :=
  mkS3 (fun _ => Ok tt) (fun _ _ => Ok tt) (fun f _ _ => if String.eqb f failing then Err "AccessDenied" else Ok tt).

Lemma upload_documentation_uploads_all_witness :
  upload_documentation (sample_s3 "") sample_local "docs-bucket" "dbkb" [] =
  (Ok true, [] ++ [HeadBucket "docs-bucket"] ++
            map (fun fr => UploadFile fr.1 "docs-bucket" ("dbkb" +:+ "/schema/" +:+ fr.2) (content_type fr.1))
                (walk sample_local "docs/schema") ++
            map (fun fr => UploadFile fr.1 "docs-bucket" ("dbkb" +:+ "/queries/" +:+ fr.2) (content_type fr.1))
                (walk sample_local "docs/queries"))%list.
Proof.
  apply upload_documentation_uploads_all; try reflexivity; try (vm_compute; tauto); try discriminate;
    vm_compute; repeat constructor.
Defined.

Lemma upload_failure_aborts_witness :
  upload_documentation (sample_s3 "docs/schema/index.md") sample_local "docs-bucket" "dbkb" [] =
  (Err (error_of "S3UploadFailedError" "AccessDenied"),
   [] ++ [HeadBucket "docs-bucket"] ++ map (upload_call "docs-bucket" ("dbkb" +:+ "/schema/")) [] ++
   [upload_call "docs-bucket" ("dbkb" +:+ "/schema/") ("docs/schema/index.md", "index.md")])%list.
Proof.
  apply (upload_failure_aborts _ _ _ _ [] _ _ [("docs/schema/tables/orders.md", "tables/orders.md")]);
    try reflexivity; try (vm_compute; tauto); constructor.
Defined.

End Upload.
