(* ===== verification/SchemaDocs.v ===== *)
(** * The schema documentation (src/src/documentation/schema_to_markdown.py)

    [SchemaMarkdownGenerator.generate_all_docs] writes, under its output
    directory, an index, a summary of the tables, one page per table and
    a summary of the foreign keys.  Each page is the list of what its
    [f.write] calls write ([DocSite.Page]); the input is the dict the
    schema extractor saves ([Schema.SchemaData]); the date of the index
    ([time.strftime('%Y-%m-%d', ...)]) is a parameter.

    The theorems are about the links of the generated site: all of them
    lead to a generated page, except those of the tables summary, which
    sits in [tables/] and links to [./tables/<name>.md]. *)

From S2P Require Import Prelude PyStr PyDict PyPath DocSite Schema.
From stdpp Require Import list.
From Stdlib Require Import Ascii.

Open Scope string_scope.
Open Scope list_scope.

Module SchemaDocs.
Import PyStr PyDict PyPath DocSite Schema.

(** ["✓"] as [open(..., encoding='utf-8')] writes it. *)
Definition check_mark : string :=
  String (ascii_of_nat 226) (String (ascii_of_nat 156) (String (ascii_of_nat 147) EmptyString)).

(** [s.replace('|', '\\|')] *)
Definition esc (s : string) : string := replace "|" "\|" s.

(** [sorted] on table or column names. *)
Definition sort_names (l : list string) : list string := sort_by String.ltb l.
Definition sort_entries {A} (l : list (string * A)) : list (string * A) := sort_by (fun a b => String.ltb a.1 b.1) l.

(** ** The paths (lines 31-38, 63, 85, 116 and 249) *)

Definition tables_dir (out : string) : string := path_join out "tables".
Definition relationships_dir (out : string) : string := path_join out "relationships".
Definition index_path (out : string) : string := path_join out "index.md".
Definition summary_path (out : string) : string := path_join (tables_dir out) "tables_summary.md".
Definition table_path (out t : string) : string := path_join (tables_dir out) (t +:+ ".md").
Definition relationships_path (out : string) : string := path_join (relationships_dir out) "relationships_summary.md".

(** ** The pages *)

(** [generate_index_file] (lines 59-79) *)
Definition index_page (today : string) (s : SchemaData) : Page :=
  [Txt ("# Database Schema Documentation" +:+ nl +:+ nl);
   Txt "This documentation describes the database schema extracted on ";
   Txt (today +:+ nl +:+ nl);
   Txt ("## Contents" +:+ nl +:+ nl);
   Txt "- "; Lnk "Tables Summary" "tables/tables_summary.md"; Txt nl;
   Txt "- "; Lnk "Relationships Summary" "relationships/relationships_summary.md"; Txt nl;
   Txt (nl +:+ "## Tables" +:+ nl +:+ nl)] ++
  flat_map (fun t => [Txt "- "; Lnk t ("tables/" +:+ t +:+ ".md"); Txt nl]) (sort_names (dkeys s)).

(** The primary key column of the summary (lines 95-101). *)
Definition summary_primary_key (pk : option (list string)) : string :=
  match pk with Some [] | None => "None" | Some l => join ", " l end.

(** [generate_tables_summary] (lines 81-106) *)
Definition tables_summary_page (s : SchemaData) : Page :=
  [Txt ("# Tables Summary" +:+ nl +:+ nl);
   Txt ("| Table Name | Description | # Columns | Primary Key | Foreign Keys |" +:+ nl);
   Txt ("|------------|-------------|-----------|-------------|--------------|" +:+ nl)] ++
  flat_map (fun '(t, ti) =>
              [Txt "| "; Lnk t ("./tables/" +:+ t +:+ ".md");
               Txt (" | " +:+ esc (t_description ti) +:+ " | " +:+ str_nat (length (columns ti)) +:+ " | " +:+
                    summary_primary_key (primary_key ti) +:+ " | " +:+ str_nat (length (foreign_keys ti)) +:+ " |" +:+ nl)])
           (sort_entries s).

(** A row of the columns table (lines 151-164). *)
Definition column_line (cc : string * ColumnInfo) : Inline :=
  let '(c, ci) := cc in
  Txt ("| " +:+ c +:+ " | " +:+ esc (data_type ci) +:+ " | " +:+ (if is_nullable ci then "YES" else "NO") +:+ " | " +:+
       (match col_default ci with None => "NULL" | Some d => esc d end) +:+ " | " +:+ esc (col_description ci) +:+ " | " +:+
       (if is_primary_key ci then check_mark else "") +:+ " | " +:+
       (match foreign_key ci with Some _ => check_mark | None => "" end) +:+ " | " +:+
       (if has_index ci then check_mark else "") +:+ " |" +:+ nl).

Definition sql_join (t1 t2 c1 c2 : string) : list Inline :=
  [Txt ("```sql" +:+ nl); Txt ("SELECT t1.*, t2.*" +:+ nl); Txt ("FROM " +:+ t1 +:+ " t1" +:+ nl);
   Txt ("JOIN " +:+ t2 +:+ " t2 ON t1." +:+ c1 +:+ " = t2." +:+ c2 +:+ nl); Txt ("```" +:+ nl +:+ nl)].

(** [generate_table_doc] (lines 108-243) *)
Definition table_page (t : string) (ti : TableInfo) : Page :=
  let pk := match primary_key ti with Some l => l | None => [] end in
  [Txt ("# Table: " +:+ t +:+ nl +:+ nl);
   Txt (t_description ti +:+ nl +:+ nl);
   Txt ("## Quick Statistics" +:+ nl +:+ nl);
   Txt ("- **Columns**: " +:+ str_nat (length (columns ti)) +:+ nl);
   Txt (match pk with [] => "- **Primary Key**: None" +:+ nl | _ => "- **Primary Key**: " +:+ join ", " pk +:+ nl end);
   Txt ("- **Foreign Keys**: " +:+ str_nat (length (foreign_keys ti)) +:+ nl);
   Txt ("- **Referenced By**: " +:+ str_nat (length (referenced_by ti)) +:+ " tables" +:+ nl);
   Txt ("- **Indexes**: " +:+ str_nat (length (indexes ti)) +:+ nl +:+ nl);
   Txt ("## Columns" +:+ nl +:+ nl);
   Txt ("| Column Name | Data Type | Nullable | Default | Description | PK | FK | Indexed |" +:+ nl);
   Txt ("|-------------|-----------|----------|---------|-------------|----|----|---------|" +:+ nl)] ++
  map column_line (sort_entries (columns ti)) ++
  (match pk with
   | [] => []
   | _ => [Txt (nl +:+ "## Primary Key" +:+ nl +:+ nl); Txt ("| Column |" +:+ nl +:+ "|--------|" +:+ nl)] ++
          map (fun c => Txt ("| " +:+ c +:+ " |" +:+ nl)) pk
   end) ++
  (match foreign_keys ti with
   | [] => []
   | fks => [Txt (nl +:+ "## Foreign Keys" +:+ nl +:+ nl);
             Txt ("| Column | Referenced Table | Referenced Column |" +:+ nl);
             Txt ("|--------|------------------|-------------------|" +:+ nl)] ++
            flat_map (fun fk => [Txt ("| " +:+ fk_column fk +:+ " | "); Lnk (ref_table fk) ("./" +:+ ref_table fk +:+ ".md");
                                 Txt (" | " +:+ ref_column fk +:+ " |" +:+ nl)]) fks
   end) ++
  (match referenced_by ti with
   | [] => []
   | refs => [Txt (nl +:+ "## Referenced By" +:+ nl +:+ nl);
              Txt ("| Table | Column | Foreign Key |" +:+ nl);
              Txt ("|-------|--------|-------------|" +:+ nl)] ++
             flat_map (fun r => [Txt "| "; Lnk (rb_table r) ("./" +:+ rb_table r +:+ ".md");
                                 Txt (" | " +:+ rb_column r +:+ " | " +:+ via_foreign_key r +:+ " |" +:+ nl)]) refs
   end) ++
  (match indexes ti with
   | [] => []
   | idxs => [Txt (nl +:+ "## Indexes" +:+ nl +:+ nl);
              Txt ("| Name | Columns | Unique | Primary |" +:+ nl);
              Txt ("|------|---------|--------|--------|" +:+ nl)] ++
             map (fun i => Txt ("| " +:+ idx_name i +:+ " | " +:+ join ", " (idx_columns i) +:+ " | " +:+
                               (if is_unique i then check_mark else "") +:+ " | " +:+
                               (if is_primary i then check_mark else "") +:+ " |" +:+ nl)) idxs
   end) ++
  [Txt (nl +:+ "## Common Join Patterns" +:+ nl +:+ nl)] ++
  flat_map (fun fk => Txt ("### Join with " +:+ ref_table fk +:+ nl +:+ nl) ::
                      sql_join t (ref_table fk) (fk_column fk) (ref_column fk)) (foreign_keys ti) ++
  flat_map (fun r => match pk with
                     | [] => []
                     | pk_column :: _ => Txt ("### Join with " +:+ rb_table r +:+ " (referencing)" +:+ nl +:+ nl) ::
                                         sql_join t (rb_table r) pk_column (rb_column r)
                     end) (referenced_by ti).

(** A relationship of [generate_relationships_summary] (lines 255-268). *)
Record Relationship := mkRelationship {
  source_table : string; source_column : string; target_table : string; target_column : string }.

Definition relationships (s : SchemaData) : list Relationship :=
  flat_map (fun '(t, ti) => map (fun fk => mkRelationship t (fk_column fk) (ref_table fk) (ref_column fk)) (foreign_keys ti)) s.

(** [key=lambda r: (a(r), b(r))] *)
Definition pair_before (a b : Relationship -> string) (r1 r2 : Relationship) : bool :=
  String.ltb (a r1) (a r2) || (String.eqb (a r1) (a r2) && String.ltb (b r1) (b r2)).

(** [generate_relationships_summary] (lines 245-296) *)
Definition relationships_page (s : SchemaData) : Page :=
  [Txt ("# Database Relationships Summary" +:+ nl +:+ nl);
   Txt ("## Relationships by Source Table" +:+ nl +:+ nl);
   Txt ("| Source Table | Source Column | Target Table | Target Column |" +:+ nl);
   Txt ("|--------------|--------------|-------------|---------------|" +:+ nl)] ++
  flat_map (fun r => [Txt "| "; Lnk (source_table r) ("../tables/" +:+ source_table r +:+ ".md");
                      Txt (" | " +:+ source_column r +:+ " | "); Lnk (target_table r) ("../tables/" +:+ target_table r +:+ ".md");
                      Txt (" | " +:+ target_column r +:+ " |" +:+ nl)])
           (sort_by (pair_before source_table target_table) (relationships s)) ++
  [Txt (nl +:+ "## Relationships by Target Table" +:+ nl +:+ nl);
   Txt ("| Target Table | Target Column | Source Table | Source Column |" +:+ nl);
   Txt ("|--------------|--------------|--------------|---------------|" +:+ nl)] ++
  flat_map (fun r => [Txt "| "; Lnk (target_table r) ("../tables/" +:+ target_table r +:+ ".md");
                      Txt (" | " +:+ target_column r +:+ " | "); Lnk (source_table r) ("../tables/" +:+ source_table r +:+ ".md");
                      Txt (" | " +:+ source_column r +:+ " |" +:+ nl)])
           (sort_by (pair_before target_table source_table) (relationships s)).

(** [generate_all_docs] (lines 40-57): the index, the summary, the
    tables in the dict's order, the relationships. *)
Definition schema_site (out today : string) (s : SchemaData) : Site :=
  let site := write_page (index_path out) (index_page today s) [] in
  let site := write_page (summary_path out) (tables_summary_page s) site in
  let site := fold_left (fun site '(t, ti) => write_page (table_path out t) (table_page t ti) site) s site in
  write_page (relationships_path out) (relationships_page s) site.

(** [generate_markdown_from_json] (lines 299-318): a file that cannot be
    read or parsed ([OSError], [JSONDecodeError]) gives [False] and no
    page. *)
Definition generate_markdown_from_json (input : result SchemaData) (out today : string) : bool * Site :=
  match input with
  | Ok s => (true, schema_site out today s)
  | Err _ => (false, [])
  end.

(** ** The links of the site *)

Lemma schema_site_pages out today s p page :
  dget p (schema_site out today s) = Some page ->
  (p = index_path out /\ page = index_page today s) \/ (p = summary_path out /\ page = tables_summary_page s) \/
  (exists t ti, In (t, ti) s /\ p = table_path out t /\ page = table_page t ti) \/
  (p = relationships_path out /\ page = relationships_page s).
Proof.
  unfold schema_site. intros [[-> ->]|H]%dget_write_page; [by do 3 right|].
  assert (Hfold : forall l site, dget p (fold_left (fun site '(t, ti) => write_page (table_path out t) (table_page t ti) site) l site) = Some page ->
                   (exists t ti, In (t, ti) l /\ p = table_path out t /\ page = table_page t ti) \/ dget p site = Some page).
  { induction l as [|[t ti] l IH]; intros site Hs; [by right|]. cbn in Hs.
    destruct (IH _ Hs) as [(t' & ti' & Hin & Hp)|[[-> ->]|Hs']%dget_write_page]; [left; exists t', ti'; split; [by right|done]|..].
    - left. exists t, ti. split; [by left|done]. - by right. }
  destruct (Hfold s _ H) as [Ht|[[-> ->]|[[-> ->]|[=]]%dget_write_page]%dget_write_page]; [by do 2 right; left|by right; left|by left].
Qed.

Lemma schema_site_keys out today s k :
  In k (dkeys (schema_site out today s)) <->
  k = index_path out \/ k = summary_path out \/ (exists t, In t (dkeys s) /\ k = table_path out t) \/ k = relationships_path out.
Proof.
  unfold schema_site, write_page. rewrite in_dkeys_dset.
  assert (Hfold : forall l site, In k (dkeys (fold_left (fun site '(t, ti) => dset (table_path out t) (table_page t ti) site) l site)) <->
                                 (exists t, In t (dkeys l) /\ k = table_path out t) \/ In k (dkeys site)).
  { induction l as [|[t ti] l IH]; intros site; cbn [fold_left]; [split; [by right|by intros [(? & [] & _)|]]|].
    change (dkeys ((t, ti) :: l)) with (t :: dkeys l). rewrite IH, in_dkeys_dset. split.
    - intros [(t' & Ht' & ->)|[->|Hk]]; [left; exists t'; by split; [right|]|left; exists t; by split; [left|]|by right].
    - intros [(t' & [<-|Ht'] & ->)|Hk]; [right; by left|left; eauto|right; by right]. }
  rewrite Hfold, !in_dkeys_dset. cbn. intuition congruence.
Qed.

Lemma schema_site_NoDup out today s : NoDup (dkeys (schema_site out today s)).
Proof.
  unfold schema_site. apply site_keys_NoDup. apply (fold_left_inv (fun site => NoDup (dkeys site))).
  - intros site [t ti]. apply site_keys_NoDup.
  - apply site_keys_NoDup, site_keys_NoDup. constructor.
Qed.

Lemma index_links today s x :
  In x (link_targets (index_page today s)) ->
  x = "tables/tables_summary.md" \/ x = "relationships/relationships_summary.md" \/
  exists t, In t (dkeys s) /\ x = "tables/" +:+ t +:+ ".md".
Proof.
  unfold index_page. rewrite link_targets_app. cbn [link_targets flat_map app]. intros [->|[->|Hx]]; [by left|by right; left|].
  right; right. apply in_link_targets_flat_map in Hx as (t & Ht & [<-|[]]). exists t. split; [|done].
  unfold sort_names in Ht. by rewrite (sort_by_perm _ (dkeys s)) in Ht.
Qed.

Lemma summary_links s x :
  In x (link_targets (tables_summary_page s)) <-> exists t, In t (dkeys s) /\ x = "./tables/" +:+ t +:+ ".md".
Proof.
  unfold tables_summary_page. rewrite link_targets_app. cbn [link_targets flat_map app]. rewrite in_link_targets_flat_map.
  split.
  - intros ([t ti] & Ht & [<-|[]]). exists t. split; [|done]. unfold sort_entries in Ht. rewrite (sort_by_perm _ s) in Ht.
    apply (in_map fst) in Ht. exact Ht.
  - intros (t & Ht & ->). apply in_map_iff in Ht as ([t' ti] & <- & Ht). exists (t', ti). split; [|by left].
    unfold sort_entries. by rewrite (sort_by_perm _ s).
Qed.

Lemma table_links t ti x :
  In x (link_targets (table_page t ti)) ->
  (exists fk, In fk (foreign_keys ti) /\ x = "./" +:+ ref_table fk +:+ ".md") \/
  (exists r, In r (referenced_by ti) /\ x = "./" +:+ rb_table r +:+ ".md").
Proof.
  unfold table_page. intros Hx. links_in Hx.
  - destruct (match primary_key ti with Some l => l | None => [] end); links_in Hx.
  - destruct (foreign_keys ti) as [|fk fks] eqn:E; links_in Hx.
    apply in_link_targets_flat_map in Hx as (fk' & Hfk & [<-|[]]). left. by exists fk'.
  - destruct (referenced_by ti) as [|r rs] eqn:E; links_in Hx.
    apply in_link_targets_flat_map in Hx as (r' & Hr & [<-|[]]). right. by exists r'.
  - destruct (indexes ti); links_in Hx.
  - apply in_link_targets_flat_map in Hx as (fk & _ & Hx). unfold sql_join in Hx. links_in Hx.
  - apply in_link_targets_flat_map in Hx as (r & _ & Hx).
    destruct (match primary_key ti with Some l => l | None => [] end); unfold sql_join in Hx; links_in Hx.
Qed.

Lemma relationships_links s x :
  In x (link_targets (relationships_page s)) ->
  exists r, In r (relationships s) /\ (x = "../tables/" +:+ source_table r +:+ ".md" \/ x = "../tables/" +:+ target_table r +:+ ".md").
Proof.
  unfold relationships_page. rewrite !link_targets_app. cbn [link_targets flat_map app].
  intros [(r & Hr & Hx)%in_link_targets_flat_map|(r & Hr & Hx)%in_link_targets_flat_map]%in_app_iff;
    rewrite (sort_by_perm _ (relationships s)) in Hr; exists r; split; try done; cbn in Hx; intuition.
Qed.

(** ** Conditions on the schema *)

Definition known (s : SchemaData) (t : string) : bool := existsb (String.eqb t) (dkeys s).

(** No table name has a slash. *)
Definition table_names_ok (s : SchemaData) : bool := forallb (fun t => negb (char_in slash t)) (dkeys s).

(** Every foreign key and back-reference names a table of the schema. *)
Definition targets_known (s : SchemaData) : bool :=
  forallb (fun '(t, ti) => forallb (fun fk => known s (ref_table fk)) (foreign_keys ti) &&
                           forallb (fun r => known s (rb_table r)) (referenced_by ti)) s.

Lemma known_In s t : known s t = true <-> In t (dkeys s).
Proof.
  unfold known. rewrite existsb_exists. split; [intros (t' & H & E%String.eqb_eq); by subst|].
  intros H. exists t. by rewrite String.eqb_refl.
Qed.

Lemma table_names_ok_In s t : table_names_ok s = true -> In t (dkeys s) -> char_in slash t = false.
Proof. unfold table_names_ok. rewrite forallb_forall. intros H Ht. apply negb_true_iff. by apply H. Qed.

Lemma targets_known_fk s t ti fk :
  targets_known s = true -> In (t, ti) s -> In fk (foreign_keys ti) -> In (ref_table fk) (dkeys s).
Proof.
  unfold targets_known. rewrite forallb_forall. intros H Hin Hfk. specialize (H _ Hin). cbn in H.
  apply andb_prop in H as [H _]. rewrite forallb_forall in H. by apply known_In, H.
Qed.

Lemma targets_known_ref s t ti r :
  targets_known s = true -> In (t, ti) s -> In r (referenced_by ti) -> In (rb_table r) (dkeys s).
Proof.
  unfold targets_known. rewrite forallb_forall. intros H Hin Hr. specialize (H _ Hin). cbn in H.
  apply andb_prop in H as [_ H]. rewrite forallb_forall in H. by apply known_In, H.
Qed.

Lemma relationships_known s r :
  targets_known s = true -> In r (relationships s) -> In (source_table r) (dkeys s) /\ In (target_table r) (dkeys s).
Proof.
  intros H Hr. unfold relationships in Hr. apply in_flat_map in Hr as ([t ti] & Hin & Hr).
  apply in_map_iff in Hr as (fk & <- & Hfk). split; cbn; [apply (in_map fst) in Hin; exact Hin|].
  by apply (targets_known_fk s t ti).
Qed.

Lemma table_row_keys ts (s0 : SchemaData) t : In t (dkeys (fold_left table_row ts s0)) <-> In t (map tr_name ts) \/ In t (dkeys s0).
Proof.
  revert s0. induction ts as [|r ts IH]; intros s0; cbn [fold_left map]; [split; [by right|by intros [[]|]]|].
  unfold table_row at 2. rewrite IH, in_dkeys_dset. cbn [In]. intuition congruence.
Qed.

(** An extracted schema names only its own tables. *)
Lemma schema_of_targets_known ts cs ps fs xs : targets_known (schema_of ts cs ps fs xs) = true.
Proof.
  destruct (schema_of_fk_inv ts cs ps fs xs) as (Hk & Hp & He). set (s := schema_of ts cs ps fs xs) in *.
  unfold targets_known. apply forallb_forall. intros [t ti] Hin. apply andb_true_intro. split; apply forallb_forall.
  - intros fk Hfk. apply known_In. rewrite Hk.
    refine (proj2 (He (t, fk_column fk, ref_table fk, constraint_name fk) _)).
    unfold fk_edges. apply in_flat_map. exists (t, ti). split; [done|]. apply in_map_iff. eauto.
  - intros r Hr. apply known_In. rewrite Hk.
    refine (proj1 (He (rb_table r, rb_column r, t, via_foreign_key r) _)). apply (Permutation_in _ (Permutation_sym Hp)).
    unfold ref_edges. apply in_flat_map. exists (t, ti). split; [done|]. apply in_map_iff. eauto.
Qed.

Lemma schema_of_keys ts cs ps fs xs t : In t (dkeys (schema_of ts cs ps fs xs)) <-> In t (map tr_name ts).
Proof. destruct (schema_of_fk_inv ts cs ps fs xs) as (-> & _). rewrite table_row_keys. cbn. tauto. Qed.

(** ** Where the links lead *)

Section Links.
Variable out : string.
Hypothesis out_nonempty : out <> "".
Hypothesis out_stripped : rstrip_char slash out = out.
Hypothesis out_relative : String.prefix "/" out = false.

Local Ltac path_side := first [reflexivity | done].

Lemma index_path_under : index_path out = under out ["index.md"].
Proof. unfold index_path. by rewrite path_join_below. Qed.

Lemma tables_dir_sub : tables_dir out = out +:+ String slash "tables".
Proof. unfold tables_dir. by rewrite path_join_below. Qed.

Lemma summary_path_under : summary_path out = under out ["tables"; "tables_summary.md"].
Proof. unfold summary_path. rewrite tables_dir_sub. rewrite path_join_sub; path_side. Qed.

Lemma table_path_under t : table_path out t = under out ["tables"; t +:+ ".md"].
Proof. unfold table_path. rewrite tables_dir_sub. rewrite path_join_sub; path_side. Qed.

Lemma relationships_path_under : relationships_path out = under out ["relationships"; "relationships_summary.md"].
Proof. unfold relationships_path, relationships_dir. rewrite (path_join_below out) by done. rewrite path_join_sub; path_side. Qed.

Lemma table_path_sub t : out +:+ String slash ("tables/" +:+ t +:+ ".md") = table_path out t.
Proof. by rewrite table_path_under, under_two. Qed.

Lemma resolve_index x : resolve (index_path out) x = normpath (out +:+ String slash x).
Proof. rewrite index_path_under. by apply resolve_top. Qed.

Variables (today : string) (s : SchemaData).
Hypothesis names_ok : table_names_ok s = true.

Lemma site_has_table t : In t (dkeys s) -> site_has (schema_site out today s) (normpath (table_path out t)) = true.
Proof. intros Ht. apply (site_has_intro _ (table_path out t)); [|done]. apply schema_site_keys. eauto 6. Qed.

Lemma md_no_slash t : In t (dkeys s) -> char_in slash (t +:+ ".md") = false.
Proof. intros Ht. rewrite char_in_app. by rewrite (table_names_ok_In s t). Qed.

Lemma md_plain t : In t (dkeys s) -> plain (t +:+ ".md") = true.
Proof. intros Ht. apply plain_md. by apply (table_names_ok_In s). Qed.

(** Every link of the index leads to a file of the site. *)
Lemma index_links_ok x :
  In x (link_targets (index_page today s)) -> site_has (schema_site out today s) (resolve (index_path out) x) = true.
Proof.
  intros Hx. rewrite resolve_index. destruct (index_links today s x Hx) as [->|[->|(t & Ht & ->)]].
  - apply (site_has_intro _ (summary_path out)); [apply schema_site_keys; tauto|]. by rewrite summary_path_under, under_two.
  - apply (site_has_intro _ (relationships_path out)); [apply schema_site_keys; tauto|].
    by rewrite relationships_path_under, under_two.
  - rewrite table_path_sub. by apply site_has_table.
Qed.

(** Every link of a table page leads to a file of the site. *)
Lemma table_links_ok t ti x :
  targets_known s = true -> In (t, ti) s -> In x (link_targets (table_page t ti)) ->
  site_has (schema_site out today s) (resolve (table_path out t) x) = true.
Proof.
  intros Hk Hin Hx. assert (Ht : In t (dkeys s)) by (apply (in_map fst) in Hin; exact Hin).
  rewrite table_path_under. destruct (table_links t ti x Hx) as [(fk & Hfk & ->)|(r & Hr & ->)];
    rewrite resolve_dot, <-table_path_under by (try apply md_no_slash; done); apply site_has_table.
  - by apply (targets_known_fk s t ti). - by apply (targets_known_ref s t ti).
Qed.

(** Every link of the relationships page leads to a file of the site. *)
Lemma relationships_links_ok x :
  targets_known s = true -> In x (link_targets (relationships_page s)) ->
  site_has (schema_site out today s) (resolve (relationships_path out) x) = true.
Proof.
  intros Hk Hx. rewrite relationships_path_under. destruct (relationships_links s x Hx) as (r & Hr & Hx').
  destruct (relationships_known s r Hk Hr) as [H1 H2].
  destruct Hx' as [-> | ->]; change ("../tables/" +:+ ?y) with ("../" +:+ ("tables/" +:+ y));
    rewrite resolve_dotdot, table_path_sub by done; by apply site_has_table.
Qed.

(** No link of the tables summary leads to a file of the site: they
    resolve to [out/tables/tables/<t>.md]. *)
Lemma summary_links_broken x :
  In x (link_targets (tables_summary_page s)) -> site_has (schema_site out today s) (resolve (summary_path out) x) = false.
Proof.
  intros (t & Ht & ->)%summary_links. change ("./tables/" +:+ ?y) with ("./" +:+ ("tables/" +:+ y)).
  rewrite summary_path_under, resolve_dot by done.
  destruct (site_has _ _) eqn:E; [|done]. apply site_has_elim in E as (k & Hk & Ek).
  assert (Hp : forall l, Forall (fun y => plain y = true) l -> l <> [] -> length l <> 3 ->
                      normpath (under out l) = normpath (under out ["tables"; "tables/" +:+ t +:+ ".md"]) -> False).
  { intros l Hl Hne Hlen E.
    change (under out ["tables"; "tables/" +:+ t +:+ ".md"]) with (under out ["tables"; "tables"; t +:+ ".md"]) in E.
    apply under_same_file in E; [subst; by apply Hlen|..]; first [done | repeat constructor; by try apply md_plain]. }
  apply schema_site_keys in Hk as [-> | [-> | [(t' & Ht' & ->) | ->]]];
    rewrite ?index_path_under, ?summary_path_under, ?table_path_under, ?relationships_path_under in Ek;
    exfalso; refine (Hp _ _ _ _ Ek); first [done | cbn; lia | repeat constructor; by try apply md_plain].
Qed.

Lemma table_path_not_summary t : t <> "tables_summary" -> table_path out t <> summary_path out.
Proof.
  intros Ht E. rewrite table_path_under, summary_path_under, !under_two in E. apply sappend_cancel_l in E.
  injection E as E. change "tables_summary.md" with ("tables_summary" +:+ ".md") in E. by apply sappend_cancel_r in E.
Qed.

(** The tables summary is not overwritten unless a table is called
    [tables_summary]. *)
Lemma summary_page_kept :
  ~ In "tables_summary" (dkeys s) -> dget (summary_path out) (schema_site out today s) = Some (tables_summary_page s).
Proof.
  intros Hs. unfold schema_site, write_page. rewrite dget_dset.
  destruct (String.eqb_spec (summary_path out) (relationships_path out)) as [E|_].
  { rewrite summary_path_under, relationships_path_under, !under_two in E. apply sappend_cancel_l in E. discriminate. }
  assert (Hfold : forall l site, incl (dkeys l) (dkeys s) ->
            dget (summary_path out) (fold_left (fun site '(t, ti) => dset (table_path out t) (table_page t ti) site) l site) =
            dget (summary_path out) site).
  { induction l as [|[t ti] l IH]; intros site Hl; [done|]. cbn [fold_left]. rewrite IH by (intros ? ?; apply Hl; by right).
    rewrite dget_dset. destruct (String.eqb_spec (summary_path out) (table_path out t)) as [E|]; [|done].
    exfalso. apply (table_path_not_summary t); [|done]. intros ->. apply Hs, Hl. by left. }
  rewrite Hfold by apply incl_refl. rewrite !dget_dset, String.eqb_refl. done.
Qed.

(** The links of the generated schema documentation that lead nowhere
    are exactly the links of the tables summary. *)
Theorem schema_site_broken_links :
  targets_known s = true -> ~ In "tables_summary" (dkeys s) ->
  forall p x, In (p, x) (broken_links (schema_site out today s)) <-> p = summary_path out /\ In x (link_targets (tables_summary_page s)).
Proof.
  intros Hk Hs p x. rewrite in_broken_links by apply schema_site_NoDup. split.
  - intros (page & Hp & Hx & Hb).
    destruct (schema_site_pages _ _ _ _ _ Hp) as [[-> ->] | [[-> ->] | [(t & ti & Hin & -> & ->) | [-> ->]]]].
    + by rewrite index_links_ok in Hb.
    + done.
    + by rewrite (table_links_ok t ti) in Hb.
    + by rewrite relationships_links_ok in Hb.
  - intros [-> Hx]. exists (tables_summary_page s). split; [by apply summary_page_kept|]. split; [done|].
    by apply summary_links_broken.
Qed.

End Links.

(** ** Extraction followed by documentation *)

Lemma schema_of_names_ok ts cs ps fs xs :
  Forall (fun r => char_in slash (tr_name r) = false) ts -> table_names_ok (schema_of ts cs ps fs xs) = true.
Proof.
  intros Hn. unfold table_names_ok. apply forallb_forall. intros t (r & <- & Hr)%schema_of_keys%in_map_iff.
  apply negb_true_iff. exact (proj1 (List.Forall_forall _ _) Hn r Hr).
Qed.

(** C14: The schema documentation generated from an extracted PostgreSQL
    schema (the dict written to JSON and read back) has exactly one kind
    of broken link: every link of [tables/tables_summary.md], which points
    to [./tables/<t>.md] from inside [tables/]; every link of the index,
    of the table pages and of the relationships summary leads to a file
    the generator wrote. *)
Theorem extract_then_document_broken_links srv st out today ts :
  out <> "" -> rstrip_char slash out = out -> String.prefix "/" out = false ->
  connect_ok srv PostgreSQL = true -> session_ok srv PostgreSQL = true -> all_answered (pg_answers srv) = true ->
  tables_rows (pg_answers srv) = Ok ts ->
  Forall (fun r => char_in slash (tr_name r) = false /\ tr_name r <> "tables_summary") ts ->
  let result := generate_markdown_from_json (fst (extract_schema_to_json srv "postgresql" st)) out today in
  fst result = true /\
  forall p x, In (p, x) (broken_links (snd result)) <->
              p = summary_path out /\ exists t, In t (map tr_name ts) /\ x = "./tables/" +:+ t +:+ ".md".
Proof.
  intros Ho1 Ho2 Ho3 Hc Hs Ha Hts Hn. destruct (all_answered_rows _ Ha) as (ts' & cs & ps & fs & xs & E1 & E2 & E3 & E4 & E5).
  rewrite Hts in E1. injection E1 as <-. cbv zeta. rewrite (pg_extract_run srv st ts cs ps fs xs) by done.
  cbn [fst snd generate_markdown_from_json]. split; [done|]. intros p x.
  rewrite schema_site_broken_links, summary_links.
  - setoid_rewrite schema_of_keys. done.
  - done. - done. - done.
  - apply schema_of_names_ok. eapply Forall_impl; [exact Hn|]. by intros ? [].
  - apply schema_of_targets_known.
  - intros (r & Hr & Hin)%schema_of_keys%in_map_iff. by apply (proj2 (proj1 (List.Forall_forall _ _) Hn r Hin)).
Qed.

(** ** A sample database *)

Definition sample_pg : Connection (list string) :=
  mkConnection (Ok [mkTableRow "customers" None; mkTableRow "orders" (Some "Orders")])
               (Ok [mkColumnRow "customers" "id" "integer" None (Some 32%Z) (Some 0%Z) "NO" None None;
                    mkColumnRow "orders" "id" "integer" None (Some 32%Z) (Some 0%Z) "NO" None None;
                    mkColumnRow "orders" "customer_id" "integer" None (Some 32%Z) (Some 0%Z) "YES" None None])
               (Ok [mkKeyRow "customers" "id"; mkKeyRow "orders" "id"])
               (Ok [mkFkRow "orders" "customer_id" "customers" "id" "orders_customer_id_fkey"])
               (Ok [mkIndexRow "orders" "orders_pkey" ["id"] true true]).

Definition sample_server : Server :=
  mkServer (fun _ => true) (fun _ => true) sample_pg (Ok None) (fun _ => mkConnection (Ok []) (Ok []) (Ok []) (Ok []) (Ok [])).

Definition sample_state : ExtractState := mkExtractState [] None 0.

(** The two links of the tables summary are the only broken ones. *)
Example sample_site_broken_links :
  broken_links (snd (generate_markdown_from_json (fst (extract_schema_to_json sample_server "postgresql" sample_state))
                                                 "docs/schema" "2025-01-01")) =
  [("docs/schema/tables/tables_summary.md", "./tables/customers.md"); ("docs/schema/tables/tables_summary.md", "./tables/orders.md")].
Proof. vm_compute. reflexivity. Qed.

Lemma extract_then_document_broken_links_witness :
  let result := generate_markdown_from_json (fst (extract_schema_to_json sample_server "postgresql" sample_state))
                                            "docs/schema" "2025-01-01" in
  fst result = true /\
  forall p x, In (p, x) (broken_links (snd result)) <->
              p = summary_path "docs/schema" /\ exists t, In t ["customers"; "orders"] /\ x = "./tables/" +:+ t +:+ ".md".
Proof.
  apply (extract_then_document_broken_links sample_server sample_state "docs/schema" "2025-01-01"
           [mkTableRow "customers" None; mkTableRow "orders" (Some "Orders")]);
    try reflexivity; try discriminate.
  repeat constructor; discriminate.
Defined.

End SchemaDocs.
