(* ===== verification/QueryDocs.v ===== *)
(** * The query documentation (src/src/documentation/queries_to_markdown.py)

    [QueryMarkdownGenerator.generate_all_docs] writes, under its output
    directory, an index of the categories and of the most used tables,
    one page per category ([query_patterns/<category>.md]) and one page
    per table used at least twice ([tables_usage/<table>.md]).  Each
    page is what its [f.write] calls write ([DocSite.Page]).

    The input is the JSON object of analysed queries: the generator
    reads, with [.get] and a default, the fields [category],
    [tables_referenced], [complexity], [sql_text], [description],
    [joins] and [where_conditions] of each query ([QueryData], a field
    being [None] when the object lacks it).  The optional schema JSON
    only answers, for a table, whether [self.schema_data] is truthy and
    has the table, with its description, or raises ([SchemaView]).

    The pages are written through the interface [MdWriter]: the site of
    the files written (this file) or the file system of the pipeline
    ([Pipeline]).  A page whose generation raises half-way is written up
    to that point, since [with open(...)] closes the file on the way
    out. *)

From S2P Require Import Prelude PyStr PyFloat PyDict PyPath DocSite Schema SchemaDocs.
From stdpp Require Import list.
From Stdlib Require Import Ascii.

Open Scope string_scope.
Open Scope list_scope.

Module QueryDocs.
Import PyStr PyFloat PyDict PyPath DocSite.

(** ** The input *)

Record Condition := mkCondition { cond_table : option string; cond_column : option string }.

Record QueryData := mkQueryData {
  category : option string;
  tables_referenced : option (list string);
  complexity : option string;
  sql_text : option string;
  description : option string;
  joins : option (list string);
  where_conditions : option (list Condition)
}.

(** [queries_data], a JSON object: query ids and their data, in order. *)
Definition Queries := list (string * QueryData).

(** The [.get(field, default)] of the generator. *)
Definition get_category (q : QueryData) : string := default "Uncategorized" (category q).
Definition get_tables (q : QueryData) : list string := default [] (tables_referenced q).
Definition get_complexity (q : QueryData) : string := default "Medium" (complexity q).
Definition get_sql (q : QueryData) : string := default "" (sql_text q).
Definition get_description (q : QueryData) : string := default "No description available" (description q).
Definition get_joins (q : QueryData) : list string := default [] (joins q).
Definition get_where (q : QueryData) : list Condition := default [] (where_conditions q).

(** For a table: no schema section ([Ok None]), the description of the
    table in the schema ([Ok (Some d)]), or the exception raised while
    looking it up. *)
Definition SchemaView := string -> result (option string).

Definition no_schema : SchemaView := fun _ => Ok None.

(** The schema JSON the extractor saves, [{'tables': s}] (lines 185-188):
    a non-empty dict, so [self.schema_data] is truthy, and the
    description of a table of [s]. *)
Definition schema_view (s : Schema.SchemaData) : SchemaView := fun t => Ok (Schema.t_description <$> dget t s).

(** ** Writing files *)

(** [with open(path, 'w') as f: f.write(...)...] *)
Class MdWriter (S : Type) := md_write : string -> Page -> M S unit.

(** A page written up to the exception its generation raised, if any. *)
Definition write_doc {S} `{MdWriter S} (path : string) (d : Page * result unit) : M S unit :=
  md_write path d.1 ;;; match d.2 with Ok _ => ret tt | Err e => raise e end.

(** ** Helpers *)

(** [name.lower().replace(' ', '_')] *)
Definition safe_name (s : string) : string := replace " " "_" (lower s).

(** [sorted(d.items(), key=lambda x: x[1], reverse=True)] *)
Definition by_count (l : list (string * nat)) : list (string * nat) := sort_by (fun a b => (b.2 <? a.2)%nat) l.

(** [sorted(..., key=lambda q: q.get('complexity', 'Medium'))] *)
Definition by_complexity {A} (cx : A -> QueryData) (l : list A) : list A :=
  sort_by (fun a b => String.ltb (get_complexity (cx a)) (get_complexity (cx b))) l.

(** [f"{percentage:.1f}%"] *)
Definition pct (count total : nat) : string := percentage_text count total +:+ "%".

Definition str_n (n : nat) : string := str_int (Z.of_nat n).

(** ** [generate_index_file] (lines 54-91) *)

Definition category_counts (qs : Queries) : list (string * nat) := count_all (map (fun e => get_category e.2) qs) [].

Definition table_counts (qs : Queries) : list (string * nat) := count_all (flat_map (fun e => get_tables e.2) qs) [].

Definition index_page (qs : Queries) : Page :=
  [Txt ("# SQL Query Documentation" +:+ nl +:+ nl);
   Txt "This documentation catalogs and analyzes common SQL query patterns ";
   Txt ("from a repository of " +:+ str_n (length qs) +:+ " queries." +:+ nl +:+ nl);
   Txt ("## Query Categories" +:+ nl +:+ nl)] ++
  flat_map (fun '(c, n) => [Txt "- "; Lnk c ("query_patterns/" +:+ safe_name c +:+ ".md");
                            Txt (" (" +:+ str_n n +:+ " queries)" +:+ nl)]) (by_count (category_counts qs)) ++
  [Txt (nl +:+ "## Most Used Tables" +:+ nl +:+ nl);
   Txt ("| Table Name | Query Count |" +:+ nl);
   Txt ("|------------|------------|" +:+ nl)] ++
  flat_map (fun '(t, n) => [Txt "| "; Lnk t ("tables_usage/" +:+ safe_name t +:+ ".md");
                            Txt (" | " +:+ str_n n +:+ " |" +:+ nl)]) (firstn 20 (by_count (table_counts qs))).

(** ** [generate_query_patterns] (lines 93-162) *)

Definition queries_by_category (qs : Queries) : list (string * Queries) :=
  fold_left (fun acc e => dappend (get_category e.2) e acc) qs [].

Definition complexity_levels : list string := ["Low"; "Medium"; "High"; "Very High"].

Definition sample_query (e : string * QueryData) : Page :=
  let q := e.2 in
  [Txt ("### Query " +:+ e.1 +:+ nl +:+ nl);
   Txt ("**Complexity**: " +:+ get_complexity q +:+ "  " +:+ nl);
   Txt ("**Tables**: " +:+ join ", " (get_tables q) +:+ "  " +:+ nl);
   Txt ("**Description**: " +:+ get_description q +:+ "  " +:+ nl +:+ nl);
   Txt ("```sql" +:+ nl); Txt (get_sql q); Txt (nl +:+ "```" +:+ nl +:+ nl)].

Definition pattern_page (c : string) (qs : Queries) : Page :=
  let total := length qs in
  let cx := count_all (map (fun e => get_complexity e.2) qs) [] in
  let tu := count_all (flat_map (fun e => get_tables e.2) qs) [] in
  [Txt ("# " +:+ c +:+ " Queries" +:+ nl +:+ nl);
   Txt ("This document contains " +:+ str_n total +:+ " queries categorized as '" +:+ c +:+ "'." +:+ nl +:+ nl);
   Txt ("## Complexity Distribution" +:+ nl +:+ nl);
   Txt ("| Complexity | Count | Percentage |" +:+ nl);
   Txt ("|-----------|-------|------------|" +:+ nl)] ++
  map (fun x => let n := default 0%nat (dget x cx) in
                Txt ("| " +:+ x +:+ " | " +:+ str_n n +:+ " | " +:+ pct n total +:+ " |" +:+ nl)) complexity_levels ++
  (match tu with
   | [] => []
   | _ => [Txt (nl +:+ "## Tables Used in this Category" +:+ nl +:+ nl);
           Txt ("| Table Name | Query Count | Percentage |" +:+ nl);
           Txt ("|------------|------------|------------|" +:+ nl)] ++
          flat_map (fun '(t, n) => [Txt "| "; Lnk t ("../tables_usage/" +:+ safe_name t +:+ ".md");
                                    Txt (" | " +:+ str_n n +:+ " | " +:+ pct n total +:+ " |" +:+ nl)])
                   (firstn 15 (by_count tu))
   end) ++
  [Txt (nl +:+ "## Sample Queries" +:+ nl +:+ nl)] ++
  flat_map sample_query (firstn 20 (by_complexity snd qs)).

(** ** [generate_tables_usage_docs] (lines 164-262) *)

Definition queries_by_table (qs : Queries) : list (string * list QueryData) :=
  fold_left (fun acc x => dappend x.1 x.2 acc) (flat_map (fun e => map (fun t => (t, e.2)) (get_tables e.2)) qs) [].

(** [tables = join.split('_JOIN_')] and
    [other_table = tables[1] if tables[0] == table else tables[0]]. *)
Definition other_table (t j : string) : result string :=
  match split_str "_JOIN_" j with
  | t0 :: rest => if String.eqb t0 t then match rest with t1 :: _ => Ok t1 | [] => Err "IndexError: list index out of range" end
                  else Ok t0
  | [] => Ok j
  end.

(** The loop over the joins that contain the table ([table in join]). *)
Fixpoint join_loop (t : string) (js : list string) (acc : list (string * nat)) : result (list (string * nat)) :=
  match js with
  | [] => Ok acc
  | j :: js' =>
      if contains t j then
        match other_table t j with Ok o => join_loop t js' (bump o acc) | Err e => Err e end
      else join_loop t js' acc
  end.

Definition join_patterns (t : string) (qs : list QueryData) : result (list (string * nat)) :=
  join_loop t (flat_map get_joins qs) [].

Definition where_columns (t : string) (qs : list QueryData) : list (string * nat) :=
  count_all (flat_map (fun q => map (fun c => default "unknown" (cond_column c))
                                    (List.filter (fun c => match cond_table c with
                                                           | Some t' => String.eqb t' t | None => false end) (get_where q))) qs) [].

Definition usage_sample (q : QueryData) : Page :=
  [Txt ("### " +:+ get_category q +:+ " Query (Complexity: " +:+ get_complexity q +:+ ")" +:+ nl +:+ nl);
   Txt ("```sql" +:+ nl); Txt (get_sql q); Txt (nl +:+ "```" +:+ nl +:+ nl)].

(** The page of a table, up to the exception of the schema lookup or of
    a join without a second table, if one is raised. *)
Definition usage_page (schema : SchemaView) (t : string) (qs : list QueryData) : Page * result unit :=
  let total := length qs in
  let head := [Txt ("# " +:+ t +:+ " Usage Documentation" +:+ nl +:+ nl)] in
  match schema t with
  | Err e => (head, Err e)
  | Ok sd =>
      let schema_part := match sd with
                         | None => []
                         | Some d => [Txt (d +:+ nl +:+ nl); Txt "See ";
                                      Lnk "full schema documentation" ("../../schema/tables/" +:+ t +:+ ".md");
                                      Txt (" for this table." +:+ nl +:+ nl)]
                         end in
      let cats := count_all (map get_category qs) [] in
      let before_joins :=
        head ++ schema_part ++
        [Txt ("This document describes how the `" +:+ t +:+ "` table is used across " +:+ str_n total +:+ " queries." +:+ nl +:+ nl);
         Txt ("## Usage by Category" +:+ nl +:+ nl);
         Txt ("| Category | Query Count | Percentage |" +:+ nl);
         Txt ("|----------|------------|------------|" +:+ nl)] ++
        flat_map (fun '(c, n) => [Txt "| "; Lnk c ("../query_patterns/" +:+ safe_name c +:+ ".md");
                                  Txt (" | " +:+ str_n n +:+ " | " +:+ pct n total +:+ " |" +:+ nl)]) (by_count cats) in
      match join_patterns t qs with
      | Err e => (before_joins, Err e)
      | Ok jp =>
          let wc := where_columns t qs in
          (before_joins ++
           (match jp with
            | [] => []
            | _ => [Txt (nl +:+ "## Common Join Patterns" +:+ nl +:+ nl);
                    Txt ("| Joined With | Query Count | Percentage |" +:+ nl);
                    Txt ("|------------|------------|------------|" +:+ nl)] ++
                   flat_map (fun '(o, n) => [Txt "| "; Lnk o ("./" +:+ safe_name o +:+ ".md");
                                             Txt (" | " +:+ str_n n +:+ " | " +:+ pct n total +:+ " |" +:+ nl)]) (by_count jp)
            end) ++
           (match wc with
            | [] => []
            | _ => [Txt (nl +:+ "## Common WHERE Conditions" +:+ nl +:+ nl);
                    Txt ("| Column | Query Count | Percentage |" +:+ nl);
                    Txt ("|--------|------------|------------|" +:+ nl)] ++
                   map (fun '(col, n) => Txt ("| " +:+ col +:+ " | " +:+ str_n n +:+ " | " +:+ pct n total +:+ " |" +:+ nl))
                       (firstn 10 (by_count wc))
            end) ++
           [Txt (nl +:+ "## Sample Queries Using This Table" +:+ nl +:+ nl)] ++
           flat_map usage_sample (firstn 10 (by_complexity id qs)),
           Ok tt)
      end
  end.

(** ** The paths (lines 33-37, 59, 104, 180) *)

Definition patterns_dir (out : string) : string := path_join out "query_patterns".
Definition usage_dir (out : string) : string := path_join out "tables_usage".
Definition qindex_path (out : string) : string := path_join out "index.md".
Definition pattern_path (out c : string) : string := path_join (patterns_dir out) (safe_name c +:+ ".md").
Definition usage_path (out t : string) : string := path_join (usage_dir out) (safe_name t +:+ ".md").

(** ** [generate_all_docs] (lines 39-53) *)

Definition generate_all_docs {S} `{MdWriter S} (schema : SchemaView) (out : string) (qs : Queries) : M S unit :=
  md_write (qindex_path out) (index_page qs) ;;;
  mmap (fun '(c, l) => md_write (pattern_path out c) (pattern_page c l)) (queries_by_category qs) ;;;
  mmap (fun '(t, l) => if (length l <? 2)%nat then ret tt else write_doc (usage_path out t) (usage_page schema t l))
       (queries_by_table qs) ;;;
  ret tt.

(** The files written, as a site. *)
#[export] Instance site_writer : MdWriter Site := fun path p site => (Ok tt, write_page path p site).

Definition query_site (schema : SchemaView) (out : string) (qs : Queries) : result unit * Site :=
  generate_all_docs schema out qs [].

(** ** The run on a site *)

Section Run.
Variables (schema : SchemaView) (out : string) (qs : Queries).

(** The pattern pages, written in turn. *)
Definition pattern_run (l : list (string * Queries)) (site : Site) : Site :=
  fold_left (fun site '(c, ql) => write_page (pattern_path out c) (pattern_page c ql) site) l site.

(** The usage pages, written in turn up to the first exception. *)
Fixpoint usage_run (l : list (string * list QueryData)) (site : Site) : result unit * Site :=
  match l with
  | [] => (Ok tt, site)
  | (t, ql) :: l' =>
      if (length ql <? 2)%nat then usage_run l' site
      else let site' := write_page (usage_path out t) (usage_page schema t ql).1 site in
           match (usage_page schema t ql).2 with Ok _ => usage_run l' site' | Err e => (Err e, site') end
  end.

Lemma mmap_patterns l site :
  mmap (fun '(c, ql) => md_write (pattern_path out c) (pattern_page c ql)) l site =
  (Ok (map (fun _ => tt) l), pattern_run l site).
Proof.
  revert site. induction l as [|[c ql] l IH]; intros site; [done|].
  cbn [mmap]. unfold bind. cbn [md_write site_writer]. by rewrite IH.
Qed.

Lemma mmap_usage l site :
  bind (mmap (fun '(t, ql) => if (length ql <? 2)%nat then ret tt else write_doc (usage_path out t) (usage_page schema t ql)) l)
       (fun _ => ret tt) site = usage_run l site.
Proof.
  revert site. induction l as [|[t ql] l IH]; intros site; [done|].
  cbn [usage_run mmap]. unfold bind, ret in *. destruct (length ql <? 2)%nat.
  - rewrite <-IH. by destruct (mmap _ l site) as [[] ?].
  - unfold write_doc, bind, md_write, site_writer. destruct (usage_page schema t ql) as [pg [u|e]]; cbn; [|done].
    rewrite <-IH. by destruct (mmap _ l _) as [[] ?].
Qed.

(** The generator on a site is the three loops in turn. *)
Lemma query_site_run :
  query_site schema out qs =
  usage_run (queries_by_table qs) (pattern_run (queries_by_category qs) (write_page (qindex_path out) (index_page qs) [])).
Proof.
  unfold query_site, generate_all_docs.
  rewrite (bind_ok _ _ _ tt (write_page (qindex_path out) (index_page qs) [])) by reflexivity.
  rewrite (bind_ok _ _ _ _ _ (mmap_patterns _ _)). apply mmap_usage.
Qed.

(** Which page a path of the site holds. *)
Definition generated (k : string) (pg : Page) : Prop :=
  (k = qindex_path out /\ pg = index_page qs) \/
  (exists c ql, In (c, ql) (queries_by_category qs) /\ k = pattern_path out c /\ pg = pattern_page c ql) \/
  (exists t ql, In (t, ql) (queries_by_table qs) /\ (2 <= length ql)%nat /\ k = usage_path out t /\
                pg = (usage_page schema t ql).1).

Definition site_generated (site : Site) : Prop := forall k pg, dget k site = Some pg -> generated k pg.

Lemma write_generated k pg site : generated k pg -> site_generated site -> site_generated (write_page k pg site).
Proof. intros Hg Hs k' pg' [[-> ->]|E]%dget_write_page; [done|by apply Hs]. Qed.

Lemma pattern_run_generated l site :
  (forall c ql, In (c, ql) l -> In (c, ql) (queries_by_category qs)) -> site_generated site -> site_generated (pattern_run l site).
Proof.
  revert site. induction l as [|[c ql] l IH]; intros site Hl Hs; [done|]. cbn. apply IH; [intros; apply Hl; by right|].
  apply write_generated; [|done]. right; left. exists c, ql. split; [apply Hl; by left|done].
Qed.

Lemma usage_run_generated l site :
  (forall t ql, In (t, ql) l -> In (t, ql) (queries_by_table qs)) -> site_generated site -> site_generated (usage_run l site).2.
Proof.
  revert site. induction l as [|[t ql] l IH]; intros site Hl Hs; [done|]. cbn [usage_run].
  assert (Hl' : forall t ql, In (t, ql) l -> In (t, ql) (queries_by_table qs)) by (intros; apply Hl; by right).
  destruct (Nat.ltb_spec (length ql) 2); [by apply IH|].
  assert (Hw : site_generated (write_page (usage_path out t) (usage_page schema t ql).1 site)).
  { apply write_generated; [|done]. right; right. exists t, ql. split; [apply Hl; by left|done]. }
  destruct (usage_page schema t ql).2; [by apply IH|done].
Qed.

(** Every file of the site holds the page the generator wrote for its
    path, whether the generation ends or raises. *)
Lemma query_site_generated : site_generated (query_site schema out qs).2.
Proof.
  rewrite query_site_run. apply usage_run_generated; [done|]. apply pattern_run_generated; [done|].
  apply write_generated; [by left|]. by intros k pg.
Qed.

(** The keys of the site: the files it has kept, and after a run that
    ends, every file the generator writes. *)
Lemma pattern_run_keys l site k :
  In k (dkeys (pattern_run l site)) <-> In k (dkeys site) \/ exists c ql, In (c, ql) l /\ k = pattern_path out c.
Proof.
  revert site. induction l as [|[c ql] l IH]; intros site.
  - cbn. split; [by left|]. by intros [H|(c & ql & [] & _)].
  - change (pattern_run ((c, ql) :: l) site) with (pattern_run l (write_page (pattern_path out c) (pattern_page c ql) site)).
    rewrite IH. unfold write_page. rewrite in_dkeys_dset. split.
    + intros [[->|H]|(c' & ql' & H & ->)]; [right; exists c, ql; split; [by left|done]|by left|].
      right. exists c', ql'. split; [by right|done].
    + intros [H|(c' & ql' & [[= -> ->]|H] & ->)]; [left; by right|left; by left|right; eauto].
Qed.

Lemma usage_run_keys l site k :
  (usage_run l site).1 = Ok tt ->
  (forall t ql, In (t, ql) l -> (2 <= length ql)%nat -> k = usage_path out t -> In k (dkeys (usage_run l site).2)) /\
  (In k (dkeys site) -> In k (dkeys (usage_run l site).2)).
Proof.
  revert site. induction l as [|[t ql] l IH]; intros site; cbn [usage_run]; [intros _; split; [done|naive_solver]|].
  destruct (Nat.ltb_spec (length ql) 2) as [Hlt|Hge].
  - intros (H1 & H2)%IH. split; [|done]. intros t' ql' [[= -> ->]|Hin] Hl; [lia|]. by apply (H1 t' ql').
  - destruct (usage_page schema t ql).2; [|done]. intros (H1 & H2)%IH.
    unfold write_page in *. split.
    + intros t' ql' [[= -> ->]|Hin] Hl ->; [apply H2, in_dkeys_dset; by left|by apply (H1 t' ql')].
    + intros Hk. apply H2, in_dkeys_dset. by right.
Qed.

End Run.

(** ** Counts and groups *)

Lemma map_fst_table_pairs (qs : Queries) :
  map fst (flat_map (fun e => map (fun t => (t, e.2)) (get_tables e.2)) qs) = flat_map (fun e => get_tables e.2) qs.
Proof. induction qs as [|e qs IH]; [done|]. cbn. by rewrite map_app, IH, map_map, map_id. Qed.

Lemma map_tabulate_length {A} (f : string -> list A) keys :
  map (fun '(k, l) => (k, length l)) (tabulate f keys) = tabulate (fun k => length (f k)) keys.
Proof. unfold tabulate. by rewrite map_map. Qed.

(** The counts of the index are the sizes of the groups the pages
    document. *)
Lemma table_counts_groups qs : table_counts qs = map (fun '(t, ql) => (t, length ql)) (queries_by_table qs).
Proof.
  unfold table_counts, queries_by_table. rewrite count_spec, (group_spec fst snd), map_tabulate_length, map_fst_table_pairs.
  unfold tabulate. apply map_ext. intros t. by rewrite length_map, (with_key_map fst), map_fst_table_pairs.
Qed.

Lemma category_counts_groups qs : category_counts qs = map (fun '(c, ql) => (c, length ql)) (queries_by_category qs).
Proof.
  unfold category_counts, queries_by_category. rewrite count_spec.
  rewrite (group_spec (fun e => get_category e.2) (fun e => e)), map_tabulate_length.
  unfold tabulate. apply map_ext. intros c. rewrite length_map, (with_key_map (fun e => get_category e.2)). done.
Qed.

Lemma queries_by_table_keys qs : map fst (queries_by_table qs) = uniq (flat_map (fun e => get_tables e.2) qs).
Proof. unfold queries_by_table. rewrite (group_spec fst snd), map_fst_table_pairs. unfold tabulate. by rewrite map_map, map_id. Qed.

Lemma queries_by_category_keys qs : map fst (queries_by_category qs) = uniq (map (fun e => get_category e.2) qs).
Proof.
  unfold queries_by_category. rewrite (group_spec (fun e => get_category e.2) (fun e => e)). unfold tabulate.
  by rewrite map_map, map_id.
Qed.

Lemma in_counts_group {A} (l : list (string * list A)) t n :
  In (t, n) (map (fun '(k, ql) => (k, length ql)) l) <-> exists ql, In (t, ql) l /\ length ql = n.
Proof. rewrite in_map_iff. split; [intros ([k ql] & [= -> <-] & H); eauto|intros (ql & H & <-); by exists (t, ql)]. Qed.

(** A table has one group, of the size the index shows. *)
Lemma table_count_group qs t n ql :
  In (t, n) (table_counts qs) -> In (t, ql) (queries_by_table qs) -> length ql = n.
Proof.
  rewrite table_counts_groups, in_counts_group. intros (ql' & H' & <-) H.
  assert (Hnd : NoDup (map fst (queries_by_table qs))) by (rewrite queries_by_table_keys; apply NoDup_uniq).
  apply NoDup_ListNoDup in Hnd. by injection (NoDup_map_same fst _ (t, ql) (t, ql') Hnd H H' eq_refl) as ->.
Qed.

(** ** The links of the pages *)

Lemma in_by_count x l : In x (by_count l) <-> In x l.
Proof. unfold by_count. split; apply Permutation_in; [|symmetry]; apply sort_by_perm. Qed.

Lemma qindex_links qs x :
  In x (link_targets (index_page qs)) <->
  (exists c n, In (c, n) (category_counts qs) /\ x = "query_patterns/" +:+ safe_name c +:+ ".md") \/
  (exists t n, In (t, n) (firstn 20 (by_count (table_counts qs))) /\ x = "tables_usage/" +:+ safe_name t +:+ ".md").
Proof.
  unfold index_page. rewrite !link_targets_app, !in_app_iff, !in_link_targets_flat_map. cbn [link_targets flat_map app].
  setoid_rewrite in_by_count. split.
  - intros [[]|[([c n] & H & Hx)|[[]|([t n] & H & Hx)]]]; cbn [link_targets flat_map app] in Hx;
      destruct Hx as [<-|[]]; [left|right]; eauto.
  - intros [(c & n & H & ->)|(t & n & H & ->)]; [right; left; exists (c, n)|right; right; right; exists (t, n)];
      (split; [exact H|by left]).
Qed.


Lemma sample_query_links e : link_targets (sample_query e) = [].
Proof. done. Qed.

Lemma usage_sample_links q : link_targets (usage_sample q) = [].
Proof. done. Qed.

Lemma in_count_all_keys t xs : In t (map fst (count_all xs [])) <-> In t xs.
Proof. rewrite count_spec. unfold tabulate. rewrite map_map, map_id. apply In_uniq. Qed.

Lemma pattern_links c ql x :
  In x (link_targets (pattern_page c ql)) ->
  exists t, In t (flat_map (fun e => get_tables e.2) ql) /\ x = "../tables_usage/" +:+ safe_name t +:+ ".md".
Proof.
  unfold pattern_page. cbv zeta. intros Hx. links_in Hx.
  - destruct (count_all (flat_map _ ql) []) as [|p0 tu] eqn:E; links_in Hx.
    apply in_link_targets_flat_map in Hx as ([t n] & Ht & Hx). cbn [link_targets flat_map app] in Hx.
    destruct Hx as [<-|[]]. exists t. split; [|done]. apply in_take in Ht. rewrite in_by_count, <-E in Ht.
    apply (in_map fst) in Ht. cbn [fst] in Ht. by rewrite in_count_all_keys in Ht.
  - apply in_link_targets_flat_map in Hx as (e & _ & Hx). by rewrite sample_query_links in Hx.
Qed.

Lemma usage_links schema t ql x :
  In x (link_targets (usage_page schema t ql).1) ->
  (exists d, schema t = Ok (Some d) /\ x = "../../schema/tables/" +:+ t +:+ ".md") \/
  (exists c, In c (map get_category ql) /\ x = "../query_patterns/" +:+ safe_name c +:+ ".md") \/
  (exists o, x = "./" +:+ safe_name o +:+ ".md").
Proof.
  unfold usage_page. destruct (schema t) as [sd|e] eqn:Es; cbn [fst]; [|intros Hx; by links_in Hx]. cbv zeta.
  assert (Hpre : forall x, In x (link_targets
     ([Txt ("# " +:+ t +:+ " Usage Documentation" +:+ nl +:+ nl)] ++
      match sd with
      | Some d => [Txt (d +:+ nl +:+ nl); Txt "See "; Lnk "full schema documentation" ("../../schema/tables/" +:+ t +:+ ".md");
                   Txt (" for this table." +:+ nl +:+ nl)]
      | None => []
      end ++
      [Txt ("This document describes how the `" +:+ t +:+ "` table is used across " +:+ str_n (length ql) +:+ " queries." +:+ nl +:+ nl);
       Txt ("## Usage by Category" +:+ nl +:+ nl); Txt ("| Category | Query Count | Percentage |" +:+ nl);
       Txt ("|----------|------------|------------|" +:+ nl)] ++
      flat_map (fun '(c, n) => [Txt "| "; Lnk c ("../query_patterns/" +:+ safe_name c +:+ ".md");
                                Txt (" | " +:+ str_n n +:+ " | " +:+ pct n (length ql) +:+ " |" +:+ nl)])
               (by_count (count_all (map get_category ql) [])))) ->
     (exists d, Ok sd = Ok (Some d) /\ x = "../../schema/tables/" +:+ t +:+ ".md") \/
     (exists c, In c (map get_category ql) /\ x = "../query_patterns/" +:+ safe_name c +:+ ".md")).
  { intros y Hy. links_in Hy.
    - destruct sd as [d|]; links_in Hy. left. exists d. by destruct Hy as [<-|[]].
    - apply in_link_targets_flat_map in Hy as ([c n] & Hc & Hy). cbn [link_targets flat_map app] in Hy.
      destruct Hy as [<-|[]]. right. exists c. split; [|done]. rewrite in_by_count in Hc. apply (in_map fst) in Hc. cbn [fst] in Hc.
      by rewrite in_count_all_keys in Hc. }
  destruct (join_patterns t ql) as [jp|e]; cbn [fst]; intros Hx; [|destruct (Hpre x Hx) as [H|H]; [left|right; left]; done].
  rewrite link_targets_app, in_app_iff in Hx.
  destruct Hx as [Hx|Hx]; [destruct (Hpre x Hx) as [H|H]; [left|right; left]; done|].
  right; right. links_in Hx.
  - destruct jp; links_in Hx. apply in_link_targets_flat_map in Hx as ([o n] & _ & Hx). cbn [link_targets flat_map app] in Hx.
    destruct Hx as [<-|[]]. by exists o.
  - destruct (where_columns t ql); links_in Hx.
  - apply in_link_targets_flat_map in Hx as (q & _ & Hx). by rewrite usage_sample_links in Hx.
Qed.


(** ** Members of the groups *)

Lemma queries_by_category_key qs c ql : In (c, ql) (queries_by_category qs) -> In c (map (fun e => get_category e.2) qs).
Proof. intros H. apply (in_map fst) in H. cbn [fst] in H. by rewrite queries_by_category_keys, In_uniq in H. Qed.

Lemma queries_by_table_key qs t ql : In (t, ql) (queries_by_table qs) -> In t (flat_map (fun e => get_tables e.2) qs).
Proof. intros H. apply (in_map fst) in H. cbn [fst] in H. by rewrite queries_by_table_keys, In_uniq in H. Qed.

Lemma queries_by_table_member qs t ql q : In (t, ql) (queries_by_table qs) -> In q ql -> exists e, In e qs /\ e.2 = q.
Proof.
  unfold queries_by_table. rewrite (group_spec fst snd). unfold tabulate. intros (k & [= -> <-] & _)%in_map_iff Hq.
  apply in_map_iff in Hq as ([t' q'] & <- & Hq). unfold with_key in Hq. apply filter_In in Hq as [Hq _].
  apply in_flat_map in Hq as (e & He & Hq). apply in_map_iff in Hq as (t'' & [= _ <-] & _). by exists e.
Qed.

(** ** The files of the site *)

Section Files.
Variables (schema : SchemaView) (out : string) (qs : Queries).

(** Whatever every write keeps, the generator keeps. *)
Lemma generate_all_docs_preserves (I : Site -> Prop) :
  (forall p pg site, I site -> I (write_page p pg site)) -> preserves I (generate_all_docs schema out qs).
Proof.
  intros Hw. assert (Hm : forall p pg, preserves I (md_write p pg)) by (intros p pg site; apply Hw).
  unfold generate_all_docs. apply preserves_bind; [apply Hm|]. intros _. apply preserves_bind.
  { apply preserves_mmap. intros [c ql] _. apply Hm. }
  intros _. apply preserves_bind; [|intros; apply preserves_ret]. apply preserves_mmap. intros [t ql] _.
  destruct (length ql <? 2)%nat; [apply preserves_ret|]. unfold write_doc. apply preserves_bind; [apply Hm|].
  intros _. destruct (usage_page schema t ql).2; [apply preserves_ret|apply preserves_raise].
Qed.

Lemma query_site_NoDup : NoDup (dkeys (query_site schema out qs).2).
Proof. apply (generate_all_docs_preserves (fun site => NoDup (dkeys site))); [intros; by apply site_keys_NoDup|constructor]. Qed.

Hypothesis ok : (query_site schema out qs).1 = Ok tt.

Lemma site_has_usage_key t ql :
  In (t, ql) (queries_by_table qs) -> (2 <= length ql)%nat -> In (usage_path out t) (dkeys (query_site schema out qs).2).
Proof.
  intros Hin Hl. pose proof ok as Hok. rewrite query_site_run in Hok |- *. by apply (proj1 (usage_run_keys _ _ _ _ _ Hok) t ql).
Qed.

Lemma site_has_pattern_key c ql : In (c, ql) (queries_by_category qs) -> In (pattern_path out c) (dkeys (query_site schema out qs).2).
Proof.
  intros Hin. pose proof ok as Hok. rewrite query_site_run in Hok |- *. apply (proj2 (usage_run_keys _ _ _ _ _ Hok)).
  apply pattern_run_keys. right. eauto.
Qed.

End Files.

Section Links.
Variable out : string.
Hypothesis out_nonempty : out <> "".
Hypothesis out_stripped : rstrip_char slash out = out.
Hypothesis out_relative : String.prefix "/" out = false.

Lemma qindex_under : qindex_path out = under out ["index.md"].
Proof. unfold qindex_path. by rewrite path_join_below. Qed.

Lemma pattern_under c : pattern_path out c = under out ["query_patterns"; safe_name c +:+ ".md"].
Proof. unfold pattern_path, patterns_dir. rewrite (path_join_below out), path_join_sub by done. by rewrite under_two. Qed.

Lemma usage_under t : usage_path out t = under out ["tables_usage"; safe_name t +:+ ".md"].
Proof. unfold usage_path, usage_dir. rewrite (path_join_below out), path_join_sub by done. by rewrite under_two. Qed.

(** Two files [d/f.md] below [out] are the same only if their names
    are, and neither is [index.md]. *)
Lemma same_md_file d1 f1 d2 f2 :
  plain d1 = true -> plain d2 = true -> char_in slash f1 = false -> char_in slash f2 = false ->
  normpath (under out [d1; f1 +:+ ".md"]) = normpath (under out [d2; f2 +:+ ".md"]) -> d1 = d2 /\ f1 = f2.
Proof.
  intros H1 H2 H3 H4 E. apply under_same_file in E; try (repeat constructor; by try apply plain_md).
  injection E as -> E%sappend_cancel_r. done.
Qed.

Lemma index_not_md_file d f :
  plain d = true -> char_in slash f = false -> normpath (under out ["index.md"]) <> normpath (under out [d; f +:+ ".md"]).
Proof.
  intros Hd Hf E. by apply under_same_file in E; try (repeat constructor; by try apply plain_md).
Qed.

Variables (schema : SchemaView) (qs : Queries).
Hypothesis ok : (query_site schema out qs).1 = Ok tt.

(** Every category has its page. *)
Lemma pattern_resolves c :
  In c (map (fun e => get_category e.2) qs) ->
  site_has (query_site schema out qs).2 (normpath (under out ["query_patterns"; safe_name c +:+ ".md"])) = true.
Proof.
  intros Hc. rewrite <-In_uniq, <-queries_by_category_keys in Hc. apply in_map_iff in Hc as ([c' ql] & <- & Hin).
  apply (site_has_intro _ (pattern_path out c')); [by apply (site_has_pattern_key _ _ _ ok _ ql)|by rewrite pattern_under].
Qed.

(** A link to a usage page leads nowhere only when no table of that
    file name is used twice. *)
Lemma usage_missing n :
  site_has (query_site schema out qs).2 (normpath (under out ["tables_usage"; n +:+ ".md"])) = false ->
  forall t ql, In (t, ql) (queries_by_table qs) -> safe_name t = n -> (length ql < 2)%nat.
Proof.
  intros Hn t ql Hin <-. destruct (Nat.lt_ge_cases (length ql) 2) as [|Hl]; [done|].
  rewrite (site_has_intro _ (usage_path out t)) in Hn; [done|by apply (site_has_usage_key _ _ _ ok _ ql)|].
  by rewrite usage_under.
Qed.

End Links.


Lemma queries_by_table_nonempty qs t ql : In (t, ql) (queries_by_table qs) -> ql <> [].
Proof.
  intros H. pose proof (queries_by_table_key qs t ql H) as Hk. revert H. unfold queries_by_table.
  rewrite (group_spec fst snd). unfold tabulate. intros (k & [= -> <-] & _)%in_map_iff.
  rewrite <-map_fst_table_pairs in Hk. intros E%map_eq_nil. by apply (with_key_nonempty fst _ t Hk).
Qed.


(** ** The errors of the usage pages *)

Lemma join_loop_error t js acc e : join_loop t js acc = Err e -> e = "IndexError: list index out of range".
Proof.
  revert acc. induction js as [|j js IH]; intros acc; cbn; [done|].
  destruct (contains t j); [|apply IH]. unfold other_table. destruct (split_str "_JOIN_" j) as [|t0 [|t1 rest]]; [apply IH|..].
  - destruct (String.eqb t0 t); [by intros [= <-]|apply IH].
  - destruct (String.eqb t0 t); apply IH.
Qed.

(** A join that is the table itself, without [_JOIN_], has no second
    table: the loop raises [IndexError]. *)
Lemma join_loop_self t js acc :
  In t js -> contains "_JOIN_" t = false -> exists e, join_loop t js acc = Err e.
Proof.
  revert acc. induction js as [|j js IH]; intros acc Hin Ht; [done|]. cbn.
  destruct Hin as [->|Hin].
  - rewrite contains_prefix by (rewrite <-(sappend_nil_r t) at 2; apply prefix_app_l).
    unfold other_table. rewrite split_str_absent, String.eqb_refl by done. eauto.
  - destruct (contains t j); [|by apply IH]. destruct (other_table t j); [by apply IH|eauto].
Qed.

Lemma usage_run_error schema out l site t ql e :
  In (t, ql) l -> (2 <= length ql)%nat -> (usage_page schema t ql).2 = Err e -> exists e', (usage_run schema out l site).1 = Err e'.
Proof.
  revert site. induction l as [|[t' ql'] l IH]; intros site Hin Hl He; [done|]. cbn [usage_run].
  destruct Hin as [[= -> ->]|Hin].
  - destruct (Nat.ltb_spec (length ql) 2); [lia|]. rewrite He. eauto.
  - destruct (length ql' <? 2)%nat; [by apply IH|]. destruct (usage_page schema t' ql').2; [by apply IH|eauto].
Qed.

Lemma usage_run_no_schema_error out l site e :
  (usage_run no_schema out l site).1 = Err e -> e = "IndexError: list index out of range".
Proof.
  revert site. induction l as [|[t ql] l IH]; intros site; cbn [usage_run]; [done|].
  destruct (length ql <? 2)%nat; [apply IH|]. unfold usage_page, no_schema. cbv zeta.
  destruct (join_patterns t ql) as [jp|e'] eqn:E; cbn [snd]; [apply IH|]. intros [= <-].
  by apply (join_loop_error t (flat_map get_joins ql) []).
Qed.

Section Broken.
Variables (out : string) (qs : Queries).
Hypothesis out_nonempty : out <> "".
Hypothesis out_stripped : rstrip_char slash out = out.
Hypothesis out_relative : String.prefix "/" out = false.
Hypothesis categories_ok : Forall (fun c => char_in slash (safe_name c) = false) (map (fun e => get_category e.2) qs).
Hypothesis tables_ok : Forall (fun t => char_in slash (safe_name t) = false) (flat_map (fun e => get_tables e.2) qs).
Hypothesis ok : (query_site no_schema out qs).1 = Ok tt.

Let site := (query_site no_schema out qs).2.

Lemma category_md c ql : In (c, ql) (queries_by_category qs) -> char_in slash (safe_name c +:+ ".md") = false.
Proof.
  intros H%queries_by_category_key. rewrite char_in_app. by rewrite (proj1 (List.Forall_forall _ _) categories_ok c H).
Qed.

Lemma table_md t ql : In (t, ql) (queries_by_table qs) -> char_in slash (safe_name t +:+ ".md") = false.
Proof. intros H%queries_by_table_key. rewrite char_in_app. by rewrite (proj1 (List.Forall_forall _ _) tables_ok t H). Qed.

(** The link of a usage page leads to [tables_usage/<n>.md]. *)
Lemma usage_link_target n :
  site_has site (normpath (out +:+ String slash ("tables_usage/" +:+ n +:+ ".md"))) = false ->
  exists n', normpath (out +:+ String slash ("tables_usage/" +:+ n +:+ ".md")) = normpath (under out ["tables_usage"; n' +:+ ".md"]) /\
             forall t ql, In (t, ql) (queries_by_table qs) -> safe_name t = n' -> (length ql < 2)%nat.
Proof. intros Hn. exists n. split; [by rewrite under_two|]. apply (usage_missing out out_nonempty out_stripped out_relative _ _ ok). by rewrite under_two. Qed.

(** Every link that leads nowhere leads to the usage page of a table
    that is not used twice. *)
Lemma broken_usage p x :
  In (p, x) (broken_links site) ->
  exists n, resolve p x = normpath (under out ["tables_usage"; n +:+ ".md"]) /\
            forall t ql, In (t, ql) (queries_by_table qs) -> safe_name t = n -> (length ql < 2)%nat.
Proof.
  intros Hb. apply in_broken_links in Hb as (page & Hp & Hx & Hn); [|apply query_site_NoDup].
  assert (Hcat : forall c, In c (map (fun e => get_category e.2) qs) ->
                 site_has site (normpath (out +:+ String slash ("query_patterns/" +:+ safe_name c +:+ ".md"))) = true).
  { intros c Hc. pose proof (pattern_resolves out out_nonempty out_stripped out_relative no_schema qs ok c Hc) as H.
    rewrite under_two in H. exact H. }
  destruct (query_site_generated no_schema out qs p page Hp) as [[-> ->]|[(c & ql & Hin & -> & ->)|(t & ql & Hin & _ & -> & ->)]].
  - rewrite qindex_under, resolve_top in Hn by done. apply qindex_links in Hx as [(c & n & Hcn & ->)|(t & n & _ & ->)].
    + rewrite category_counts_groups, in_counts_group in Hcn. destruct Hcn as (ql & Hin & _).
      by rewrite Hcat in Hn by (by apply (queries_by_category_key _ _ ql)).
    + rewrite qindex_under, resolve_top by done. by apply usage_link_target.
  - apply pattern_links in Hx as (t & _ & ->). change ("../tables_usage/" +:+ ?y) with ("../" +:+ ("tables_usage/" +:+ y)) in Hn |- *.
    rewrite pattern_under, resolve_dotdot in Hn |- * by (by try apply (category_md c ql)).
    by apply usage_link_target.
  - rewrite usage_under in Hn |- * by done. apply usage_links in Hx as [(d & [=] & _)|[(c & Hc & ->)|(o & ->)]].
    + change ("../query_patterns/" +:+ ?y) with ("../" +:+ ("query_patterns/" +:+ y)) in Hn.
      rewrite resolve_dotdot in Hn by (by try apply (table_md t ql)). rewrite Hcat in Hn; [done|].
      apply in_map_iff in Hc as (q & <- & Hq). destruct (queries_by_table_member qs t ql q Hin Hq) as (e & He & <-).
      by apply (in_map (fun e => get_category e.2)).
    + rewrite resolve_dot in Hn |- * by (by try apply (table_md t ql)). exists (safe_name o). split; [done|].
      by apply (usage_missing out out_nonempty out_stripped out_relative _ _ ok).
Qed.


Lemma site_dget_key k : In k (dkeys site) -> exists pg, dget k site = Some pg.
Proof. intros Hk. destruct (dget k site) as [pg|] eqn:E; [by exists pg|]. by apply dget_None in E. Qed.

(** The files of the site, by the components of their paths. *)
Lemma site_key_shape k pg :
  dget k site = Some pg ->
  k = under out ["index.md"] \/
  (exists c ql, In (c, ql) (queries_by_category qs) /\ k = under out ["query_patterns"; safe_name c +:+ ".md"]) \/
  (exists t ql, In (t, ql) (queries_by_table qs) /\ (2 <= length ql)%nat /\ k = under out ["tables_usage"; safe_name t +:+ ".md"]).
Proof.
  intros Hk. destruct (query_site_generated no_schema out qs k pg Hk) as [[-> _]|[(c & ql & H & -> & _)|(t & ql & H & Hl & -> & _)]].
  - left. by apply qindex_under.
  - right; left. exists c, ql. split; [done|]. by apply pattern_under.
  - right; right. exists t, ql. split; [done|]. split; [done|]. by apply usage_under.
Qed.

Lemma index_page_at : dget (qindex_path out) site = Some (index_page qs).
Proof.
  assert (Hk : In (qindex_path out) (dkeys site)).
  { pose proof ok as Hok. unfold site. rewrite query_site_run in Hok |- *. apply (proj2 (usage_run_keys _ _ _ _ _ Hok)).
    apply pattern_run_keys. left. unfold write_page. apply in_dkeys_dset. by left. }
  destruct (site_dget_key _ Hk) as (pg & Hpg). rewrite Hpg. f_equal.
  destruct (query_site_generated no_schema out qs _ pg Hpg) as [[_ ->]|[(c & ql & H & E & _)|(t & ql & H & _ & E & _)]]; [done|..];
    exfalso; rewrite qindex_under, ?pattern_under, ?usage_under in E by done; apply (f_equal normpath) in E.
  - pose proof (category_md c ql H) as Hc. rewrite char_in_app in Hc. apply orb_false_iff in Hc as [Hc _].
    by apply (index_not_md_file out) in E.
  - pose proof (table_md t ql H) as Ht. rewrite char_in_app in Ht. apply orb_false_iff in Ht as [Ht _].
    by apply (index_not_md_file out) in E.
Qed.

(** A file [tables_usage/<n>.md] of the site is the page of a table used
    at least twice. *)
Lemma usage_file_table n :
  char_in slash n = false -> site_has site (normpath (under out ["tables_usage"; n +:+ ".md"])) = true ->
  exists t ql, In (t, ql) (queries_by_table qs) /\ (2 <= length ql)%nat /\ safe_name t = n.
Proof.
  intros Hn (k & Hk & E)%site_has_elim. destruct (site_dget_key _ Hk) as (pg & Hpg).
  destruct (site_key_shape k pg Hpg) as [->|[(c & ql & H & ->)|(t & ql & H & Hl & ->)]].
  - by apply (index_not_md_file out) in E.
  - pose proof (category_md c ql H) as Hc. rewrite char_in_app in Hc. apply orb_false_iff in Hc as [Hc _].
    by apply (same_md_file out) in E as [? _].
  - pose proof (table_md t ql H) as Ht. rewrite char_in_app in Ht. apply orb_false_iff in Ht as [Ht _].
    apply (same_md_file out) in E as [_ E]; try done. eauto.
Qed.

Hypothesis tables_simple : Forall (fun t => safe_name t = t) (flat_map (fun e => get_tables e.2) qs).

(** The links of the index that lead nowhere are exactly those of the
    tables used once. *)
Lemma index_broken x :
  In (qindex_path out, x) (broken_links site) <->
  exists t, In (t, 1%nat) (firstn 20 (by_count (table_counts qs))) /\ x = "tables_usage/" +:+ t +:+ ".md".
Proof.
  assert (Hsimple : forall t n, In (t, n) (table_counts qs) -> safe_name t = t /\ char_in slash t = false /\
                                exists ql, In (t, ql) (queries_by_table qs) /\ length ql = n).
  { intros t n H. rewrite table_counts_groups, in_counts_group in H. destruct H as (ql & H & Hl).
    pose proof (queries_by_table_key _ _ _ H) as Ht. rewrite List.Forall_forall in tables_simple, tables_ok.
    split; [by apply tables_simple|]. split; [rewrite <-(tables_simple t Ht); by apply tables_ok|eauto]. }
  rewrite in_broken_links by apply query_site_NoDup. rewrite index_page_at. split.
  - intros (page & [= <-] & Hx & Hn). rewrite qindex_under, resolve_top in Hn by done.
    apply qindex_links in Hx as [(c & n & Hcn & ->)|(t & n & Htn & ->)].
    + rewrite category_counts_groups, in_counts_group in Hcn. destruct Hcn as (ql & Hin & _).
      pose proof (pattern_resolves out out_nonempty out_stripped out_relative no_schema qs ok c
                                   (queries_by_category_key _ _ _ Hin)) as H.
      rewrite under_two in H. change ("query_patterns/" +:+ ?y) with ("query_patterns" +:+ String slash y) in Hn. unfold site in Hn. congruence.
    + pose proof (in_take _ _ _ Htn) as Htc. rewrite in_by_count in Htc.
      destruct (Hsimple t n Htc) as (Hst & _ & ql & Hin & <-). rewrite Hst in Hn |- *. exists t. split; [|done].
      enough (E : length ql = 1%nat) by (by rewrite E in Htn).
      pose proof (queries_by_table_nonempty qs t ql Hin). destruct ql as [|q [|q' ql]]; [done|done|exfalso].
      apply (usage_missing out out_nonempty out_stripped out_relative no_schema qs ok t) in Hin; [cbn in Hin; lia| |done].
      by rewrite under_two.
  - intros (t & Ht & ->). pose proof (in_take _ _ _ Ht) as Htc. rewrite in_by_count in Htc.
    destruct (Hsimple t 1%nat Htc) as (Hst & Hsl & ql & Hin & Hl). exists (index_page qs). split; [done|]. split.
    + apply qindex_links. right. exists t, 1%nat. by rewrite Hst.
    + rewrite qindex_under, resolve_top by done. destruct (site_has _ _) eqn:E; [exfalso|done].
      change (String slash ("tables_usage/" +:+ ?y)) with (String slash ("tables_usage" +:+ String slash y)) in E.
      rewrite <-under_two in E. destruct (usage_file_table t Hsl E) as (t' & ql' & Hin' & Hl' & Hs').
      destruct (Hsimple t' (length ql')) as (Hst' & _); [rewrite table_counts_groups, in_counts_group; eauto|].
      rewrite Hst' in Hs'. subst t'. rewrite (table_count_group qs t 1 ql') in Hl'; [lia|done|done].
Qed.

End Broken.


(** ** The properties of the generator *)

(** The [defaultdict] loop of [generate_query_patterns] groups the
    queries by category, in order of first occurrence. *)
Lemma queries_by_category_spec qs :
  queries_by_category qs = tabulate (with_key (fun e => get_category e.2) qs) (uniq (map (fun e => get_category e.2) qs)).
Proof.
  unfold queries_by_category. rewrite (group_spec (fun e => get_category e.2) (fun e => e)).
  unfold tabulate. apply map_ext. intros c. by rewrite map_id.
Qed.

Lemma in_tabulate {V} (f : string -> V) l k v : In (k, v) (tabulate f l) -> v = f k.
Proof. unfold tabulate. by intros (k' & [= -> ->] & _)%in_map_iff. Qed.

(** The usage loop only adds files, whether it ends or raises. *)
Lemma usage_run_keys_mono schema out l site k : In k (dkeys site) -> In k (dkeys (usage_run schema out l site).2).
Proof.
  revert site. induction l as [|[t ql] l IH]; intros site Hk; cbn [usage_run]; [done|].
  destruct (length ql <? 2)%nat; [by apply IH|].
  assert (Hw : In k (dkeys (write_page (usage_path out t) (usage_page schema t ql).1 site)))
    by (unfold write_page; apply in_dkeys_dset; by right).
  destruct (usage_page schema t ql).2; [by apply IH|done].
Qed.

Section Patterns.
Variables (schema : SchemaView) (out : string) (qs : Queries).
Hypothesis out_nonempty : out <> "".
Hypothesis out_stripped : rstrip_char slash out = out.
Hypothesis out_relative : String.prefix "/" out = false.
Hypothesis categories_ok : Forall (fun c => char_in slash (safe_name c) = false) (map (fun e => get_category e.2) qs).
Hypothesis tables_ok : Forall (fun t => char_in slash (safe_name t) = false) (flat_map (fun e => get_tables e.2) qs).
Hypothesis categories_distinct : forall c1 c2, In c1 (map (fun e => get_category e.2) qs) ->
  In c2 (map (fun e => get_category e.2) qs) -> safe_name c1 = safe_name c2 -> c1 = c2.

(** C26: In the query documentation, whether or not the table-usage loop
    later raises, the file [query_patterns/<category>.md] of a category
    [c] is the pattern page of [c] over exactly the queries whose
    [category] field is [c] ([Uncategorized] when the field is absent),
    in input order, when no two categories share a file name. *)
Theorem category_page_at c :
  In c (map (fun e => default "Uncategorized" (category e.2)) qs) ->
  dget (pattern_path out c) (query_site schema out qs).2 =
  Some (pattern_page c (List.filter (fun e => String.eqb (default "Uncategorized" (category e.2)) c) qs)).
Proof.
  intros Hc. change (List.filter _ qs) with (with_key (fun e => get_category e.2) qs c).
  change (map _ qs) with (map (fun e => get_category e.2) qs) in Hc.
  assert (Hin : In (c, with_key (fun e => get_category e.2) qs c) (queries_by_category qs)).
  { rewrite queries_by_category_spec. apply in_map_iff. exists c. split; [done|]. by apply In_uniq. }
  assert (Hk : In (pattern_path out c) (dkeys (query_site schema out qs).2)).
  { rewrite query_site_run. apply usage_run_keys_mono, pattern_run_keys. right. eauto. }
  destruct (dget (pattern_path out c) _) as [pg|] eqn:Hpg; [|by apply dget_None in Hpg].
  pose proof (proj1 (List.Forall_forall _ _) categories_ok c Hc) as Hsc.
  destruct (query_site_generated schema out qs _ pg Hpg) as [[E _]|[(c' & ql' & H & E & ->)|(t & ql' & H & _ & E & _)]];
    rewrite pattern_under in E by done; rewrite ?qindex_under, ?pattern_under, ?usage_under in E by done;
    apply (f_equal normpath) in E.
  - exfalso. symmetry in E. by apply (index_not_md_file out) in E.
  - pose proof (queries_by_category_key _ _ _ H) as Hc'.
    apply (same_md_file out) in E as [_ Es]; try done; try (by apply (proj1 (List.Forall_forall _ _) categories_ok c')).
    rewrite <-(categories_distinct c c' Hc Hc' Es). rewrite queries_by_category_spec in H.
    apply in_tabulate in H as ->. by rewrite <-(categories_distinct c c' Hc Hc' Es).
  - exfalso. apply (same_md_file out) in E as [E _]; try done.
    by apply (proj1 (List.Forall_forall _ _) tables_ok t), (queries_by_table_key _ _ ql').
Qed.

End Patterns.

(** C25: In the query documentation written below a relative directory
    [out], with category and table names without [/] and tables named in
    lower case without spaces, a link of [index.md] leads nowhere exactly
    when it is the link of a table that one query references (the index
    lists the 20 most used tables, but only tables used at least twice
    get a page); and every link of the site that leads nowhere leads to
    [tables_usage/<n>.md] where no table of that file name is used
    twice. *)
Theorem query_site_broken_links out qs :
  out <> "" -> rstrip_char slash out = out -> String.prefix "/" out = false ->
  Forall (fun c => char_in slash (safe_name c) = false) (map (fun e => get_category e.2) qs) ->
  Forall (fun t => safe_name t = t /\ char_in slash t = false) (flat_map (fun e => get_tables e.2) qs) ->
  (query_site no_schema out qs).1 = Ok tt ->
  (forall x, In (qindex_path out, x) (broken_links (query_site no_schema out qs).2) <->
             exists t, In (t, 1%nat) (firstn 20 (by_count (table_counts qs))) /\ x = "tables_usage/" +:+ t +:+ ".md") /\
  (forall p x, In (p, x) (broken_links (query_site no_schema out qs).2) ->
               exists n, resolve p x = normpath (under out ["tables_usage"; n +:+ ".md"]) /\
                         forall t ql, In (t, ql) (queries_by_table qs) -> safe_name t = n -> (length ql < 2)%nat).
Proof.
  intros Hne Hst Hrel Hc Ht Hok.
  assert (Ht' : Forall (fun t => char_in slash (safe_name t) = false) (flat_map (fun e => get_tables e.2) qs)).
  { eapply List.Forall_impl; [|exact Ht]. intros t [-> H]. exact H. }
  assert (Hs : Forall (fun t => safe_name t = t) (flat_map (fun e => get_tables e.2) qs)).
  { eapply List.Forall_impl; [|exact Ht]. by intros t []. }
  split; [intros x; by apply index_broken|intros p x; by apply broken_usage].
Qed.

Lemma usage_page_self_join t ql q :
  In q ql -> In t (get_joins q) -> contains "_JOIN_" t = false ->
  (usage_page no_schema t ql).2 = Err "IndexError: list index out of range".
Proof.
  intros Hq Hj Ht. unfold usage_page, no_schema. cbv zeta.
  destruct (join_loop_self t (flat_map get_joins ql) [] (proj2 (in_flat_map _ _ _) (ex_intro _ q (conj Hq Hj))) Ht) as [e He].
  unfold join_patterns. rewrite He. cbn [snd]. by rewrite (join_loop_error _ _ _ _ He).
Qed.

(** C27: When a table used by at least two queries has, in one of them, a
    join that is the table name itself (no [_JOIN_]), the generator
    raises [IndexError] at [tables[1]]: the usage loop takes the join
    for one that contains the table, and [split('_JOIN_')] gives a
    single element. *)
Theorem self_join_raises out qs t ql q :
  In (t, ql) (queries_by_table qs) -> (2 <= length ql)%nat -> In q ql -> In t (get_joins q) -> contains "_JOIN_" t = false ->
  (query_site no_schema out qs).1 = Err "IndexError: list index out of range".
Proof.
  intros Hin Hl Hq Hj Ht. rewrite query_site_run.
  destruct (usage_run_error no_schema out _ (pattern_run out (queries_by_category qs) (write_page (qindex_path out) (index_page qs) []))
              t ql _ Hin Hl (usage_page_self_join t ql q Hq Hj Ht)) as [e He].
  rewrite He. f_equal. by apply usage_run_no_schema_error in He.
Qed.


(** ** Links into the schema documentation *)

Section SchemaLinks.
Variable out : string.
Hypothesis out_nonempty : out <> "".
Hypothesis out_stripped : rstrip_char slash out = out.
Hypothesis out_relative : String.prefix "/" out = false.

Lemma sub_dir_ok d :
  plain d = true ->
  path_join out d <> "" /\ rstrip_char slash (path_join out d) = path_join out d /\ String.prefix "/" (path_join out d) = false.
Proof.
  intros Hd. rewrite path_join_below by done. split; [by destruct out|]. split; [by apply under_sub_stripped|].
  by rewrite prefix_slash_app.
Qed.

(** The link [../../schema/tables/<t>.md] of [<out>/queries/tables_usage/<f>]
    leads to [<out>/schema/tables/<t>.md]. *)
Lemma schema_link_target f t :
  char_in slash f = false ->
  resolve (under (path_join out "queries") ["tables_usage"; f]) ("../../schema/tables/" +:+ t +:+ ".md") =
  normpath (SchemaDocs.table_path (path_join out "schema") t).
Proof.
  intros Hf. destruct (sub_dir_ok "queries") as (H1 & H2 & H3); [done|]. destruct (sub_dir_ok "schema") as (H4 & H5 & H6); [done|].
  change ("../../schema/tables/" +:+ ?y) with ("../" +:+ (".." +:+ String slash ("schema/tables/" +:+ y))).
  rewrite (resolve_dotdot (path_join out "queries")) by done. rewrite SchemaDocs.table_path_under by done.
  rewrite !path_join_below by done. rewrite sappend_assoc.
  change (String slash "queries" +:+ ?z) with (String slash ("queries" +:+ z)). rewrite normpath_dotdot by done.
  rewrite under_two, sappend_assoc. reflexivity.
Qed.

Variables (s : Schema.SchemaData) (today : string) (qs : Queries).
Hypothesis names_ok : SchemaDocs.table_names_ok s = true.
Hypothesis tables_ok : Forall (fun t => char_in slash (safe_name t) = false) (flat_map (fun e => get_tables e.2) qs).

Lemma schema_link_only_usage p pg x :
  dget p (query_site (schema_view s) (path_join out "queries") qs).2 = Some pg -> In x (link_targets pg) ->
  String.prefix "../../" x = true ->
  exists t ql, In (t, ql) (queries_by_table qs) /\ p = usage_path (path_join out "queries") t /\ In t (dkeys s) /\
               x = "../../schema/tables/" +:+ t +:+ ".md".
Proof.
  intros Hp Hx Hpre.
  destruct (query_site_generated (schema_view s) (path_join out "queries") qs p pg Hp)
    as [[-> ->]|[(c & ql & _ & -> & ->)|(t & ql & Hin & _ & -> & ->)]].
  - by apply qindex_links in Hx as [(c & n & _ & ->)|(t & n & _ & ->)].
  - by apply pattern_links in Hx as (t & _ & ->).
  - apply usage_links in Hx as [(d & Hd & ->)|[(c & _ & ->)|(o & ->)]]; [|done|done].
    exists t, ql. split; [done|]. split; [done|]. split; [|done]. unfold schema_view in Hd.
    destruct (dget t s) as [ti|] eqn:E; [|done]. unfold dkeys. apply (in_map fst s (t, ti)), dget_In, E.
Qed.

End SchemaLinks.

(** The query and schema documentation that [main.py generate-docs]
    writes side by side, to [<out>/queries] and [<out>/schema], link up:
    every link [../../schema/tables/<t>.md] of a query page, which the
    generator writes only for a table of the schema JSON, leads to the
    page of that table in the schema documentation. *)
Theorem query_schema_links_resolve out s today qs p pg x :
  out <> "" -> rstrip_char slash out = out -> String.prefix "/" out = false ->
  SchemaDocs.table_names_ok s = true ->
  Forall (fun t => char_in slash (safe_name t) = false) (flat_map (fun e => get_tables e.2) qs) ->
  dget p (query_site (schema_view s) (path_join out "queries") qs).2 = Some pg -> In x (link_targets pg) ->
  String.prefix "../../" x = true ->
  site_has (SchemaDocs.schema_site (path_join out "schema") today s) (resolve p x) = true.
Proof.
  intros Hne Hst Hrel Hnames Ht Hp Hx Hpre.
  destruct (schema_link_only_usage out s qs p pg x Hp Hx Hpre) as (t & ql & Hin & -> & Hts & ->).
  destruct (sub_dir_ok out Hne Hst Hrel "queries") as (H1 & H2 & H3); [done|].
  destruct (sub_dir_ok out Hne Hst Hrel "schema") as (H4 & H5 & H6); [done|].
  rewrite usage_under, schema_link_target by (try done; rewrite char_in_app;
    by rewrite (proj1 (List.Forall_forall _ _) Ht t (queries_by_table_key _ _ _ Hin))).
  by apply SchemaDocs.site_has_table.
Qed.

(** ** Samples *)

(** Five queries in two categories and one without; [zeta] is used
    once. *)
Definition sample_queries : Queries :=
  [("q1", mkQueryData (Some "Data Retrieval") (Some ["orders"; "customers"]) (Some "Low") (Some "SELECT * FROM orders") None
                      (Some ["orders_JOIN_customers"]) (Some [mkCondition (Some "orders") (Some "id")]));
   ("q2", mkQueryData (Some "Data Retrieval") (Some ["orders"]) (Some "High") (Some "SELECT 1") (Some "d2")
                      (Some ["customers_JOIN_orders"; "order_items_JOIN_x"]) None);
   ("q3", mkQueryData (Some "Reporting") (Some ["orders"; "items"]) None (Some "SELECT 2") None None
                      (Some [mkCondition (Some "orders") None; mkCondition (Some "items") (Some "c")]));
   ("q4", mkQueryData None (Some ["items"; "customers"]) (Some "Very High") None None None None);
   ("q5", mkQueryData (Some "Reporting") (Some ["zeta"]) (Some "Low") None None None None)].

(** The two links to the page of [zeta], which is not written. *)
Example sample_broken_links :
  broken_links (query_site no_schema "docs/queries" sample_queries).2 =
  [("docs/queries/index.md", "tables_usage/zeta.md"); ("docs/queries/query_patterns/reporting.md", "../tables_usage/zeta.md")].
Proof. vm_compute. reflexivity. Qed.

Lemma query_site_broken_links_witness :
  (forall x, In (qindex_path "docs/queries", x) (broken_links (query_site no_schema "docs/queries" sample_queries).2) <->
             exists t, In (t, 1%nat) (firstn 20 (by_count (table_counts sample_queries))) /\ x = "tables_usage/" +:+ t +:+ ".md") /\
  (forall p x, In (p, x) (broken_links (query_site no_schema "docs/queries" sample_queries).2) ->
               exists n, resolve p x = normpath (under "docs/queries" ["tables_usage"; n +:+ ".md"]) /\
                         forall t ql, In (t, ql) (queries_by_table sample_queries) -> safe_name t = n -> (length ql < 2)%nat).
Proof.
  apply query_site_broken_links; [discriminate|reflexivity|reflexivity|vm_compute; repeat constructor..|vm_compute; reflexivity].
Defined.

(** The page of [Reporting] counts [q3] and [q5]. *)
Lemma category_page_at_witness :
  In "Reporting" (map (fun e => default "Uncategorized" (category e.2)) sample_queries) /\
  dget (pattern_path "docs/queries" "Reporting") (query_site no_schema "docs/queries" sample_queries).2 =
  Some (pattern_page "Reporting"
          (List.filter (fun e => String.eqb (default "Uncategorized" (category e.2)) "Reporting") sample_queries)).
Proof.
  split; [vm_compute; tauto|].
  apply (category_page_at no_schema "docs/queries" sample_queries);
    [discriminate|reflexivity|reflexivity|vm_compute; repeat constructor|vm_compute; repeat constructor| |vm_compute; tauto].
  intros c1 c2 H1 H2 E. cbn in H1, H2.
  repeat destruct H1 as [<-|H1]; try contradiction; repeat destruct H2 as [<-|H2]; try contradiction;
    try reflexivity; vm_compute in E; discriminate.
Defined.

(** [orders] is used by three queries; a join of [q2] is [orders] alone. *)
Definition self_join_queries : Queries :=
  [("q1", mkQueryData None (Some ["orders"]) None None None None None);
   ("q2", mkQueryData None (Some ["orders"]) None None None (Some ["orders"]) None)].

Lemma self_join_raises_witness :
  (query_site no_schema "docs/queries" self_join_queries).1 = Err "IndexError: list index out of range".
Proof.
  apply (self_join_raises "docs/queries" self_join_queries "orders"
           [mkQueryData None (Some ["orders"]) None None None None None;
            mkQueryData None (Some ["orders"]) None None None (Some ["orders"]) None]
           (mkQueryData None (Some ["orders"]) None None None (Some ["orders"]) None));
    [vm_compute; left; reflexivity|cbn; lia|right; left; reflexivity|left; reflexivity|reflexivity].
Defined.


(** A schema with [orders], and two queries that use it. *)
Definition orders_schema : Schema.SchemaData :=
  [("orders", Schema.mkTableInfo "orders" "Customer orders" [] None [] [] [])].

Definition orders_queries : Queries :=
  [("q1", mkQueryData None (Some ["orders"]) None None None None None);
   ("q2", mkQueryData (Some "Reporting") (Some ["orders"]) None None None None None)].

Lemma query_schema_links_resolve_witness :
  site_has (SchemaDocs.schema_site (path_join "docs" "schema") "2025-01-01" orders_schema)
           (resolve (usage_path (path_join "docs" "queries") "orders") "../../schema/tables/orders.md") = true.
Proof.
  apply (query_schema_links_resolve "docs" orders_schema "2025-01-01" orders_queries _
           (usage_page (schema_view orders_schema) "orders" (map snd orders_queries)).1);
    [discriminate|reflexivity|reflexivity|reflexivity|vm_compute; repeat constructor|vm_compute; reflexivity|
     vm_compute; repeat (first [left; reflexivity|right])|reflexivity].
Defined.

(** Two categories that differ in case only share one file: the page
    of the later one replaces the earlier, and the index links both. *)
Example category_collision :
  let qs := [("q1", mkQueryData (Some "Data Retrieval") None None None None None None);
             ("q2", mkQueryData (Some "data retrieval") None None None None None None)] in
  dkeys (query_site no_schema "docs" qs).2 = ["docs/index.md"; "docs/query_patterns/data_retrieval.md"] /\
  dget "docs/query_patterns/data_retrieval.md" (query_site no_schema "docs" qs).2
    = Some (pattern_page "data retrieval" [("q2", mkQueryData (Some "data retrieval") None None None None None None)]).
Proof. vm_compute. split; reflexivity. Qed.

(** "Sorted by complexity" sorts the strings: [High] comes first and
    [Low] before [Medium]. *)
Example samples_alphabetical :
  map fst (by_complexity snd [("a", mkQueryData None None (Some "Low") None None None None);
                              ("b", mkQueryData None None None None None None None);
                              ("c", mkQueryData None None (Some "Very High") None None None None);
                              ("d", mkQueryData None None (Some "High") None None None None)]) = ["d"; "a"; "b"; "c"].
Proof. vm_compute. reflexivity. Qed.

End QueryDocs.
