(* ===== verification/Aggregator.v ===== *)
(** * Aggregator: deduplication, ranking and truncation of contexts

    Models the merge step that [AdvancedRetrieval] repeats in
    [query_expansion], [multi_strategy_retrieval], [relationship_retrieval]
    and [optimize_sql_query] (src/src/advanced_retrieval/
    retrieval_techniques.py):

<<
    unique_contexts = {}
    for context in all_contexts:
        content_hash = hashlib.md5(context['content'].encode()).hexdigest()
        if content_hash not in unique_contexts or
           context['score'] > unique_contexts[content_hash]['score']:
            unique_contexts[content_hash] = context
    sorted_contexts = sorted(unique_contexts.values(),
                             key=lambda x: x['score'], reverse=True)[:num_results]
>>

    The dict is an association list in insertion order (an update keeps
    the key's position), [sorted] is a stable insertion sort on the
    descending score, and the slice is [take]. *)

From S2P Require Import Prelude PyStr.
From Stdlib Require Import QArith.
Close Scope Q_scope.

Open Scope string_scope.

(** ** Scores

    Bedrock scores are floats and the code only ever compares them with
    [>].  [ScoreOrder] is what that comparison must satisfy for the
    ranking to make sense: a strict weak order (floats without NaN). *)
Class ScoreOrder (S : Type) := {
  score_gtb : S -> S -> bool;
  score_gtb_irrefl : forall a, score_gtb a a = false;
  score_gtb_trans : forall a b c,
    score_gtb a b = true -> score_gtb b c = true -> score_gtb a c = true;
  score_ngtb_trans : forall a b c,
    score_gtb a b = false -> score_gtb b c = false -> score_gtb a c = false
}.

Lemma Z_gtb_irrefl (a : Z) : Z.gtb a a = false.
Proof. rewrite Z.gtb_ltb. apply Z.ltb_irrefl. Qed.

Lemma Z_gtb_trans (a b c : Z) : Z.gtb a b = true -> Z.gtb b c = true -> Z.gtb a c = true.
Proof. rewrite !Z.gtb_lt. lia. Qed.

Lemma Z_ngtb_trans (a b c : Z) : Z.gtb a b = false -> Z.gtb b c = false -> Z.gtb a c = false.
Proof. rewrite !Z.gtb_ltb, !Z.ltb_ge. lia. Qed.

#[export] Instance Z_score_order : ScoreOrder Z :=
  {| score_gtb := Z.gtb; score_gtb_irrefl := Z_gtb_irrefl;
     score_gtb_trans := Z_gtb_trans; score_ngtb_trans := Z_ngtb_trans |}.

Definition Q_gtb (a b : Q) : bool := negb (Qle_bool a b).

Lemma Q_gtb_false a b : Q_gtb a b = false <-> (a <= b)%Q.
Proof. unfold Q_gtb. rewrite negb_false_iff. apply Qle_bool_iff. Qed.

Lemma Q_gtb_true a b : Q_gtb a b = true <-> (b < a)%Q.
Proof.
  unfold Q_gtb. rewrite negb_true_iff, <- not_true_iff_false, Qle_bool_iff.
  split; [apply Qnot_le_lt | apply Qlt_not_le].
Qed.

Lemma Q_gtb_irrefl a : Q_gtb a a = false.
Proof. apply Q_gtb_false, Qle_refl. Qed.

Lemma Q_gtb_trans a b c : Q_gtb a b = true -> Q_gtb b c = true -> Q_gtb a c = true.
Proof. rewrite !Q_gtb_true. intros; eapply Qlt_trans; eauto. Qed.

Lemma Q_ngtb_trans a b c : Q_gtb a b = false -> Q_gtb b c = false -> Q_gtb a c = false.
Proof. rewrite !Q_gtb_false. apply Qle_trans. Qed.

#[export] Instance Q_score_order : ScoreOrder Q :=
  {| score_gtb := Q_gtb; score_gtb_irrefl := Q_gtb_irrefl;
     score_gtb_trans := Q_gtb_trans; score_ngtb_trans := Q_ngtb_trans |}.

Module Aggregator.

Section WithScore.
Context {Score : Type} `{ScoreOrder Score}.

(** [x <= y] on scores: [x] is not strictly greater than [y]. *)
Definition sc_le (x y : Score) : Prop := score_gtb x y = false.

Lemma sc_le_refl x : sc_le x x.
Proof. apply score_gtb_irrefl. Qed.

Lemma sc_le_trans x y z : sc_le x y -> sc_le y z -> sc_le x z.
Proof. apply score_ngtb_trans. Qed.

Lemma sc_gt_le x y : score_gtb x y = true -> sc_le y x.
Proof.
  intros Hxy. unfold sc_le. destruct (score_gtb y x) eqn:E; [|reflexivity].
  pose proof (score_gtb_trans _ _ _ Hxy E) as Hxx. rewrite score_gtb_irrefl in Hxx. done.
Qed.

Lemma sc_le_gt_false x y z : sc_le x y -> score_gtb z y = true -> sc_le x z.
Proof.
  unfold sc_le. intros Hxy Hzy. destruct (score_gtb x z) eqn:E; [|reflexivity].
  rewrite (score_gtb_trans _ _ _ E Hzy) in Hxy. done.
Qed.

(** ** Retrieved contexts: the dicts built from [retrievalResults] *)
Record RetrievedContext := mkContext {
  ctx_content : string;
  ctx_source : string;
  ctx_sample : string;
  ctx_score : Score;
  ctx_from_query : option string
}.

(** ** Deduplication by content *)

(** One iteration of the loop on the dict [u]. *)
Fixpoint dedup_insert (c : RetrievedContext) (u : list RetrievedContext) : list RetrievedContext :=
  match u with
  | [] => [c]
  | d :: u' =>
      if String.eqb (ctx_content d) (ctx_content c)
      then if score_gtb (ctx_score c) (ctx_score d) then c :: u' else d :: u'
      else d :: dedup_insert c u'
  end.

(** [unique_contexts.values()] after the loop. *)
Definition dedup_contexts (all : list RetrievedContext) : list RetrievedContext :=
  fold_left (fun u c => dedup_insert c u) all [].

(** ** Stable sort on descending score *)

(** Insert [c] after the contexts that score strictly higher, before the
    others: [c] comes from earlier in the input than all of [l]. *)
Fixpoint insert_by_score (c : RetrievedContext) (l : list RetrievedContext) : list RetrievedContext :=
  match l with
  | [] => [c]
  | d :: l' =>
      if score_gtb (ctx_score d) (ctx_score c)
      then d :: insert_by_score c l'
      else c :: d :: l'
  end.

(** [sorted(l, key=lambda x: x['score'], reverse=True)] *)
Definition sort_by_score (l : list RetrievedContext) : list RetrievedContext :=
  fold_right insert_by_score [] l.

(** ** The whole merge: dedup, sort, keep the first [k]. *)
Definition select_top (k : nat) (all : list RetrievedContext) : list RetrievedContext :=
  take k (sort_by_score (dedup_contexts all)).

(** Descending order between neighbours. *)
Definition ranked (a b : RetrievedContext) : Prop := sc_le (ctx_score b) (ctx_score a).

(** Two scores are equivalent when neither is greater. *)
Definition same_rank (a x : RetrievedContext) : bool :=
  negb (score_gtb (ctx_score x) (ctx_score a)) && negb (score_gtb (ctx_score a) (ctx_score x)).

(** ** Lemmas on one dedup step *)

Lemma in_dedup_insert y c u : In y (dedup_insert c u) -> y = c \/ In y u.
Proof.
  induction u as [|d u IH]; simpl; [intuition|].
  case_ifs; simpl; intuition.
Qed.

Lemma contents_dedup_insert c u :
  List.NoDup (map ctx_content u) ->
  List.NoDup (map ctx_content (dedup_insert c u)) /\
  (forall k, In k (map ctx_content (dedup_insert c u)) <->
             k = ctx_content c \/ In k (map ctx_content u)).
Proof.
  induction u as [|d u IH]; simpl; intros Hnd.
  - split.
    + constructor; [intros []|constructor].
    + intros k. split; intros [?|?]; auto; contradiction.
  - inversion Hnd as [|? ? Hnin Hnd']; subst.
    destruct (String.eqb_spec (ctx_content d) (ctx_content c)) as [Heq|Hne].
    + case_ifs; simpl; rewrite ?Heq in *; split; try constructor; auto; intuition.
    + destruct (IH Hnd') as [IHnd IHin]. simpl. split.
      * constructor; auto. rewrite IHin. intuition.
      * intros k. rewrite IHin. intuition.
Qed.

(** Every context seen so far is dominated by the survivor of its content. *)
Definition covers (u l : list RetrievedContext) : Prop :=
  forall x, In x l -> exists c, In c u /\ ctx_content c = ctx_content x /\ sc_le (ctx_score x) (ctx_score c).

Lemma dedup_insert_dominates c u y :
  In y u -> exists z, In z (dedup_insert c u) /\
    ctx_content z = ctx_content y /\ sc_le (ctx_score y) (ctx_score z).
Proof.
  induction u as [|d u IH]; simpl; [intros []|]. intros Hy.
  destruct (String.eqb_spec (ctx_content d) (ctx_content c)) as [Heq|Hne].
  - destruct (score_gtb (ctx_score c) (ctx_score d)) eqn:Hg.
    + destruct Hy as [<-|Hy].
      * exists c. split; [left; done|]. split; [congruence|]. by apply sc_gt_le.
      * exists y. split; [right; done|]. split; [done|apply sc_le_refl].
    + exists y. split; [done|]. split; [done|apply sc_le_refl].
  - destruct Hy as [<-|Hy].
    + exists d. split; [left; done|]. split; [done|apply sc_le_refl].
    + destruct (IH Hy) as (z & Hz & Hzc & Hzs). exists z. split; [right; done|]. done.
Qed.

Lemma dedup_insert_self c u :
  exists z, In z (dedup_insert c u) /\
    ctx_content z = ctx_content c /\ sc_le (ctx_score c) (ctx_score z).
Proof.
  induction u as [|d u IH]; simpl.
  - exists c. split; [left; done|]. split; [done|apply sc_le_refl].
  - destruct (String.eqb_spec (ctx_content d) (ctx_content c)) as [Heq|Hne].
    + destruct (score_gtb (ctx_score c) (ctx_score d)) eqn:Hg.
      * exists c. split; [left; done|]. split; [done|apply sc_le_refl].
      * exists d. split; [left; done|]. done.
    + destruct IH as (z & Hz & Hzc & Hzs). exists z. split; [right; done|]. done.
Qed.

Lemma covers_dedup_insert c u l : covers u l -> covers (dedup_insert c u) (c :: l).
Proof.
  intros Hcov x [<-|Hx]; [apply dedup_insert_self|].
  destruct (Hcov x Hx) as (d & Hd & Hdc & Hds).
  destruct (dedup_insert_dominates c u d Hd) as (z & Hz & Hzc & Hzs).
  exists z. split; [done|]. split; [congruence|]. eapply sc_le_trans; eauto.
Qed.

Lemma covers_incl u l l' : covers u l -> (forall x, In x l' -> In x l) -> covers u l'.
Proof. intros Hc Hincl x Hx. apply Hc, Hincl, Hx. Qed.

(** The loop invariant of the dedup loop, after any prefix of the input. *)
Lemma dedup_fold_inv all u seen :
  List.NoDup (map ctx_content u) ->
  (forall y, In y u -> In y seen) ->
  covers u seen ->
  let r := fold_left (fun u c => dedup_insert c u) all u in
  List.NoDup (map ctx_content r) /\
  (forall y, In y r -> In y seen \/ In y all) /\
  covers r (seen ++ all).
Proof.
  revert u seen. induction all as [|c all IH]; intros u seen Hnd Hsub Hcov; simpl.
  - rewrite app_nil_r. split; [done|]. split; [|done]. intros y Hy. left. auto.
  - destruct (IH (dedup_insert c u) (c :: seen)) as (Hnd' & Hsub' & Hcov').
    + apply contents_dedup_insert, Hnd.
    + intros y Hy. destruct (in_dedup_insert _ _ _ Hy) as [->|Hy']; simpl; auto.
    + apply covers_dedup_insert, Hcov.
    + split; [done|]. split.
      * intros y Hy. destruct (Hsub' y Hy) as [[<-|Hs]|Ha]; simpl; auto.
      * eapply covers_incl; [exact Hcov'|].
        intros x Hx. apply in_app_or in Hx. simpl in *. rewrite in_app_iff. tauto.
Qed.

Lemma dedup_contexts_inv all :
  List.NoDup (map ctx_content (dedup_contexts all)) /\
  (forall y, In y (dedup_contexts all) -> In y all) /\
  covers (dedup_contexts all) all.
Proof.
  destruct (dedup_fold_inv all [] [] ltac:(constructor) ltac:(intros _ []) ltac:(intros _ []))
    as (Hnd & Hsub & Hcov).
  split; [done|]. split; [intros y Hy; destruct (Hsub y Hy) as [[]|]; done|done].
Qed.

(** ** Lemmas on the sort *)

Lemma insert_by_score_perm c l : Permutation (insert_by_score c l) (c :: l).
Proof.
  induction l as [|d l IH]; simpl; [done|].
  case_ifs; [|done]. rewrite IH. apply perm_swap.
Qed.

Lemma sort_by_score_perm l : Permutation (sort_by_score l) l.
Proof.
  induction l as [|c l IH]; simpl; [done|].
  rewrite insert_by_score_perm. by constructor.
Qed.

Lemma ranked_trans a b c : ranked a b -> ranked b c -> ranked a c.
Proof. unfold ranked. intros Hab Hbc. eapply sc_le_trans; eauto. Qed.

Lemma insert_by_score_hd d c l :
  ranked d c -> HdRel ranked d l -> HdRel ranked d (insert_by_score c l).
Proof.
  intros Hdc Hdl. destruct l as [|e l]; simpl; [by constructor|].
  case_ifs; constructor; [by inversion Hdl|done].
Qed.

Lemma insert_by_score_sorted c l : Sorted ranked l -> Sorted ranked (insert_by_score c l).
Proof.
  induction l as [|d l IH]; simpl; intros Hs; [by repeat constructor|].
  inversion Hs as [|? ? Hs' Hhd]; subst.
  destruct (score_gtb (ctx_score d) (ctx_score c)) eqn:Hg.
  - constructor; [by apply IH|]. apply insert_by_score_hd; [|done]. by apply sc_gt_le.
  - constructor; [done|]. by constructor.
Qed.

Lemma sort_by_score_sorted l : Sorted ranked (sort_by_score l).
Proof. induction l; simpl; [constructor|]. by apply insert_by_score_sorted. Qed.

Lemma same_rank_gt a c d :
  same_rank a c = true -> score_gtb (ctx_score d) (ctx_score c) = true -> same_rank a d = false.
Proof.
  unfold same_rank. intros Hac Hdc. bool_props.
  destruct (score_gtb (ctx_score d) (ctx_score a)) eqn:Hda; [done|].
  rewrite (score_ngtb_trans _ _ _ Hda H1) in Hdc. done.
Qed.

Lemma filter_insert_by_score a c l :
  List.filter (same_rank a) (insert_by_score c l) = List.filter (same_rank a) (c :: l).
Proof.
  induction l as [|d l IH]; simpl; [done|].
  destruct (score_gtb (ctx_score d) (ctx_score c)) eqn:Hg; [|done].
  simpl. rewrite IH. simpl.
  destruct (same_rank a c) eqn:Hc.
  - rewrite (same_rank_gt a c d Hc Hg). done.
  - destruct (same_rank a d); done.
Qed.

(** ** Lemmas on truncation of a ranked list *)

Lemma strongly_sorted_take_drop {A} (R : A -> A -> Prop) k (l : list A) :
  StronglySorted R l -> forall a b, In a (take k l) -> In b (drop k l) -> R a b.
Proof.
  revert l. induction k as [|k IH]; intros [|x l] Hs a b; simpl; try tauto.
  inversion Hs as [|? ? Hs' Hall]; subst.
  intros [<-|Ha] Hb.
  - rewrite List.Forall_forall in Hall. apply Hall. eapply in_drop; eauto.
  - eapply IH; eauto.
Qed.

(** ** Properties of the merge *)

(** C2: after the dedup loop the contents are pairwise distinct, every
    survivor is one of the input contexts, and every input context is
    dominated by the survivor of its content (the survivor has the
    maximal score of its class). *)
Theorem dedup_contexts_correct (all : list RetrievedContext) :
  List.NoDup (map ctx_content (dedup_contexts all)) /\
  (forall c, In c (dedup_contexts all) -> In c all) /\
  (forall x, In x all -> exists c, In c (dedup_contexts all) /\
       ctx_content c = ctx_content x /\ sc_le (ctx_score x) (ctx_score c)).
Proof. apply dedup_contexts_inv. Qed.

(** C3: [sorted(..., key=score, reverse=True)] returns a permutation of
    its input, ordered by descending score, and it is stable: the
    contexts of any one score class keep their input order. *)
Theorem sort_by_score_correct (l : list RetrievedContext) :
  Permutation (sort_by_score l) l /\
  Sorted ranked (sort_by_score l) /\
  (forall a, List.filter (same_rank a) (sort_by_score l) = List.filter (same_rank a) l).
Proof.
  split; [apply sort_by_score_perm|]. split; [apply sort_by_score_sorted|].
  intros a. induction l as [|c l IH]; simpl; [done|].
  rewrite filter_insert_by_score. simpl. rewrite IH. done.
Qed.

Lemma in_select_top_dedup k all c :
  In c (select_top k all) -> In c (dedup_contexts all).
Proof.
  unfold select_top. intros Hc. apply in_take in Hc.
  eapply Permutation_in; [apply sort_by_score_perm|exact Hc].
Qed.

Lemma select_top_spec (k : nat) (all : list RetrievedContext) :
  length (select_top k all) = Nat.min k (length (dedup_contexts all)) /\
  List.NoDup (map ctx_content (select_top k all)) /\
  Sorted ranked (select_top k all) /\
  (forall c, In c (select_top k all) -> In c all).
Proof.
  destruct (dedup_contexts_inv all) as (Hnd & Hsub & _).
  unfold select_top. split; [|split; [|split]].
  - rewrite length_take, (Permutation_length (sort_by_score_perm _)). lia.
  - apply NoDup_map_take. eapply NoDup_map_perm; [symmetry; apply sort_by_score_perm|done].
  - apply Sorted_take, sort_by_score_sorted.
  - intros c Hc. apply Hsub. apply (in_select_top_dedup k). exact Hc.
Qed.

(** C1: the merged list has [min k n] contexts, [n] the number of
    distinct contents, with pairwise distinct contents, taken from the
    input and ordered by descending score. *)
Theorem select_top_correct (k : nat) (all : list RetrievedContext) :
  length (select_top k all) = Nat.min k (length (dedup_contexts all)) /\
  List.NoDup (map ctx_content (select_top k all)) /\
  Sorted ranked (select_top k all) /\
  (forall c, In c (select_top k all) -> In c all).
Proof. exact (select_top_spec k all). Qed.

(** The truncation keeps the best contexts: a context of the input
    whose content is absent from the merged list scores no higher than
    any context of the merged list. *)
Theorem select_top_optimal (k : nat) (all : list RetrievedContext) (x c : RetrievedContext) :
  In x all ->
  ~ In (ctx_content x) (map ctx_content (select_top k all)) ->
  In c (select_top k all) ->
  sc_le (ctx_score x) (ctx_score c).
Proof.
  intros Hx Hout Hc.
  destruct (dedup_contexts_inv all) as (_ & _ & Hcov).
  destruct (Hcov x Hx) as (d & Hd & Hdc & Hxd).
  assert (Hds : In d (sort_by_score (dedup_contexts all))).
  { eapply Permutation_in; [symmetry; apply sort_by_score_perm|exact Hd]. }
  destruct (take_drop_in d k _ Hds) as [Hin|Hdrop].
  - exfalso. apply Hout. rewrite <- Hdc. apply in_map. exact Hin.
  - eapply sc_le_trans; [exact Hxd|].
    apply (strongly_sorted_take_drop ranked k (sort_by_score (dedup_contexts all))); [|done|done].
    apply Sorted_StronglySorted; [intros ???; apply ranked_trans|apply sort_by_score_sorted].
Qed.

(** Two contexts with the same content and different scores merge
    into exactly one entry, the higher-scored one, whichever comes first. *)
Theorem dedup_pair_keeps_higher (a b : RetrievedContext) :
  ctx_content a = ctx_content b ->
  score_gtb (ctx_score b) (ctx_score a) = true ->
  dedup_contexts [a; b] = [b] /\ dedup_contexts [b; a] = [b].
Proof.
  intros Hab Hgt. unfold dedup_contexts. simpl.
  rewrite Hab, String.eqb_refl, Hgt, (sc_gt_le _ _ Hgt). done.
Qed.

End WithScore.

Section Witnesses.

Definition zctx (content : string) (score : Z) : @RetrievedContext Z :=
  {| ctx_content := content; ctx_source := "s3://kb/doc"; ctx_sample := "";
     ctx_score := score; ctx_from_query := None |}.

Definition sample_contexts : list (@RetrievedContext Z) :=
  [zctx "orders table" 3; zctx "customers table" 7; zctx "orders table" 9;
   zctx "payments table" 5; zctx "products table" 1].

Example select_top_sample :
  map ctx_content (select_top 2 sample_contexts) = ["orders table"; "customers table"].
Proof. reflexivity. Qed.

Lemma select_top_optimal_witness :
  sc_le (ctx_score (zctx "payments table" 5)) (ctx_score (zctx "customers table" 7)).
Proof.
  apply (select_top_optimal 2 sample_contexts (zctx "payments table" 5) (zctx "customers table" 7)).
  - simpl. tauto.
  - vm_compute. intros [H|[H|[]]]; discriminate.
  - vm_compute. tauto.
Defined.

Lemma dedup_pair_keeps_higher_witness :
  dedup_contexts [zctx "orders table" 3; zctx "orders table" 9] = [zctx "orders table" 9] /\
  dedup_contexts [zctx "orders table" 9; zctx "orders table" 3] = [zctx "orders table" 9].
Proof. apply dedup_pair_keeps_higher; reflexivity. Defined.

(** The fingerprint is the MD5 of the raw content, with no case
    folding or whitespace normalisation: two contexts that differ only
    in case both survive the merge. *)
Theorem dedup_not_normalised :
  length (dedup_contexts [zctx "Orders  table" 4; zctx "orders table" 6]) = 2.
Proof. reflexivity. Qed.

End Witnesses.
End Aggregator.
