(* ===== verification/Backend.v ===== *)
(** * The backend of a retrieval client: knowledge base, generator, state

    [AdvancedRetrieval] (src/src/advanced_retrieval/retrieval_techniques.py)
    talks to two Bedrock services: [kb_client.retrieve] (the knowledge
    base) and [bedrock_client.invoke_model] (the text generator).  Both
    are external: the model takes them as an oracle, the record
    [Backend], in which [None] stands for a call that raises (a
    [ClientError], a timeout).  A prompt is given to the oracle as the
    data it is built from ([Prompt]); the fixed instruction text of each
    f-string is left out.

    The state of a client ([ClientState]) is its [self.cache] dict, the
    clock read by [time.time()], and the log of the backend calls made so
    far, which is how the theorems observe that a call was or was not
    made.  The uniform result of a strategy is [StrategyResult]. *)

From S2P Require Import Prelude PyStr Aggregator.
From stdpp Require Import gmap.
From Stdlib Require Import QArith.
Close Scope Q_scope.

Open Scope string_scope.

Module Backend.
Export Aggregator.

(** The two score literals of the code: the default [0] of
    [item.get('score', 0)] and the [1.0] of the mock context. *)
Class ScoreLit (S : Type) := { score_zero : S; score_one : S }.

#[export] Instance Z_score_lit : ScoreLit Z := {| score_zero := 0%Z; score_one := 1%Z |}.
#[export] Instance Q_score_lit : ScoreLit Q := {| score_zero := 0%Q; score_one := 1%Q |}.

Section WithScore.
Context {Score : Type}.

(** One element of [response['retrievalResults']]: the text at
    [content.text], the URI at [location.s3Location.uri] and the score,
    each possibly missing. *)
Record RawItem := mkRawItem {
  ri_text : option string;
  ri_uri : option string;
  ri_score : option Score
}.

(** The variable parts of the five prompts of the class. *)
Inductive Prompt :=
| PAnswer (query_text combined_contexts : string)     (* generate_answer_from_contexts *)
| PExpand (query_text : string)                        (* generate_expanded_queries *)
| PHyde (query_text : string)                          (* generate_hypothetical_document *)
| PRelationship (table_name context_combined : string) (* generate_relationship_analysis *)
| POptimize (sql_query context_combined : string).     (* generate_sql_optimization *)

(** The oracle: [kb_retrieve kb_id text k] is [retrieve(knowledgeBaseId=kb_id,
    retrievalQuery={'text': text}, numberOfResults=k)], and
    [llm_invoke prompt max_tokens temperature] the generated text. *)
Record Backend := mkBackend {
  kb_retrieve : string -> string -> nat -> option (list RawItem);
  llm_invoke : Prompt -> nat -> Q -> option string
}.

(** What the client asked of the backend, in order. *)
Inductive Call :=
| CRetrieve (kb_id text : string) (k : nat)
| CInvoke (prompt : Prompt) (max_tokens : nat) (temperature : Q).

(** The uniform result dict of a strategy: the subject ([query_text],
    [table_name] or [sql_query]), [retrieval_method], [contexts], and the
    optional keys [thinking_process], [error], [hypothetical_document],
    [relationship_analysis] and [optimization_analysis]. *)
Record StrategyResult := mkResult {
  sr_subject : string;
  sr_method : string;
  sr_contexts : list (@RetrievedContext Score);
  sr_thinking : option string;
  sr_error : option string;
  sr_hypothetical_document : option string;
  sr_relationship_analysis : option string;
  sr_optimization_analysis : option string
}.

Definition plain_result (subject meth : string) (ctxs : list (@RetrievedContext Score))
    (thinking : option string) : StrategyResult :=
  {| sr_subject := subject; sr_method := meth; sr_contexts := ctxs; sr_thinking := thinking;
     sr_error := None; sr_hypothetical_document := None; sr_relationship_analysis := None;
     sr_optimization_analysis := None |}.

(** The dict returned by the [except] branch of a strategy. *)
Definition error_result (subject meth e : string) : StrategyResult :=
  {| sr_subject := subject; sr_method := meth; sr_contexts := []; sr_thinking := None;
     sr_error := Some e; sr_hypothetical_document := None; sr_relationship_analysis := None;
     sr_optimization_analysis := None |}.

(** [self.cache[key] = {'result': ..., 'timestamp': time.time()}] *)
Record CacheEntry := mkEntry { ce_result : StrategyResult; ce_timestamp : Z }.

Record ClientState := mkState {
  cache : gmap string CacheEntry;
  clock : Z;
  calls : list Call
}.

Definition set_cache (m : gmap string CacheEntry) (s : ClientState) : ClientState :=
  {| cache := m; clock := clock s; calls := calls s |}.

Definition log_call (c : Call) (s : ClientState) : ClientState :=
  {| cache := cache s; clock := clock s; calls := (calls s ++ [c])%list |}.

(** A fresh client: [self.cache = {}]. *)
Definition fresh_state (now : Z) : ClientState :=
  {| cache := ∅; clock := now; calls := [] |}.

Section WithBackend.
Variable B : Backend.

Definition CM := M ClientState.

(** [self.kb_client.retrieve(...)]: logged, then returns or raises. *)
Definition retrieve (kb_id text : string) (k : nat) : CM (list RawItem) :=
  fun s =>
    let s' := log_call (CRetrieve kb_id text k) s in
    match kb_retrieve B kb_id text k with
    | Some items => (Ok items, s')
    | None => (Err "retrieve failed", s')
    end.

(** [self.bedrock_client.invoke_model(...)] followed by the extraction of
    [content[0].text]. *)
Definition invoke (p : Prompt) (max_tokens : nat) (temperature : Q) : CM string :=
  fun s =>
    let s' := log_call (CInvoke p max_tokens temperature) s in
    match llm_invoke B p max_tokens temperature with
    | Some text => (Ok text, s')
    | None => (Err "invoke_model failed", s')
    end.

(** [time.time()] *)
Definition now : CM Z := fun s => (Ok (clock s), s).

End WithBackend.

(** ** Lemmas on the primitive effects *)

Lemma retrieve_calls B kb text k s :
  calls (snd (retrieve B kb text k s)) = (calls s ++ [CRetrieve kb text k])%list /\
  cache (snd (retrieve B kb text k s)) = cache s /\
  clock (snd (retrieve B kb text k s)) = clock s.
Proof. unfold retrieve. destruct kb_retrieve; done. Qed.

Lemma invoke_calls B p mt t s :
  calls (snd (invoke B p mt t s)) = (calls s ++ [CInvoke p mt t])%list /\
  cache (snd (invoke B p mt t s)) = cache s /\
  clock (snd (invoke B p mt t s)) = clock s.
Proof. unfold invoke. destruct llm_invoke; done. Qed.

(** ** Which calls a computation makes

    [logs_only P c]: running [c] only appends calls that satisfy [P] to
    the log, whatever the state, the backend answers and the outcome. *)
Definition logs_only {A} (P : Call -> Prop) (c : M ClientState A) : Prop :=
  forall s r s', c s = (r, s') -> exists new, calls s' = (calls s ++ new)%list /\ Forall P new.

Lemma logs_ret {A} P (a : A) : logs_only P (ret a).
Proof. intros s r s' [= _ <-]. exists []. rewrite app_nil_r. done. Qed.

Lemma logs_bind {A C} P (c : M ClientState A) (k : A -> M ClientState C) :
  logs_only P c -> (forall a, logs_only P (k a)) -> logs_only P (bind c k).
Proof.
  intros Hc Hk s r s'. unfold bind. destruct (c s) as [[a|e] s1] eqn:E; intros Hr.
  - destruct (Hc _ _ _ E) as (n1 & H1 & P1). destruct (Hk a _ _ _ Hr) as (n2 & H2 & P2).
    exists (n1 ++ n2)%list. rewrite H2, H1, app_assoc. split; [done|]. by apply Forall_app.
  - injection Hr as <- <-. apply (Hc _ _ _ E).
Qed.

Lemma logs_try_catch {A} P (c : M ClientState A) h :
  logs_only P c -> (forall e, logs_only P (h e)) -> logs_only P (try_catch c h).
Proof.
  intros Hc Hh s r s'. unfold try_catch. destruct (c s) as [[a|e] s1] eqn:E; intros Hr.
  - injection Hr as <- <-. apply (Hc _ _ _ E).
  - destruct (Hc _ _ _ E) as (n1 & H1 & P1). destruct (Hh e _ _ _ Hr) as (n2 & H2 & P2).
    exists (n1 ++ n2)%list. rewrite H2, H1, app_assoc. split; [done|]. by apply Forall_app.
Qed.

Lemma logs_retrieve P B kb text k : P (CRetrieve kb text k) -> logs_only P (retrieve B kb text k).
Proof.
  intros HP s r s' Hr. exists [CRetrieve kb text k].
  pose proof (retrieve_calls B kb text k s) as [Hc _]. rewrite Hr in Hc. simpl in Hc.
  split; [done|]. by repeat constructor.
Qed.

Lemma logs_invoke P B p mt t : P (CInvoke p mt t) -> logs_only P (invoke B p mt t).
Proof.
  intros HP s r s' Hr. exists [CInvoke p mt t].
  pose proof (invoke_calls B p mt t s) as [Hc _]. rewrite Hr in Hc. simpl in Hc.
  split; [done|]. by repeat constructor.
Qed.

End WithScore.

#[export] Hint Resolve logs_ret logs_bind logs_try_catch logs_retrieve logs_invoke : dbkb.

Arguments RawItem : clear implicits.
Arguments StrategyResult : clear implicits.
Arguments CacheEntry : clear implicits.
Arguments ClientState : clear implicits.
Arguments Backend : clear implicits.
Arguments Call : clear implicits.
Arguments Prompt : clear implicits.

End Backend.
