(* ===== verification/Cache.v ===== *)
(** * The query cache of a retrieval client

    Models [generate_cache_key] and the cache protocol that every
    strategy of [AdvancedRetrieval] follows
    (src/src/advanced_retrieval/retrieval_techniques.py):

<<
    cache_key = self.generate_cache_key(query_text, num_results, method=...)
    if cache_key in self.cache and time.time() - self.cache[cache_key]['timestamp'] < self.cache_ttl:
        return self.cache[cache_key]['result']
    try:
        ... result = ...
        self.cache[cache_key] = {'result': result, 'timestamp': time.time()}
        return result
    except Exception as e:
        return <error dict>
>>

    [memoize] is that protocol, parameterised by the body and the error
    dict.  The MD5 digest of the key string is modelled by the key string
    itself (MD5 taken collision-free). *)

From S2P Require Import Prelude PyStr Aggregator Backend.
From stdpp Require Import gmap.
From Stdlib Require Import Ascii DecimalString DecimalNat.

Open Scope string_scope.

Module Cache.
Import PyStr Backend.

(** [self.cache_ttl = 3600] *)
Definition cache_ttl : Z := 3600.

(** [sorted(kwargs.items())]: the keyword names are distinct, so the
    order is the order of the names. *)
Fixpoint insert_kwarg (kv : string * string) (l : list (string * string)) : list (string * string) :=
  match l with
  | [] => [kv]
  | kv' :: l' => if String.leb kv.1 kv'.1 then kv :: kv' :: l' else kv' :: insert_kwarg kv l'
  end.

Definition sort_kwargs (kwargs : list (string * string)) : list (string * string) :=
  fold_right insert_kwarg [] kwargs.

(** [generate_cache_key]: the key parts joined with ["::"]; every
    keyword argument of the call sites is a string, printed as
    [f"{k}:{v}"]. *)
Definition generate_cache_key (query_text : string) (num_results : nat)
    (kwargs : list (string * string)) : string :=
  join "::" ([query_text; str_nat num_results] ++
             map (fun kv => kv.1 +:+ ":" +:+ kv.2) (sort_kwargs kwargs))%list.

Section WithScore.
Context {Score : Type}.
Abbreviation St := (ClientState Score).
Abbreviation Res := (StrategyResult Score).

(** [time.time() - entry['timestamp'] < self.cache_ttl] *)
Definition is_fresh (now : Z) (e : CacheEntry Score) : bool := (now - ce_timestamp e <? cache_ttl)%Z.

Definition cache_lookup (key : string) : M St (option Res) :=
  fun s =>
    match cache s !! key with
    | Some e => if is_fresh (clock s) e then (Ok (Some (ce_result e)), s) else (Ok None, s)
    | None => (Ok None, s)
    end.

Definition cache_store (key : string) (r : Res) : M St unit :=
  fun s => (Ok tt, set_cache (<[key := mkEntry r (clock s)]> (cache s)) s).

Definition memoize (key : string) (body : M St Res) (on_error : string -> Res) : M St Res :=
  let* hit := cache_lookup key in
  match hit with
  | Some r => ret r
  | None => try_catch (let* r := body in cache_store key r ;;; ret r) (fun e => ret (on_error e))
  end.

(** ** The protocol *)

Lemma memoize_hit key body on_error s e :
  cache s !! key = Some e -> is_fresh (clock s) e = true ->
  memoize key body on_error s = (Ok (ce_result e), s).
Proof. intros He Hf. unfold memoize, bind, cache_lookup. rewrite He, Hf. reflexivity. Qed.

Definition stale (key : string) (s : St) : Prop :=
  match cache s !! key with Some e => is_fresh (clock s) e = false | None => True end.

Lemma memoize_miss key body on_error s :
  stale key s ->
  memoize key body on_error s =
    match body s with
    | (Ok r, s') => (Ok r, set_cache (<[key := mkEntry r (clock s')]> (cache s')) s')
    | (Err e, s') => (Ok (on_error e), s')
    end.
Proof.
  unfold stale, memoize, bind, cache_lookup, try_catch. intros Hs.
  destruct (cache s !! key) as [e|]; [rewrite Hs|]; destruct (body s) as [[r|m] s']; reflexivity.
Qed.

Lemma memoize_no_raise key body on_error : no_raise (memoize key body on_error).
Proof.
  intros s. unfold memoize, bind, cache_lookup.
  destruct (cache s !! key) as [e|]; [destruct is_fresh; [eauto|]|];
    apply no_raise_try_catch; intros; apply no_raise_ret.
Qed.

Lemma logs_cache_lookup P key : logs_only P (cache_lookup key).
Proof.
  intros s r s' Hr. exists []. rewrite app_nil_r.
  unfold cache_lookup in Hr. destruct (cache s !! key); [destruct is_fresh|]; by injection Hr as _ <-.
Qed.

Lemma logs_cache_store P key r : logs_only P (cache_store key r).
Proof. intros s r' s' [= _ <-]. exists []. rewrite app_nil_r. done. Qed.

Lemma logs_memoize P key body on_error :
  logs_only P body -> logs_only P (memoize key body on_error).
Proof.
  intros Hb. unfold memoize. apply logs_bind; [apply logs_cache_lookup|].
  intros [r|]; [apply logs_ret|].
  apply logs_try_catch; [|intros; apply logs_ret].
  apply logs_bind; [done|]. intros r. apply logs_bind; [apply logs_cache_store|]. intros; apply logs_ret.
Qed.

End WithScore.

#[export] Hint Resolve memoize_no_raise logs_memoize : dbkb.

(** ** Key injectivity *)

Fixpoint no_colon (s : string) : bool :=
  match s with
  | EmptyString => true
  | String c s' => negb (Ascii.eqb c ":") && no_colon s'
  end.

Lemma no_colon_app_colon a b : no_colon (a +:+ String ":" b) = false.
Proof. induction a as [|x a IH]; simpl; [reflexivity|]. rewrite IH. apply andb_false_r. Qed.

(** The part after the last colon is determined. *)
Lemma split_last_colon a b c d :
  no_colon b = true -> no_colon d = true ->
  a +:+ String ":" b = c +:+ String ":" d -> a = c /\ b = d.
Proof.
  revert c. induction a as [|x a IH]; intros [|y c] Hb Hd Heq; simpl in Heq.
  - injection Heq as ->. done.
  - injection Heq as <- Hb'. subst b. rewrite no_colon_app_colon in Hb. done.
  - injection Heq as -> Hd'. subst d. rewrite no_colon_app_colon in Hd. done.
  - injection Heq as -> Heq. destruct (IH c Hb Hd Heq) as [-> ->]. done.
Qed.

Lemma append_inv_r (a b s : string) : a +:+ s = b +:+ s -> a = b.
Proof.
  intros H. assert (Hl : String.length a = String.length b).
  { apply (f_equal String.length) in H. rewrite !slength_append in H. lia. }
  revert b H Hl. induction a as [|x a IH]; intros [|y b] H Hl; simpl in *; try lia.
  - done.
  - injection H as -> H. f_equal. apply IH; [done|lia].
Qed.

Lemma no_colon_digits (u : Decimal.uint) : no_colon (NilEmpty.string_of_uint u) = true.
Proof. induction u; simpl; auto. Qed.

Lemma str_nat_no_colon n : no_colon (str_nat n) = true.
Proof. apply no_colon_digits. Qed.

Lemma str_nat_inj n m : str_nat n = str_nat m -> n = m.
Proof.
  unfold str_nat. intros H. apply (f_equal NilEmpty.uint_of_string) in H.
  rewrite !NilEmpty.usu in H. injection H as H. by apply DecimalNat.Unsigned.to_uint_inj in H.
Qed.

Lemma cache_key_shape q n m :
  generate_cache_key q n [("method", m)] =
    (((q +:+ ":") +:+ String ":" (str_nat n)) +:+ "::method") +:+ String ":" m.
Proof. unfold generate_cache_key, join. simpl. rewrite !sappend_assoc. reflexivity. Qed.

Lemma cache_key_inj q1 q2 n1 n2 m1 m2 :
  no_colon m1 = true -> no_colon m2 = true ->
  generate_cache_key q1 n1 [("method", m1)] = generate_cache_key q2 n2 [("method", m2)] ->
  q1 = q2 /\ n1 = n2 /\ m1 = m2.
Proof.
  intros Hm1 Hm2 Heq. rewrite !cache_key_shape in Heq.
  apply split_last_colon in Heq as [Heq ->]; [|done..].
  apply append_inv_r in Heq.
  apply split_last_colon in Heq as [Heq Hn]; [|apply str_nat_no_colon..].
  apply append_inv_r in Heq. apply str_nat_inj in Hn. done.
Qed.

(** C34: the cache keys of the strategies never collide: the key of a
    call determines its query text, its result count and its method name,
    for method names without a colon. *)
Theorem cache_key_injective q1 q2 n1 n2 m1 m2 :
  no_colon m1 = true -> no_colon m2 = true ->
  generate_cache_key q1 n1 [("method", m1)] = generate_cache_key q2 n2 [("method", m2)] ->
  q1 = q2 /\ n1 = n2 /\ m1 = m2.
Proof. exact (cache_key_inj q1 q2 n1 n2 m1 m2). Qed.

(** The six method names of [AdvancedRetrieval]. *)
Definition method_names : list string :=
  ["standard"; "expansion"; "hyde"; "multi"; "relationship"; "optimize"].

Lemma cache_key_injective_witness :
  generate_cache_key "orders" 5 [("method", "standard")] <>
    generate_cache_key "orders" 5 [("method", "expansion")] /\
  Forall (fun m => no_colon m = true) method_names.
Proof.
  split; [|repeat constructor].
  intros Heq. apply cache_key_injective in Heq as (_ & _ & Hm); [discriminate|reflexivity..].
Defined.

End Cache.
