(* ===== verification/Strategies.v ===== *)
(** * The retrieval strategies of [AdvancedRetrieval]

    One definition per method of the class in
    src/src/advanced_retrieval/retrieval_techniques.py, over the backend
    oracle [B] and the client's knowledge base [kb_id] ([self.kb_id]):
    [standard_query], [query_expansion] with [generate_expanded_queries],
    [hyde_retrieval] with [generate_hypothetical_document],
    [multi_strategy_retrieval], [relationship_retrieval] with
    [generate_relationship_analysis], [optimize_sql_query] with its table
    extraction and [generate_sql_optimization], and the answer synthesis
    [generate_answer_from_contexts] and [advanced_rag_query].  Each
    strategy is the cache protocol [Cache.memoize] around its body, as in
    the code. *)

From S2P Require Import Prelude PyStr Aggregator Backend Cache.
From stdpp Require Import gmap.
From Stdlib Require Import QArith Ascii.
Close Scope Q_scope.

Open Scope string_scope.

Module Strategies.
Import PyStr Backend Cache.

Section WithBackend.
Context {Score : Type} `{ScoreOrder Score} `{ScoreLit Score}.
Variable B : Backend Score.
Variable kb_id : string.

Abbreviation Ctx := (@RetrievedContext Score).
Abbreviation Res := (StrategyResult Score).
Abbreviation CM := (M (ClientState Score)).

(** ["\n\n---\n\n"] *)
Definition context_sep : string := nl +:+ nl +:+ "---" +:+ nl +:+ nl.

(** The context dict built from one retrieval item (lines 192-197):
    missing text, URI and score default to [''], [''] and [0]. *)
Definition to_context (from_query : option string) (item : RawItem Score) : Ctx :=
  let text := default "" (ri_text item) in
  {| ctx_content := text;
     ctx_source := default "" (ri_uri item);
     ctx_sample := if String.eqb text "" then "" else slice_to 500 text +:+ "...";
     ctx_score := default score_zero (ri_score item);
     ctx_from_query := from_query |}.

(** ** [standard_query] (lines 164-226) *)

Definition mock_context (query_text e : string) : Ctx :=
  {| ctx_content := "This is a mock response. The query was: " +:+ query_text +:+
       ". There was an error connecting to the knowledge base: " +:+ e;
     ctx_source := "mock-source";
     ctx_sample := "This is a mock response. The query was: " +:+ query_text +:+ "...";
     ctx_score := score_one;
     ctx_from_query := None |}.

Definition mock_result (query_text e : string) : Res :=
  {| sr_subject := query_text; sr_method := "standard (mock fallback)";
     sr_contexts := [mock_context query_text e]; sr_thinking := None; sr_error := Some e;
     sr_hypothetical_document := None; sr_relationship_analysis := None;
     sr_optimization_analysis := None |}.

Definition standard_query (query_text : string) (num_results : nat) : CM Res :=
  memoize (generate_cache_key query_text num_results [("method", "standard")])
    (let* items := retrieve B kb_id query_text num_results in
     ret (plain_result query_text "standard" (map (to_context None) items) None))
    (mock_result query_text).

(** ** [generate_expanded_queries] (lines 307-349) *)

(** [[q.strip() for q in result.split('\n') if q.strip()]] *)
Definition expansion_lines (result : string) : list string :=
  map strip (List.filter (fun l => negb (String.eqb (strip l) "")) (split_on newline result)).

Definition generate_expanded_queries (query_text : string) : CM (list string) :=
  try_catch
    (let* result := invoke B (PExpand query_text) 1500 (7 # 10) in
     let queries := expansion_lines result in
     ret (if existsb (String.eqb query_text) queries then queries else queries ++ [query_text])%list)
    (fun _ => ret [query_text]).

(** ** The retrieval loop shared by [query_expansion] (lines 243-268) and
    [relationship_retrieval] (lines 560-585): for the [i]-th query, log
    it in the thinking trace, retrieve [per_query] results and tag them
    with the query. *)
Fixpoint retrieve_each (per_query : nat) (i : nat) (queries : list string)
    (all : list Ctx) (thinking : string) : CM (list Ctx * string) :=
  match queries with
  | [] => ret (all, thinking)
  | q :: rest =>
      let thinking := thinking +:+ str_nat (S i) +:+ ". " +:+ q +:+ nl in
      let* items := retrieve B kb_id q per_query in
      retrieve_each per_query (S i) rest (all ++ map (to_context (Some q)) items)%list thinking
  end.

(** The two summary lines written after the dedup (lines 280-281). *)
Definition dedup_summary (n_all n_unique n_sorted : nat) : string :=
  nl +:+ "Retrieved " +:+ str_nat n_all +:+ " total contexts, deduplicated to " +:+
  str_nat n_unique +:+ " unique contexts." +:+
  nl +:+ "Selected top " +:+ str_nat n_sorted +:+ " contexts based on relevance score.".

(** ** [query_expansion] (lines 228-305) *)
Definition query_expansion (query_text : string) (num_results : nat) : CM Res :=
  memoize (generate_cache_key query_text num_results [("method", "expansion")])
    (let* expanded := generate_expanded_queries query_text in
     let thinking := "Original query: " +:+ query_text +:+ nl +:+ nl +:+ "Expanded queries:" +:+ nl in
     let* '(all, thinking) := retrieve_each num_results 0 expanded [] thinking in
     let unique := dedup_contexts all in
     let sorted := take num_results (sort_by_score unique) in
     ret (plain_result query_text "query_expansion" sorted
            (Some (thinking +:+ dedup_summary (length all) (length unique) (length sorted)))))
    (error_result query_text "query_expansion").

(** ** [generate_hypothetical_document] (lines 418-455) and
    [hyde_retrieval] (lines 351-416) *)
Definition generate_hypothetical_document (query_text : string) : CM string :=
  try_catch
    (let* result := invoke B (PHyde query_text) 4000 (2 # 10) in ret (strip result))
    (fun _ => ret query_text).

Definition hyde_retrieval (query_text : string) (num_results : nat) : CM Res :=
  memoize (generate_cache_key query_text num_results [("method", "hyde")])
    (let* doc := generate_hypothetical_document query_text in
     let thinking := "Original query: " +:+ query_text +:+ nl +:+ nl +:+
       "Generated hypothetical document to use for retrieval:" +:+ nl +:+ doc +:+ nl in
     let* items := retrieve B kb_id doc num_results in
     let contexts := map (to_context None) items in
     let thinking := thinking +:+ nl +:+ "Retrieved " +:+ str_nat (length contexts) +:+
       " contexts using the hypothetical document." in
     ret {| sr_subject := query_text; sr_method := "hyde"; sr_contexts := contexts;
            sr_thinking := Some thinking; sr_error := None;
            sr_hypothetical_document := Some doc; sr_relationship_analysis := None;
            sr_optimization_analysis := None |})
    (error_result query_text "hyde").

(** ** [multi_strategy_retrieval] (lines 457-535) *)

Definition sub_trace (r : Res) : string :=
  match sr_thinking r with
  | Some t => t +:+ nl +:+ nl
  | None => "Retrieved " +:+ str_nat (length (sr_contexts r)) +:+ " results" +:+ nl +:+ nl
  end.

Definition multi_trace (query_text : string) (std exp hyde : Res)
    (n_all n_unique n_sorted : nat) : string :=
  "# Multi-Strategy Retrieval Process" +:+ nl +:+ nl +:+
  "Query: " +:+ query_text +:+ nl +:+ nl +:+
  "## Standard Retrieval" +:+ nl +:+
  "Retrieved " +:+ str_nat (length (sr_contexts std)) +:+ " results" +:+ nl +:+ nl +:+
  "## Query Expansion" +:+ nl +:+ sub_trace exp +:+
  "## Hypothetical Document Embedding (HyDE)" +:+ nl +:+ sub_trace hyde +:+
  "## Aggregation Results" +:+ nl +:+
  "Combined " +:+ str_nat n_all +:+ " total contexts from all methods" +:+ nl +:+
  "After deduplication: " +:+ str_nat n_unique +:+ " unique contexts" +:+ nl +:+
  "Final selection: " +:+ str_nat n_sorted +:+ " top contexts by relevance score" +:+ nl.

(** [results_per_method = max(2, num_results // 3)] *)
Definition results_per_method (num_results : nat) : nat := Nat.max 2 (num_results / 3).

Definition multi_strategy_retrieval (query_text : string) (num_results : nat) : CM Res :=
  memoize (generate_cache_key query_text num_results [("method", "multi")])
    (let rpm := results_per_method num_results in
     let* std := standard_query query_text rpm in
     let* exp := query_expansion query_text rpm in
     let* hyde := hyde_retrieval query_text rpm in
     let all := (sr_contexts std ++ sr_contexts exp ++ sr_contexts hyde)%list in
     let unique := dedup_contexts all in
     let sorted := take num_results (sort_by_score unique) in
     ret (plain_result query_text "multi_strategy" sorted
            (Some (multi_trace query_text std exp hyde (length all) (length unique) (length sorted)))))
    (error_result query_text "multi_strategy").

(** ** [relationship_retrieval] (lines 537-626) *)

Definition relationship_queries (table_name : string) : list string :=
  ["relationships of " +:+ table_name +:+ " table";
   table_name +:+ " foreign keys";
   "tables that reference " +:+ table_name;
   table_name +:+ " primary key";
   table_name +:+ " table schema relationships"].

(** [[ctx['content'] for ctx in contexts if ctx['content']]] joined by
    the separator (lines 631-632 and 795-796). *)
Definition combine_contents (contexts : list Ctx) : string :=
  join context_sep (List.filter (fun t => negb (String.eqb t "")) (map ctx_content contexts)).

Definition generate_relationship_analysis (table_name : string) (contexts : list Ctx) : CM string :=
  try_catch
    (let* result := invoke B (PRelationship table_name (combine_contents contexts)) 4000 (2 # 10) in
     ret (strip result))
    (fun e => ret ("Error generating relationship analysis: " +:+ e)).

Definition relationship_retrieval (table_name : string) (num_results : nat) : CM Res :=
  memoize (generate_cache_key table_name num_results [("method", "relationship")])
    (let queries := relationship_queries table_name in
     let thinking := "Retrieving relationship information for table: " +:+ table_name +:+ nl +:+ nl +:+
       "Generated specialized queries:" +:+ nl in
     let* '(all, thinking) :=
       retrieve_each (num_results / length queries + 1) 0 queries [] thinking in
     let unique := dedup_contexts all in
     let sorted := take num_results (sort_by_score unique) in
     let thinking := thinking +:+ dedup_summary (length all) (length unique) (length sorted) in
     let* analysis := generate_relationship_analysis table_name sorted in
     ret {| sr_subject := table_name; sr_method := "relationship"; sr_contexts := sorted;
            sr_thinking := Some thinking; sr_error := None; sr_hypothetical_document := None;
            sr_relationship_analysis := Some analysis; sr_optimization_analysis := None |})
    (error_result table_name "relationship").

(** [query_database_relationships] (lines 160-162) *)
Definition query_database_relationships (table_name : string) : CM Res :=
  relationship_retrieval table_name 10.

(** ** [optimize_sql_query] (lines 676-790) *)

(** [re.findall(r'(?:FROM|JOIN)\s+(\w+)', sql_query, re.IGNORECASE)]:
    at each position, the keyword (any case), one or more whitespace
    characters, then the longest run of word characters; the scan
    resumes after the match. *)
(** The match at the start of [s], with the table name and the length
    of the whole match. *)
Definition table_match_at (s : string) : option (string * nat) :=
  let low := lower s in
  if String.prefix "from" low || String.prefix "join" low then
    let r := sdrop 4 s in
    let ws := take_while is_space r in
    let name := take_while is_word (drop_while is_space r) in
    if String.eqb ws "" || String.eqb name "" then None
    else Some (name, (4 + String.length ws + String.length name)%nat)
  else None.

Fixpoint find_tables_go (skip : nat) (s : string) : list string :=
  match s with
  | EmptyString => []
  | String _ s' =>
      match skip with
      | S k => find_tables_go k s'
      | O =>
          match table_match_at s with
          | Some (name, n) => name :: find_tables_go (n - 1) s'
          | None => find_tables_go 0 s'
          end
      end
  end.

Definition find_tables (sql_query : string) : list string := find_tables_go 0 sql_query.

Definition table_queries (table : string) : list string :=
  [table +:+ " schema columns indexes"; table +:+ " table structure";
   table +:+ " primary key and indexes"].

(** [for query in table_queries: ... numberOfResults=3 ...] *)
Fixpoint retrieve_all (queries : list string) (k : nat) (all : list Ctx) : CM (list Ctx) :=
  match queries with
  | [] => ret all
  | q :: rest =>
      let* items := retrieve B kb_id q k in
      retrieve_all rest k (all ++ map (to_context None) items)%list
  end.

Fixpoint retrieve_tables (tables : list string) (all : list Ctx) (thinking : string)
    : CM (list Ctx * string) :=
  match tables with
  | [] => ret (all, thinking)
  | t :: rest =>
      let thinking := thinking +:+ "Retrieving schema information for table: " +:+ t +:+ nl in
      let* all := retrieve_all (table_queries t) 3 all in
      retrieve_tables rest all thinking
  end.

Definition generate_sql_optimization (sql_query : string) (contexts : list Ctx) : CM string :=
  try_catch
    (let* result := invoke B (POptimize sql_query (combine_contents contexts)) 3000 (2 # 10) in
     ret (strip result))
    (fun e => ret ("Error generating SQL optimization recommendations: " +:+ e)).

Definition optimize_sql_query (sql_query : string) : CM Res :=
  memoize (generate_cache_key sql_query 5 [("method", "optimize")])
    (let tables := find_tables sql_query in
     let thinking := "Extracting tables from SQL query:" +:+ nl +:+ sql_query +:+ nl +:+ nl +:+
       "Identified tables: " +:+ join ", " tables +:+ nl +:+ nl in
     let* '(all, thinking) := retrieve_tables tables [] thinking in
     let thinking := thinking +:+ "Retrieving relevant query patterns and optimization information" +:+ nl in
     let optimization_query := "SQL query optimization for: " +:+ slice_to 100 sql_query +:+ "..." in
     let* items := retrieve B kb_id optimization_query 5 in
     let all := (all ++ map (to_context None) items)%list in
     let sorted := take 10 (sort_by_score (dedup_contexts all)) in
     let thinking := thinking +:+ "Retrieved " +:+ str_nat (length all) +:+
       " total contexts, deduplicated to " +:+ str_nat (length sorted) +:+ " contexts for analysis." +:+ nl in
     let* analysis := generate_sql_optimization sql_query sorted in
     ret {| sr_subject := sql_query; sr_method := "sql_optimization"; sr_contexts := sorted;
            sr_thinking := Some thinking; sr_error := None; sr_hypothetical_document := None;
            sr_relationship_analysis := None; sr_optimization_analysis := Some analysis |})
    (error_result sql_query "sql_optimization").

(** ** Answer synthesis (lines 66-158) *)

(** [get_relevant_corrections]: its body returns the empty string. *)
Definition get_relevant_corrections (query_text : string) : string := "".

Definition no_context_answer (query_text : string) : string :=
  "I couldn't find relevant information in the database knowledge base for your query: '" +:+
  query_text +:+ "'. Please try rephrasing your question or check if the topic is covered in the documentation.".

Definition generate_answer_from_contexts (query_text : string) (context_texts : list string) : CM string :=
  match context_texts with
  | [] => ret (no_context_answer query_text)
  | first :: _ =>
      let corrections_context := get_relevant_corrections query_text in
      let combined := join context_sep (take 10 context_texts) in
      let combined :=
        if String.eqb corrections_context "" then combined
        else combined +:+ nl +:+ nl +:+ "--- USER CORRECTIONS ---" +:+ nl +:+ nl +:+ corrections_context in
      try_catch
        (let* result := invoke B (PAnswer query_text combined) 4000 (2 # 10) in
         ret (if negb (String.eqb (strip result) "") then strip result
              else "I found relevant documentation but couldn't generate a proper response. The retrieved information contains: " +:+
                   slice_to 1000 combined +:+ "..."))
        (fun _ => ret ("Based on the database documentation, here's what I found for your query '" +:+
                       query_text +:+ "':" +:+ nl +:+ nl +:+ slice_to 2000 first +:+ "..."))
  end.

(** The dict returned by [advanced_rag_query]. *)
Record RagResult := mkRag {
  answer : string;
  thinking : string;
  retrieved_contexts : list string
}.

(** [[ctx.get('content', '').strip() for ctx in contexts if ctx.get('content')]] *)
Definition context_texts_of (contexts : list Ctx) : list string :=
  map strip (List.filter (fun t => negb (String.eqb t "")) (map ctx_content contexts)).

Definition advanced_rag_query (query_text : string) (use_extended_thinking : bool) : CM RagResult :=
  let* result := multi_strategy_retrieval query_text 8 in
  let texts := context_texts_of (sr_contexts result) in
  let trace := default "" (sr_thinking result) in
  let* ans := generate_answer_from_contexts query_text texts in
  ret {| answer := ans; thinking := if use_extended_thinking then trace else "";
         retrieved_contexts := texts |}.

(** ** Failures never escape a strategy *)

Lemma generate_answer_no_raise q texts : no_raise (generate_answer_from_contexts q texts).
Proof.
  unfold generate_answer_from_contexts. destruct texts; [apply no_raise_ret|].
  apply no_raise_try_catch. intros; apply no_raise_ret.
Qed.

Lemma rag_total q ext : no_raise (advanced_rag_query q ext).
Proof.
  unfold advanced_rag_query. apply no_raise_bind; [apply memoize_no_raise|].
  intros r. apply no_raise_bind; [apply generate_answer_no_raise|]. intros; apply no_raise_ret.
Qed.

(** [advanced_rag_query] always returns: every backend failure is
    absorbed by a strategy's [except] branch or by the answer fallback,
    so the [except] of the multi-source loop in [multi_kb_query] is
    never taken. *)
Theorem advanced_rag_query_no_raise (q : string) (ext : bool) :
  no_raise (advanced_rag_query q ext).
Proof. apply rag_total. Qed.

End WithBackend.
End Strategies.
