(* ===== verification/StrategyProps.v ===== *)
(** * Properties of the retrieval strategies

    Theorems about the definitions of [Strategies]: the strategies never
    raise (every failure is absorbed into a fallback value), which calls
    each one makes on the backend, how the cache is used, and how
    failures of one backend call propagate. *)

From S2P Require Import Prelude PyStr Aggregator Backend Cache Strategies.
From stdpp Require Import gmap.
From Stdlib Require Import QArith.
Close Scope Q_scope.

Open Scope string_scope.

Module StrategyProps.
Import PyStr Backend Cache Strategies.

Section WithBackend.
Context {Score : Type} `{ScoreOrder Score} `{ScoreLit Score}.
Variable B : Backend Score.
Variable kb_id : string.

(** ** Query expansion keeps the original query *)

(** The list of queries [generate_expanded_queries] returns for a given
    generator answer. *)
Definition expanded_queries (q : string) : list string :=
  match llm_invoke B (PExpand q) 1500 (7 # 10) with
  | Some result =>
      let queries := expansion_lines result in
      if existsb (String.eqb q) queries then queries else (queries ++ [q])%list
  | None => [q]
  end.

Lemma generate_expanded_queries_run q s :
  generate_expanded_queries B q s =
    (Ok (expanded_queries q), log_call (CInvoke (PExpand q) 1500 (7 # 10)) s).
Proof.
  unfold generate_expanded_queries, expanded_queries, try_catch, bind, invoke.
  destruct (llm_invoke B (PExpand q) 1500 (7 # 10)); reflexivity.
Qed.

(** The expanded query list always contains the original query,
    whatever the generator answers, and is exactly the original query
    when the generator fails. *)
Theorem expanded_queries_keep_original (q : string) :
  In q (expanded_queries q) /\
  (llm_invoke B (PExpand q) 1500 (7 # 10) = None -> expanded_queries q = [q]).
Proof.
  unfold expanded_queries. split; [|intros ->; reflexivity].
  destruct llm_invoke as [result|]; [|left; done].
  destruct (existsb (String.eqb q) _) eqn:E.
  - apply existsb_exists in E as (x & Hx & Heq). apply String.eqb_eq in Heq. by subst.
  - apply in_or_app. right. left. done.
Qed.

(** ** What the strategies ask of the knowledge base *)

(** A call that goes to this client's knowledge base with [n] results. *)
Definition asks (n : nat) (c : Call) : Prop :=
  match c with
  | CRetrieve kb _ k => kb = kb_id /\ k = n
  | CInvoke _ _ _ => True
  end.

(** Decompose a computation into its effects and check each call. *)
Ltac logs_step :=
  first [ apply logs_ret | apply logs_memoize | apply logs_bind | apply logs_try_catch
        | apply logs_retrieve | apply logs_invoke | progress intros
        | match goal with |- logs_only _ (match ?x with _ => _ end) => destruct x end
        | exact I | (split; reflexivity) ].
Ltac logs_auto := repeat logs_step.

Lemma logs_retrieve_each n i queries all th :
  logs_only (asks n) (retrieve_each B kb_id n i queries all th).
Proof.
  revert i all th. induction queries as [|q rest IH]; intros i all th; simpl.
  - apply logs_ret.
  - apply logs_bind; [by apply logs_retrieve|]. intros; apply IH.
Qed.

Lemma logs_generate_expanded n q : logs_only (asks n) (generate_expanded_queries B q).
Proof. unfold generate_expanded_queries. logs_auto. Qed.

Lemma logs_standard n q : logs_only (asks n) (standard_query B kb_id q n).
Proof. unfold standard_query. logs_auto. Qed.

Lemma logs_expansion n q : logs_only (asks n) (query_expansion B kb_id q n).
Proof.
  unfold query_expansion. apply logs_memoize. apply logs_bind; [apply logs_generate_expanded|].
  intros qs. apply logs_bind; [apply logs_retrieve_each|]. intros [all th]. apply logs_ret.
Qed.

Lemma logs_hyde n q : logs_only (asks n) (hyde_retrieval B kb_id q n).
Proof.
  unfold hyde_retrieval, generate_hypothetical_document. logs_auto.
Qed.

(** Every knowledge-base call made by [multi_strategy_retrieval]
    with [k] results wanted goes to this client's knowledge base and asks
    for [max(2, k // 3)] results, whatever is cached and whatever the
    backend answers. *)
Theorem multi_strategy_asks_per_method (q : string) (k : nat) :
  logs_only (asks (results_per_method k)) (multi_strategy_retrieval B kb_id q k).
Proof.
  unfold multi_strategy_retrieval. apply logs_memoize.
  apply logs_bind; [apply logs_standard|]. intros std.
  apply logs_bind; [apply logs_expansion|]. intros exp.
  apply logs_bind; [apply logs_hyde|]. intros; apply logs_ret.
Qed.

(** [relationship_retrieval] asks each of its five template queries
    for [k // 5 + 1] results (3 for the default 10), where the spec asks
    for [k/5] rounded up (2 for 10). *)
Theorem relationship_asks (t : string) (k : nat) :
  logs_only (asks (k / 5 + 1)) (relationship_retrieval B kb_id t k).
Proof.
  unfold relationship_retrieval. apply logs_memoize.
  apply logs_bind; [apply logs_retrieve_each|]. intros [all th].
  unfold generate_relationship_analysis. logs_auto.
Qed.

(** ** The cache protocol on [standard_query] *)

Definition standard_key (q : string) (k : nat) : string :=
  generate_cache_key q k [("method", "standard")].

Definition standard_result (q : string) (items : list (RawItem Score)) : StrategyResult Score :=
  plain_result q "standard" (map (to_context None) items) None.

Lemma standard_query_miss q k s items :
  stale (standard_key q k) s -> kb_retrieve B kb_id q k = Some items ->
  standard_query B kb_id q k s =
    (Ok (standard_result q items),
     set_cache (<[standard_key q k := mkEntry (standard_result q items) (clock s)]> (cache s))
               (log_call (CRetrieve kb_id q k) s)).
Proof.
  intros Hst Hkb. unfold standard_query. rewrite memoize_miss by exact Hst.
  unfold bind, retrieve. rewrite Hkb. reflexivity.
Qed.

(** The cache works as the spec says.  A first call with a stale
    key makes one knowledge-base call and stores the result stamped with
    the current time; a later call with the same query and count within
    [cache_ttl] seconds returns the stored result and makes no backend
    call; a call once the entry is [cache_ttl] old calls the knowledge
    base again. *)
Theorem standard_query_cache (q : string) (k : nat) (s : ClientState Score) (items : list (RawItem Score)) :
  stale (standard_key q k) s -> kb_retrieve B kb_id q k = Some items ->
  calls (snd (standard_query B kb_id q k s)) = (calls s ++ [CRetrieve kb_id q k])%list /\
  cache (snd (standard_query B kb_id q k s)) !! standard_key q k =
    Some (mkEntry (standard_result q items) (clock s)) /\
  (forall s2, cache s2 !! standard_key q k = Some (mkEntry (standard_result q items) (clock s)) ->
     (clock s2 < clock s + cache_ttl)%Z ->
     standard_query B kb_id q k s2 = (Ok (standard_result q items), s2)) /\
  (forall s2, cache s2 !! standard_key q k = Some (mkEntry (standard_result q items) (clock s)) ->
     (clock s + cache_ttl <= clock s2)%Z ->
     calls (snd (standard_query B kb_id q k s2)) = (calls s2 ++ [CRetrieve kb_id q k])%list).
Proof.
  intros Hst Hkb. rewrite (standard_query_miss q k s items Hst Hkb). simpl.
  split; [done|]. split; [by rewrite lookup_insert_eq|]. split.
  - intros s2 Hc Ht. unfold standard_query, standard_key in *.
    rewrite (memoize_hit _ _ _ s2 _ Hc); [done|]. unfold is_fresh. simpl. apply Z.ltb_lt. lia.
  - intros s2 Hc Ht.
    assert (Hst2 : stale (standard_key q k) s2).
    { unfold stale. rewrite Hc. unfold is_fresh. simpl. apply Z.ltb_ge. lia. }
    rewrite (standard_query_miss q k s2 items Hst2 Hkb). reflexivity.
Qed.

(** C7: a failed knowledge-base call is not cached: [standard_query]
    returns the mock result, its state differs from the input only by the
    logged call, and the next call retries the knowledge base. *)
Theorem standard_query_failure_not_cached (q : string) (k : nat) (s : ClientState Score) :
  stale (standard_key q k) s -> kb_retrieve B kb_id q k = None ->
  standard_query B kb_id q k s = (Ok (mock_result q "retrieve failed"), log_call (CRetrieve kb_id q k) s) /\
  stale (standard_key q k) (log_call (CRetrieve kb_id q k) s).
Proof.
  intros Hst Hkb. unfold standard_query. rewrite memoize_miss by exact Hst.
  unfold bind, retrieve. rewrite Hkb. split; [reflexivity|]. exact Hst.
Qed.

(** ** The cache invariant

    Every entry of the cache stored under the key of a strategy call
    (query [q], count [k], method [m]) is a result that call may
    return: it is about [q] and, for the merging strategies, has at
    most [k] (10 for the optimisation) contexts with distinct contents. *)

Definition bound_of (m : string) (k : nat) : option nat :=
  if String.eqb m "expansion" || String.eqb m "multi" || String.eqb m "relationship" then Some k
  else if String.eqb m "optimize" then Some 10%nat else None.

Definition spec_of (m q : string) (k : nat) (r : StrategyResult Score) : Prop :=
  sr_subject r = q /\
  match bound_of m k with
  | Some b => (length (sr_contexts r) <= b)%nat /\ List.NoDup (map ctx_content (sr_contexts r))
  | None => True
  end.

Definition cache_ok (s : ClientState Score) : Prop :=
  forall key e, cache s !! key = Some e ->
  forall q k m, key = generate_cache_key q k [("method", m)] -> no_colon m = true ->
  spec_of m q k (ce_result e).

(** [triple c Q]: from a state with a well-formed cache, [c] reaches a
    state with a well-formed cache, and its result satisfies [Q]. *)
Definition triple {A} (c : M (ClientState Score) A) (Q : A -> Prop) : Prop :=
  forall s a s', cache_ok s -> c s = (a, s') -> cache_ok s' /\ forall v, a = Ok v -> Q v.

Lemma triple_ret {A} (a : A) (Q : A -> Prop) : Q a -> triple (ret a) Q.
Proof. intros HQ s r s' Hs [= <- <-]. split; [done|]. by intros v [= <-]. Qed.

Lemma triple_bind {A C} (c : M (ClientState Score) A) (k : A -> M (ClientState Score) C) P Q :
  triple c P -> (forall a, P a -> triple (k a) Q) -> triple (bind c k) Q.
Proof.
  intros Hc Hk s r s' Hs. unfold bind. destruct (c s) as [[a|e] s1] eqn:E; intros Hr.
  - destruct (Hc _ _ _ Hs E) as [Hs1 HP]. eapply Hk; [apply HP; reflexivity|exact Hs1|exact Hr].
  - injection Hr as <- <-. destruct (Hc _ _ _ Hs E) as [Hs1 _]. split; [done|]. discriminate.
Qed.

Lemma triple_try_catch {A} (c : M (ClientState Score) A) h Q :
  triple c Q -> (forall e, triple (h e) Q) -> triple (try_catch c h) Q.
Proof.
  intros Hc Hh s r s' Hs. unfold try_catch. destruct (c s) as [[a|e] s1] eqn:E; intros Hr.
  - injection Hr as <- <-. eapply Hc; eauto.
  - destruct (Hc _ _ _ Hs E) as [Hs1 _]. eapply Hh; eauto.
Qed.

Lemma cache_ok_log c s : cache_ok s -> cache_ok (log_call c s).
Proof. intros Hs. exact Hs. Qed.

Lemma triple_retrieve kb text k : triple (retrieve B kb text k) (fun _ => True).
Proof.
  intros s r s' Hs Hr. pose proof (retrieve_calls B kb text k s) as (_ & Hc & _).
  rewrite Hr in Hc. split; [|done]. intros key e. simpl in Hc. rewrite Hc. apply Hs.
Qed.

Lemma triple_invoke p mt t : triple (invoke B p mt t) (fun _ => True).
Proof.
  intros s r s' Hs Hr. pose proof (invoke_calls B p mt t s) as (_ & Hc & _).
  rewrite Hr in Hc. split; [|done]. intros key e. simpl in Hc. rewrite Hc. apply Hs.
Qed.

Lemma triple_weaken {A} (c : M (ClientState Score) A) (P Q : A -> Prop) :
  triple c P -> (forall v, P v -> Q v) -> triple c Q.
Proof. intros Hc HPQ s r s' Hs Hr. destruct (Hc _ _ _ Hs Hr) as [Hs' HP]. split; [done|]. eauto. Qed.

Lemma cache_ok_store s q k m r :
  cache_ok s -> no_colon m = true -> spec_of m q k r ->
  cache_ok (set_cache (<[generate_cache_key q k [("method", m)] := mkEntry r (clock s)]> (cache s)) s).
Proof.
  intros Hs Hm Hr key e. simpl.
  destruct (decide (key = generate_cache_key q k [("method", m)])) as [->|Hne].
  - rewrite lookup_insert_eq. intros [= <-] q' k' m' Hkey Hm'. simpl.
    symmetry in Hkey. apply cache_key_inj in Hkey as (-> & -> & ->); done.
  - rewrite lookup_insert_ne by congruence. apply Hs.
Qed.

Lemma triple_store_run q k m body on_error :
  no_colon m = true ->
  triple body (spec_of m q k) -> (forall e, spec_of m q k (on_error e)) ->
  triple (try_catch (let* r := body in cache_store (generate_cache_key q k [("method", m)]) r ;;; ret r)
                    (fun e => ret (on_error e))) (spec_of m q k).
Proof.
  intros Hm Hb He s r s' Hs. unfold try_catch, bind.
  destruct (body s) as [[v|err] s1] eqn:Hbody; intros Hr.
  - destruct (Hb _ _ _ Hs Hbody) as [Hs1 HQ]. specialize (HQ v eq_refl).
    unfold cache_store in Hr. simpl in Hr. injection Hr as <- <-.
    split; [by apply cache_ok_store|]. by intros ? [= <-].
  - injection Hr as <- <-. destruct (Hb _ _ _ Hs Hbody) as [Hs1 _]. split; [done|]. by intros ? [= <-].
Qed.

Lemma triple_memoize q k m body on_error :
  no_colon m = true ->
  triple body (spec_of m q k) -> (forall e, spec_of m q k (on_error e)) ->
  triple (memoize (generate_cache_key q k [("method", m)]) body on_error) (spec_of m q k).
Proof.
  intros Hm Hb He s r s' Hs. unfold memoize. unfold bind at 1. unfold cache_lookup at 1.
  destruct (cache s !! generate_cache_key q k [("method", m)]) as [e|] eqn:Hlook;
    [destruct (is_fresh (clock s) e)|]; try (apply triple_store_run; done).
  intros [= <- <-]. split; [done|]. intros v [= <-]. eapply Hs; eauto.
Qed.

Lemma triple_seq {A C} (c : M (ClientState Score) A) (k : A -> M (ClientState Score) C) Q :
  triple c (fun _ => True) -> (forall a, triple (k a) Q) -> triple (bind c k) Q.
Proof. intros Hc Hk. apply (triple_bind _ _ (fun _ => True)); auto. Qed.

Lemma triple_retrieve_each n i queries all th :
  triple (retrieve_each B kb_id n i queries all th) (fun _ => True).
Proof.
  revert i all th. induction queries as [|q rest IH]; intros i all th; simpl; [by apply triple_ret|].
  apply triple_seq; [apply triple_retrieve|]. intros; apply IH.
Qed.

Lemma triple_retrieve_all queries k all :
  triple (retrieve_all B kb_id queries k all) (fun _ => True).
Proof.
  revert all. induction queries as [|q rest IH]; intros all; simpl; [by apply triple_ret|].
  apply triple_seq; [apply triple_retrieve|]. intros; apply IH.
Qed.

Lemma triple_retrieve_tables tables all th :
  triple (retrieve_tables B kb_id tables all th) (fun _ => True).
Proof.
  revert all th. induction tables as [|t rest IH]; intros all th; [by apply triple_ret|].
  apply triple_seq; [apply triple_retrieve_all|intros; apply IH].
Qed.

Lemma triple_generator_true {A} (c : M (ClientState Score) A) h :
  (forall s r s', c s = (r, s') -> cache s' = cache s) -> (forall e, triple (h e) (fun _ => True)) ->
  triple (try_catch c h) (fun _ => True).
Proof.
  intros Hc Hh. apply triple_try_catch; [|done].
  intros s r s' Hs Hr. split; [|done]. intros key e. rewrite (Hc _ _ _ Hr). apply Hs.
Qed.

Lemma merged_spec k (all : list (@RetrievedContext Score)) :
  (length (take k (sort_by_score (dedup_contexts all))) <= k)%nat /\
  List.NoDup (map ctx_content (take k (sort_by_score (dedup_contexts all)))).
Proof.
  destruct (select_top_spec k all) as (Hlen & Hnd & _). unfold select_top in *.
  split; [rewrite Hlen; lia|done].
Qed.

Lemma error_result_spec m q k meth e : spec_of m q k (error_result q meth e).
Proof. split; [done|]. destruct bound_of; [split; [simpl; lia|constructor]|done]. Qed.

Lemma triple_standard q k : triple (standard_query B kb_id q k) (spec_of "standard" q k).
Proof.
  unfold standard_query. apply triple_memoize; [done| |intros; split; done].
  apply triple_seq; [apply triple_retrieve|]. intros. by apply triple_ret.
Qed.

Lemma triple_expansion q k : triple (query_expansion B kb_id q k) (spec_of "expansion" q k).
Proof.
  unfold query_expansion. apply triple_memoize; [done| |apply error_result_spec].
  apply triple_seq.
  { unfold generate_expanded_queries. apply triple_generator_true; [|intros; by apply triple_ret].
    intros s r s'. unfold bind, invoke. destruct llm_invoke; intros [= _ <-]; done. }
  intros qs. apply triple_seq; [apply triple_retrieve_each|]. intros [all th].
  apply triple_ret. split; [done|]. apply merged_spec.
Qed.

Lemma triple_hyde q k : triple (hyde_retrieval B kb_id q k) (spec_of "hyde" q k).
Proof.
  unfold hyde_retrieval. apply triple_memoize; [done| |apply error_result_spec].
  apply triple_seq.
  { unfold generate_hypothetical_document. apply triple_generator_true; [|intros; by apply triple_ret].
    intros s r s'. unfold bind, invoke. destruct llm_invoke; intros [= _ <-]; done. }
  intros doc. apply triple_seq; [apply triple_retrieve|]. intros. by apply triple_ret.
Qed.

Lemma triple_multi q k : triple (multi_strategy_retrieval B kb_id q k) (spec_of "multi" q k).
Proof.
  unfold multi_strategy_retrieval. apply triple_memoize; [done| |apply error_result_spec].
  apply triple_seq; [eapply triple_weaken; [apply triple_standard|done]|]. intros std.
  apply triple_seq; [eapply triple_weaken; [apply triple_expansion|done]|]. intros exp.
  apply triple_seq; [eapply triple_weaken; [apply triple_hyde|done]|]. intros hyde.
  apply triple_ret. split; [done|]. apply merged_spec.
Qed.

Lemma invoke_keeps_cache {A} (p : Prompt) mt t (f : string -> A) s r s' :
  (let* x := invoke B p mt t in ret (f x)) s = (r, s') -> cache s' = cache s.
Proof. unfold bind, invoke. destruct llm_invoke; intros [= _ <-]; done. Qed.

Lemma triple_relationship t k : triple (relationship_retrieval B kb_id t k) (spec_of "relationship" t k).
Proof.
  unfold relationship_retrieval. apply triple_memoize; [done| |apply error_result_spec].
  apply triple_seq; [apply triple_retrieve_each|]. intros [all th].
  apply triple_seq.
  { unfold generate_relationship_analysis.
    apply triple_generator_true; [apply invoke_keeps_cache|intros; by apply triple_ret]. }
  intros. apply triple_ret. split; [done|]. apply merged_spec.
Qed.

Lemma triple_optimize sql : triple (optimize_sql_query B kb_id sql) (spec_of "optimize" sql 5).
Proof.
  unfold optimize_sql_query. apply triple_memoize; [done| |apply error_result_spec].
  apply triple_seq; [apply triple_retrieve_tables|]. intros [all th].
  apply triple_seq; [apply triple_retrieve|]. intros items.
  apply triple_seq.
  { unfold generate_sql_optimization.
    apply triple_generator_true; [apply invoke_keeps_cache|intros; by apply triple_ret]. }
  intros. apply triple_ret. split; [done|]. apply merged_spec.
Qed.

(** Every strategy keeps the cache well formed: an entry stored
    under the key of (query, count, method) is a result about that query,
    and for the merging strategies has at most [count] (10 for the
    optimisation) contexts with distinct contents; and each strategy's
    own result meets the same specification, whether it comes from the
    cache or is computed. *)
Theorem strategies_preserve_cache_ok (q : string) (k : nat) :
  triple (standard_query B kb_id q k) (spec_of "standard" q k) /\
  triple (query_expansion B kb_id q k) (spec_of "expansion" q k) /\
  triple (hyde_retrieval B kb_id q k) (spec_of "hyde" q k) /\
  triple (multi_strategy_retrieval B kb_id q k) (spec_of "multi" q k) /\
  triple (relationship_retrieval B kb_id q k) (spec_of "relationship" q k) /\
  triple (optimize_sql_query B kb_id q) (spec_of "optimize" q 5).
Proof.
  split; [apply triple_standard|]. split; [apply triple_expansion|]. split; [apply triple_hyde|].
  split; [apply triple_multi|]. split; [apply triple_relationship|]. apply triple_optimize.
Qed.

Lemma triple_generate_answer q texts : triple (generate_answer_from_contexts B q texts) (fun _ => True).
Proof.
  unfold generate_answer_from_contexts. destruct texts as [|t0 rest]; [by apply triple_ret|].
  apply triple_generator_true; [|intros; by apply triple_ret].
  intros s r s'. unfold bind, invoke. destruct llm_invoke; intros [= _ <-]; done.
Qed.

Lemma length_context_texts_of (ctxs : list (@RetrievedContext Score)) :
  (length (context_texts_of ctxs) <= length ctxs)%nat.
Proof.
  unfold context_texts_of. rewrite length_map.
  etransitivity; [apply filter_length_le|]. by rewrite length_map.
Qed.

Lemma triple_rag q ext :
  triple (advanced_rag_query B kb_id q ext) (fun r => (length (retrieved_contexts r) <= 8)%nat).
Proof.
  unfold advanced_rag_query. apply (triple_bind _ _ (spec_of "multi" q 8)); [apply triple_multi|].
  intros r [_ [Hlen _]]. apply triple_seq; [apply triple_generate_answer|].
  intros. apply triple_ret. simpl. pose proof (length_context_texts_of (sr_contexts r)). lia.
Qed.

(** ** The life of a client

    A client is created with an empty cache ([self.cache = {}]) and then
    serves any sequence of calls to its public methods while the clock
    advances. *)
Inductive ClientOp :=
| OpStandard (q : string) (k : nat)
| OpExpansion (q : string) (k : nat)
| OpHyde (q : string) (k : nat)
| OpMulti (q : string) (k : nat)
| OpRelationship (table : string) (k : nat)
| OpOptimize (sql : string)
| OpRag (q : string) (ext : bool)
| OpWait (seconds : nat).

Definition run_op (op : ClientOp) (s : ClientState Score) : ClientState Score :=
  match op with
  | OpStandard q k => snd (standard_query B kb_id q k s)
  | OpExpansion q k => snd (query_expansion B kb_id q k s)
  | OpHyde q k => snd (hyde_retrieval B kb_id q k s)
  | OpMulti q k => snd (multi_strategy_retrieval B kb_id q k s)
  | OpRelationship t k => snd (relationship_retrieval B kb_id t k s)
  | OpOptimize sql => snd (optimize_sql_query B kb_id sql s)
  | OpRag q ext => snd (advanced_rag_query B kb_id q ext s)
  | OpWait d => {| cache := cache s; clock := clock s + Z.of_nat d; calls := calls s |}
  end.

Inductive reachable : ClientState Score -> Prop :=
| reach_fresh t : reachable (fresh_state t)
| reach_op op s : reachable s -> reachable (run_op op s).

Lemma triple_state {A} (c : M (ClientState Score) A) Q s :
  triple c Q -> cache_ok s -> cache_ok (snd (c s)).
Proof. intros Hc Hs. destruct (c s) as [r s'] eqn:E. exact (proj1 (Hc _ _ _ Hs E)). Qed.

Lemma reachable_cache_ok_ind (s : ClientState Score) : reachable s -> cache_ok s.
Proof.
  intros Hreach. induction Hreach as [t|op s1 Hr IH].
  - intros key e. simpl. rewrite lookup_empty. discriminate.
  - destruct op as [q k|q k|q k|q k|t k|sql|q ext|d]; simpl;
      try (eapply triple_state; [|exact IH]).
    + apply triple_standard.
    + apply triple_expansion.
    + apply triple_hyde.
    + apply triple_multi.
    + apply triple_relationship.
    + apply triple_optimize.
    + apply triple_rag.
    + exact IH.
Qed.

(** C6: in every state a client reaches, its cache is well formed. *)
Theorem reachable_cache_ok (s : ClientState Score) : reachable s -> cache_ok s.
Proof. apply reachable_cache_ok_ind. Qed.

(** From any reachable state, [advanced_rag_query] returns at most
    eight retrieved contexts (the default [num_results] of
    [multi_strategy_retrieval]), also when the result comes from the
    cache. *)
Theorem rag_contexts_bounded (s : ClientState Score) (q : string) (ext : bool) r s' :
  reachable s -> advanced_rag_query B kb_id q ext s = (Ok r, s') ->
  (length (retrieved_contexts r) <= 8)%nat.
Proof.
  intros Hr Hrun. apply reachable_cache_ok_ind in Hr.
  destruct (triple_rag q ext _ _ _ Hr Hrun) as [_ HQ]. by apply HQ.
Qed.

(** ** Failure propagation inside a strategy *)

Lemma retrieve_each_fails n i queries all th s :
  (exists p, In p queries /\ kb_retrieve B kb_id p n = None) ->
  exists s', retrieve_each B kb_id n i queries all th s = (Err "retrieve failed", s').
Proof.
  revert i all th s. induction queries as [|q rest IH]; intros i all th s (p & Hp & Hkb); [done|].
  simpl. unfold bind at 1, retrieve at 1.
  destruct (kb_retrieve B kb_id q n) as [items|] eqn:Hq; [|eauto].
  destruct Hp as [<-|Hp]; [congruence|]. apply IH. eauto.
Qed.

Definition expansion_key (q : string) (k : nat) : string :=
  generate_cache_key q k [("method", "expansion")].

(** In [query_expansion], one paraphrase whose retrieval fails
    discards the contexts of all the others: the strategy returns its
    error dict with no context.  The spec says a failure of one
    paraphrase degrades only that sub-result. *)
Theorem expansion_one_failure_aborts (q : string) (k : nat) (s : ClientState Score) (p : string) :
  stale (expansion_key q k) s ->
  In p (expanded_queries q) -> kb_retrieve B kb_id p k = None ->
  fst (query_expansion B kb_id q k s) = Ok (error_result q "query_expansion" "retrieve failed").
Proof.
  intros Hst Hp Hkb. unfold query_expansion. rewrite memoize_miss by exact Hst.
  unfold bind at 1. rewrite generate_expanded_queries_run.
  destruct (retrieve_each_fails k 0 (expanded_queries q) []
              ("Original query: " +:+ q +:+ nl +:+ nl +:+ "Expanded queries:" +:+ nl)
              (log_call (CInvoke (PExpand q) 1500 (7 # 10)) s)) as [s' Hs']; [eauto|].
  unfold bind. rewrite Hs'. reflexivity.
Qed.

Definition hyde_key (q : string) (k : nat) : string :=
  generate_cache_key q k [("method", "hyde")].

(** When the generator fails, HyDE retrieves with the original
    query text in place of the hypothetical document, and records the
    query as the document. *)
Theorem hyde_generation_failure_uses_query (q : string) (k : nat) (s : ClientState Score) items :
  stale (hyde_key q k) s ->
  llm_invoke B (PHyde q) 4000 (2 # 10) = None -> kb_retrieve B kb_id q k = Some items ->
  exists r s', hyde_retrieval B kb_id q k s = (Ok r, s') /\
    sr_hypothetical_document r = Some q /\ sr_contexts r = map (to_context None) items /\
    calls s' = (calls s ++ [CInvoke (PHyde q) 4000 (2 # 10); CRetrieve kb_id q k])%list.
Proof.
  intros Hst Hgen Hkb. unfold hyde_retrieval. rewrite memoize_miss by exact Hst.
  unfold generate_hypothetical_document, bind, try_catch, invoke, retrieve, ret.
  rewrite Hgen, Hkb. simpl.
  eexists. eexists. split; [reflexivity|]. simpl. rewrite <- app_assoc. done.
Qed.

End WithBackend.

(** ** A concrete backend for the witnesses *)

Definition wit_item (text : string) (score : Z) : RawItem Z :=
  {| ri_text := Some text; ri_uri := Some "s3://dbkb/docs/orders.md"; ri_score := Some score |}.

Definition wit_kb (_ : string) (q : string) (k : nat) : option (list (RawItem Z)) :=
  if String.eqb q "down" then None
  else Some (firstn k [wit_item ("notes on " +:+ q) 5; wit_item "orders table schema" 7;
                       wit_item "customers table" 3]).

Definition wit_gen (p : Prompt) (_ : nat) (_ : Q) : option string :=
  match p with
  | PExpand _ => Some ("orders table" +:+ nl +:+ "  list orders" +:+ nl)
  | PHyde _ => None
  | PAnswer _ _ => Some "SELECT * FROM orders o;"
  | _ => None
  end.

Definition wit_backend : Backend Z := mkBackend wit_kb wit_gen.

Lemma expanded_queries_keep_original_witness :
  In "list orders" (expanded_queries wit_backend "list orders") /\
  (llm_invoke wit_backend (PExpand "list orders") 1500 (7 # 10) = None ->
   expanded_queries wit_backend "list orders" = ["list orders"]).
Proof. apply (expanded_queries_keep_original wit_backend "list orders"). Defined.

Lemma expansion_one_failure_aborts_witness :
  fst (query_expansion wit_backend "KB1" "down" 5 (fresh_state 0)) =
    Ok (error_result "down" "query_expansion" "retrieve failed").
Proof.
  apply (expansion_one_failure_aborts wit_backend "KB1" "down" 5 (fresh_state 0) "down");
    [exact I|vm_compute; tauto|reflexivity].
Defined.

Lemma hyde_generation_failure_uses_query_witness :
  exists r s', hyde_retrieval wit_backend "KB1" "list orders" 2 (fresh_state 0) = (Ok r, s') /\
    sr_hypothetical_document r = Some "list orders" /\
    sr_contexts r = map (to_context None) [wit_item "notes on list orders" 5; wit_item "orders table schema" 7] /\
    calls s' = [CInvoke (PHyde "list orders") 4000 (2 # 10); CRetrieve "KB1" "list orders" 2].
Proof.
  exact (hyde_generation_failure_uses_query wit_backend "KB1" "list orders" 2 (fresh_state 0) _ I eq_refl eq_refl).
Defined.

Lemma standard_query_cache_witness :
  calls (snd (standard_query wit_backend "KB1" "list orders" 5 (fresh_state 0))) =
    [CRetrieve "KB1" "list orders" 5] /\
  standard_query wit_backend "KB1" "list orders" 5
    (snd (standard_query wit_backend "KB1" "list orders" 5 (fresh_state 0))) =
    (Ok (standard_result "list orders" (firstn 5 [wit_item "notes on list orders" 5;
           wit_item "orders table schema" 7; wit_item "customers table" 3])),
     snd (standard_query wit_backend "KB1" "list orders" 5 (fresh_state 0))).
Proof.
  destruct (standard_query_cache wit_backend "KB1" "list orders" 5 (fresh_state 0)
              (firstn 5 [wit_item "notes on list orders" 5; wit_item "orders table schema" 7;
                         wit_item "customers table" 3]) I eq_refl) as (Hc & Hentry & Hhit & _).
  split; [exact Hc|]. apply Hhit; [exact Hentry|]. vm_compute. reflexivity.
Defined.

Lemma standard_query_failure_not_cached_witness :
  standard_query wit_backend "KB1" "down" 5 (fresh_state 0) =
    (Ok (mock_result "down" "retrieve failed"), log_call (CRetrieve "KB1" "down" 5) (fresh_state 0)).
Proof.
  exact (proj1 (standard_query_failure_not_cached wit_backend "KB1" "down" 5 (fresh_state 0) I eq_refl)).
Defined.

Lemma reachable_cache_ok_witness :
  cache_ok (run_op wit_backend "KB1" (OpRag "list orders" true) (fresh_state 0)).
Proof. apply (reachable_cache_ok wit_backend "KB1"). apply reach_op. apply reach_fresh. Defined.

Lemma rag_contexts_bounded_witness :
  match advanced_rag_query wit_backend "KB1" "list orders" true (fresh_state 0) with
  | (Ok r, _) => (length (retrieved_contexts r) <= 8)%nat
  | (Err _, _) => False
  end.
Proof.
  destruct (advanced_rag_query wit_backend "KB1" "list orders" true (fresh_state 0)) as [[r|e] s'] eqn:E.
  - eapply (rag_contexts_bounded wit_backend "KB1"); [apply reach_fresh|exact E].
  - vm_compute in E. discriminate.
Defined.

End StrategyProps.
