(* ===== verification/Router.v ===== *)
(** * Router: which knowledge bases answer a query

    Models [classify_query_and_get_targets] of src/app.py (lines 313-356)
    with the request models [ApplicationKBs] and [QueryTarget] it uses
    (lines 209-217).  The router has no state: it maps the query text,
    the application's knowledge bases and the query mode to a list of
    targets.  Forced modes pick one knowledge base; the smart mode counts
    keyword hits in the lower-cased query and picks the type with the
    highest count. *)

From S2P Require Import Prelude PyStr.

Open Scope string_scope.

Module Router.
Import PyStr.

(** [class ApplicationKBs(BaseModel)]: the database knowledge base is
    required, the other two are optional. *)
Record ApplicationKBs := mkApplicationKBs {
  databaseKnowledgeBaseId : string;
  supportKnowledgeBaseId : option string;
  documentationKnowledgeBaseId : option string
}.

(** [class QueryTarget(BaseModel)]: [type] is a free string,
    [secondary] an optional boolean that defaults to [False]. *)
Record QueryTarget := mkQueryTarget {
  qt_type : string;
  qt_kbId : string;
  qt_secondary : option bool
}.

(** [QueryTarget(type=..., kbId=...)]: [secondary] takes its default. *)
Definition target (ty kb : string) : QueryTarget :=
  {| qt_type := ty; qt_kbId := kb; qt_secondary := Some false |}.

(** The truth value of an optional knowledge-base id in [if kb_id:]:
    [None] and the empty string are false. *)
Definition truthy_kb (o : option string) : option string :=
  match o with
  | Some kb => if String.eqb kb "" then None else Some kb
  | None => None
  end.

Definition db_keywords : list string :=
  ["table"; "column"; "database"; "sql"; "query"; "schema"; "index";
   "foreign key"; "primary key"; "relationship"; "join"].

Definition support_keywords : list string :=
  ["error"; "issue"; "problem"; "troubleshoot"; "fix"; "bug"; "help";
   "support"; "ticket"; "resolve"].

Definition doc_keywords : list string :=
  ["how to"; "guide"; "tutorial"; "documentation"; "manual"; "instruction";
   "feature"; "functionality"].

(** [sum(1 for keyword in keywords if keyword in query_lower)] *)
Definition keyword_score (keywords : list string) (query_lower : string) : nat :=
  length (List.filter (fun k => contains k query_lower) keywords).

(** The smart branch (lines 328-354). *)
Definition smart_route (query_text : string) (app_kbs : ApplicationKBs) : QueryTarget :=
  let query_lower := lower query_text in
  let db_score := keyword_score db_keywords query_lower in
  let support_score := keyword_score support_keywords query_lower in
  let doc_score := keyword_score doc_keywords query_lower in
  if (support_score <=? db_score)%nat && (doc_score <=? db_score)%nat
  then target "database" (databaseKnowledgeBaseId app_kbs)
  else match (doc_score <? support_score)%nat, truthy_kb (supportKnowledgeBaseId app_kbs) with
       | true, Some kb => target "support" kb
       | _, _ =>
           match truthy_kb (documentationKnowledgeBaseId app_kbs) with
           | Some kb => target "documentation" kb
           | None => target "database" (databaseKnowledgeBaseId app_kbs)
           end
       end.

Definition classify_query_and_get_targets (query_text : string) (app_kbs : ApplicationKBs)
    (query_mode : string) : list QueryTarget :=
  if String.eqb query_mode "database" then
    [target "database" (databaseKnowledgeBaseId app_kbs)]
  else if String.eqb query_mode "support" then
    match truthy_kb (supportKnowledgeBaseId app_kbs) with
    | Some kb => [target "support" kb]
    | None => []
    end
  else if String.eqb query_mode "documentation" then
    match truthy_kb (documentationKnowledgeBaseId app_kbs) with
    | Some kb => [target "documentation" kb]
    | None => []
    end
  else [smart_route query_text app_kbs].

(** A target is well formed for an application when its type names one
    of the application's knowledge bases and its id is that base's id,
    present and non-empty for the optional ones, and it is primary. *)
Definition target_of_app (app_kbs : ApplicationKBs) (t : QueryTarget) : Prop :=
  qt_secondary t = Some false /\
  ((qt_type t = "database" /\ qt_kbId t = databaseKnowledgeBaseId app_kbs) \/
   (qt_type t = "support" /\ truthy_kb (supportKnowledgeBaseId app_kbs) = Some (qt_kbId t)) \/
   (qt_type t = "documentation" /\ truthy_kb (documentationKnowledgeBaseId app_kbs) = Some (qt_kbId t))).

(** ** Lemmas *)

Lemma smart_route_of_app q app_kbs : target_of_app app_kbs (smart_route q app_kbs).
Proof.
  unfold smart_route, target_of_app, target. simpl.
  destruct (_ && _)%bool; [simpl; auto|].
  destruct (_ <? _)%nat, (truthy_kb (supportKnowledgeBaseId app_kbs)) eqn:Hs,
           (truthy_kb (documentationKnowledgeBaseId app_kbs)) eqn:Hd; simpl; auto 8.
Qed.

(** ** Properties *)

(** C5: every target the router emits is a primary target that names one
    of the application's configured knowledge bases, with the type that
    matches it. *)
Theorem classify_targets_of_app (q : string) (app_kbs : ApplicationKBs) (mode : string) :
  Forall (target_of_app app_kbs) (classify_query_and_get_targets q app_kbs mode).
Proof.
  unfold classify_query_and_get_targets.
  destruct (String.eqb mode "database").
  { constructor; [|constructor]. split; [done|]. left. done. }
  destruct (String.eqb mode "support").
  { destruct (truthy_kb (supportKnowledgeBaseId app_kbs)) eqn:Ht; [|constructor].
    constructor; [|constructor]. split; [done|]. right; left. done. }
  destruct (String.eqb mode "documentation").
  { destruct (truthy_kb (documentationKnowledgeBaseId app_kbs)) eqn:Ht; [|constructor].
    constructor; [|constructor]. split; [done|]. right; right. done. }
  constructor; [apply smart_route_of_app|constructor].
Qed.

(** The router emits exactly one target, except in the forced
    [support] and [documentation] modes when that knowledge base is not
    configured, where it emits none. *)
Theorem classify_length (q : string) (app_kbs : ApplicationKBs) (mode : string) :
  length (classify_query_and_get_targets q app_kbs mode) =
    if (String.eqb mode "support" && bool_decide (truthy_kb (supportKnowledgeBaseId app_kbs) = None))
       || (String.eqb mode "documentation" && bool_decide (truthy_kb (documentationKnowledgeBaseId app_kbs) = None))
    then 0%nat else 1%nat.
Proof.
  unfold classify_query_and_get_targets.
  destruct (String.eqb_spec mode "database") as [->|Hdb]; [reflexivity|].
  destruct (String.eqb_spec mode "support") as [->|Hsu].
  - destruct truthy_kb; reflexivity.
  - destruct (String.eqb_spec mode "documentation") as [->|Hdo].
    + destruct (truthy_kb (documentationKnowledgeBaseId app_kbs)); reflexivity.
    + reflexivity.
Qed.

(** In smart mode, a query with at least as many database keywords
    as support and documentation keywords goes to the database
    knowledge base only. *)
Theorem smart_database_wins (q : string) (app_kbs : ApplicationKBs) (mode : string) :
  mode <> "database" -> mode <> "support" -> mode <> "documentation" ->
  (keyword_score support_keywords (lower q) <= keyword_score db_keywords (lower q))%nat ->
  (keyword_score doc_keywords (lower q) <= keyword_score db_keywords (lower q))%nat ->
  classify_query_and_get_targets q app_kbs mode = [target "database" (databaseKnowledgeBaseId app_kbs)].
Proof.
  intros Hdb Hsu Hdo Hs Hd. unfold classify_query_and_get_targets.
  rewrite (proj2 (String.eqb_neq _ _) Hdb), (proj2 (String.eqb_neq _ _) Hsu),
          (proj2 (String.eqb_neq _ _) Hdo).
  unfold smart_route. simpl.
  rewrite (proj2 (Nat.leb_le _ _) Hs), (proj2 (Nat.leb_le _ _) Hd). reflexivity.
Qed.

Definition sample_app : ApplicationKBs :=
  {| databaseKnowledgeBaseId := "KBDB"; supportKnowledgeBaseId := Some "KBSUP";
     documentationKnowledgeBaseId := Some "KBDOC" |}.

Lemma smart_database_wins_witness :
  classify_query_and_get_targets "Which table has the foreign key to orders?" sample_app "smart"
    = [target "database" "KBDB"].
Proof.
  apply smart_database_wins; try discriminate; vm_compute; lia.
Defined.

(** A support-documentation tie goes to documentation: in smart
    mode, when the query has more support keywords than database
    keywords and exactly as many documentation keywords as support ones,
    the documentation knowledge base is chosen whenever it is configured,
    even if a support base is.  The spec orders ties database > support
    > documentation. *)
Theorem smart_tie_goes_to_documentation (q : string) (app_kbs : ApplicationKBs) (doc_kb : string) :
  (keyword_score db_keywords (lower q) < keyword_score support_keywords (lower q))%nat ->
  keyword_score support_keywords (lower q) = keyword_score doc_keywords (lower q) ->
  truthy_kb (documentationKnowledgeBaseId app_kbs) = Some doc_kb ->
  classify_query_and_get_targets q app_kbs "smart" = [target "documentation" doc_kb].
Proof.
  intros Hlt Heq Hdoc. unfold classify_query_and_get_targets, smart_route. simpl.
  rewrite (proj2 (Nat.leb_gt _ _) Hlt), (proj2 (Nat.ltb_ge _ _)) by lia. simpl.
  destruct (truthy_kb (supportKnowledgeBaseId app_kbs)); by rewrite Hdoc.
Qed.

Lemma smart_tie_goes_to_documentation_witness :
  classify_query_and_get_targets "help me with the setup guide" sample_app "smart"
    = [target "documentation" "KBDOC"].
Proof. apply smart_tie_goes_to_documentation; vm_compute; reflexivity || lia. Defined.

(** Forcing the support mode for an application without a support
    knowledge base yields no target at all (the request then fails with
    HTTP 400); the spec says the router falls back to the database. *)
Theorem forced_support_without_kb (q : string) (db : string) (doc : option string) :
  classify_query_and_get_targets q
    {| databaseKnowledgeBaseId := db; supportKnowledgeBaseId := None;
       documentationKnowledgeBaseId := doc |} "support" = [].
Proof. reflexivity. Qed.

(** When documentation keywords beat database keywords and are at
    least as many as support keywords but the application has no
    documentation knowledge base, smart routing falls back to the
    database, never to a configured support base, even when the query
    has more support keywords than database keywords. *)
Theorem documentation_fallback_skips_support (q : string) (app_kbs : ApplicationKBs) :
  (keyword_score db_keywords (lower q) < keyword_score doc_keywords (lower q))%nat ->
  (keyword_score support_keywords (lower q) <= keyword_score doc_keywords (lower q))%nat ->
  truthy_kb (documentationKnowledgeBaseId app_kbs) = None ->
  classify_query_and_get_targets q app_kbs "smart" = [target "database" (databaseKnowledgeBaseId app_kbs)].
Proof.
  intros Hlt Hle Hdoc. unfold classify_query_and_get_targets, smart_route. simpl.
  rewrite (proj2 (Nat.leb_gt (keyword_score doc_keywords (lower q)) _) Hlt), andb_false_r.
  rewrite (proj2 (Nat.ltb_ge _ _) Hle). by rewrite Hdoc.
Qed.

Lemma documentation_fallback_skips_support_witness :
  classify_query_and_get_targets "how to fix it: see the guide"
    {| databaseKnowledgeBaseId := "KBDB"; supportKnowledgeBaseId := Some "KBSUP";
       documentationKnowledgeBaseId := None |} "smart"
    = [target "database" "KBDB"].
Proof. apply documentation_fallback_skips_support; vm_compute; reflexivity || lia. Defined.

(** The end-to-end example of the spec: a database question against an
    application with only a database knowledge base. *)
Example show_me_all_tables :
  classify_query_and_get_targets "Show me all tables in the database"
    {| databaseKnowledgeBaseId := "KBDB"; supportKnowledgeBaseId := None;
       documentationKnowledgeBaseId := None |} "smart"
    = [target "database" "KBDB"].
Proof. reflexivity. Qed.

End Router.
