(* ===== verification/Merger.v ===== *)
(** * The multi-source merger and the query endpoints

    Models the request path of src/app.py: [multi_kb_query] (lines
    515-603), which picks the targets (explicit, or from the router for
    the user's application), creates a retrieval client per target with
    [get_retrieval_client_for_kb] / [create_retrieval_client]
    (src/utils/retrieval.py), queries each, and merges the answers with
    primary/secondary priority; and [query_knowledge_base] (lines
    717-757), the single-knowledge-base path with the lazily created
    global client.

    The server state [Server] holds the clock, the global client (with
    its cache) and the log of every backend call.  A client created for a
    target starts with an empty cache and is dropped after the request.
    An [HTTPException] raised inside the handler's [try] is caught by its
    [except Exception] and re-raised as a 500 whose detail is the
    exception's [str], ["<status>: <detail>"].

    The file also holds the server's start ([lifespan]), the [/health]
    endpoint, the global exception handler, and the Lambda helpers
    [validate_request] and [format_response] of src/utils/retrieval.py
    (module [LambdaUtils]). *)

From S2P Require Import Prelude PyStr Aggregator Backend Cache Strategies StrategyProps Router.
From stdpp Require Import gmap.
From Stdlib Require Import Ascii.

Open Scope string_scope.

Module Merger.
Import PyStr Backend Strategies Router.

(** [class UserContext]: only [application] is read on this path. *)
Record UserContext := mkUserContext { application : string }.

(** [class QueryRequest(BaseModel)] *)
Record QueryRequest := mkQueryRequest {
  query_text : string;
  extended_thinking : bool;
  include_contexts : bool;
  include_thinking : bool;
  userContext : option UserContext;
  queryTargets : option (list QueryTarget);
  queryMode : option string
}.

(** [class RelationshipRequest(BaseModel)] and [class OptimizeRequest]:
    the fields the endpoints read. *)
Record RelationshipRequest := mkRelationshipRequest {
  rr_table_name : string;
  rr_include_contexts : bool;
  rr_include_thinking : bool
}.

Record OptimizeRequest := mkOptimizeRequest {
  or_sql_query : string;
  or_include_contexts : bool;
  or_include_thinking : bool
}.

(** [class APIResponse(BaseModel)] *)
Record APIResponse := mkAPIResponse {
  resp_answer : string;
  resp_thinking : option string;
  resp_contexts : option (list string)
}.

(** What the endpoint sends back: a response, or an HTTP error. *)
Inductive Reply :=
| Reply200 (r : APIResponse)
| ReplyError (status : nat) (detail : string).

(** A retrieval client: [AdvancedRetrieval] for a knowledge base with its
    state, or [MockRetrievalClient]. *)
Inductive Client (Score : Type) :=
| RealClient (kb : string) (st : ClientState Score)
| MockClient (kb : string).
Arguments RealClient {Score} kb st.
Arguments MockClient {Score} kb.

Record Server (Score : Type) := mkServer {
  srv_clock : Z;
  srv_client : option (Client Score);
  srv_calls : list Call
}.
Arguments mkServer {Score} srv_clock srv_client srv_calls.
Arguments srv_clock {Score} s.
Arguments srv_client {Score} s.
Arguments srv_calls {Score} s.

(** [str(HTTPException(status, detail))] *)
Definition http_exc (status : nat) (detail : string) : string :=
  str_nat status +:+ ": " +:+ detail.

(** The result dict of [advanced_rag_query] tagged with
    [source_type], [kb_id] and [is_secondary]. *)
Record TaggedResult := mkTagged {
  tr_result : RagResult;
  tr_source_type : string;
  tr_kb_id : string;
  tr_is_secondary : bool
}.

(** [MockRetrievalClient(kb_id).advanced_rag_query] (lines 101-113). *)
Definition mock_rag (kb : string) (q : string) : RagResult :=
  let kb := if String.eqb kb "" then "mock-kb-id" else kb in
  {| answer := "Mock response from KB " +:+ kb +:+ " for query: '" +:+ q +:+
       "'. This is a test response because the Knowledge Base connection is not available. Please check your AWS credentials and Knowledge Base configuration.";
     thinking := "This is a mock thinking process for KB " +:+ kb +:+
       " because the real Bedrock Knowledge Base is not accessible.";
     retrieved_contexts :=
       ["Mock context 1 from KB " +:+ kb +:+ ": Database schema information would appear here";
        "Mock context 2 from KB " +:+ kb +:+ ": Query examples would appear here";
        "Mock context 3 from KB " +:+ kb +:+ ": Relationship information would appear here"] |}.

(** The keys of a relationship result dict that the [/relationship]
    endpoint reads: [relationship_analysis], [thinking_process] and
    [retrieved_contexts], each possibly missing. *)
Record RelationshipView := mkRelView {
  rv_relationship_analysis : option string;
  rv_thinking_process : option string;
  rv_retrieved_contexts : option (list string)
}.

(** [MockRetrievalClient.query_database_relationships] (lines 115-127). *)
Definition mock_relationships (table_name : string) : RelationshipView :=
  {| rv_relationship_analysis := Some ("Mock relationship analysis for table '" +:+ table_name +:+
       "'. This table would have foreign key relationships, indexes, and constraints that would be described here if the Knowledge Base was connected.");
     rv_thinking_process := Some "Mock thinking process for relationship analysis.";
     rv_retrieved_contexts := Some ["Mock context about " +:+ table_name +:+ " relationships";
                                    "Mock context about " +:+ table_name +:+ " constraints"] |}.

(** The dict of [AdvancedRetrieval.relationship_retrieval]: its contexts
    are under ['contexts']; it has no ['retrieved_contexts'] key. *)
Definition real_relationships {Score} (r : StrategyResult Score) : RelationshipView :=
  {| rv_relationship_analysis := sr_relationship_analysis r;
     rv_thinking_process := sr_thinking r;
     rv_retrieved_contexts := None |}.

(** [response_data] of the [/relationship] endpoint (lines 776-784). *)
Definition relationship_response (req : RelationshipRequest) (v : RelationshipView) : APIResponse :=
  {| resp_answer := default "" (rv_relationship_analysis v);
     resp_thinking := match rv_thinking_process v with
                      | Some t => if rr_include_thinking req && negb (String.eqb t "") then Some t else None
                      | None => None
                      end;
     resp_contexts := if rr_include_contexts req then Some (default [] (rv_retrieved_contexts v)) else None |}.

(** ** Merging (lines 567-587) *)

(** [f"\n*From {source_name}:* {secondary['answer'][:200]}..."] *)
Definition secondary_excerpt (t : TaggedResult) : string :=
  nl +:+ "*From " +:+ title (tr_source_type t) +:+ ":* " +:+
  slice_to 200 (answer (tr_result t)) +:+ "...".

Definition related_header : string := nl +:+ nl +:+ "**Related Information:**" +:+ nl.

Definition with_answer (t : TaggedResult) (a : string) : TaggedResult :=
  {| tr_result := {| answer := a; thinking := thinking (tr_result t);
                     retrieved_contexts := retrieved_contexts (tr_result t) |};
     tr_source_type := tr_source_type t; tr_kb_id := tr_kb_id t;
     tr_is_secondary := tr_is_secondary t |}.

Definition merge_results (results : list TaggedResult) : option TaggedResult :=
  match results with
  | [] => None
  | [r] => Some r
  | r0 :: _ =>
      let primaries := List.filter (fun r => negb (tr_is_secondary r)) results in
      let secondaries := List.filter tr_is_secondary results in
      match primaries with
      | p :: _ =>
          match secondaries with
          | [] => Some p
          | _ => Some (with_answer p (answer (tr_result p) +:+ related_header +:+
                                       String.concat "" (map secondary_excerpt secondaries)))
          end
      | [] => Some r0
      end
  end.

(** [response_data] built from the chosen result (lines 590-598): the
    thinking and the contexts only when asked for and non-empty. *)
Definition format_response (req : QueryRequest) (r : RagResult) : APIResponse :=
  {| resp_answer := answer r;
     resp_thinking := if include_thinking req && negb (String.eqb (thinking r) "")
                      then Some (thinking r) else None;
     resp_contexts := match retrieved_contexts r with
                      | [] => None
                      | l => if include_contexts req then Some l else None
                      end |}.

(** ** Server start, health check and the global exception handler *)

(** [lifespan] (lines 162-174): the global [retrieval_client] starts as
    [None], created on the first request. *)
Definition lifespan_start {Score} (now : Z) : Server Score := mkServer now None [].

(** [health_check] (lines 696-716): always healthy; [timestamp] is
    [str(time.time())].  Building the dict cannot raise, so the [except]
    branch is dead. *)
Definition health_check (timestamp : string) : list (string * string) :=
  [("status", "healthy"); ("service", "Database Knowledge Base API"); ("version", "2.0.0");
   ("timestamp", timestamp)].

(** [global_exception_handler] (lines 833-842): any exception that
    escapes a handler becomes a 500 with its text. *)
Definition global_exception_handler (exc : string) : nat * list (string * string) :=
  (500, [("error", "Internal server error"); ("detail", exc)]).

(** The Lambda helpers of src/utils/retrieval.py (lines 17-43), over a
    JSON value type [J] with [json.loads] and [json.dumps]. *)
Module LambdaUtils.

(** The [body] of a Lambda event: a string to decode, or a decoded
    value. *)
Inductive BodyField (J : Type) := BodyString (s : string) | BodyValue (v : J).
Arguments BodyString {J} s.
Arguments BodyValue {J} v.

(** An event: a dict with a [body] key, or any other value (taken as the
    body itself, the FastAPI case). *)
Inductive Event (J : Type) := EventWithBody (b : BodyField J) | OtherEvent (v : J).
Arguments EventWithBody {J} b.
Arguments OtherEvent {J} v.

Record LambdaResponse := mkLambdaResponse {
  statusCode : nat;
  headers : list (string * string);
  body : string
}.

Section Json.
Context {J : Type}.
(** [json.loads]: [None] when it raises [JSONDecodeError]. *)
Variable json_loads : string -> option J.
Variable json_dumps : J -> string.

(** [validate_request] (lines 17-30) *)
Definition validate_request (event : Event J) : bool * (J + string) :=
  match event with
  | EventWithBody (BodyString s) =>
      match json_loads s with
      | Some v => (true, inl v)
      | None => (false, inr "Invalid JSON in request body")
      end
  | EventWithBody (BodyValue v) => (true, inl v)
  | OtherEvent v => (true, inl v)
  end.

(** [format_response] (lines 32-43) *)
Definition format_response (status_code : nat) (b : J) : LambdaResponse :=
  mkLambdaResponse status_code
    [("Content-Type", "application/json"); ("Access-Control-Allow-Origin", "*");
     ("Access-Control-Allow-Headers", "Content-Type"); ("Access-Control-Allow-Methods", "OPTIONS,POST,GET")]
    (json_dumps b).

End Json.
End LambdaUtils.

(** ** Properties of the merge *)

Lemma excerpt_shape t :
  exists pre, secondary_excerpt t = nl +:+ "*From " +:+ title (tr_source_type t) +:+ ":* " +:+ pre +:+ "..." /\
    String.length pre <= 200 /\ String.prefix pre (answer (tr_result t)) = true.
Proof. exists (slice_to 200 (answer (tr_result t))). split; [done|]. split; [apply slice_to_length|apply slice_to_prefix]. Qed.

(** C4: with two or more results and a primary one, the merged answer is
    the first primary answer in full followed by the header and, for each
    secondary result in order, a line labelled with its title-cased
    source type and carrying at most the first 200 characters of its
    answer. *)
Theorem merge_primary_with_secondaries (results : list TaggedResult) (p : TaggedResult)
    (ps secs : list TaggedResult) :
  (2 <= length results)%nat ->
  List.filter (fun r => negb (tr_is_secondary r)) results = p :: ps ->
  List.filter tr_is_secondary results = secs -> secs <> [] ->
  exists m, merge_results results = Some m /\
    answer (tr_result m) = answer (tr_result p) +:+ related_header +:+ String.concat "" (map secondary_excerpt secs) /\
    String.prefix (answer (tr_result p)) (answer (tr_result m)) = true /\
    Forall (fun t => exists pre, secondary_excerpt t =
              nl +:+ "*From " +:+ title (tr_source_type t) +:+ ":* " +:+ pre +:+ "..." /\
              String.length pre <= 200 /\ String.prefix pre (answer (tr_result t)) = true) secs.
Proof.
  intros Hlen Hprim Hsec Hne. destruct results as [|r0 [|r1 rest]]; simpl in Hlen; try lia.
  unfold merge_results. rewrite Hprim, Hsec. destruct secs as [|s0 secs']; [done|].
  eexists. split; [reflexivity|]. split; [reflexivity|]. split; [apply prefix_app_l|].
  apply List.Forall_forall. intros t _. apply excerpt_shape.
Qed.

Definition tagged (ty : string) (sec : bool) (a : string) : TaggedResult :=
  {| tr_result := {| answer := a; thinking := ""; retrieved_contexts := [] |};
     tr_source_type := ty; tr_kb_id := "KB-" +:+ ty; tr_is_secondary := sec |}.

Definition long_answer (c : ascii) : string := String.concat "" (repeat (String c EmptyString) 250).

Lemma merge_primary_with_secondaries_witness :
  exists m, merge_results [tagged "support" false (long_answer "A"); tagged "database" true (long_answer "B")] = Some m /\
    answer (tr_result m) = long_answer "A" +:+ related_header +:+
      String.concat "" (map secondary_excerpt [tagged "database" true (long_answer "B")]) /\
    String.prefix (long_answer "A") (answer (tr_result m)) = true /\
    Forall (fun t => exists pre, secondary_excerpt t =
              nl +:+ "*From " +:+ title (tr_source_type t) +:+ ":* " +:+ pre +:+ "..." /\
              String.length pre <= 200 /\ String.prefix pre (answer (tr_result t)) = true)
      [tagged "database" true (long_answer "B")].
Proof.
  apply (merge_primary_with_secondaries _ (tagged "support" false (long_answer "A")) []);
    [simpl; lia|reflexivity|reflexivity|discriminate].
Defined.

Section WithBackend.
Context {Score : Type} `{ScoreOrder Score} `{ScoreLit Score}.
Variable B : Backend Score.
(** [os.environ.get('KNOWLEDGE_BASE_ID')] *)
Variable env_kb : option string.
(** [get_application_kbs]: the lookup in the chat database, external. *)
Variable get_application_kbs : string -> option ApplicationKBs.

Abbreviation SM := (M (Server Score)).

(** The knowledge base an [AdvancedRetrieval(kb_id=...)] ends up with:
    [kb_id or os.environ.get('KNOWLEDGE_BASE_ID')]; [None] when that is
    falsy, where the constructor raises and [create_retrieval_client]
    falls back to [MockRetrievalClient]. *)
Definition client_kb (kb_id : string) : option string :=
  if String.eqb kb_id "" then truthy_kb env_kb else Some kb_id.

Definition tag (r : RagResult) (t : QueryTarget) : TaggedResult :=
  {| tr_result := r; tr_source_type := qt_type t; tr_kb_id := qt_kbId t;
     tr_is_secondary := default false (qt_secondary t) |}.

(** Run a fresh client's [advanced_rag_query] and log its calls. *)
Definition run_fresh (kb q : string) (ext : bool) : SM RagResult :=
  fun s =>
    let '(r, st) := advanced_rag_query B kb q ext (fresh_state (srv_clock s)) in
    (r, {| srv_clock := srv_clock s; srv_client := srv_client s;
           srv_calls := (srv_calls s ++ calls st)%list |}).

(** One iteration of the target loop (lines 541-558). *)
Definition query_target (req : QueryRequest) (t : QueryTarget) : SM TaggedResult :=
  match client_kb (qt_kbId t) with
  | Some kb => let* r := run_fresh kb (query_text req) (extended_thinking req) in ret (tag r t)
  | None => ret (tag (mock_rag (qt_kbId t) (query_text req)) t)
  end.

(** [for target in targets: try: ... except Exception: continue] *)
Fixpoint fan_out (req : QueryRequest) (targets : list QueryTarget) (acc : list TaggedResult)
    : SM (list TaggedResult) :=
  match targets with
  | [] => ret acc
  | t :: rest =>
      let* acc := try_catch (let* r := query_target req t in ret (acc ++ [r])%list) (fun _ => ret acc) in
      fan_out req rest acc
  end.

Definition not_found_detail (app : string) : string :=
  "Application '" +:+ app +:+ "' not found or has no knowledge bases configured".

Definition no_targets_detail : string := "No knowledge base targets available for this query".

Definition none_queried_detail : string := "No knowledge bases could be queried".

(** [request.queryMode or 'smart'] *)
Definition mode_of (req : QueryRequest) : string :=
  match queryMode req with
  | Some m => if String.eqb m "" then "smart" else m
  | None => "smart"
  end.

(** Lines 520-533: [Some targets], or [None] for the single-KB fallback. *)
Definition select_targets (req : QueryRequest) : SM (option (list QueryTarget)) :=
  match queryTargets req with
  | Some (t :: ts) => ret (Some (t :: ts))
  | _ =>
      match userContext req with
      | Some uc =>
          if String.eqb (application uc) "" then ret None
          else match get_application_kbs (application uc) with
               | None => raise (http_exc 400 (not_found_detail (application uc)))
               | Some app_kbs => ret (Some (classify_query_and_get_targets (query_text req) app_kbs (mode_of req)))
               end
      | None => ret None
      end
  end.

(** [get_retrieval_client()] for the global client: the knowledge base
    is [os.getenv('KNOWLEDGE_BASE_ID', 'KRD3MW7QFS')]. *)
Definition initial_client (now : Z) : Client Score :=
  match env_kb with
  | None => RealClient "KRD3MW7QFS" (fresh_state now)
  | Some kb => if String.eqb kb "" then MockClient "" else RealClient kb (fresh_state now)
  end.

(** The single-knowledge-base path of [query_knowledge_base] (lines
    725-752), on the global client. *)
Definition query_single (req : QueryRequest) : SM Reply :=
  fun s =>
    let client := match srv_client s with Some c => c | None => initial_client (srv_clock s) end in
    match client with
    | MockClient kb => (Ok (Reply200 (format_response req (mock_rag kb (query_text req)))),
                        {| srv_clock := srv_clock s; srv_client := Some client; srv_calls := srv_calls s |})
    | RealClient kb st =>
        let st0 := {| cache := cache st; clock := srv_clock s; calls := [] |} in
        let '(r, st') := advanced_rag_query B kb (query_text req) (extended_thinking req) st0 in
        let s' := {| srv_clock := srv_clock s; srv_client := Some (RealClient kb st');
                     srv_calls := (srv_calls s ++ calls st')%list |} in
        match r with
        | Ok rr => (Ok (Reply200 (format_response req rr)), s')
        | Err e => (Ok (ReplyError 500 e), s')
        end
    end.

(** [multi_kb_query] (lines 515-603). *)
Definition multi_kb_query (req : QueryRequest) : SM Reply :=
  try_catch
    (let* sel := select_targets req in
     match sel with
     | None => query_single req
     | Some [] => raise (http_exc 400 no_targets_detail)
     | Some targets =>
         let* results := fan_out req targets [] in
         match merge_results results with
         | None => raise (http_exc 500 none_queried_detail)
         | Some p => ret (Reply200 (format_response req (tr_result p)))
         end
     end)
    (fun e => ret (ReplyError 500 e)).

(** [query_knowledge_base] (lines 717-757): explicit targets go to
    [multi_kb_query], whose HTTP error is caught and re-raised as a 500. *)
Definition query_knowledge_base (req : QueryRequest) : SM Reply :=
  match queryTargets req with
  | Some (_ :: _) =>
      let* r := multi_kb_query req in
      match r with
      | ReplyError status detail => ret (ReplyError 500 (http_exc status detail))
      | ok => ret ok
      end
  | _ => query_single req
  end.

(** The lazily initialised global [retrieval_client] shared by the
    single-knowledge-base endpoints: [real kb] runs on its state. *)
Definition run_on_global {A} (mock : string -> A) (real : string -> M (ClientState Score) A) : SM A :=
  fun s =>
    let client := match srv_client s with Some c => c | None => initial_client (srv_clock s) end in
    match client with
    | MockClient kb => (Ok (mock kb),
                        {| srv_clock := srv_clock s; srv_client := Some client; srv_calls := srv_calls s |})
    | RealClient kb st =>
        let st0 := {| cache := cache st; clock := srv_clock s; calls := [] |} in
        let '(r, st') := real kb st0 in
        (r, {| srv_clock := srv_clock s; srv_client := Some (RealClient kb st');
               srv_calls := (srv_calls s ++ calls st')%list |})
    end.

(** [analyze_table_relationships], the [/relationship] endpoint (lines
    759-791). *)
Definition analyze_table_relationships (req : RelationshipRequest) : SM Reply :=
  try_catch
    (let* v := run_on_global (fun _ => mock_relationships (rr_table_name req))
                 (fun kb st => match query_database_relationships B kb (rr_table_name req) st with
                               | (Ok r, st') => (Ok (real_relationships r), st')
                               | (Err e, st') => (Err e, st')
                               end) in
     ret (Reply200 (relationship_response req v)))
    (fun e => ret (ReplyError 500 e)).

(** [optimize_sql_query], the [/optimize] endpoint (lines 793-831): a RAG
    query on a fixed question around the SQL text. *)
Definition optimize_endpoint (req : OptimizeRequest) : SM Reply :=
  let optimization_query := "How can I optimize this SQL query? " +:+ or_sql_query req in
  let view := {| query_text := optimization_query; extended_thinking := true;
                 include_contexts := or_include_contexts req; include_thinking := or_include_thinking req;
                 userContext := None; queryTargets := None; queryMode := None |} in
  try_catch
    (let* r := run_on_global (fun kb => mock_rag kb optimization_query)
                 (fun kb => advanced_rag_query B kb optimization_query true) in
     ret (Reply200 (format_response view r)))
    (fun e => ret (ReplyError 500 e)).

(** ** Properties of the handler *)

Lemma query_target_total req t : no_raise (query_target req t).
Proof.
  unfold query_target. destruct (client_kb (qt_kbId t)) as [kb|]; [|apply no_raise_ret].
  apply no_raise_bind; [|intros; apply no_raise_ret].
  intros s. unfold run_fresh.
  destruct (Strategies.rag_total B kb (query_text req) (extended_thinking req)
              (fresh_state (srv_clock s))) as (r & st & Hr).
  rewrite Hr. eauto.
Qed.

Lemma query_target_kb req t s r s' : query_target req t s = (Ok r, s') -> tr_kb_id r = qt_kbId t.
Proof.
  unfold query_target, bind, run_fresh. destruct (client_kb (qt_kbId t)).
  - destruct advanced_rag_query as [[x|e] st]; intros [= <- _]; done.
  - intros [= <- _]. done.
Qed.

Lemma fan_out_all req targets acc s :
  exists results s', fan_out req targets acc s = (Ok (acc ++ results)%list, s') /\
    map tr_kb_id results = map qt_kbId targets.
Proof.
  revert acc s. induction targets as [|t rest IH]; intros acc s; simpl.
  - exists []. exists s. rewrite app_nil_r. done.
  - unfold bind at 1, try_catch. destruct (query_target_total req t s) as (r & s1 & Hr).
    unfold bind at 1. rewrite Hr. simpl.
    destruct (IH (acc ++ [r])%list s1) as (results & s' & Hf & Hkb).
    exists (r :: results). exists s'. rewrite Hf, <- app_assoc. split; [done|].
    simpl. rewrite Hkb. f_equal. eapply query_target_kb; eauto.
Qed.

(** C10: the fan-out answers every target, in order: each target yields
    one tagged result (a real or a mock client's answer), so the HTTP 500
    "No knowledge bases could be queried" of [multi_kb_query] cannot
    happen once there is a target. *)
Theorem fan_out_answers_every_target (req : QueryRequest) (targets : list QueryTarget)
    (s : Server Score) :
  exists results s', fan_out req targets [] s = (Ok results, s') /\
    map tr_kb_id results = map qt_kbId targets /\
    (targets <> [] -> merge_results results <> None).
Proof.
  destruct (fan_out_all req targets [] s) as (results & s' & Hf & Hkb).
  exists results, s'. split; [exact Hf|]. split; [exact Hkb|].
  intros Hne. destruct results as [|r0 [|r1 rest]]; [|discriminate|].
  - destruct targets; [done|discriminate].
  - unfold merge_results. destruct (List.filter _ _); [discriminate|].
    destruct (List.filter tr_is_secondary _); discriminate.
Qed.

(** An application that is not found gets an HTTP 500 whose detail
    is ["400: Application '...' not found ..."]: the 400 raised inside the
    [try] is caught by the handler's own [except Exception] and turned
    into a 500. *)
Theorem unknown_application_is_500 (req : QueryRequest) (uc : UserContext) (s : Server Score) :
  (queryTargets req = None \/ queryTargets req = Some []) ->
  userContext req = Some uc -> application uc <> "" ->
  get_application_kbs (application uc) = None ->
  multi_kb_query req s = (Ok (ReplyError 500 (http_exc 400 (not_found_detail (application uc)))), s).
Proof.
  intros Ht Hu Ha Hg. unfold multi_kb_query, try_catch, bind, select_targets.
  rewrite Hu, (proj2 (String.eqb_neq _ _) Ha), Hg.
  destruct Ht as [-> | ->]; reflexivity.
Qed.

(** Forcing a mode whose knowledge base the application lacks gets
    an HTTP 500 with detail ["400: No knowledge base targets available for
    this query"]. *)
Theorem forced_mode_without_kb_is_500 (req : QueryRequest) (uc : UserContext) (app_kbs : ApplicationKBs)
    (s : Server Score) :
  (queryTargets req = None \/ queryTargets req = Some []) ->
  userContext req = Some uc -> application uc <> "" ->
  get_application_kbs (application uc) = Some app_kbs ->
  queryMode req = Some "support" -> truthy_kb (supportKnowledgeBaseId app_kbs) = None ->
  multi_kb_query req s = (Ok (ReplyError 500 (http_exc 400 no_targets_detail)), s).
Proof.
  intros Ht Hu Ha Hg Hm Hs. unfold multi_kb_query, try_catch, bind, select_targets.
  rewrite Hu, (proj2 (String.eqb_neq _ _) Ha), Hg.
  unfold mode_of, classify_query_and_get_targets. rewrite Hm. simpl. rewrite Hs.
  destruct Ht as [-> | ->]; reflexivity.
Qed.

Definition add_calls (s : Server Score) (new : list Call) : Server Score :=
  {| srv_clock := srv_clock s; srv_client := srv_client s; srv_calls := (srv_calls s ++ new)%list |}.

Lemma fan_out_history req targets acc (s1 s2 : Server Score) :
  srv_clock s1 = srv_clock s2 ->
  exists r new, fan_out req targets acc s1 = (r, add_calls s1 new) /\
                fan_out req targets acc s2 = (r, add_calls s2 new).
Proof.
  revert acc s1 s2. induction targets as [|t rest IH];
    intros acc [clk1 cl1 calls1] [clk2 cl2 calls2] Hclk; simpl in Hclk; subst clk2; simpl.
  - exists (Ok acc), []. unfold add_calls. simpl. rewrite !app_nil_r. done.
  - unfold bind at 1 3, try_catch, query_target.
    destruct (client_kb (qt_kbId t)) as [kb|].
    + unfold bind, run_fresh. simpl.
      destruct (advanced_rag_query B kb (query_text req) (extended_thinking req) (fresh_state clk1))
        as [[x|e] st];
      [ destruct (IH (acc ++ [tag x t])%list (mkServer clk1 cl1 (calls1 ++ calls st))
                    (mkServer clk1 cl2 (calls2 ++ calls st)) eq_refl) as (r & new & H1 & H2)
      | destruct (IH acc (mkServer clk1 cl1 (calls1 ++ calls st))
                    (mkServer clk1 cl2 (calls2 ++ calls st)) eq_refl) as (r & new & H1 & H2) ];
      exists r, (calls st ++ new)%list; unfold add_calls in *; simpl in *;
      rewrite H1, H2, !app_assoc; done.
    + exact (IH _ (mkServer clk1 cl1 calls1) (mkServer clk1 cl2 calls2) eq_refl).
Qed.

Definition finish (req : QueryRequest) (r : result (list TaggedResult)) : result Reply :=
  match r with
  | Ok results =>
      match merge_results results with
      | None => Ok (ReplyError 500 (http_exc 500 none_queried_detail))
      | Some p => Ok (Reply200 (format_response req (tr_result p)))
      end
  | Err e => Ok (ReplyError 500 e)
  end.

Lemma multi_kb_query_explicit req t ts s :
  queryTargets req = Some (t :: ts) ->
  multi_kb_query req s = let '(r, s') := fan_out req (t :: ts) [] s in (finish req r, s').
Proof.
  intros Ht. unfold multi_kb_query, try_catch, select_targets. rewrite Ht.
  unfold bind at 1, ret at 1. unfold bind.
  destruct (fan_out req (t :: ts) [] s) as [[results|e] s']; [|reflexivity].
  unfold finish. destruct (merge_results results); reflexivity.
Qed.

(** A request with explicit targets does not depend on the server's
    history: at the same clock it gets the same reply and makes the same
    backend calls, because each target is served by a new client with an
    empty cache.  A repeated request within the cache's time to live thus
    calls the knowledge bases again (the spec's cache property holds only
    on the single-knowledge-base path). *)
Theorem explicit_targets_ignore_history (req : QueryRequest) (t : QueryTarget) (ts : list QueryTarget)
    (s1 s2 : Server Score) :
  queryTargets req = Some (t :: ts) -> srv_clock s1 = srv_clock s2 ->
  exists r new, multi_kb_query req s1 = (r, add_calls s1 new) /\
                multi_kb_query req s2 = (r, add_calls s2 new).
Proof.
  intros Ht Hclk. rewrite !(multi_kb_query_explicit req t ts) by exact Ht.
  destruct (fan_out_history req (t :: ts) [] s1 s2 Hclk) as (r & new & H1 & H2).
  rewrite H1, H2. eauto.
Qed.

(** C38: on the real client, the
    [/relationship] endpoint answers with an empty context list whenever
    contexts are asked for, whatever the knowledge base returned: it
    reads [retrieved_contexts], a key the relationship result does not
    have (it stores its contexts under [contexts]). *)
Theorem relationship_endpoint_drops_contexts (req : RelationshipRequest) (s : Server Score)
    (kb : string) (st : ClientState Score) :
  srv_client s = Some (RealClient kb st) -> rr_include_contexts req = true ->
  exists r s', analyze_table_relationships req s = (Ok (Reply200 r), s') /\ resp_contexts r = Some [].
Proof.
  intros Hc Hi. unfold analyze_table_relationships, try_catch, bind, run_on_global. rewrite Hc.
  set (st0 := {| cache := cache st; clock := srv_clock s; calls := [] |}).
  assert (Hn : no_raise (query_database_relationships B kb (rr_table_name req)))
    by apply Cache.memoize_no_raise.
  destruct (Hn st0) as (r & st' & Hr). rewrite Hr. simpl.
  eexists _, _. split; [reflexivity|]. simpl. by rewrite Hi.
Qed.

(** The [/optimize] endpoint is the
    single-knowledge-base [/query] path on the question ["How can I
    optimize this SQL query? <sql>"] with extended thinking: same reply,
    same state, same backend calls.  The optimisation strategy
    ([optimize_sql_query] of the retrieval client) is never used. *)
Theorem optimize_endpoint_is_rag_query (req : OptimizeRequest) (s : Server Score) :
  optimize_endpoint req s =
    query_single {| query_text := "How can I optimize this SQL query? " +:+ or_sql_query req;
                    extended_thinking := true; include_contexts := or_include_contexts req;
                    include_thinking := or_include_thinking req; userContext := None;
                    queryTargets := None; queryMode := None |} s.
Proof.
  unfold optimize_endpoint, query_single, try_catch, bind, run_on_global.
  destruct (match srv_client s with Some c => c | None => initial_client (srv_clock s) end); [|reflexivity].
  destruct (advanced_rag_query _ _ _ _ _) as [[r|e] st']; reflexivity.
Qed.

End WithBackend.

(** ** Witnesses *)

Definition wit_lookup (app : string) : option ApplicationKBs :=
  if String.eqb app "epic"
  then Some {| databaseKnowledgeBaseId := "KBDB"; supportKnowledgeBaseId := None;
               documentationKnowledgeBaseId := None |}
  else None.

Definition wit_request (app : string) (mode : option string) (targets : option (list QueryTarget)) : QueryRequest :=
  {| query_text := "list orders"; extended_thinking := true; include_contexts := false;
     include_thinking := false; userContext := Some (mkUserContext app);
     queryTargets := targets; queryMode := mode |}.

Definition wit_server : Server Z := mkServer 0 None [].

Lemma unknown_application_is_500_witness :
  multi_kb_query StrategyProps.wit_backend None wit_lookup (wit_request "dis" None None) wit_server =
    (Ok (ReplyError 500 (http_exc 400 (not_found_detail "dis"))), wit_server).
Proof.
  apply (unknown_application_is_500 StrategyProps.wit_backend None wit_lookup _ (mkUserContext "dis"));
    [left; reflexivity|reflexivity|discriminate|reflexivity].
Defined.

Lemma forced_mode_without_kb_is_500_witness :
  multi_kb_query StrategyProps.wit_backend None wit_lookup (wit_request "epic" (Some "support") None) wit_server =
    (Ok (ReplyError 500 (http_exc 400 no_targets_detail)), wit_server).
Proof.
  apply (forced_mode_without_kb_is_500 StrategyProps.wit_backend None wit_lookup _ (mkUserContext "epic")
           (Router.mkApplicationKBs "KBDB" None None));
    [left; reflexivity|reflexivity|discriminate|reflexivity|reflexivity|reflexivity].
Defined.

Definition spec_targets : list QueryTarget :=
  [{| qt_type := "support"; qt_kbId := "KBSUP"; qt_secondary := Some false |};
   {| qt_type := "database"; qt_kbId := "KBDB"; qt_secondary := Some true |}].

Lemma fan_out_answers_every_target_witness :
  exists results s', fan_out StrategyProps.wit_backend None (wit_request "epic" None (Some spec_targets))
                       spec_targets [] wit_server = (Ok results, s') /\
    map tr_kb_id results = map qt_kbId spec_targets /\
    (spec_targets <> [] -> merge_results results <> None).
Proof. apply (fan_out_answers_every_target StrategyProps.wit_backend None). Defined.

Lemma explicit_targets_ignore_history_witness :
  exists r new,
    multi_kb_query StrategyProps.wit_backend None wit_lookup (wit_request "epic" None (Some spec_targets)) wit_server
      = (r, add_calls wit_server new) /\
    multi_kb_query StrategyProps.wit_backend None wit_lookup (wit_request "epic" None (Some spec_targets))
      (mkServer 0 (Some (MockClient "")) [CRetrieve "KBDB" "list orders" 2])
      = (r, add_calls (mkServer 0 (Some (MockClient "")) [CRetrieve "KBDB" "list orders" 2]) new).
Proof.
  apply (explicit_targets_ignore_history StrategyProps.wit_backend None wit_lookup _
           (hd (Router.target "" "") spec_targets) (tl spec_targets)); reflexivity.
Defined.

(** The spec's end-to-end example: explicit targets [support] (primary)
    and [database] (secondary); the answer is the support answer followed
    by an excerpt of the database answer labelled "Database". *)
Example explicit_support_then_database :
  match multi_kb_query StrategyProps.wit_backend None wit_lookup
          (wit_request "epic" None (Some spec_targets)) wit_server with
  | (Ok (Reply200 r), _) =>
      String.prefix "SELECT * FROM orders o;" (resp_answer r) = true /\
      contains "*From Database:* SELECT * FROM orders o;..." (resp_answer r) = true
  | _ => False
  end.
Proof. vm_compute. split; reflexivity. Qed.

Definition wit_real_server : Server Z := mkServer 0 (Some (RealClient "KB1" (fresh_state 0))) [].

Lemma relationship_endpoint_drops_contexts_witness :
  exists r s', analyze_table_relationships StrategyProps.wit_backend None
                 (mkRelationshipRequest "orders" true false) wit_real_server = (Ok (Reply200 r), s') /\
               resp_contexts r = Some [].
Proof.
  apply (relationship_endpoint_drops_contexts StrategyProps.wit_backend None _ _ "KB1" (fresh_state 0));
    reflexivity.
Defined.

(** The same request on the mock client does return contexts, and the
    real client did retrieve some. *)
Example relationship_mock_vs_real :
  match analyze_table_relationships StrategyProps.wit_backend None
          (mkRelationshipRequest "orders" true false) (mkServer 0 (Some (MockClient "KB1")) []),
        query_database_relationships StrategyProps.wit_backend "KB1" "orders" (fresh_state 0) with
  | (Ok (Reply200 r), _), (Ok rel, _) => length <$> resp_contexts r = Some 2 /\ sr_contexts rel <> []
  | _, _ => False
  end.
Proof. vm_compute. split; [reflexivity|discriminate]. Qed.

End Merger.
