(* ===== verification/Corrections.v ===== *)
(** * The correction loop: [FeedbackProcessor]

    Models src/src/training/feedback_processor.py over an explicit
    relational store: the tables [query_feedback], [training_data] and
    [kb_improvement_log] as lists of rows in insertion order, the
    auto-increment counters behind [cursor.lastrowid], and the clock read
    by [NOW()] and [datetime.now()].  [process_pending_feedback] is the
    whole run of the method, its per-row [try]/[except ... continue]
    included; the one database statement that can raise inside the loop
    (the [INSERT] of [create_training_data], e.g. on a constraint
    violation) is an oracle [insert_fails] of the section.  The
    submission of a correction, which lives outside src/ (the client of
    the correction store), is modelled from the spec as an insertion of a
    pending row.  The command-line tool src/train_from_feedback.py
    ([train_main]: a dry-run count or a real run) is modelled at the end
    of the definitions. *)

From S2P Require Import Prelude PyStr.
From stdpp Require Import sets relations.
From Stdlib Require Import Ascii.

Open Scope string_scope.

Module Corrections.
Import PyStr.

(** ** Rows *)

(** [ProcessingStatus] of [query_feedback]. *)
Inductive ProcessingStatus := Pending | Reviewed | Rejected.

#[export] Instance ProcessingStatus_eq_dec : EqDecision ProcessingStatus.
Proof. solve_decision. Defined.

Record QueryFeedback := mkFeedback {
  fb_Id : nat;
  fb_CompanyId : Z;
  fb_KnowledgeBaseId : string;
  fb_FeedbackType : string;
  fb_ProcessingStatus : ProcessingStatus;
  fb_CreatedAt : Z;
  fb_OriginalQuery : string;
  fb_OriginalResponse : string;
  fb_CorrectedResponse : string;
  fb_FeedbackNotes : string;
  fb_ProcessedAt : option Z;
  fb_ProcessedBy : option string
}.

Record TrainingData := mkTraining {
  td_Id : nat;
  td_FeedbackId : nat;
  td_CompanyId : Z;
  td_KnowledgeBaseId : string;
  td_QueryPattern : string;
  td_CorrectResponse : string;
  td_IncorrectResponse : string;
  td_ImprovementNotes : string
}.

Record ImprovementLog := mkLog {
  il_Id : nat;
  il_KnowledgeBaseId : string;
  il_CompanyId : Z;
  il_ImprovementType : string;
  il_Description : string;
  il_TrainingDataIds : list nat;   (* json.dumps(training_data_ids) *)
  il_ImplementationMethod : string;
  il_Status : string;
  il_IngestionJobId : option string
}.

Record Store := mkStore {
  query_feedback : list QueryFeedback;
  training_data : list TrainingData;
  kb_improvement_log : list ImprovementLog;
  next_feedback_id : nat;
  next_training_id : nat;
  next_log_id : nat;
  db_now : Z
}.

(** Empty tables; MySQL's AUTO_INCREMENT starts at 1. *)
Definition empty_store (now : Z) : Store :=
  {| query_feedback := []; training_data := []; kb_improvement_log := [];
     next_feedback_id := 1; next_training_id := 1; next_log_id := 1; db_now := now |}.

(** ** [generalize_query_pattern] *)

(** [common_replacements], in the dict's insertion order. *)
Definition common_replacements : list (string * string) :=
  [("sales orders", "[SALES_ENTITY]"); ("customers", "[CUSTOMER_ENTITY]");
   ("products", "[PRODUCT_ENTITY]"); ("orders", "[ORDER_ENTITY]");
   ("payments", "[PAYMENT_ENTITY]")].

Definition generalize_query_pattern (original_query : string) : string :=
  fold_left (fun pattern tp => replace tp.1 tp.2 pattern) common_replacements (lower original_query).

(** ** The [SELECT] of pending corrections *)

(** [WHERE KnowledgeBaseId = %s AND CompanyId = %s AND ProcessingStatus =
    'pending' AND FeedbackType = 'correction'] *)
Definition is_pending_for (kb_id : string) (company_id : Z) (f : QueryFeedback) : bool :=
  String.eqb (fb_KnowledgeBaseId f) kb_id && Z.eqb (fb_CompanyId f) company_id &&
  bool_decide (fb_ProcessingStatus f = Pending) && String.eqb (fb_FeedbackType f) "correction".

(** [ORDER BY CreatedAt ASC]; rows with equal [CreatedAt] keep table
    order (the database leaves that order open; a stable sort is one of
    its choices). *)
Fixpoint insert_by_created (f : QueryFeedback) (l : list QueryFeedback) : list QueryFeedback :=
  match l with
  | [] => [f]
  | g :: l' => if (fb_CreatedAt f <=? fb_CreatedAt g)%Z then f :: g :: l' else g :: insert_by_created f l'
  end.

Definition sort_by_created (l : list QueryFeedback) : list QueryFeedback :=
  fold_right insert_by_created [] l.

Definition select_pending (kb_id : string) (company_id : Z) (s : Store) : list QueryFeedback :=
  sort_by_created (List.filter (is_pending_for kb_id company_id) (query_feedback s)).

(** ** Statements *)

Section WithOracle.

(** The [INSERT INTO training_data] raises for these rows. *)
Variable insert_fails : QueryFeedback -> bool.

(** The row [create_training_data] inserts. *)
Definition training_row (tid : nat) (feedback : QueryFeedback) : TrainingData :=
  {| td_Id := tid; td_FeedbackId := fb_Id feedback; td_CompanyId := fb_CompanyId feedback;
     td_KnowledgeBaseId := fb_KnowledgeBaseId feedback;
     td_QueryPattern := generalize_query_pattern (fb_OriginalQuery feedback);
     td_CorrectResponse := fb_CorrectedResponse feedback;
     td_IncorrectResponse := fb_OriginalResponse feedback;
     td_ImprovementNotes := fb_FeedbackNotes feedback |}.

(** [create_training_data]: one [INSERT INTO training_data]; [None] when
    it raises, else [cursor.lastrowid] and the new store. *)
Definition create_training_data (feedback : QueryFeedback) (s : Store) : option (nat * Store) :=
  if insert_fails feedback then None else
  let tid := next_training_id s in
  Some (tid, {| query_feedback := query_feedback s;
                training_data := (training_data s ++ [training_row tid feedback])%list;
                kb_improvement_log := kb_improvement_log s; next_feedback_id := next_feedback_id s;
                next_training_id := S tid; next_log_id := next_log_id s; db_now := db_now s |}).

(** [UPDATE query_feedback SET ProcessingStatus = 'reviewed', ProcessedAt
    = NOW(), ProcessedBy = 'system' WHERE Id = %s] *)
Definition reviewed (now : Z) (f : QueryFeedback) : QueryFeedback :=
  {| fb_Id := fb_Id f; fb_CompanyId := fb_CompanyId f; fb_KnowledgeBaseId := fb_KnowledgeBaseId f;
     fb_FeedbackType := fb_FeedbackType f; fb_ProcessingStatus := Reviewed;
     fb_CreatedAt := fb_CreatedAt f; fb_OriginalQuery := fb_OriginalQuery f;
     fb_OriginalResponse := fb_OriginalResponse f; fb_CorrectedResponse := fb_CorrectedResponse f;
     fb_FeedbackNotes := fb_FeedbackNotes f; fb_ProcessedAt := Some now;
     fb_ProcessedBy := Some "system" |}.

Definition review_row (id : nat) (now : Z) (f : QueryFeedback) : QueryFeedback :=
  if Nat.eqb (fb_Id f) id then reviewed now f else f.

Definition mark_reviewed (id : nat) (s : Store) : Store :=
  {| query_feedback := map (review_row id (db_now s)) (query_feedback s); training_data := training_data s;
     kb_improvement_log := kb_improvement_log s; next_feedback_id := next_feedback_id s;
     next_training_id := next_training_id s; next_log_id := next_log_id s; db_now := db_now s |}.

(** The [for feedback in pending_feedback] loop: the count and the ids
    accumulated so far, and the store. *)
Fixpoint process_loop (rows : list QueryFeedback) (processed_count : nat) (training_data_ids : list nat)
    (s : Store) : nat * list nat * Store :=
  match rows with
  | [] => (processed_count, training_data_ids, s)
  | feedback :: rest =>
      match create_training_data feedback s with
      | None => process_loop rest processed_count training_data_ids s   (* except: continue *)
      | Some (tid, s1) =>
          if Nat.eqb tid 0 then process_loop rest processed_count training_data_ids s1
          else process_loop rest (S processed_count) (training_data_ids ++ [tid])%list
                 (mark_reviewed (fb_Id feedback) s1)
      end
  end.

End WithOracle.

(** [INSERT INTO kb_improvement_log ... 'planned'] and its [lastrowid]. *)
Definition insert_improvement_log (kb_id : string) (company_id : Z) (processed_count : nat)
    (ids : list nat) (s : Store) : nat * Store :=
  let lid := next_log_id s in
  let row := {| il_Id := lid; il_KnowledgeBaseId := kb_id; il_CompanyId := company_id;
                il_ImprovementType := "content_update";
                il_Description := "Processed " +:+ str_nat processed_count +:+ " user corrections";
                il_TrainingDataIds := ids; il_ImplementationMethod := "ingestion_job";
                il_Status := "planned"; il_IngestionJobId := None |} in
  (lid, {| query_feedback := query_feedback s; training_data := training_data s;
           kb_improvement_log := (kb_improvement_log s ++ [row])%list;
           next_feedback_id := next_feedback_id s; next_training_id := next_training_id s;
           next_log_id := S lid; db_now := db_now s |}).

(** One element of [corrected_docs]. *)
Record CorrectedDoc := mkDoc {
  query_pattern : string;
  correct_sql : string;
  explanation : string;
  category : string;
  created_at : Z
}.

(** [generate_corrected_documentation]: [SELECT * FROM training_data
    WHERE Id IN (...)], one document per row found. *)
Definition generate_corrected_documentation (ids : list nat) (s : Store) : list CorrectedDoc :=
  map (fun d => {| query_pattern := td_QueryPattern d; correct_sql := td_CorrectResponse d;
                   explanation := "Corrected based on user feedback: " +:+ td_ImprovementNotes d;
                   category := "user_corrections"; created_at := db_now s |})
      (List.filter (fun d => bool_decide (td_Id d ∈ ids)) (training_data s)).

(** [update_knowledge_base_with_corrections]: only logs the documents and
    returns [f"job-{improvement_log_id}-{int(datetime.now().timestamp())}"];
    its [try] has nothing that raises. *)
Definition update_knowledge_base_with_corrections (kb_id : string) (docs : list CorrectedDoc)
    (improvement_log_id : nat) (s : Store) : option string :=
  Some ("job-" +:+ str_nat improvement_log_id +:+ "-" +:+ str_int (db_now s)).

(** [UPDATE kb_improvement_log SET IngestionJobId = %s, Status =
    'in_progress' WHERE Id = %s] *)
Definition start_ingestion (lid : nat) (job : string) (s : Store) : Store :=
  {| query_feedback := query_feedback s; training_data := training_data s;
     kb_improvement_log :=
       map (fun l => if Nat.eqb (il_Id l) lid
                     then {| il_Id := il_Id l; il_KnowledgeBaseId := il_KnowledgeBaseId l;
                             il_CompanyId := il_CompanyId l; il_ImprovementType := il_ImprovementType l;
                             il_Description := il_Description l; il_TrainingDataIds := il_TrainingDataIds l;
                             il_ImplementationMethod := il_ImplementationMethod l;
                             il_Status := "in_progress"; il_IngestionJobId := Some job |}
                     else l) (kb_improvement_log s);
     next_feedback_id := next_feedback_id s; next_training_id := next_training_id s;
     next_log_id := next_log_id s; db_now := db_now s |}.

(** The returned dict: [status], [processed] and, on the success path,
    [training_data_ids]. *)
Record ProcessResult := mkProcessResult {
  pr_status : string;
  pr_processed : nat;
  pr_training_data_ids : option (list nat)
}.

Definition process_pending_feedback (insert_fails : QueryFeedback -> bool) (kb_id : string)
    (company_id : Z) (s : Store) : ProcessResult * Store :=
  match select_pending kb_id company_id s with
  | [] => (mkProcessResult "no_pending_feedback" 0 None, s)
  | pending_feedback =>
      let '(processed_count, training_data_ids, s1) := process_loop insert_fails pending_feedback 0 [] s in
      let s2 :=
        match training_data_ids with
        | [] => s1
        | _ =>
            let '(lid, s') := insert_improvement_log kb_id company_id processed_count training_data_ids s1 in
            match generate_corrected_documentation training_data_ids s' with
            | [] => s'
            | corrected_docs =>
                match update_knowledge_base_with_corrections kb_id corrected_docs lid s' with
                | Some job => start_ingestion lid job s'
                | None => s'
                end
            end
        end in
      (mkProcessResult "success" processed_count (Some training_data_ids), s2)
  end.

(** Time passing between runs. *)
Definition advance_clock (dt : Z) (s : Store) : Store :=
  {| query_feedback := query_feedback s; training_data := training_data s;
     kb_improvement_log := kb_improvement_log s; next_feedback_id := next_feedback_id s;
     next_training_id := next_training_id s; next_log_id := next_log_id s; db_now := db_now s + dt |}.

(** ** The command-line tool (src/train_from_feedback.py) *)

(** The [SELECT COUNT] of rows with [ProcessingStatus = 'pending'] and [FeedbackType =
    'correction'] of the dry run (lines 36-44). *)
Definition count_pending (kb_id : string) (company_id : Z) (s : Store) : nat :=
  length (List.filter (is_pending_for kb_id company_id) (query_feedback s)).

(** [main] (lines 19-57): the exit code, the printed lines and the
    store.  [connection] is the answer of [get_chat_db_connection()]: a
    connection ([Ok true]), [None] ([Ok false]), or an exception. *)
Definition train_main (insert_fails : QueryFeedback -> bool) (connection : result bool)
    (kb_id : string) (company_id : Z) (dry_run : bool) (s : Store) : nat * list string * Store :=
  match connection with
  | Err _ => (1, [], s)
  | Ok false => (1, [], s)
  | Ok true =>
      if dry_run then
        (0, ["Would process " +:+ str_nat (count_pending kb_id company_id s) +:+
             " pending feedback items for KB " +:+ kb_id], s)
      else
        let '(result, s') := process_pending_feedback insert_fails kb_id company_id s in
        (0, ["Processed " +:+ str_nat (pr_processed result) +:+ " feedback items";
             "Status: " +:+ pr_status result], s')
  end.

(** The correction store's [insertPending] (spec §6; the submitting code
    is not under src/): a new pending row with the next id. *)
Definition submit_correction (company_id : Z) (kb_id orig_query orig_resp corrected notes : string)
    (s : Store) : Store :=
  let f := {| fb_Id := next_feedback_id s; fb_CompanyId := company_id; fb_KnowledgeBaseId := kb_id;
              fb_FeedbackType := "correction"; fb_ProcessingStatus := Pending; fb_CreatedAt := db_now s;
              fb_OriginalQuery := orig_query; fb_OriginalResponse := orig_resp;
              fb_CorrectedResponse := corrected; fb_FeedbackNotes := notes;
              fb_ProcessedAt := None; fb_ProcessedBy := None |} in
  {| query_feedback := (query_feedback s ++ [f])%list; training_data := training_data s;
     kb_improvement_log := kb_improvement_log s; next_feedback_id := S (next_feedback_id s);
     next_training_id := next_training_id s; next_log_id := next_log_id s; db_now := db_now s |}.

(** ** The loop in closed form *)

(** Every row whose id is in [ids] reviewed at [now]. *)
Definition review_set (ids : list nat) (now : Z) (f : QueryFeedback) : QueryFeedback :=
  if bool_decide (fb_Id f ∈ ids) then reviewed now f else f.

(** The training rows of [l] with consecutive ids from [tid]. *)
Fixpoint training_rows (tid : nat) (l : list QueryFeedback) : list TrainingData :=
  match l with
  | [] => []
  | f :: l' => training_row tid f :: training_rows (S tid) l'
  end.

(** The store after the loop has handled the rows [ok] whose insert
    succeeded. *)
Definition loop_store (ok : list QueryFeedback) (s : Store) : Store :=
  {| query_feedback := map (review_set (map fb_Id ok) (db_now s)) (query_feedback s);
     training_data := (training_data s ++ training_rows (next_training_id s) ok)%list;
     kb_improvement_log := kb_improvement_log s; next_feedback_id := next_feedback_id s;
     next_training_id := next_training_id s + length ok; next_log_id := next_log_id s;
     db_now := db_now s |}.

(** The shape of a well-formed store: the auto-increment counters are
    ahead of every id, ids are unique, every training datum comes from a
    reviewed correction and every improvement log names existing training
    data. *)
Definition store_wf (s : Store) : Prop :=
  0 < next_training_id s /\
  NoDup (map fb_Id (query_feedback s)) /\ Forall (fun f => fb_Id f < next_feedback_id s) (query_feedback s) /\
  NoDup (map td_Id (training_data s)) /\ Forall (fun d => td_Id d < next_training_id s) (training_data s) /\
  Forall (fun d => Exists (fun f => fb_Id f = td_FeedbackId d /\ fb_ProcessingStatus f = Reviewed)
                          (query_feedback s)) (training_data s) /\
  NoDup (map il_Id (kb_improvement_log s)) /\ Forall (fun l => il_Id l < next_log_id s) (kb_improvement_log s) /\
  Forall (fun l => Forall (fun i => i ∈ map td_Id (training_data s)) (il_TrainingDataIds l))
         (kb_improvement_log s).

#[export] Instance store_wf_dec s : Decision (store_wf s).
Proof. unfold store_wf. apply _. Defined.

(** The side conditions under which a chain of replacements removes each
    of its terms: terms and placeholders are non-empty, and no character
    of a term occurs in its own placeholder or in a later one. *)
Fixpoint replacements_ok (reps : list (string * string)) : bool :=
  match reps with
  | [] => true
  | (t, r) :: rest =>
      negb (String.eqb t "") && negb (String.eqb r "") && chars_disjoint t r &&
      forallb (fun tp => chars_disjoint t tp.2 && negb (String.eqb tp.2 "")) rest && replacements_ok rest
  end.

(** ** The life of the store

    Between runs, users submit corrections and time passes; a run is
    [process_pending_feedback] for some pair, with any outcome of the
    inserts. *)
Inductive store_step : Store -> Store -> Prop :=
| step_submit c kb q r cr notes s : store_step s (submit_correction c kb q r cr notes s)
| step_process insert_fails kb c s : store_step s (snd (process_pending_feedback insert_fails kb c s))
| step_tick dt s : (0 <= dt)%Z -> store_step s (advance_clock dt s).

(** What a correction row holds besides its lifecycle fields. *)
Definition fb_content (f : QueryFeedback) :=
  (fb_Id f, fb_CompanyId f, fb_KnowledgeBaseId f, fb_FeedbackType f, fb_CreatedAt f,
   fb_OriginalQuery f, fb_OriginalResponse f, fb_CorrectedResponse f, fb_FeedbackNotes f).

(** A status only leaves [Pending]. *)
Definition status_le (a b : ProcessingStatus) : Prop := a = Pending \/ a = b.

Definition row_advances (f f' : QueryFeedback) : Prop :=
  fb_content f' = fb_content f /\ status_le (fb_ProcessingStatus f) (fb_ProcessingStatus f').

(** [s'] extends the history of [s]: every correction row of [s] is still
    there, in place, with the same content and a status at least as
    advanced, and the training data of [s] is a prefix of that of [s']. *)
Definition history_le (s s' : Store) : Prop :=
  (exists q1 q2, query_feedback s' = (q1 ++ q2)%list /\ Forall2 row_advances (query_feedback s) q1) /\
  (exists t, training_data s' = (training_data s ++ t)%list).

Lemma reviewed_idem now f : reviewed now (reviewed now f) = reviewed now f.
Proof. reflexivity. Qed.

Lemma review_set_nil now f : review_set [] now f = f.
Proof. unfold review_set. rewrite bool_decide_false; [done|apply not_elem_of_nil]. Qed.

Lemma review_set_row id ids now f :
  review_set ids now (review_row id now f) = review_set (id :: ids) now f.
Proof.
  unfold review_set, review_row. destruct (Nat.eqb_spec (fb_Id f) id) as [<-|Hne].
  - rewrite (bool_decide_true (_ ∈ _ :: _)) by set_solver. simpl. by case_bool_decide.
  - case_bool_decide; case_bool_decide; first [done | exfalso; rewrite elem_of_cons in *; tauto].
Qed.

Lemma map_review_set_row id ids now l :
  map (review_set ids now) (map (review_row id now) l) = map (review_set (id :: ids) now) l.
Proof. rewrite map_map. apply map_ext, review_set_row. Qed.

Lemma training_rows_app tid l f :
  training_rows tid (l ++ [f])%list = (training_rows tid l ++ [training_row (tid + length l) f])%list.
Proof.
  revert tid. induction l as [|g l IH]; intros tid; simpl; [by rewrite Nat.add_0_r|].
  by rewrite IH, Nat.add_succ_r.
Qed.

Lemma loop_store_nil s : loop_store [] s = s.
Proof.
  destruct s. unfold loop_store; simpl.
  rewrite (List.map_ext _ (fun f => f)), List.map_id, app_nil_r, Nat.add_0_r by apply review_set_nil.
  reflexivity.
Qed.

Lemma process_loop_eq insert_fails rows n ids s :
  0 < next_training_id s ->
  let ok := List.filter (fun f => negb (insert_fails f)) rows in
  process_loop insert_fails rows n ids s =
    (n + length ok, (ids ++ seq (next_training_id s) (length ok))%list, loop_store ok s).
Proof.
  revert n ids s. induction rows as [|f rows IH]; intros n ids s Hpos ok; subst ok; simpl.
  - by rewrite Nat.add_0_r, app_nil_r, loop_store_nil.
  - unfold create_training_data. destruct (insert_fails f); simpl; [by apply IH|].
    destruct (Nat.eqb_spec (next_training_id s) 0); [lia|].
    rewrite IH by (simpl; lia). simpl. f_equal; [f_equal; [lia|]|].
    + rewrite <-app_assoc. done.
    + unfold loop_store; simpl. rewrite map_review_set_row, <-app_assoc. do 2 f_equal. lia.
Qed.

Lemma docs_nonempty ids s d :
  d ∈ training_data s -> td_Id d ∈ ids -> generate_corrected_documentation ids s <> [].
Proof.
  intros Hd Hi. unfold generate_corrected_documentation.
  destruct (List.filter _ _) eqn:E; [|done]. exfalso.
  assert (Hin : In d (List.filter (fun d => bool_decide (td_Id d ∈ ids)) (training_data s))).
  { apply filter_In. split; [by apply list_elem_of_In|by apply bool_decide_eq_true]. }
  by rewrite E in Hin.
Qed.

Lemma start_ingestion_old lid job (logs : list ImprovementLog) :
  Forall (fun l => il_Id l < lid) logs ->
  map (fun l => if Nat.eqb (il_Id l) lid
                then {| il_Id := il_Id l; il_KnowledgeBaseId := il_KnowledgeBaseId l;
                        il_CompanyId := il_CompanyId l; il_ImprovementType := il_ImprovementType l;
                        il_Description := il_Description l; il_TrainingDataIds := il_TrainingDataIds l;
                        il_ImplementationMethod := il_ImplementationMethod l;
                        il_Status := "in_progress"; il_IngestionJobId := Some job |}
                else l) logs = logs.
Proof.
  induction 1 as [|l logs Hl _ IH]; [done|]. simpl. rewrite IH.
  destruct (Nat.eqb_spec (il_Id l) lid); [lia|done].
Qed.

(** The whole run in closed form, when some correction is pending. *)
Lemma process_run insert_fails kb c s :
  0 < next_training_id s -> Forall (fun l => il_Id l < next_log_id s) (kb_improvement_log s) ->
  select_pending kb c s <> [] ->
  let ok := List.filter (fun f => negb (insert_fails f)) (select_pending kb c s) in
  let ids := seq (next_training_id s) (length ok) in
  process_pending_feedback insert_fails kb c s =
    (mkProcessResult "success" (length ok) (Some ids),
     {| query_feedback := map (review_set (map fb_Id ok) (db_now s)) (query_feedback s);
        training_data := (training_data s ++ training_rows (next_training_id s) ok)%list;
        kb_improvement_log := (kb_improvement_log s ++
          match ok with
          | [] => []
          | _ => [{| il_Id := next_log_id s; il_KnowledgeBaseId := kb; il_CompanyId := c;
                     il_ImprovementType := "content_update";
                     il_Description := "Processed " +:+ str_nat (length ok) +:+ " user corrections";
                     il_TrainingDataIds := ids; il_ImplementationMethod := "ingestion_job";
                     il_Status := "in_progress";
                     il_IngestionJobId := Some ("job-" +:+ str_nat (next_log_id s) +:+ "-" +:+
                                                str_int (db_now s)) |}]
          end)%list;
        next_feedback_id := next_feedback_id s; next_training_id := next_training_id s + length ok;
        next_log_id := match ok with [] => next_log_id s | _ => S (next_log_id s) end;
        db_now := db_now s |}).
Proof.
  intros Hpos Hlog Hne. unfold process_pending_feedback.
  destruct (select_pending kb c s) as [|f0 rest]; [done|]. cbv zeta.
  rewrite (process_loop_eq insert_fails) by done.
  set (ok := List.filter (fun f => negb (insert_fails f)) (f0 :: rest)). clearbody ok.
  destruct ok as [|g ok]; simpl.
  - unfold loop_store. by rewrite !app_nil_r.
  - destruct (generate_corrected_documentation _ _) eqn:Hd.
    + exfalso. refine (docs_nonempty _ _ (training_row (next_training_id s) g) _ _ Hd); simpl.
      * set_solver.
      * set_solver.
    + unfold start_ingestion; simpl. rewrite map_app, start_ingestion_old by done. simpl.
      rewrite Nat.eqb_refl. reflexivity.
Qed.

(** ** The [SELECT] *)

Lemma insert_by_created_perm f l : Permutation (insert_by_created f l) (f :: l).
Proof.
  induction l as [|g l IH]; simpl; [done|]. destruct (_ <=? _)%Z; [done|].
  rewrite IH. apply perm_swap.
Qed.

Lemma sort_by_created_perm l : Permutation (sort_by_created l) l.
Proof. induction l as [|f l IH]; simpl; [done|]. by rewrite insert_by_created_perm, IH. Qed.

Lemma elem_of_select_pending kb c s f :
  f ∈ select_pending kb c s <-> f ∈ query_feedback s /\ is_pending_for kb c f = true.
Proof.
  unfold select_pending. rewrite sort_by_created_perm, !list_elem_of_In.
  apply filter_In.
Qed.

Lemma select_pending_nil kb c s :
  Forall (fun f => is_pending_for kb c f = false) (query_feedback s) -> select_pending kb c s = [].
Proof.
  unfold select_pending. induction 1 as [|f l Hf _ IH]; [done|]. simpl. by rewrite Hf.
Qed.

Lemma is_pending_for_reviewed kb c now f : is_pending_for kb c (reviewed now f) = false.
Proof. unfold is_pending_for. simpl. by rewrite andb_false_r. Qed.

Lemma filter_all_true {A} (p : A -> bool) l : Forall (fun x => p x = true) l -> List.filter p l = l.
Proof. induction 1 as [|x l Hx _ IH]; simpl; [done|]. by rewrite Hx, IH. Qed.

(** After a run in which every insert succeeded, nothing is pending for
    the pair any more. *)
Lemma select_pending_after_review kb c now s s' :
  query_feedback s' = map (review_set (map fb_Id (select_pending kb c s)) now) (query_feedback s) ->
  select_pending kb c s' = [].
Proof.
  intros Hq. apply select_pending_nil. rewrite Hq. apply List.Forall_forall.
  intros x (f & <- & Hf)%in_map_iff.
  unfold review_set. case_bool_decide as Hin; [apply is_pending_for_reviewed|].
  destruct (is_pending_for kb c f) eqn:Hp; [|done]. exfalso. apply Hin, list_elem_of_fmap_2.
  apply elem_of_select_pending. split; [by apply list_elem_of_In|done].
Qed.

(** ** The run *)

Lemma process_no_pending insert_fails kb c s :
  select_pending kb c s = [] ->
  process_pending_feedback insert_fails kb c s = (mkProcessResult "no_pending_feedback" 0 None, s).
Proof. unfold process_pending_feedback. by intros ->. Qed.

(** C8: a run with pending corrections
    handles them in [CreatedAt] order: each one whose [INSERT] succeeds
    yields exactly one training datum (its query generalised, its
    corrected and original responses and notes), with consecutive fresh
    ids; exactly those corrections are marked reviewed (at [NOW()], by
    ["system"]) and every other row is unchanged, so a correction whose
    insert raised stays pending; the result reports [success], their
    number and their ids. *)
Theorem process_pending_feedback_correct insert_fails kb c s :
  store_wf s -> select_pending kb c s <> [] ->
  let ok := List.filter (fun f => negb (insert_fails f)) (select_pending kb c s) in
  let '(r, s') := process_pending_feedback insert_fails kb c s in
  r = mkProcessResult "success" (length ok) (Some (seq (next_training_id s) (length ok))) /\
  query_feedback s' = map (review_set (map fb_Id ok) (db_now s)) (query_feedback s) /\
  training_data s' = (training_data s ++ training_rows (next_training_id s) ok)%list.
Proof. intros (Hpos & _ & _ & _ & _ & _ & _ & Hlog & _) Hne ok. by rewrite process_run. Qed.

(** C33: a run appends one improvement log exactly
    when some correction was turned into training data: it lists the new
    training ids and, the ingestion having been triggered, is
    [in_progress] with the job id ["job-<log id>-<timestamp>"]; a run in
    which every insert failed logs nothing. *)
Theorem process_improvement_log insert_fails kb c s :
  store_wf s -> select_pending kb c s <> [] ->
  let ok := List.filter (fun f => negb (insert_fails f)) (select_pending kb c s) in
  let s' := snd (process_pending_feedback insert_fails kb c s) in
  (ok = [] -> kb_improvement_log s' = kb_improvement_log s) /\
  (ok <> [] -> exists l, kb_improvement_log s' = (kb_improvement_log s ++ [l])%list /\
     il_Id l = next_log_id s /\ il_TrainingDataIds l = seq (next_training_id s) (length ok) /\
     il_Status l = "in_progress" /\
     il_IngestionJobId l = Some ("job-" +:+ str_nat (next_log_id s) +:+ "-" +:+ str_int (db_now s))).
Proof.
  intros (Hpos & _ & _ & _ & _ & _ & _ & Hlog & _) Hne ok s'. subst s'. rewrite process_run by done.
  subst ok. destruct (List.filter _ _); simpl; split; try done; [by rewrite app_nil_r|]. intros _. eexists. done.
Qed.

(** Once a run has turned every pending correction
    of a pair into training data, a second run for the pair finds nothing
    pending: it returns [no_pending_feedback] and changes nothing. *)
Theorem process_twice_noop insert_fails insert_fails' kb c s :
  store_wf s -> Forall (fun f => insert_fails f = false) (select_pending kb c s) ->
  let s' := snd (process_pending_feedback insert_fails kb c s) in
  process_pending_feedback insert_fails' kb c s' = (mkProcessResult "no_pending_feedback" 0 None, s').
Proof.
  intros (Hpos & _ & _ & _ & _ & _ & _ & Hlog & _) Hall s'. subst s'.
  destruct (select_pending kb c s) eqn:Hsel.
  - rewrite (process_no_pending insert_fails kb c s Hsel). by apply process_no_pending.
  - rewrite (process_run insert_fails kb c s) by (rewrite ?Hsel; done). simpl. rewrite <-Hsel in Hall.
    rewrite filter_all_true by (eapply List.Forall_impl; [|exact Hall]; intros f ->; done).
    apply process_no_pending, (select_pending_after_review kb c (db_now s) s). reflexivity.
Qed.

(** ** The store invariant *)

Lemma fb_Id_review_set ids now f : fb_Id (review_set ids now f) = fb_Id f.
Proof. unfold review_set. by case_bool_decide. Qed.

Lemma map_fb_Id_review_set ids now l : map fb_Id (map (review_set ids now) l) = map fb_Id l.
Proof. rewrite map_map. apply List.map_ext, fb_Id_review_set. Qed.

Lemma map_td_Id_training_rows tid l : map td_Id (training_rows tid l) = seq tid (length l).
Proof. revert tid. induction l as [|f l IH]; intros tid; simpl; by rewrite ?IH. Qed.

Lemma Forall_training_rows (P : TrainingData -> Prop) tid l :
  (forall i f, f ∈ l -> tid <= i < tid + length l -> P (training_row i f)) -> Forall P (training_rows tid l).
Proof.
  revert tid. induction l as [|f l IH]; intros tid HP; simpl; constructor.
  - apply HP; [constructor|simpl; lia].
  - apply IH. intros i g Hg Hi. apply HP; [by constructor|simpl in *; lia].
Qed.

(** A reviewed row stays reviewed under [review_set]. *)
Lemma Exists_reviewed_review_set ids now i l :
  Exists (fun f => fb_Id f = i /\ fb_ProcessingStatus f = Reviewed) l ->
  Exists (fun f => fb_Id f = i /\ fb_ProcessingStatus f = Reviewed) (map (review_set ids now) l).
Proof.
  induction 1 as [f l [Hi Hs]|f l _ IH]; simpl; [left|right; done].
  unfold review_set. case_bool_decide; done.
Qed.

Lemma Exists_review_set_in ids now f l :
  f ∈ l -> fb_Id f ∈ ids ->
  Exists (fun g => fb_Id g = fb_Id f /\ fb_ProcessingStatus g = Reviewed) (map (review_set ids now) l).
Proof.
  intros Hf Hi. apply List.Exists_exists. exists (review_set ids now f). split.
  - apply in_map, list_elem_of_In, Hf.
  - unfold review_set. rewrite bool_decide_true by done. done.
Qed.

Lemma wf_submit c kb q r cr n s : store_wf s -> store_wf (submit_correction c kb q r cr n s).
Proof.
  intros (Hpos & Hfnd & Hfb & Htnd & Htd & Hte & Hlnd & Hl & Hli). unfold submit_correction.
  repeat split; simpl; try done.
  - rewrite map_app. apply NoDup_app. split_and!; [done| |constructor; [set_solver|constructor]].
    intros i (f & <- & Hf)%list_elem_of_In%in_map_iff Hi%list_elem_of_singleton.
    rewrite List.Forall_forall in Hfb. specialize (Hfb f Hf). simpl in Hi. lia.
  - apply Forall_app. split; [|constructor; [simpl; lia|done]].
    eapply List.Forall_impl; [|exact Hfb]. simpl. lia.
  - eapply List.Forall_impl; [|exact Hte]. intros d Hd. apply Exists_app. by left.
Qed.

Lemma wf_advance dt s : store_wf s -> store_wf (advance_clock dt s).
Proof. by destruct s. Qed.

Lemma NoDup_seq_after (l : list nat) tid n :
  NoDup l -> Forall (fun i => i < tid) l -> NoDup (l ++ seq tid n)%list.
Proof.
  intros Hl Hlt. apply NoDup_app. split_and!; [done| |apply NoDup_seq].
  intros i Hi%list_elem_of_In Hj%list_elem_of_In. apply in_seq in Hj.
  rewrite List.Forall_forall in Hlt. specialize (Hlt i Hi). lia.
Qed.

Lemma wf_process insert_fails kb c s :
  store_wf s -> store_wf (snd (process_pending_feedback insert_fails kb c s)).
Proof.
  intros Hwf. destruct (select_pending kb c s) as [|f0 rest] eqn:Hsel; [by rewrite process_no_pending|].
  pose proof Hwf as (Hpos & Hfnd & Hfb & Htnd & Htd & Hte & Hlnd & Hl & Hli).
  rewrite process_run by (rewrite ?Hsel; done). simpl.
  set (ok := List.filter _ (select_pending kb c s)).
  assert (Hok : forall g, g ∈ ok -> g ∈ query_feedback s).
  { intros g Hg%list_elem_of_In. apply filter_In in Hg as [Hg _].
    by apply list_elem_of_In, elem_of_select_pending in Hg as [? _]. }
  assert (Htr : forall i, i ∈ map td_Id (training_data s) ->
                i ∈ map td_Id (training_data s ++ training_rows (next_training_id s) ok)%list).
  { intros i Hi. rewrite map_app. apply elem_of_app. by left. }
  unfold store_wf; simpl. rewrite map_fb_Id_review_set, map_app, map_td_Id_training_rows.
  split_and!; try done.
  - lia.
  - apply List.Forall_map. eapply List.Forall_impl; [|exact Hfb]. intros f. by rewrite fb_Id_review_set.
  - apply NoDup_seq_after; [done|by apply List.Forall_map].
  - apply Forall_app. split.
    + eapply List.Forall_impl; [|exact Htd]. simpl. lia.
    + apply Forall_training_rows. simpl. lia.
  - apply Forall_app. split.
    + eapply List.Forall_impl; [|exact Hte]. intros d. apply Exists_reviewed_review_set.
    + apply Forall_training_rows. intros i g Hg _. apply Exists_review_set_in; [by apply Hok|].
      by apply list_elem_of_In, in_map, list_elem_of_In.
  - destruct ok; simpl; rewrite ?app_nil_r; [done|]. rewrite map_app. simpl.
    apply NoDup_app. split_and!; [done| |apply NoDup_singleton].
    intros i Hi%list_elem_of_In Hj%list_elem_of_singleton. simpl in Hj. subst i.
    apply in_map_iff in Hi as (l & Hid & Hli').
    rewrite List.Forall_forall in Hl. specialize (Hl l Hli'). lia.
  - apply Forall_app. split.
    + eapply List.Forall_impl; [|exact Hl]. intros l Hl'. simpl in Hl'. destruct ok; simpl; lia.
    + destruct ok; [constructor|]. apply Forall_singleton. simpl. lia.
  - apply Forall_app. split.
    + eapply List.Forall_impl; [|exact Hli]. intros l. apply List.Forall_impl.
      intros i Hi. apply elem_of_app. by left.
    + destruct ok; [constructor|]. apply Forall_singleton. simpl.
      apply List.Forall_forall. intros i Hi. apply elem_of_app. right. by apply list_elem_of_In.
Qed.

Lemma wf_empty now : store_wf (empty_store now).
Proof. repeat split; simpl; constructor. Qed.

Lemma store_step_wf s s' : store_step s s' -> store_wf s -> store_wf s'.
Proof. destruct 1; auto using wf_submit, wf_process, wf_advance. Qed.

(** C9: every store reachable from empty tables by
    submissions, runs of the processor (whatever their inserts do) and
    the passing of time is well formed. *)
Theorem reachable_store_wf now s : rtc store_step (empty_store now) s -> store_wf s.
Proof.
  intros Hr. pose proof (wf_empty now) as H0. revert H0.
  induction Hr as [|x y z Hxy _ IH]; [done|]. intros Hx. by apply IH, (store_step_wf x).
Qed.

(** ** The history only grows *)

Lemma status_le_trans a b c : status_le a b -> status_le b c -> status_le a c.
Proof. unfold status_le. intros [-> | ->]; [by left|done]. Qed.

Lemma row_advances_trans f g h : row_advances f g -> row_advances g h -> row_advances f h.
Proof. intros [Hc1 Hs1] [Hc2 Hs2]. split; [congruence|by eapply status_le_trans]. Qed.

Lemma row_advances_refl f : row_advances f f.
Proof. split; [done|by right]. Qed.

Lemma history_le_refl s : history_le s s.
Proof.
  split; [exists (query_feedback s), []|exists []]; rewrite ?app_nil_r; split_and?; try done.
  apply Forall_Forall2_diag, List.Forall_forall. intros; apply row_advances_refl.
Qed.

Lemma history_le_trans s1 s2 s3 : history_le s1 s2 -> history_le s2 s3 -> history_le s1 s3.
Proof.
  intros [(q1 & q2 & Hq & Hf) [t Ht]] [(r1 & r2 & Hr & Hg) [u Hu]]. split.
  - rewrite Hq in Hg. apply Forall2_app_inv_l in Hg as (k1 & k2 & Hk1 & _ & ->).
    exists k1, (k2 ++ r2)%list. rewrite Hr, app_assoc. split; [done|].
    eapply Forall2_trans; [|exact Hf|exact Hk1]. apply row_advances_trans.
  - exists (t ++ u)%list. by rewrite Hu, Ht, app_assoc.
Qed.

(** Changing neither table keeps the history. *)
Lemma history_le_same s s' :
  query_feedback s' = query_feedback s -> training_data s' = training_data s -> history_le s s'.
Proof. intros Hq Ht. pose proof (history_le_refl s) as [H1 H2]. split; by rewrite ?Hq, ?Ht. Qed.

(** A run only reviews rows that were pending: the ids are unique. *)
Lemma process_history insert_fails kb c s :
  store_wf s -> history_le s (snd (process_pending_feedback insert_fails kb c s)).
Proof.
  intros Hwf. destruct (select_pending kb c s) as [|f0 rest] eqn:Hsel;
    [rewrite process_no_pending by done; apply history_le_refl|].
  pose proof Hwf as (Hpos & Hfnd & _ & _ & _ & _ & _ & Hl & _).
  rewrite process_run by (rewrite ?Hsel; done). simpl.
  split; [eexists _, []|by eexists].
  rewrite app_nil_r. split; [done|]. apply Forall2_fmap_r, Forall_Forall2_diag, List.Forall_forall.
  intros f Hf. unfold compose, review_set. case_bool_decide as Hin; [|apply row_advances_refl].
  split; [reflexivity|left]. apply list_elem_of_In, in_map_iff in Hin as (g & Hgf & Hg).
  apply filter_In in Hg as [Hg _]. apply list_elem_of_In, elem_of_select_pending in Hg as [Hgq Hp].
  apply list_elem_of_In in Hgq. rewrite <-(NoDup_map_same fb_Id (query_feedback s) g f) by (done || by apply NoDup_ListNoDup).
  unfold is_pending_for in Hp. repeat (apply andb_prop in Hp as [Hp ?]). by case_bool_decide.
Qed.

Lemma store_step_history s s' : store_wf s -> store_step s s' -> history_le s s'.
Proof.
  intros Hwf. destruct 1 as [c kb q r cr notes s|insert_fails kb c s|dt s _].
  - split.
    + exists (query_feedback s). eexists. split; [reflexivity|].
      apply Forall_Forall2_diag, List.Forall_forall. intros; apply row_advances_refl.
    + exists []. simpl. by rewrite app_nil_r.
  - by apply process_history.
  - by apply history_le_same.
Qed.

(** C32: from a well-formed store (every
    reachable one is), along any sequence of submissions, runs and clock
    ticks, no correction row is deleted, moved or rewritten, a status only
    ever leaves [Pending] (so a reviewed correction never returns to
    pending), and training data is never changed or removed, only
    appended to. *)
Theorem correction_history_monotone s s' : store_wf s -> rtc store_step s s' -> history_le s s'.
Proof.
  intros Hwf Hr. revert Hwf. induction Hr as [s|s1 s2 s3 H12 _ IH]; intros Hwf; [apply history_le_refl|].
  eapply history_le_trans; [by apply store_step_history|]. apply IH, (store_step_wf s1); done.
Qed.

(** ** Generalisation of a query *)

Lemma fold_replace_keeps_absent t (reps : list (string * string)) p :
  t <> "" -> forallb (fun tp => chars_disjoint t tp.2 && negb (String.eqb tp.2 "")) reps = true ->
  contains t p = false -> contains t (fold_left (fun pattern tp => replace tp.1 tp.2 pattern) reps p) = false.
Proof.
  revert p. induction reps as [|[t' r] reps IH]; intros p Ht Hall Hp; simpl in *; [done|].
  apply andb_prop in Hall as [[Hd Hr]%andb_prop Hall]. apply IH; [done..|].
  apply replace_keeps_absent; [|done..]. intros ->. done.
Qed.

Lemma fold_replace_absent reps p :
  replacements_ok reps = true ->
  Forall (fun tp => contains tp.1 (fold_left (fun pattern tp => replace tp.1 tp.2 pattern) reps p) = false) reps.
Proof.
  revert p. induction reps as [|[t r] reps IH]; intros p Hok; simpl in *; constructor.
  - repeat (apply andb_prop in Hok as [Hok ?]). simpl.
    apply fold_replace_keeps_absent; [by intros ->|done|].
    apply replace_removes; [by intros ->|by intros ->|done].
  - apply IH. by repeat (apply andb_prop in Hok as [Hok ?]).
Qed.

(** [generalize_query_pattern] leaves
    none of the domain nouns it knows ("sales orders", "customers",
    "products", "orders", "payments") in the pattern, whatever the query
    and its case: the upper-case placeholders never recreate one. *)
Theorem generalize_removes_domain_nouns q :
  Forall (fun tp => contains tp.1 (generalize_query_pattern q) = false) common_replacements.
Proof. apply fold_replace_absent. vm_compute. reflexivity. Qed.

Example generalize_sample :
  generalize_query_pattern "Show all Sales Orders for CUSTOMERS" = "show all [SALES_ENTITY] for [CUSTOMER_ENTITY]".
Proof. vm_compute. reflexivity. Qed.

(** ** The command-line tool *)

Lemma count_pending_select kb c s : count_pending kb c s = length (select_pending kb c s).
Proof. unfold count_pending, select_pending. by rewrite sort_by_created_perm. Qed.

Lemma filter_none_fails (p : QueryFeedback -> bool) l :
  Forall (fun f => p f = false) l -> List.filter (fun f => negb (p f)) l = l.
Proof. induction 1 as [|f l Hf _ IH]; simpl; [done|]. by rewrite Hf, IH. Qed.

(** The tool's dry run changes nothing and
    announces the number of corrections that the real run then
    processes, when none of their inserts fails. *)
Theorem dry_run_predicts_run insert_fails kb c s :
  store_wf s -> Forall (fun f => insert_fails f = false) (select_pending kb c s) ->
  train_main insert_fails (Ok true) kb c true s =
    (0, ["Would process " +:+ str_nat (count_pending kb c s) +:+ " pending feedback items for KB " +:+ kb], s) /\
  pr_processed (fst (process_pending_feedback insert_fails kb c s)) = count_pending kb c s.
Proof.
  intros (Hpos & _ & _ & _ & _ & _ & _ & Hlog & _) Hok. split; [done|].
  rewrite count_pending_select. destruct (select_pending kb c s) eqn:Hs.
  - unfold process_pending_feedback. by rewrite Hs.
  - rewrite process_run by (done || congruence). cbn [fst pr_processed].
    rewrite <-Hs in Hok |- *. by rewrite filter_none_fails.
Qed.

(** ** Witnesses *)

Definition sample_store : Store :=
  submit_correction 7 "KB1" "Total payments per customer" "SELECT SUM(x) FROM pay"
    "SELECT customer_id, SUM(amount) FROM payments GROUP BY customer_id" "group by customer"
  (submit_correction 7 "KB1" "List open sales orders" "SELECT * FROM orders"
    "SELECT * FROM sales_orders WHERE status = 'open'" "wrong table"
  (advance_clock 60 (empty_store 1700000000))).

(** The insert of the second correction raises. *)
Definition sample_fails (f : QueryFeedback) : bool := Nat.eqb (fb_Id f) 2.

Definition sample_path_end : Store := snd (process_pending_feedback sample_fails "KB1" 7 sample_store).

Lemma sample_path : rtc store_step (empty_store 1700000000) sample_path_end.
Proof.
  eapply rtc_l; [apply (step_tick 60); lia|]. eapply rtc_l; [apply step_submit|].
  eapply rtc_l; [apply step_submit|]. eapply rtc_l; [apply step_process|]. apply rtc_refl.
Qed.

Lemma sample_store_wf : store_wf sample_store.
Proof. apply (bool_decide_unpack _ (dec := store_wf_dec _)). vm_compute. exact I. Qed.

Lemma process_pending_feedback_correct_witness :
  let ok := List.filter (fun f => negb (sample_fails f)) (select_pending "KB1" 7 sample_store) in
  let '(r, s') := process_pending_feedback sample_fails "KB1" 7 sample_store in
  r = mkProcessResult "success" (length ok) (Some (seq (next_training_id sample_store) (length ok))) /\
  query_feedback s' = map (review_set (map fb_Id ok) (db_now sample_store)) (query_feedback sample_store) /\
  training_data s' = (training_data sample_store ++ training_rows (next_training_id sample_store) ok)%list.
Proof.
  apply (process_pending_feedback_correct sample_fails "KB1" 7 sample_store); [apply sample_store_wf|vm_compute; discriminate].
Defined.

Lemma process_improvement_log_witness :
  let ok := List.filter (fun f => negb (sample_fails f)) (select_pending "KB1" 7 sample_store) in
  let s' := snd (process_pending_feedback sample_fails "KB1" 7 sample_store) in
  (ok = [] -> kb_improvement_log s' = kb_improvement_log sample_store) /\
  (ok <> [] -> exists l, kb_improvement_log s' = (kb_improvement_log sample_store ++ [l])%list /\
     il_Id l = next_log_id sample_store /\ il_TrainingDataIds l = seq (next_training_id sample_store) (length ok) /\
     il_Status l = "in_progress" /\
     il_IngestionJobId l = Some ("job-" +:+ str_nat (next_log_id sample_store) +:+ "-" +:+
                                 str_int (db_now sample_store))).
Proof.
  apply (process_improvement_log sample_fails "KB1" 7 sample_store); [apply sample_store_wf|vm_compute; discriminate].
Defined.

Lemma process_twice_noop_witness :
  let s' := snd (process_pending_feedback (fun _ => false) "KB1" 7 sample_store) in
  process_pending_feedback sample_fails "KB1" 7 s' = (mkProcessResult "no_pending_feedback" 0 None, s').
Proof.
  apply (process_twice_noop (fun _ => false) sample_fails "KB1" 7 sample_store); [apply sample_store_wf|vm_compute; repeat constructor].
Defined.

Lemma reachable_store_wf_witness : store_wf sample_path_end.
Proof. apply (reachable_store_wf 1700000000), sample_path. Defined.

Lemma correction_history_monotone_witness : history_le (empty_store 1700000000) sample_path_end.
Proof. apply correction_history_monotone; [apply wf_empty|apply sample_path]. Defined.

(** The run on the sample: the first correction becomes training datum 1
    with a generalised pattern and is reviewed; the second, whose insert
    raised, stays pending; log 1 is in progress. *)
Lemma dry_run_predicts_run_witness :
  pr_processed (fst (process_pending_feedback (fun _ => false) "KB1" 7 sample_store)) =
    count_pending "KB1" 7 sample_store.
Proof.
  apply (dry_run_predicts_run (fun _ => false) "KB1" 7 sample_store sample_store_wf).
  apply Forall_forall. intros f _. reflexivity.
Defined.

Example sample_run :
  process_pending_feedback sample_fails "KB1" 7 sample_store =
    (mkProcessResult "success" 1 (Some [1]), sample_path_end) /\
  map td_QueryPattern (training_data sample_path_end) = ["list open [SALES_ENTITY]"] /\
  map fb_ProcessingStatus (query_feedback sample_path_end) = [Reviewed; Pending] /\
  map il_Status (kb_improvement_log sample_path_end) = ["in_progress"].
Proof. vm_compute. repeat split. Qed.

End Corrections.
