(* ===== verification/Chat.v ===== *)
(** * Chat persistence: the application registry and the chat endpoints

    Models the parts of src/app.py that read and write the chat database:
    [get_application_kbs] (the registry the router's targets come from),
    [ensure_user_and_company], and the endpoints [/chat/session]
    ([create_or_get_chat_session]) and [/chat/message]
    ([save_chat_message]).  The database is an explicit store of the five
    tables the code touches, with their auto-increment counters; whether
    [get_chat_db_connection()] succeeds is a field of the store, and
    [uuid.uuid4()] draws from a stream of identifiers held in the store.
    A Python exception inside an endpoint is an [Err] of the state monad,
    caught by the endpoint's [except]. *)

From S2P Require Import Prelude PyStr Router.
From stdpp Require Import sets relations.

Open Scope string_scope.

Module Chat.
Import PyStr Router.

(** ** Rows *)

Record ApplicationRow := mkAppRow {
  app_Id : nat;
  app_Name : string;
  app_IsActive : bool;
  app_DatabaseKnowledgeBaseId : string;
  app_SupportKnowledgeBaseId : option string;
  app_DocumentationKnowledgeBaseId : option string
}.

Record CompanyRow := mkCompanyRow {
  co_Id : nat;
  co_CompanyCode : string;
  co_CompanyName : string;
  co_Industry : string;
  co_DatabaseHost : string;
  co_DatabaseSchema : string;
  co_ApplicationId : nat
}.

Record UserRow := mkUserRow {
  u_Id : nat;
  u_LoginId : string;
  u_Email : string;
  u_FirstName : string;
  u_LastName : string;
  u_CompanyId : nat;
  u_LastActiveAt : option Z
}.

Record SessionRow := mkSessionRow {
  cs_Id : nat;
  cs_SessionUuid : string;
  cs_UserId : nat;
  cs_CompanyId : nat;
  cs_KnowledgeBaseId : string;
  cs_IsActive : bool;
  cs_CreatedAt : Z;
  cs_UpdatedAt : Z
}.

Record MessageRow := mkMessageRow {
  cm_Id : nat;
  cm_SessionId : nat;
  cm_UserId : nat;
  cm_CompanyId : nat;
  cm_MessageType : string;
  cm_Content : string;
  cm_Metadata : string;
  cm_QueryType : option string;
  cm_EndpointUsed : option string;
  cm_ResponseTimeMs : option string;
  cm_CreatedAt : Z
}.

Record ChatDB := mkChatDB {
  application : list ApplicationRow;
  company : list CompanyRow;
  user : list UserRow;
  chat_sessions : list SessionRow;
  chat_messages : list MessageRow;
  next_company_id : nat;
  next_user_id : nat;
  next_message_id : nat;
  chat_now : Z;
  connection_ok : bool;        (* get_chat_db_connection() is not None *)
  uuid_stream : list string    (* the values uuid.uuid4() returns next *)
}.

(** ** Requests *)

(** [class UserContext] and [class ChatSessionRequest], which have the
    same fields. *)
Record ChatUser := mkChatUser {
  loginId : string;
  email : string;
  firstName : string;
  lastName : string;
  company_code : string;          (* field [company] *)
  companyName : string;
  industry : string;
  databaseHost : string;
  databaseSchema : string;
  application_name : string       (* field [application] *)
}.

(** A JSON value of [metadata]: the keys the endpoint reads. *)
Record Metadata := mkMetadata {
  md_metadata : option string;
  md_queryType : option string;
  md_endpointUsed : option string;
  md_responseTime : option string
}.

Record ChatMessageRequest := mkChatMessageRequest {
  sessionId : string;
  messageType : string;
  content : string;
  metadata : option Metadata;   (* [None] is JSON null *)
  msg_userContext : ChatUser
}.

(** One element of [messages]: [SELECT MessageType, Content, CreatedAt,
    Metadata]. *)
Record MessageView := mkMessageView {
  mv_MessageType : string;
  mv_Content : string;
  mv_CreatedAt : Z;
  mv_Metadata : string
}.

Record ChatSessionResponse := mkChatSessionResponse {
  resp_sessionId : string;
  resp_messages : list MessageView
}.

(** The dicts returned by [save_chat_message]. *)
Record SaveReply := mkSaveReply {
  sv_status : string;
  sv_message : option string;
  sv_note : option string
}.

Abbreviation CDB := (M ChatDB).

(** ** Primitive statements *)

(** [str(uuid.uuid4())]: the next identifier of the stream (the stream
    is taken long enough; an exhausted stream yields [""]). *)
Definition uuid4 : CDB string :=
  fun s =>
    match uuid_stream s with
    | u :: rest => (Ok u, {| application := application s; company := company s; user := user s;
                            chat_sessions := chat_sessions s; chat_messages := chat_messages s;
                            next_company_id := next_company_id s; next_user_id := next_user_id s;
                            next_message_id := next_message_id s; chat_now := chat_now s;
                            connection_ok := connection_ok s; uuid_stream := rest |})
    | [] => (Ok "", s)
    end.

Definition set_company (l : list CompanyRow) (next : nat) (s : ChatDB) : ChatDB :=
  {| application := application s; company := l; user := user s; chat_sessions := chat_sessions s;
     chat_messages := chat_messages s; next_company_id := next; next_user_id := next_user_id s;
     next_message_id := next_message_id s; chat_now := chat_now s; connection_ok := connection_ok s;
     uuid_stream := uuid_stream s |}.

Definition set_user (l : list UserRow) (next : nat) (s : ChatDB) : ChatDB :=
  {| application := application s; company := company s; user := l; chat_sessions := chat_sessions s;
     chat_messages := chat_messages s; next_company_id := next_company_id s; next_user_id := next;
     next_message_id := next_message_id s; chat_now := chat_now s; connection_ok := connection_ok s;
     uuid_stream := uuid_stream s |}.

Definition set_chat (sessions : list SessionRow) (messages : list MessageRow) (next : nat) (s : ChatDB) : ChatDB :=
  {| application := application s; company := company s; user := user s; chat_sessions := sessions;
     chat_messages := messages; next_company_id := next_company_id s; next_user_id := next_user_id s;
     next_message_id := next; chat_now := chat_now s; connection_ok := connection_ok s;
     uuid_stream := uuid_stream s |}.

(** [SELECT ... FROM application WHERE Name = %s AND IsActive = TRUE] and
    [fetchone()]. *)
Definition find_application (name : string) (s : ChatDB) : option ApplicationRow :=
  List.find (fun a => String.eqb (app_Name a) name && app_IsActive a) (application s).

(** [get_application_kbs] (lines 283-311). *)
Definition get_application_kbs (application_name : string) (s : ChatDB) : option ApplicationKBs :=
  if negb (connection_ok s) then None else
  match find_application application_name s with
  | Some r => Some {| databaseKnowledgeBaseId := app_DatabaseKnowledgeBaseId r;
                      supportKnowledgeBaseId := app_SupportKnowledgeBaseId r;
                      documentationKnowledgeBaseId := app_DocumentationKnowledgeBaseId r |}
  | None => None
  end.

(** [ensure_user_and_company] (lines 358-430): the application must be
    registered and active; the company is found by its code or inserted;
    the user is found by login and company or inserted, and an existing
    user's [LastActiveAt] is set to [NOW()]. *)
Definition ensure_user_and_company (uc : ChatUser) (s : ChatDB) : option (nat * nat) * ChatDB :=
  if negb (connection_ok s) then (None, s) else
  match find_application (application_name uc) s with
  | None => (None, s)
  | Some app =>
      let '(company_id, s1) :=
        match List.find (fun c => String.eqb (co_CompanyCode c) (company_code uc)) (company s) with
        | Some c => (co_Id c, s)
        | None =>
            let cid := next_company_id s in
            (cid, set_company (company s ++ [mkCompanyRow cid (company_code uc) (companyName uc) (industry uc)
                                              (databaseHost uc) (databaseSchema uc) (app_Id app)])%list (S cid) s)
        end in
      match List.find (fun u => String.eqb (u_LoginId u) (loginId uc) && Nat.eqb (u_CompanyId u) company_id) (user s1) with
      | None =>
          let uid := next_user_id s1 in
          (Some (uid, company_id),
           set_user (user s1 ++ [mkUserRow uid (loginId uc) (email uc) (firstName uc) (lastName uc) company_id None])%list
                    (S uid) s1)
      | Some u =>
          (Some (u_Id u, company_id),
           set_user (map (fun r => if Nat.eqb (u_Id r) (u_Id u)
                                   then mkUserRow (u_Id r) (u_LoginId r) (u_Email r) (u_FirstName r) (u_LastName r)
                                                  (u_CompanyId r) (Some (chat_now s1))
                                   else r) (user s1)) (next_user_id s1) s1)
      end
  end.

(** [user_id, company_id = ensure_user_and_company(...)] followed by
    [if not user_id or not company_id]: [None] when either id is falsy. *)
Definition ensure_ids (uc : ChatUser) : CDB (option (nat * nat)) :=
  fun s =>
    let '(r, s') := ensure_user_and_company uc s in
    match r with
    | Some (uid, cid) => if Nat.eqb uid 0 || Nat.eqb cid 0 then (Ok None, s') else (Ok (Some (uid, cid)), s')
    | None => (Ok None, s')
    end.

Definition connection_available : CDB bool := fun s => (Ok (connection_ok s), s).

(** [ORDER BY CreatedAt DESC LIMIT 1] over the active sessions of a user
    in a company; of two sessions created at the same time the later row
    is taken. *)
Definition latest_active_session (uid cid : nat) (s : ChatDB) : option SessionRow :=
  fold_left (fun best r =>
               if Nat.eqb (cs_UserId r) uid && Nat.eqb (cs_CompanyId r) cid && cs_IsActive r
               then match best with
                    | Some b => if (cs_CreatedAt b <=? cs_CreatedAt r)%Z then Some r else best
                    | None => Some r
                    end
               else best) (chat_sessions s) None.

(** [ORDER BY CreatedAt DESC] on messages, stable. *)
Fixpoint insert_msg_desc (m : MessageRow) (l : list MessageRow) : list MessageRow :=
  match l with
  | [] => [m]
  | m' :: l' => if (cm_CreatedAt m' <=? cm_CreatedAt m)%Z then m :: m' :: l' else m' :: insert_msg_desc m l'
  end.

(** [SELECT MessageType, Content, CreatedAt, Metadata FROM chat_messages
    WHERE SessionId = %s ORDER BY CreatedAt DESC LIMIT 50], reversed. *)
Definition recent_messages (session_id : nat) (s : ChatDB) : list MessageView :=
  rev (map (fun m => mkMessageView (cm_MessageType m) (cm_Content m) (cm_CreatedAt m) (cm_Metadata m))
           (take 50 (fold_right insert_msg_desc []
                       (List.filter (fun m => Nat.eqb (cm_SessionId m) session_id) (chat_messages s))))).

(** The fallback of [/chat/session]: a fresh identifier, no messages, and
    nothing written. *)
Definition session_fallback : CDB ChatSessionResponse :=
  let* session_uuid := uuid4 in ret (mkChatSessionResponse session_uuid []).

(** [create_or_get_chat_session] (lines 441-504).  Creating a session
    reads [user_context.DatabaseKnowledgeBaseId], an attribute
    [UserContext] does not have: the [AttributeError] is raised while
    the arguments of the [INSERT] are built, before it runs, and the
    [except] answers with another fresh identifier. *)
Definition create_or_get_chat_session (request : ChatUser) : CDB ChatSessionResponse :=
  try_catch
    (let* ids := ensure_ids request in
     match ids with
     | None => session_fallback
     | Some (user_id, company_id) =>
         let* ok := connection_available in
         if negb ok then session_fallback else
         fun s =>
           match latest_active_session user_id company_id s with
           | Some sess => (Ok (mkChatSessionResponse (cs_SessionUuid sess) (recent_messages (cs_Id sess) s)), s)
           | None => (let* _ := uuid4 in
                      raise "'UserContext' object has no attribute 'DatabaseKnowledgeBaseId'") s
           end
     end)
    (fun _ => session_fallback).

Definition not_persisted (why : string) : SaveReply :=
  mkSaveReply "success" None (Some ("message not persisted - " +:+ why)).

(** [save_chat_message] (lines 605-661).  [request.metadata.get(...)] on
    a JSON null raises [AttributeError] while the [INSERT]'s arguments
    are built. *)
Definition save_chat_message (request : ChatMessageRequest) : CDB SaveReply :=
  try_catch
    (let* ids := ensure_ids (msg_userContext request) in
     match ids with
     | None => ret (not_persisted "database unavailable")
     | Some (user_id, company_id) =>
         let* ok := connection_available in
         if negb ok then ret (not_persisted "database unavailable") else
         fun s =>
           match List.find (fun r => String.eqb (cs_SessionUuid r) (sessionId request)) (chat_sessions s) with
           | None => (Ok (mkSaveReply "error" (Some "Session not found") None), s)
           | Some sess =>
               match metadata request with
               | None => (Err "'NoneType' object has no attribute 'get'", s)
               | Some md =>
                   let row := mkMessageRow (next_message_id s) (cs_Id sess) user_id company_id (messageType request)
                                (content request) (default "{}" (md_metadata md)) (md_queryType md)
                                (md_endpointUsed md) (md_responseTime md) (chat_now s) in
                   let sessions := map (fun r => if Nat.eqb (cs_Id r) (cs_Id sess)
                                                 then mkSessionRow (cs_Id r) (cs_SessionUuid r) (cs_UserId r)
                                                        (cs_CompanyId r) (cs_KnowledgeBaseId r) (cs_IsActive r)
                                                        (cs_CreatedAt r) (chat_now s)
                                                 else r) (chat_sessions s) in
                   (Ok (mkSaveReply "success" (Some "Message saved") None),
                    set_chat sessions (chat_messages s ++ [row])%list (S (next_message_id s)) s)
               end
           end
     end)
    (fun _ => ret (not_persisted "error occurred")).

(** Time passing between requests. *)
Definition chat_tick (dt : Z) (s : ChatDB) : ChatDB :=
  {| application := application s; company := company s; user := user s; chat_sessions := chat_sessions s;
     chat_messages := chat_messages s; next_company_id := next_company_id s; next_user_id := next_user_id s;
     next_message_id := next_message_id s; chat_now := chat_now s + dt; connection_ok := connection_ok s;
     uuid_stream := uuid_stream s |}.

(** The chat database under the endpoints, time, and the availability of
    the connection changing. *)
Inductive chat_step : ChatDB -> ChatDB -> Prop :=
| chat_step_session uc s : chat_step s (snd (create_or_get_chat_session uc s))
| chat_step_message req s : chat_step s (snd (save_chat_message req s))
| chat_step_tick dt s : (0 <= dt)%Z -> chat_step s (chat_tick dt s).

(** What no endpoint step can change unless it writes a chat row: the
    chat tables, the registry and the connection. *)
Definition chat_frame (s s' : ChatDB) : Prop :=
  chat_sessions s' = chat_sessions s /\ chat_messages s' = chat_messages s /\
  application s' = application s /\ connection_ok s' = connection_ok s.

(** [c] relates its initial and final states by [R], whatever happens. *)
Definition preserves (R : ChatDB -> ChatDB -> Prop) {A} (c : CDB A) : Prop :=
  forall s r s', c s = (r, s') -> R s s'.

(** Ids handed out are never [0] (falsy in [if not user_id]). *)
Definition chat_wf (s : ChatDB) : Prop :=
  0 < next_company_id s /\ 0 < next_user_id s /\
  Forall (fun c => 0 < co_Id c) (company s) /\ Forall (fun u => 0 < u_Id u) (user s).

(** While there is no chat session, nothing of the frame changes. *)
Definition quiet (s s' : ChatDB) : Prop := chat_sessions s = [] -> chat_frame s s'.

(** Well-formed states stay well formed. *)
Definition wf_rel (s s' : ChatDB) : Prop := chat_wf s -> chat_wf s'.

(** ** Relations preserved by the endpoints *)

Section Preserves.
Context (R : ChatDB -> ChatDB -> Prop) `{!Reflexive R} `{!Transitive R}.

Lemma pres_ret {A} (a : A) : preserves R (ret a).
Proof. intros s r s' [= _ <-]. reflexivity. Qed.

Lemma pres_raise {A} msg : preserves R (A:=A) (raise msg).
Proof. intros s r s' [= _ <-]. reflexivity. Qed.

Lemma pres_bind {A B} (c : CDB A) (k : A -> CDB B) :
  preserves R c -> (forall a, preserves R (k a)) -> preserves R (bind c k).
Proof.
  intros Hc Hk s r s'. unfold bind. destruct (c s) as [[a|e] s1] eqn:E; intros Hr.
  - etransitivity; [exact (Hc _ _ _ E)|exact (Hk a _ _ _ Hr)].
  - injection Hr as _ <-. exact (Hc _ _ _ E).
Qed.

Lemma pres_try_catch {A} (c : CDB A) h :
  preserves R c -> (forall e, preserves R (h e)) -> preserves R (try_catch c h).
Proof.
  intros Hc Hh s r s'. unfold try_catch. destruct (c s) as [[a|e] s1] eqn:E; intros Hr.
  - injection Hr as _ <-. exact (Hc _ _ _ E).
  - etransitivity; [exact (Hc _ _ _ E)|exact (Hh e _ _ _ Hr)].
Qed.

Lemma pres_connection : preserves R connection_available.
Proof. intros s r s' [= _ <-]. reflexivity. Qed.

Context (Huuid : preserves R uuid4) (Hensure : forall uc s, R s (snd (ensure_user_and_company uc s))).

Lemma pres_ensure_ids uc : preserves R (ensure_ids uc).
Proof.
  intros s r s'. unfold ensure_ids. pose proof (Hensure uc s) as Hf.
  destruct (ensure_user_and_company uc s) as [[[uid cid]|] s1]; simpl in Hf;
    [destruct (_ || _)|]; intros [= _ <-]; done.
Qed.

Lemma pres_session_fallback : preserves R session_fallback.
Proof. apply pres_bind; [done|intros; apply pres_ret]. Qed.

Lemma pres_create_or_get_chat_session uc : preserves R (create_or_get_chat_session uc).
Proof.
  unfold create_or_get_chat_session. apply pres_try_catch; [|intros; apply pres_session_fallback].
  apply pres_bind; [apply pres_ensure_ids|]. intros [[uid cid]|]; [|apply pres_session_fallback].
  apply pres_bind; [apply pres_connection|]. intros []; [|apply pres_session_fallback].
  intros s r s'. simpl. destruct (latest_active_session uid cid s).
  - intros [= _ <-]. reflexivity.
  - apply (pres_bind uuid4 (fun _ => raise _)); [done|intros; apply pres_raise].
Qed.

End Preserves.

#[export] Instance chat_frame_refl : Reflexive chat_frame.
Proof. intros s. done. Qed.

#[export] Instance chat_frame_trans : Transitive chat_frame.
Proof. intros s1 s2 s3 (?&?&?&?) (?&?&?&?). repeat split; congruence. Qed.

#[export] Instance wf_rel_refl : Reflexive wf_rel.
Proof. intros s H. exact H. Qed.

#[export] Instance wf_rel_trans : Transitive wf_rel.
Proof. intros s1 s2 s3 H12 H23 H. auto. Qed.

Lemma frame_uuid4 : preserves chat_frame uuid4.
Proof. intros s r s'. unfold uuid4. destruct (uuid_stream s); intros [= _ <-]; done. Qed.

Lemma wf_uuid4 : preserves wf_rel uuid4.
Proof. intros s r s'. unfold uuid4. destruct (uuid_stream s); intros [= _ <-] H; exact H. Qed.

Lemma ensure_frame uc s : chat_frame s (snd (ensure_user_and_company uc s)).
Proof.
  unfold ensure_user_and_company. destruct (connection_ok s); [|done]. simpl.
  destruct (find_application _ _); [|done].
  destruct (List.find _ (company s)); simpl; destruct (List.find _ _); done.
Qed.

Lemma Forall_find {A} (P : A -> Prop) f l x : Forall P l -> List.find f l = Some x -> P x.
Proof. intros Hl Hf%find_some. rewrite List.Forall_forall in Hl. apply Hl, Hf. Qed.

Lemma ensure_wf uc s : wf_rel s (snd (ensure_user_and_company uc s)).
Proof.
  intros (Hc & Hu & Hcs & Hus). unfold ensure_user_and_company. destruct (connection_ok s); [|done]. simpl.
  destruct (find_application _ _); [|done].
  destruct (List.find _ (company s)); simpl; destruct (List.find _ _); repeat split; simpl;
    first [ lia | done
          | apply List.Forall_map; eapply List.Forall_impl; [|exact Hus]; intros w; simpl;
            by destruct (Nat.eqb _ _)
          | apply Forall_app; split; [done|repeat constructor; simpl; lia] ].
Qed.

Lemma frame_ensure_ids uc : preserves chat_frame (ensure_ids uc).
Proof. eapply pres_ensure_ids, ensure_frame. Qed.

Lemma frame_create uc : preserves chat_frame (create_or_get_chat_session uc).
Proof. apply pres_create_or_get_chat_session; [apply _..|apply frame_uuid4|apply ensure_frame]. Qed.

Lemma wf_create uc : preserves wf_rel (create_or_get_chat_session uc).
Proof. apply pres_create_or_get_chat_session; [apply _..|apply wf_uuid4|apply ensure_wf]. Qed.

(** [/chat/session] never writes a chat
    session or message, whatever the request and the database: when the
    user has no active session the [AttributeError] of the [INSERT]
    arguments sends it to the fallback, which answers with a fresh
    identifier that is stored nowhere. *)
Theorem create_session_never_inserts (uc : ChatUser) (s : ChatDB) :
  chat_sessions (snd (create_or_get_chat_session uc s)) = chat_sessions s /\
  chat_messages (snd (create_or_get_chat_session uc s)) = chat_messages s.
Proof.
  destruct (create_or_get_chat_session uc s) as [r s'] eqn:E.
  destruct (frame_create uc _ _ _ E) as (H1 & H2 & _). done.
Qed.

(** ** Saving a message *)

#[export] Instance quiet_refl : Reflexive quiet.
Proof. intros s _. reflexivity. Qed.

#[export] Instance quiet_trans : Transitive quiet.
Proof.
  intros s1 s2 s3 H12 H23 H1. pose proof (H12 H1) as [Hs ?].
  transitivity s2; [done|]. apply H23. congruence.
Qed.

Lemma find_session_nil f s : chat_sessions s = [] -> List.find f (chat_sessions s) = None.
Proof. by intros ->. Qed.

Lemma quiet_save req : preserves quiet (save_chat_message req).
Proof.
  unfold save_chat_message. apply pres_try_catch; [apply _..| |intros; apply pres_ret; apply _].
  apply pres_bind; [apply _..| |].
  - intros s r s' E Hs. exact (frame_ensure_ids _ _ _ _ E).
  - intros [[uid cid]|]; [|apply pres_ret; apply _].
    apply pres_bind; [apply _..|apply pres_connection; apply _|]. intros []; [|apply pres_ret; apply _].
    intros s r s' E Hs. simpl in E. rewrite find_session_nil in E by done. by injection E as _ <-.
Qed.

Lemma quiet_step s s' : chat_step s s' -> quiet s s'.
Proof.
  destruct 1 as [uc s|req s|dt s _].
  - intros _. destruct (create_or_get_chat_session uc s) as [r s1] eqn:E. exact (frame_create uc _ _ _ E).
  - destruct (save_chat_message req s) as [r s1] eqn:E. exact (quiet_save req _ _ _ E).
  - intros _. done.
Qed.

(** Starting from a chat database without
    sessions, no sequence of [/chat/session] and [/chat/message] requests
    (whatever the users, payloads, connection state and time) ever
    records a session or a message: sessions are never created, and a
    message needs an existing session. *)
Theorem chat_history_never_recorded (s s' : ChatDB) :
  rtc chat_step s s' -> chat_sessions s = [] ->
  chat_sessions s' = [] /\ chat_messages s' = chat_messages s.
Proof.
  induction 1 as [s|s1 s2 s3 H12 _ IH]; [done|]. intros H1.
  destruct (quiet_step _ _ H12 H1) as (Hs & Hm & _). destruct IH as [IH1 IH2]; [congruence|].
  split; congruence.
Qed.

(** ** A session id handed out for a new session *)

Lemma ensure_ids_some uc s :
  chat_wf s -> connection_ok s = true -> find_application (application_name uc) s <> None ->
  exists uid cid s', ensure_ids uc s = (Ok (Some (uid, cid)), s').
Proof.
  intros (Hc & Hu & Hcs & Hus) Hok Hfa. unfold ensure_ids, ensure_user_and_company. rewrite Hok. simpl.
  destruct (find_application _ _); [|done].
  destruct (List.find _ (company s)) as [c|] eqn:Ec; [pose proof (Forall_find _ _ _ _ Hcs Ec)|];
    unfold set_company; simpl in *;
    destruct (List.find _ (user s)) as [w|] eqn:Ew; try pose proof (Forall_find _ _ _ _ Hus Ew); cbv beta in *; simpl;
    match goal with
    | |- context [((?a =? 0)%nat || (?b =? 0)%nat)%bool] =>
        replace ((a =? 0)%nat || (b =? 0)%nat)%bool with false
          by (symmetry; apply orb_false_iff; split; apply Nat.eqb_neq; lia)
    end; eauto.
Qed.

Lemma find_not_in {A} (f : A -> string) x l :
  ~ In x (map f l) -> List.find (fun r => String.eqb (f r) x) l = None.
Proof.
  induction l as [|a l IH]; simpl; [done|]. intros Hn.
  destruct (String.eqb_spec (f a) x); [tauto|]. apply IH. tauto.
Qed.

(** C35: when [/chat/session] answers with an
    identifier that names no stored session (the case of every new
    session, see [create_session_never_inserts]), a following
    [/chat/message] with that identifier, for a user of a registered
    application, is refused with "Session not found" and stores no
    message. *)
Theorem new_session_id_unusable (uc : ChatUser) (req : ChatMessageRequest) (s s1 : ChatDB)
    (resp : ChatSessionResponse) :
  chat_wf s -> connection_ok s = true -> find_application (application_name (msg_userContext req)) s <> None ->
  create_or_get_chat_session uc s = (Ok resp, s1) ->
  ~ In (resp_sessionId resp) (map cs_SessionUuid (chat_sessions s)) ->
  sessionId req = resp_sessionId resp ->
  fst (save_chat_message req s1) = Ok (mkSaveReply "error" (Some "Session not found") None) /\
  chat_messages (snd (save_chat_message req s1)) = chat_messages s.
Proof.
  intros Hwf Hok Hfa Hc Hnew Hid.
  destruct (frame_create uc _ _ _ Hc) as (Hs1 & Hm1 & Ha1 & Ho1). pose proof (wf_create uc _ _ _ Hc Hwf) as Hwf1.
  destruct (ensure_ids_some (msg_userContext req) s1) as (uid & cid & s2 & E);
    [done|congruence|by unfold find_application; rewrite Ha1|].
  destruct (frame_ensure_ids _ _ _ _ E) as (Hs2 & Hm2 & _ & Ho2).
  unfold save_chat_message, try_catch, bind. rewrite E. simpl. rewrite Ho2, Ho1, Hok. simpl.
  rewrite Hs2, Hs1, Hid, find_not_in by done. simpl. split; [done|congruence].
Qed.

(** ** [ensure_user_and_company] is an upsert *)

Lemma find_app_none {A} (p : A -> bool) l x :
  List.find p l = None -> List.find p (l ++ [x])%list = if p x then Some x else None.
Proof. induction l as [|y l IH]; simpl; [done|]. destruct (p y); [done|apply IH]. Qed.

Lemma find_map_pred {A} (p : A -> bool) f l :
  (forall x, p (f x) = p x) -> List.find p (map f l) = option_map f (List.find p l).
Proof. intros Hf. induction l as [|y l IH]; simpl; [done|]. rewrite Hf. destruct (p y); [done|apply IH]. Qed.

(** Touching [LastActiveAt] keeps what the user lookup reads. *)
Lemma touch_keeps_lookup (login : string) (cid uid : nat) (now : Z) (r : UserRow) :
  (let r' := if Nat.eqb (u_Id r) uid
             then mkUserRow (u_Id r) (u_LoginId r) (u_Email r) (u_FirstName r) (u_LastName r) (u_CompanyId r) (Some now)
             else r in
   (String.eqb (u_LoginId r') login && Nat.eqb (u_CompanyId r') cid, u_Id r'))
  = (String.eqb (u_LoginId r) login && Nat.eqb (u_CompanyId r) cid, u_Id r).
Proof. simpl. by destruct (Nat.eqb (u_Id r) uid). Qed.

(** The user half of the upsert, on a state whose company lookup gives
    [cid]: a second run finds the user the first run found or inserted. *)
Lemma ensure_user_again uc cid s :
  let p := fun u => String.eqb (u_LoginId u) (loginId uc) && Nat.eqb (u_CompanyId u) cid in
  forall uid s1,
  match List.find p (user s) with
  | None => (Some (next_user_id s, cid),
             set_user (user s ++ [mkUserRow (next_user_id s) (loginId uc) (email uc) (firstName uc) (lastName uc) cid None])%list
                      (S (next_user_id s)) s)
  | Some u => (Some (u_Id u, cid),
               set_user (map (fun r => if Nat.eqb (u_Id r) (u_Id u)
                                       then mkUserRow (u_Id r) (u_LoginId r) (u_Email r) (u_FirstName r) (u_LastName r)
                                                      (u_CompanyId r) (Some (chat_now s))
                                       else r) (user s)) (next_user_id s) s)
  end = (Some (uid, cid), s1) ->
  exists w, List.find p (user s1) = Some w /\ u_Id w = uid.
Proof.
  intros p uid s1. destruct (List.find p (user s)) as [w|] eqn:Ew; intros [= <- <-]; simpl.
  - rewrite find_map_pred, Ew by (intros r; exact (f_equal fst (touch_keeps_lookup _ _ _ _ r))).
    eexists; split; [reflexivity|]. simpl. by destruct (Nat.eqb (u_Id w) (u_Id w)).
  - rewrite find_app_none by done. subst p. simpl. rewrite String.eqb_refl, Nat.eqb_refl. by eexists.
Qed.

Lemma map_touch_ids (uid : nat) (now : Z) (l : list UserRow) :
  map u_Id (map (fun r => if Nat.eqb (u_Id r) uid
                          then mkUserRow (u_Id r) (u_LoginId r) (u_Email r) (u_FirstName r) (u_LastName r)
                                         (u_CompanyId r) (Some now)
                          else r) l) = map u_Id l.
Proof. rewrite map_map. apply List.map_ext. intros r. by destruct (Nat.eqb (u_Id r) uid). Qed.

(** [ensure_user_and_company] is an
    upsert: run again on the state it produced, it returns the same user
    and company ids, inserts no company and no user (it only touches the
    user's [LastActiveAt]). *)
Theorem ensure_user_and_company_idempotent (uc : ChatUser) (s s1 : ChatDB) (uid cid : nat) :
  ensure_user_and_company uc s = (Some (uid, cid), s1) ->
  exists s2, ensure_user_and_company uc s1 = (Some (uid, cid), s2) /\
    company s2 = company s1 /\ map u_Id (user s2) = map u_Id (user s1).
Proof.
  intros H. pose proof (ensure_frame uc s) as (_ & _ & Fa & Fo). rewrite H in Fa, Fo. cbn in Fa, Fo.
  unfold ensure_user_and_company in H |- *. rewrite Fo. destruct (connection_ok s); [|discriminate]. cbn in H |- *.
  unfold find_application in H |- *. rewrite Fa. destruct (List.find _ (application s)) as [app|]; [|discriminate].
  destruct (List.find _ (company s)) as [c|] eqn:Ec; cbn iota beta zeta in H.
  - assert (cid = co_Id c /\ company s1 = company s) as [-> Hco]
      by (destruct (List.find _ (user s)); injection H as _ <- <-; done).
    destruct (ensure_user_again uc (co_Id c) s uid s1 H) as (w & Hw & <-).
    rewrite Hco, Ec. cbn iota beta zeta. rewrite Hw. eexists. split; [reflexivity|]. split; [done|].
    apply map_touch_ids.
  - set (sc := set_company _ _ s) in H.
    assert (cid = next_company_id s /\ company s1 = company sc) as [-> Hco]
      by (destruct (List.find _ (user sc)); injection H as _ <- <-; done).
    destruct (ensure_user_again uc (next_company_id s) sc uid s1 H) as (w & Hw & <-).
    rewrite Hco. subst sc. cbn [company set_company]. rewrite find_app_none by done. cbn.
    rewrite String.eqb_refl. cbn iota beta zeta. cbn [co_Id]. rewrite Hw. eexists. split; [reflexivity|]. split; [done|].
    apply map_touch_ids.
Qed.

(** ** The paths of [/chat/message] *)

(** Once the user is ensured, the connection is up and the session is
    found, the endpoint either inserts the message or, on a null
    [metadata], falls into its [except]. *)
Lemma save_chat_message_found req s uid cid s1 sess :
  ensure_ids (msg_userContext req) s = (Ok (Some (uid, cid)), s1) -> connection_ok s1 = true ->
  List.find (fun r => String.eqb (cs_SessionUuid r) (sessionId req)) (chat_sessions s1) = Some sess ->
  save_chat_message req s =
    match metadata req with
    | None => (Ok (not_persisted "error occurred"), s1)
    | Some md =>
        (Ok (mkSaveReply "success" (Some "Message saved") None),
         set_chat (map (fun r => if Nat.eqb (cs_Id r) (cs_Id sess)
                                 then mkSessionRow (cs_Id r) (cs_SessionUuid r) (cs_UserId r) (cs_CompanyId r)
                                        (cs_KnowledgeBaseId r) (cs_IsActive r) (cs_CreatedAt r) (chat_now s1)
                                 else r) (chat_sessions s1))
                  (chat_messages s1 ++ [mkMessageRow (next_message_id s1) (cs_Id sess) uid cid (messageType req)
                                          (content req) (default "{}" (md_metadata md)) (md_queryType md)
                                          (md_endpointUsed md) (md_responseTime md) (chat_now s1)])%list
                  (S (next_message_id s1)) s1)
    end.
Proof.
  intros E Hok Hf. unfold save_chat_message, try_catch, bind. rewrite E. simpl. rewrite Hok. simpl.
  rewrite Hf. by destruct (metadata req).
Qed.

(** The common hypotheses: a well-formed database, reachable, the
    sender's application registered, and the session stored. *)
Lemma save_chat_message_setup req s sess :
  chat_wf s -> connection_ok s = true -> find_application (application_name (msg_userContext req)) s <> None ->
  List.find (fun r => String.eqb (cs_SessionUuid r) (sessionId req)) (chat_sessions s) = Some sess ->
  exists uid cid s1, save_chat_message req s =
    match metadata req with
    | None => (Ok (not_persisted "error occurred"), s1)
    | Some md =>
        (Ok (mkSaveReply "success" (Some "Message saved") None),
         set_chat (map (fun r => if Nat.eqb (cs_Id r) (cs_Id sess)
                                 then mkSessionRow (cs_Id r) (cs_SessionUuid r) (cs_UserId r) (cs_CompanyId r)
                                        (cs_KnowledgeBaseId r) (cs_IsActive r) (cs_CreatedAt r) (chat_now s1)
                                 else r) (chat_sessions s1))
                  (chat_messages s1 ++ [mkMessageRow (next_message_id s1) (cs_Id sess) uid cid (messageType req)
                                          (content req) (default "{}" (md_metadata md)) (md_queryType md)
                                          (md_endpointUsed md) (md_responseTime md) (chat_now s1)])%list
                  (S (next_message_id s1)) s1)
    end /\ chat_frame s s1.
Proof.
  intros Hwf Hok Hfa Hf. destruct (ensure_ids_some _ _ Hwf Hok Hfa) as (uid & cid & s1 & E).
  pose proof (frame_ensure_ids _ _ _ _ E) as Hfr. destruct Hfr as (Hs & Hm & Ha & Ho).
  exists uid, cid, s1. split; [|done]. apply save_chat_message_found; [done|congruence|congruence].
Qed.

(** A message for a stored session, with
    a JSON object as [metadata], is saved as exactly one new row linked
    to that session, carrying its type, content and [metadata] field
    (["{}"] when absent); no other message changes. *)
Theorem save_chat_message_stores_one (req : ChatMessageRequest) (s : ChatDB) (sess : SessionRow) (md : Metadata) :
  chat_wf s -> connection_ok s = true -> find_application (application_name (msg_userContext req)) s <> None ->
  List.find (fun r => String.eqb (cs_SessionUuid r) (sessionId req)) (chat_sessions s) = Some sess ->
  metadata req = Some md ->
  fst (save_chat_message req s) = Ok (mkSaveReply "success" (Some "Message saved") None) /\
  exists row, chat_messages (snd (save_chat_message req s)) = (chat_messages s ++ [row])%list /\
    cm_SessionId row = cs_Id sess /\ cm_MessageType row = messageType req /\ cm_Content row = content req /\
    cm_Metadata row = default "{}" (md_metadata md).
Proof.
  intros Hwf Hok Hfa Hf Hmd. destruct (save_chat_message_setup req s sess) as (uid & cid & s1 & E & _ & Hm & _);
    [done..|]. rewrite E, Hmd. split; [done|]. simpl. rewrite Hm. by eexists.
Qed.

(** A message whose [metadata] is
    JSON null, for a stored session, is not saved, yet the endpoint
    answers with status "success" (and a note), so the client cannot tell
    it was lost. *)
Theorem save_null_metadata_reports_success (req : ChatMessageRequest) (s : ChatDB) (sess : SessionRow) :
  chat_wf s -> connection_ok s = true -> find_application (application_name (msg_userContext req)) s <> None ->
  List.find (fun r => String.eqb (cs_SessionUuid r) (sessionId req)) (chat_sessions s) = Some sess ->
  metadata req = None ->
  fst (save_chat_message req s) = Ok (mkSaveReply "success" None (Some "message not persisted - error occurred")) /\
  chat_messages (snd (save_chat_message req s)) = chat_messages s.
Proof.
  intros Hwf Hok Hfa Hf Hmd. destruct (save_chat_message_setup req s sess) as (uid & cid & s1 & E & _ & Hm & _);
    [done..|]. rewrite E, Hmd. done.
Qed.

(** ** Witnesses *)

Definition sample_session : SessionRow := mkSessionRow 1 "sess-1" 1 1 "KBDB" true 100 100.

Definition sample_db : ChatDB :=
  {| application := [mkAppRow 1 "epic" true "KBDB" (Some "KBSUP") None];
     company := [mkCompanyRow 1 "ACME" "Acme Inc" "retail" "db.acme" "public" 1];
     user := [mkUserRow 1 "jdoe" "jdoe@acme.test" "Jane" "Doe" 1 None];
     chat_sessions := [sample_session]; chat_messages := [];
     next_company_id := 2; next_user_id := 2; next_message_id := 1; chat_now := 200;
     connection_ok := true; uuid_stream := ["u-1"; "u-2"; "u-3"] |}.

Definition sample_db_no_sessions : ChatDB := set_chat [] [] 1 sample_db.

Definition known_user : ChatUser :=
  mkChatUser "jdoe" "jdoe@acme.test" "Jane" "Doe" "ACME" "Acme Inc" "retail" "db.acme" "public" "epic".

Definition new_user : ChatUser :=
  mkChatUser "asmith" "asmith@acme.test" "Alex" "Smith" "ACME" "Acme Inc" "retail" "db.acme" "public" "epic".

Definition sample_metadata : Metadata := mkMetadata None (Some "sql") (Some "/query") (Some "120").

Definition message_to (sid : string) (md : option Metadata) (uc : ChatUser) : ChatMessageRequest :=
  mkChatMessageRequest sid "user" "show me the orders" md uc.

Lemma sample_db_wf : chat_wf sample_db.
Proof. repeat split; repeat constructor. Qed.

Lemma new_session_id_unusable_witness :
  fst (save_chat_message (message_to "u-2" (Some sample_metadata) new_user)
                         (snd (create_or_get_chat_session new_user sample_db)))
    = Ok (mkSaveReply "error" (Some "Session not found") None) /\
  chat_messages (snd (save_chat_message (message_to "u-2" (Some sample_metadata) new_user)
                                        (snd (create_or_get_chat_session new_user sample_db))))
    = chat_messages sample_db.
Proof.
  apply (new_session_id_unusable new_user (message_to "u-2" (Some sample_metadata) new_user) sample_db _ (mkChatSessionResponse "u-2" []));
    [apply sample_db_wf|reflexivity|vm_compute; discriminate|vm_compute; reflexivity|
     simpl; intros [H|[]]; discriminate|reflexivity].
Defined.

Lemma chat_history_never_recorded_witness :
  let s1 := snd (create_or_get_chat_session known_user sample_db_no_sessions) in
  let s2 := snd (save_chat_message (message_to "u-1" (Some sample_metadata) known_user) s1) in
  chat_sessions s2 = [] /\ chat_messages s2 = chat_messages sample_db_no_sessions.
Proof.
  apply chat_history_never_recorded; [|reflexivity].
  eapply rtc_l; [apply chat_step_session|]. eapply rtc_l; [apply chat_step_message|]. apply rtc_refl.
Defined.

Lemma ensure_user_and_company_idempotent_witness :
  exists s2, ensure_user_and_company new_user (snd (ensure_user_and_company new_user sample_db)) = (Some (2, 1), s2) /\
    company s2 = company (snd (ensure_user_and_company new_user sample_db)) /\
    map u_Id (user s2) = map u_Id (user (snd (ensure_user_and_company new_user sample_db))).
Proof. apply (ensure_user_and_company_idempotent new_user sample_db). vm_compute. reflexivity. Defined.

Lemma save_chat_message_stores_one_witness :
  fst (save_chat_message (message_to "sess-1" (Some sample_metadata) known_user) sample_db)
    = Ok (mkSaveReply "success" (Some "Message saved") None) /\
  exists row, chat_messages (snd (save_chat_message (message_to "sess-1" (Some sample_metadata) known_user) sample_db))
      = (chat_messages sample_db ++ [row])%list /\
    cm_SessionId row = cs_Id sample_session /\ cm_MessageType row = "user" /\
    cm_Content row = "show me the orders" /\ cm_Metadata row = default "{}" (md_metadata sample_metadata).
Proof.
  apply (save_chat_message_stores_one (message_to "sess-1" (Some sample_metadata) known_user) sample_db sample_session sample_metadata);
    [apply sample_db_wf|reflexivity|vm_compute; discriminate|vm_compute; reflexivity|reflexivity].
Defined.

Lemma save_null_metadata_reports_success_witness :
  fst (save_chat_message (message_to "sess-1" None known_user) sample_db)
    = Ok (mkSaveReply "success" None (Some "message not persisted - error occurred")) /\
  chat_messages (snd (save_chat_message (message_to "sess-1" None known_user) sample_db)) = chat_messages sample_db.
Proof.
  apply (save_null_metadata_reports_success (message_to "sess-1" None known_user) sample_db sample_session);
    [apply sample_db_wf|reflexivity|vm_compute; discriminate|vm_compute; reflexivity|reflexivity].
Defined.

(** A returning user gets the stored session back, with its messages in
    chronological order. *)
Example existing_session_returned :
  fst (create_or_get_chat_session known_user
         (snd (save_chat_message (message_to "sess-1" (Some sample_metadata) known_user) sample_db)))
    = Ok (mkChatSessionResponse "sess-1" [mkMessageView "user" "show me the orders" 200 "{}"]).
Proof. vm_compute. reflexivity. Qed.

End Chat.
