(* ===== verification/Catalog.v ===== *)
(** * The query catalog deduplicator (src/extract_deduplicated.py)

    The offline script reads the markdown documentation of every
    recorded query, extracts the SQL of its "Embedding-Ready Query"
    section, and builds a catalog in which queries that differ only in
    case and whitespace are one entry, with the databases (the [epic...]
    prefixes of the file names) where each was seen.

    The regular expressions are scanners written out with Python's
    [re] semantics (leftmost match, greedy [\s*], [\w+], lazy [.*?]);
    the MD5 digest of the normalised query is modelled by the normalised
    query itself (MD5 taken collision-free); Python dicts are association
    lists in insertion order; a file that cannot be read (the [open] or
    [read] of line 93 raising) is a [FileEntry] without content. *)

From S2P Require Import Prelude PyStr.
From stdpp Require Import gmap.
From Stdlib Require Import Ascii.

Open Scope string_scope.

Module Catalog.
Import PyStr.

(** ** The regular expressions *)

Definition embedding_header : string := "## Embedding-Ready Query".
Definition fence_sql : string := "```sql".
Definition fence : string := "```".

(** The text before the first occurrence of [sub] in [s], if any: the
    lazy [(.*?)] followed by [sub]. *)
Fixpoint before_first (sub s : string) : option string :=
  if String.prefix sub s then Some EmptyString else
  match s with
  | EmptyString => None
  | String c s' => option_map (String c) (before_first sub s')
  end.

(** [## Embedding-Ready Query\s*```sql\s*(.*?)```] anchored at the start
    of [s], with [re.DOTALL].  The greedy [\s*] are followed by a
    backquote, which no backtracking into them can supply. *)
Definition embedding_match_at (s : string) : option string :=
  if String.prefix embedding_header s then
    let r := drop_while is_space (sdrop (String.length embedding_header) s) in
    if String.prefix fence_sql r
    then before_first fence (drop_while is_space (sdrop (String.length fence_sql) r))
    else None
  else None.

(** [re.search]: the leftmost position where the pattern matches. *)
Fixpoint search_embedding (s : string) : option string :=
  match embedding_match_at s with
  | Some q => Some q
  | None => match s with EmptyString => None | String _ s' => search_embedding s' end
  end.

(** [extract_embedding_query] (lines 10-16) *)
Definition extract_embedding_query (content : string) : option string :=
  option_map strip (search_embedding content).

(** The greedy [\w+] of [epic(\w+)_query_] gives back characters one at a
    time until [_query_] follows: the longest length [n <= max] after
    which [r] continues with [_query_]. *)
Fixpoint query_split (n : nat) (r : string) : option nat :=
  match n with
  | O => None
  | S k => if String.prefix "_query_" (sdrop n r) then Some n else query_split k r
  end.

(** [extract_database_from_filename] (lines 18-24): [re.match] anchors at
    the start of the name. *)
Definition extract_database_from_filename (filename : string) : string :=
  if String.prefix "epic" filename then
    let r := sdrop 4 filename in
    match query_split (String.length (take_while is_word r)) r with
    | Some n => "epic" +:+ String.substring 0 n r
    | None => "unknown"
    end
  else "unknown".

(** [re.sub(r'\s+', ' ', s)]: every maximal run of whitespace becomes one
    space. *)
Fixpoint collapse_ws (in_ws : bool) (s : string) : string :=
  match s with
  | EmptyString => EmptyString
  | String c s' =>
      if is_space c
      then if in_ws then collapse_ws true s' else String " "%char (collapse_ws true s')
      else String c (collapse_ws false s')
  end.

(** The normalisation of [hash_query] (line 32). *)
Definition normalize_query (sql_query : string) : string :=
  collapse_ws false (lower (strip sql_query)).

(** [hash_query] (lines 26-33): the digest of the normalised query, for a
    non-empty query. *)
Definition hash_query (sql_query : string) : option string :=
  if String.eqb sql_query "" then None else Some (normalize_query sql_query).

(** [KW\s+(\w+)] with [re.IGNORECASE] at the start of [s], for a
    lower-case keyword: the captured name and the length of the match.
    The greedy [\s+] is followed by a word character, which no
    backtracking into it can supply. *)
Definition kw_word_at (kw s : string) : option (string * nat) :=
  if String.prefix kw (lower s) then
    let r := sdrop (String.length kw) s in
    let ws := take_while is_space r in
    let name := take_while is_word (drop_while is_space r) in
    if String.eqb ws "" || String.eqb name "" then None
    else Some (name, (String.length kw + String.length ws + String.length name)%nat)
  else None.

(** [re.search(KW\s+(\w+), s, re.IGNORECASE).group(1)] *)
Fixpoint search_kw (kw s : string) : option string :=
  match kw_word_at kw s with
  | Some (name, _) => Some name
  | None => match s with EmptyString => None | String _ s' => search_kw kw s' end
  end.

(** [re.findall(KW\s+(\w+), s, re.IGNORECASE)]: the scan resumes after
    each match; [skip] counts the characters of a match still to pass. *)
Fixpoint findall_kw (kw : string) (skip : nat) (s : string) : list string :=
  match s with
  | EmptyString => []
  | String _ s' =>
      match skip with
      | S k => findall_kw kw k s'
      | O =>
          match kw_word_at kw s with
          | Some (name, n) => name :: findall_kw kw (n - 1) s'
          | None => findall_kw kw 0 s'
          end
      end
  end.

(** [identify_main_table] (lines 35-44) *)
Definition identify_main_table (sql_query : string) : option string :=
  if String.eqb sql_query "" then None else search_kw "from" sql_query.

(** [x in seen] for a list of strings. *)
Definition mem (x : string) (seen : list string) : bool := existsb (String.eqb x) seen.

(** [list(dict.fromkeys(...))] on keys computed by [key]: the first
    element of each key, in order; [seen] are the keys already in the
    dict. *)
Fixpoint fromkeys_by {A} (key : A -> string) (seen : list string) (l : list A) : list A :=
  match l with
  | [] => []
  | x :: l' => if mem (key x) seen then fromkeys_by key seen l' else x :: fromkeys_by key (key x :: seen) l'
  end.

Definition dict_fromkeys (l : list string) : list string := fromkeys_by (fun x => x) [] l.

(** [extract_all_tables] (lines 46-65) *)
Definition extract_all_tables (sql_query : string) : list string :=
  if String.eqb sql_query "" then [] else
  dict_fromkeys ((match search_kw "from" sql_query with Some t => [t] | None => [] end)
                 ++ findall_kw "join" 0 sql_query).

(** ** The extraction loop of [main] (lines 67-137) *)

(** A markdown file of the queries directory: its name and, when it can
    be read as UTF-8, its content. *)
Record FileEntry := mkFileEntry { file_name : string; file_content : option string }.

(** The entry of [unique_queries] (lines 116-122). *)
Record QueryInfo := mkQueryInfo {
  query_hash : string;
  main_table : option string;
  all_tables : list string;
  embedding_ready_query : string;
  databases : list string
}.

(** The variables of the loop: the dict [unique_queries] and the
    [defaultdict(set)] [database_tracking], both in insertion order (a
    set as a duplicate-free list), and the three counters. *)
Record LoopState := mkLoopState {
  unique_queries : list (string * QueryInfo);
  database_tracking : list (string * list string);
  processed_files : nat;
  files_with_queries : nat;
  duplicate_count : nat
}.

Definition empty_loop : LoopState := mkLoopState [] [] 0 0 0.

Fixpoint assoc {A} (k : string) (l : list (string * A)) : option A :=
  match l with
  | [] => None
  | (k', v) :: l' => if String.eqb k k' then Some v else assoc k l'
  end.

(** [d[k] = f(d.get(k))]: in place when [k] is a key, appended otherwise. *)
Fixpoint assoc_update {A} (k : string) (f : option A -> A) (l : list (string * A)) : list (string * A) :=
  match l with
  | [] => [(k, f None)]
  | (k', v) :: l' => if String.eqb k k' then (k', f (Some v)) :: l' else (k', v) :: assoc_update k f l'
  end.

(** [s.add(x)] *)
Definition set_add (x : string) (l : list string) : list string :=
  if mem x l then l else l ++ [x].

(** One iteration of the loop (lines 92-133), for a file that was read. *)
Definition process_content (st : LoopState) (name content : string) : LoopState :=
  let processed := S (processed_files st) in
  let database := extract_database_from_filename name in
  match extract_embedding_query content with
  | Some q =>
      if String.eqb q "" then
        mkLoopState (unique_queries st) (database_tracking st) processed (files_with_queries st) (duplicate_count st)
      else
        let fwq := S (files_with_queries st) in
        match hash_query q with
        | None => mkLoopState (unique_queries st) (database_tracking st) processed fwq (duplicate_count st)
        | Some h =>
            let tracking := assoc_update h (fun o => set_add database (default [] o)) (database_tracking st) in
            match assoc h (unique_queries st) with
            | None =>
                let info := mkQueryInfo h (identify_main_table q) (extract_all_tables q) q [] in
                mkLoopState (unique_queries st ++ [(h, info)]) tracking processed fwq (duplicate_count st)
            | Some _ => mkLoopState (unique_queries st) tracking processed fwq (S (duplicate_count st))
            end
        end
  | None => mkLoopState (unique_queries st) (database_tracking st) processed (files_with_queries st) (duplicate_count st)
  end.

(** The [try]/[except] of the loop: a file whose reading raises only
    prints an error. *)
Definition process_file (st : LoopState) (f : FileEntry) : LoopState :=
  match file_content f with
  | Some content => process_content st (file_name f) content
  | None => st
  end.

Definition extraction_loop (md_files : list FileEntry) : LoopState :=
  fold_left process_file md_files empty_loop.

(** [sorted(list(s))] on strings: insertion sort by code points. *)
Fixpoint insert_str (x : string) (l : list string) : list string :=
  match l with
  | [] => [x]
  | y :: l' => if String.leb x y then x :: y :: l' else y :: insert_str x l'
  end.

Definition sort_strings (l : list string) : list string := fold_right insert_str [] l.

(** Lines 136-137: each entry gets the sorted databases of its hash. *)
Definition with_databases (tracking : list (string * list string)) (e : string * QueryInfo) : QueryInfo :=
  let '(h, q) := e in
  mkQueryInfo (query_hash q) (main_table q) (all_tables q) (embedding_ready_query q)
              (sort_strings (default [] (assoc h tracking))).

(** [table_counts] (lines 153-157), in insertion order. *)
Definition table_counts (queries : list QueryInfo) : list (string * nat) :=
  fold_left (fun acc q => match main_table q with
                          | Some t => if String.eqb t "" then acc else assoc_update t (fun o => S (default 0 o)) acc
                          | None => acc
                          end) queries [].

(** [sorted(..., key=lambda x: x[1], reverse=True)]: stable, descending. *)
Fixpoint insert_by_count (x : string * nat) (l : list (string * nat)) : list (string * nat) :=
  match l with
  | [] => [x]
  | y :: l' => if (y.2 <? x.2)%nat then x :: y :: l' else y :: insert_by_count x l'
  end.

Definition sort_by_count (l : list (string * nat)) : list (string * nat) :=
  fold_left (fun acc x => insert_by_count x acc) l [].

(** [database_counts] (lines 147-150).  The order in which Python
    iterates a set is not determined by the program, so the summary is a
    map; the counts do not depend on that order. *)
Definition database_counts (tracking : list (string * list string)) : gmap string nat :=
  fold_left (fun m e => fold_left (fun m db => <[db := S (default 0 (m !! db))]> m) e.2 m) tracking ∅.

Record CatalogMetadata := mkCatalogMetadata {
  total_files : nat;
  meta_processed_files : nat;
  meta_files_with_queries : nat;
  meta_unique_queries : nat;
  duplicate_queries_removed : nat;
  extraction_date : string
}.

Record QueryCatalog := mkQueryCatalog {
  catalog_metadata : CatalogMetadata;
  queries : list QueryInfo;
  table_summary : list (string * nat);
  database_summary : gmap string nat
}.

(** [main] (lines 67-176): no catalog when the directory does not exist. *)
Definition main (dir_exists : bool) (md_files : list FileEntry) : option QueryCatalog :=
  if negb dir_exists then None else
  let st := extraction_loop md_files in
  let qs := map (with_databases (database_tracking st)) (unique_queries st) in
  Some (mkQueryCatalog
          (mkCatalogMetadata (length md_files) (processed_files st) (files_with_queries st)
                             (length (unique_queries st)) (duplicate_count st) "2025-05-23")
          qs (sort_by_count (table_counts qs)) (database_counts (database_tracking st))).

(** ** The catalog as a grouping of the files' keys

    A readable file whose extracted query is non-empty contributes a key:
    the normalised query (the dict key), the database of its name, and
    the query itself. *)
Abbreviation Key := (string * string * string)%type.

Definition key_hash (k : Key) : string := k.1.1.
Definition key_db (k : Key) : string := k.1.2.
Definition key_query (k : Key) : string := k.2.

Definition file_key (f : FileEntry) : option Key :=
  match file_content f with
  | Some content =>
      match extract_embedding_query content with
      | Some q => if String.eqb q "" then None
                  else Some (normalize_query q, extract_database_from_filename (file_name f), q)
      | None => None
      end
  | None => None
  end.

Definition option_list {A} (o : option A) : list A := match o with Some x => [x] | None => [] end.

Definition keys (files : list FileEntry) : list Key := flat_map (fun f => option_list (file_key f)) files.

Definition readable (f : FileEntry) : bool := match file_content f with Some _ => true | None => false end.

Definition new_info (k : Key) : QueryInfo :=
  mkQueryInfo (key_hash k) (identify_main_table (key_query k)) (extract_all_tables (key_query k)) (key_query k) [].

(** The databases of a hash, in the order they were first seen. *)
Definition dbs_of (h : string) (ks : list Key) : list string :=
  dict_fromkeys (map key_db (List.filter (fun k => String.eqb (key_hash k) h) ks)).

(** The first key of each hash, in order. *)
Definition first_keys (ks : list Key) : list Key := fromkeys_by key_hash [] ks.

Definition spec_unique (ks : list Key) : list (string * QueryInfo) :=
  map (fun k => (key_hash k, new_info k)) (first_keys ks).

Definition spec_tracking (ks : list Key) : list (string * list string) :=
  map (fun k => (key_hash k, dbs_of (key_hash k) ks)) (first_keys ks).

(** The loop state after the files, in closed form. *)
Definition spec_loop (files : list FileEntry) : LoopState :=
  let ks := keys files in
  mkLoopState (spec_unique ks) (spec_tracking ks) (length (List.filter readable files)) (length ks)
              (length ks - length (first_keys ks)).

(** ** Lemmas on the dict operations *)

Lemma mem_In x l : mem x l = true <-> In x l.
Proof.
  unfold mem. rewrite existsb_exists. split.
  - intros (y & Hy & ->%String.eqb_eq). done.
  - intros H. exists x. rewrite String.eqb_refl. done.
Qed.

Lemma mem_false x l : mem x l = false <-> ~ In x l.
Proof. rewrite <-mem_In. destruct (mem x l); intuition congruence. Qed.

Lemma mem_app x l1 l2 : mem x (l1 ++ l2) = mem x l1 || mem x l2.
Proof. apply existsb_app. Qed.

Lemma fromkeys_by_keys {A} (key : A -> string) seen l y :
  In y (map key (fromkeys_by key seen l)) <-> In y (map key l) /\ ~ In y seen.
Proof.
  revert seen. induction l as [|x l IH]; intros seen; simpl; [tauto|].
  destruct (mem (key x) seen) eqn:Hm; simpl; rewrite IH.
  - apply mem_In in Hm. split; [tauto|]. intros [[<-|H] Hn]; tauto.
  - apply mem_false in Hm. split.
    + intros [<-|[H Hn]]; [tauto|]. simpl in Hn. tauto.
    + intros [[<-|H] Hn]; [tauto|]. destruct (String.eqb_spec (key x) y); [tauto|]. simpl. intuition.
Qed.

Lemma fromkeys_by_NoDup {A} (key : A -> string) seen l : List.NoDup (map key (fromkeys_by key seen l)).
Proof.
  revert seen. induction l as [|x l IH]; intros seen; simpl; [constructor|].
  destruct (mem (key x) seen); [done|]. simpl. constructor; [|done].
  rewrite fromkeys_by_keys. simpl. tauto.
Qed.

Lemma fromkeys_by_sub {A} (key : A -> string) seen l x : In x (fromkeys_by key seen l) -> In x l.
Proof.
  revert seen. induction l as [|y l IH]; intros seen; simpl; [done|].
  destruct mem; [eauto|]. intros [->|H]; eauto.
Qed.

Lemma length_fromkeys_by {A} (key : A -> string) seen l : length (fromkeys_by key seen l) <= length l.
Proof. revert seen. induction l as [|x l IH]; intros seen; simpl; [lia|]. destruct mem; simpl; [specialize (IH seen)|specialize (IH (key x :: seen))]; lia. Qed.

Lemma mem_ext x l1 l2 : (forall y, In y l1 <-> In y l2) -> mem x l1 = mem x l2.
Proof. intros H. apply eq_true_iff_eq. rewrite !mem_In. apply H. Qed.

Lemma fromkeys_by_snoc {A} (key : A -> string) seen l x :
  fromkeys_by key seen (l ++ [x]) =
    (fromkeys_by key seen l ++ (if mem (key x) (seen ++ map key l) then [] else [x]))%list.
Proof.
  revert seen. induction l as [|y l IH]; intros seen; simpl.
  - rewrite app_nil_r. destruct mem; done.
  - destruct (mem (key y) seen) eqn:Hm; rewrite IH; [|f_equal]; f_equal.
    + rewrite (mem_ext (key x) (seen ++ key y :: map key l) (seen ++ map key l)); [done|].
      intros z. rewrite !in_app_iff. simpl. apply mem_In in Hm. intuition congruence.
    + rewrite (mem_ext (key x) (seen ++ key y :: map key l) ((key y :: seen) ++ map key l)); [done|].
      intros z. rewrite !in_app_iff. simpl. intuition.
Qed.

Lemma set_add_fromkeys l x : set_add x (dict_fromkeys l) = dict_fromkeys (l ++ [x])%list.
Proof.
  unfold set_add, dict_fromkeys. rewrite fromkeys_by_snoc. simpl.
  replace (mem x (fromkeys_by (fun x => x) [] l)) with (mem x (map (fun x => x) l)).
  - destruct mem; [by rewrite app_nil_r|done].
  - apply mem_ext. intros y. rewrite <-(map_id (fromkeys_by _ _ _)) at 1.
    rewrite (fromkeys_by_keys (fun x => x)). simpl. tauto.
Qed.

Lemma assoc_map_none {A} (f : Key -> A) h (U : list Key) :
  ~ In h (map key_hash U) -> assoc h (map (fun k => (key_hash k, f k)) U) = None.
Proof.
  induction U as [|k U IH]; simpl; [done|]. intros Hn.
  destruct (String.eqb_spec h (key_hash k)); [subst; tauto|]. auto.
Qed.

Lemma assoc_map_some {A} (f : Key -> A) h (U : list Key) :
  In h (map key_hash U) -> exists v, assoc h (map (fun k => (key_hash k, f k)) U) = Some v.
Proof.
  induction U as [|k U IH]; simpl; [done|]. intros Hi.
  destruct (String.eqb_spec h (key_hash k)); [eauto|]. destruct Hi as [Heq|Hi]; [congruence|auto].
Qed.

Lemma assoc_update_map_notin {A} (F : option A -> A) (f : Key -> A) h (U : list Key) :
  ~ In h (map key_hash U) ->
  assoc_update h F (map (fun k => (key_hash k, f k)) U) = (map (fun k => (key_hash k, f k)) U ++ [(h, F None)])%list.
Proof.
  induction U as [|k U IH]; simpl; [done|]. intros Hn.
  destruct (String.eqb_spec h (key_hash k)); [subst; tauto|]. rewrite IH; tauto.
Qed.

Lemma assoc_update_map_in {A} (F : option A -> A) (f : Key -> A) h (U : list Key) :
  List.NoDup (map key_hash U) -> In h (map key_hash U) ->
  assoc_update h F (map (fun k => (key_hash k, f k)) U) =
    map (fun k => (key_hash k, if String.eqb (key_hash k) h then F (Some (f k)) else f k)) U.
Proof.
  induction U as [|k U IH]; simpl; [done|]. intros Hnd Hi. inversion Hnd as [|? ? Hn Hnd']; subst.
  rewrite String.eqb_sym. destruct (String.eqb_spec (key_hash k) h) as [<-|Hne].
  - f_equal. apply map_ext_in. intros k' Hk'. destruct (String.eqb_spec (key_hash k') (key_hash k)); [|done].
    exfalso. apply Hn. rewrite <-e. by apply in_map.
  - destruct Hi as [Heq|Hi]; [congruence|]. rewrite IH; done.
Qed.

(** ** The loop implements the grouping *)

Lemma first_keys_snoc ks k :
  first_keys (ks ++ [k]) = (first_keys ks ++ (if mem (key_hash k) (map key_hash ks) then [] else [k]))%list.
Proof. exact (fromkeys_by_snoc key_hash [] ks k). Qed.

Lemma in_first_keys h ks : In h (map key_hash (first_keys ks)) <-> In h (map key_hash ks).
Proof. unfold first_keys. rewrite fromkeys_by_keys. simpl. tauto. Qed.

Lemma dbs_of_snoc h ks k :
  dbs_of h (ks ++ [k]) = if String.eqb (key_hash k) h then set_add (key_db k) (dbs_of h ks) else dbs_of h ks.
Proof.
  unfold dbs_of. rewrite List.filter_app, map_app. cbn [List.filter].
  destruct (String.eqb (key_hash k) h); cbn [map]; [by rewrite set_add_fromkeys|by rewrite app_nil_r].
Qed.

Lemma dbs_of_notin h ks : ~ In h (map key_hash ks) -> dbs_of h ks = [].
Proof.
  unfold dbs_of. induction ks as [|k ks IH]; simpl; [done|]. intros Hn.
  destruct (String.eqb_spec (key_hash k) h); [tauto|]. auto.
Qed.

Lemma tracking_snoc ks h db q :
  assoc_update h (fun o => set_add db (default [] o)) (spec_tracking ks) = spec_tracking (ks ++ [(h, db, q)]).
Proof.
  unfold spec_tracking. rewrite first_keys_snoc. cbn [key_hash fst snd].
  destruct (mem h (map key_hash ks)) eqn:Hm.
  - apply mem_In in Hm. rewrite app_nil_r, assoc_update_map_in.
    + apply map_ext. intros k'. rewrite dbs_of_snoc. cbn [key_hash key_db fst snd].
      destruct (String.eqb_spec (key_hash k') h) as [->|Hne]; [by rewrite String.eqb_refl|].
      destruct (String.eqb_spec h (key_hash k')); [congruence|done].
    + apply fromkeys_by_NoDup.
    + by apply in_first_keys.
  - apply mem_false in Hm. rewrite assoc_update_map_notin by (by rewrite in_first_keys).
    rewrite map_app. f_equal.
    + apply map_ext_in. intros k' Hk'. rewrite dbs_of_snoc. cbn [key_hash fst].
      destruct (String.eqb_spec h (key_hash k')) as [->|]; [|done].
      exfalso. apply Hm, in_first_keys, in_map, Hk'.
    + simpl. rewrite dbs_of_snoc. cbn [key_hash key_db fst snd]. rewrite String.eqb_refl, dbs_of_notin; done.
Qed.

Lemma unique_snoc ks k :
  spec_unique (ks ++ [k]) =
    if mem (key_hash k) (map key_hash ks) then spec_unique ks else (spec_unique ks ++ [(key_hash k, new_info k)])%list.
Proof.
  unfold spec_unique. rewrite first_keys_snoc.
  destruct mem; [by rewrite app_nil_r|by rewrite map_app].
Qed.

Lemma assoc_unique h ks :
  match assoc h (spec_unique ks) with Some _ => true | None => false end = mem h (map key_hash ks).
Proof.
  unfold spec_unique. destruct (mem h (map key_hash ks)) eqn:Hm.
  - apply mem_In, in_first_keys in Hm. by destruct (assoc_map_some new_info h _ Hm) as [v ->].
  - apply mem_false in Hm. rewrite assoc_map_none; [done|]. by rewrite in_first_keys.
Qed.

Lemma keys_snoc files f : keys (files ++ [f]) = (keys files ++ option_list (file_key f))%list.
Proof. unfold keys. rewrite flat_map_app. simpl. by rewrite app_nil_r. Qed.

Lemma length_first_keys ks : length (first_keys ks) <= length ks.
Proof. apply length_fromkeys_by. Qed.

Lemma process_file_spec files f : process_file (spec_loop files) f = spec_loop (files ++ [f]).
Proof.
  unfold spec_loop. rewrite keys_snoc, List.filter_app, length_app.
  unfold process_file, file_key. cbn [List.filter].
  destruct (file_content f) as [c|] eqn:Hc;
    [assert (Hr : readable f = true) by (unfold readable; by rewrite Hc)
    |assert (Hr : readable f = false) by (unfold readable; by rewrite Hc)];
    rewrite Hr; cbn [option_list length]; rewrite ?app_nil_r, ?Nat.add_0_r; [|done].
  unfold process_content.
  destruct (extract_embedding_query c) as [q|]; cbn [option_list]; rewrite ?app_nil_r, ?Nat.add_1_r; [|done].
  destruct (String.eqb_spec q ""); cbn [option_list]; rewrite ?app_nil_r, ?Nat.add_1_r; [done|].
  unfold hash_query. destruct (String.eqb_spec q ""); [done|].
  cbn [unique_queries database_tracking processed_files files_with_queries duplicate_count].
  rewrite (tracking_snoc _ _ _ q), unique_snoc, first_keys_snoc, length_app. cbn [key_hash fst snd length].
  pose proof (assoc_unique (normalize_query q) (keys files)) as Ha.
  pose proof (length_first_keys (keys files)).
  destruct (assoc _ (spec_unique (keys files))); rewrite <-Ha; rewrite ?app_nil_r, ?length_app; cbn [length]; f_equal; lia.
Qed.

Lemma extraction_loop_closed_form (md_files : list FileEntry) :
  extraction_loop md_files = spec_loop md_files.
Proof.
  unfold extraction_loop. induction md_files as [|f files IH] using rev_ind; [reflexivity|].
  rewrite fold_left_app, IH. apply process_file_spec.
Qed.

(** C29: the loop of [main] computes the grouping
    of the files' keys: [unique_queries] holds, in order of first
    appearance, one entry per normalised query made from the first file
    that has it; [database_tracking] holds, for the same hashes in the
    same order, the databases of the files that have it, in order of
    first appearance; the counters count the readable files, the files
    with a non-empty query, and the files whose query was seen before. *)
Theorem extraction_loop_refines (md_files : list FileEntry) :
  extraction_loop md_files = spec_loop md_files.
Proof. exact (extraction_loop_closed_form md_files). Qed.

(** ** The catalog *)

Lemma insert_str_perm x l : Permutation (insert_str x l) (x :: l).
Proof.
  induction l as [|y l IH]; simpl; [done|]. destruct String.leb; [done|].
  rewrite IH. apply perm_swap.
Qed.

Lemma sort_strings_perm l : Permutation (sort_strings l) l.
Proof. induction l as [|x l IH]; simpl; [done|]. by rewrite insert_str_perm, IH. Qed.

Lemma insert_str_sorted x l :
  Sorted (fun a b => String.leb a b = true) l -> Sorted (fun a b => String.leb a b = true) (insert_str x l).
Proof.
  induction 1 as [|y l Hs IH Hhd]; simpl; [repeat constructor|].
  destruct (String.leb x y) eqn:Hxy; [by repeat constructor|].
  assert (Hyx : String.leb y x = true) by (destruct (String.leb_total x y); congruence).
  constructor; [done|]. destruct l as [|z l]; simpl; [by constructor|].
  inversion Hhd; subst. destruct (String.leb x z); by constructor.
Qed.

Lemma sort_strings_sorted l : Sorted (fun a b => String.leb a b = true) (sort_strings l).
Proof. induction l as [|x l IH]; simpl; [constructor|]. by apply insert_str_sorted. Qed.

Lemma assoc_map_in {A} (f : Key -> A) (U : list Key) k :
  List.NoDup (map key_hash U) -> In k U -> assoc (key_hash k) (map (fun k => (key_hash k, f k)) U) = Some (f k).
Proof.
  induction U as [|k' U IH]; simpl; [done|]. intros Hnd Hin. inversion Hnd as [|? ? Hn Hnd']; subst.
  destruct Hin as [->|Hin]; [by rewrite String.eqb_refl|].
  destruct (String.eqb_spec (key_hash k) (key_hash k')) as [He|]; [|auto].
  exfalso. apply Hn. rewrite <-He. by apply in_map.
Qed.

Lemma In_dict_fromkeys x l : In x (dict_fromkeys l) <-> In x l.
Proof.
  unfold dict_fromkeys. rewrite <-(map_id (fromkeys_by _ _ _)), (fromkeys_by_keys (fun x => x)), map_id.
  simpl. tauto.
Qed.

Lemma NoDup_dict_fromkeys l : List.NoDup (dict_fromkeys l).
Proof. unfold dict_fromkeys. rewrite <-(map_id (fromkeys_by _ _ _)). apply (fromkeys_by_NoDup (fun x => x)). Qed.

Lemma In_dbs_of db h ks : In db (dbs_of h ks) <-> exists k, In k ks /\ key_hash k = h /\ key_db k = db.
Proof.
  unfold dbs_of. rewrite In_dict_fromkeys, in_map_iff. split.
  - intros (k & <- & (Hk & Hh%String.eqb_eq)%filter_In). eauto.
  - intros (k & Hk & <- & <-). exists k. rewrite filter_In, String.eqb_refl. done.
Qed.

Lemma In_keys k files : In k (keys files) <-> exists f, In f files /\ file_key f = Some k.
Proof.
  unfold keys. rewrite in_flat_map. split.
  - intros (f & Hf & Hk). exists f. split; [done|]. destruct (file_key f); simpl in Hk; [|done].
    destruct Hk as [->|[]]. done.
  - intros (f & Hf & Hk). exists f. rewrite Hk. simpl. auto.
Qed.

Lemma file_key_shape f k :
  file_key f = Some k -> key_hash k = normalize_query (key_query k) /\ key_query k <> "".
Proof.
  unfold file_key. destruct (file_content f); [|done]. destruct (extract_embedding_query s) as [q|]; [|done].
  destruct (String.eqb_spec q ""); [done|]. intros [= <-]. done.
Qed.

Lemma keys_le_readable files : length (keys files) <= length (List.filter readable files).
Proof.
  induction files as [|f files IH]; [simpl; lia|]. unfold keys in *. cbn [flat_map List.filter].
  rewrite length_app. destruct (readable f) eqn:Hr; cbn [length]; [|].
  - assert (length (option_list (file_key f)) <= 1) by (destruct file_key; simpl; lia). lia.
  - unfold readable, file_key in *. destruct (file_content f); [done|]. simpl. lia.
Qed.

Lemma main_spec md_files :
  main true md_files =
    let ks := keys md_files in
    let st := spec_loop md_files in
    let qs := map (with_databases (spec_tracking ks)) (spec_unique ks) in
    Some (mkQueryCatalog
            (mkCatalogMetadata (length md_files) (processed_files st) (files_with_queries st)
                               (length (spec_unique ks)) (duplicate_count st) "2025-05-23")
            qs (sort_by_count (table_counts qs)) (database_counts (spec_tracking ks))).
Proof. unfold main. simpl. rewrite extraction_loop_closed_form. reflexivity. Qed.

Lemma catalog_query_of md_files c q :
  main true md_files = Some c -> In q (queries c) ->
  exists k, In k (first_keys (keys md_files)) /\
            q = mkQueryInfo (key_hash k) (identify_main_table (key_query k)) (extract_all_tables (key_query k))
                            (key_query k) (sort_strings (dbs_of (key_hash k) (keys md_files))).
Proof.
  rewrite main_spec. intros [= <-]. cbn [queries]. unfold spec_unique. rewrite map_map.
  intros (k & <- & Hk)%in_map_iff. exists k. split; [done|].
  cbn [with_databases new_info query_hash main_table all_tables embedding_ready_query].
  unfold spec_tracking. rewrite (assoc_map_in (fun k => dbs_of (key_hash k) (keys md_files))); [done|apply fromkeys_by_NoDup|done].
Qed.

(** The catalog's counters are consistent: every file
    with a non-empty query is either a new unique query or a duplicate,
    and the files with a query are among the readable files, which are
    among all files; a missing directory gives no catalog. *)
Theorem catalog_counts (md_files : list FileEntry) :
  main false md_files = None /\
  exists c, main true md_files = Some c /\
    let m := catalog_metadata c in
    meta_unique_queries m + duplicate_queries_removed m = meta_files_with_queries m /\
    meta_files_with_queries m <= meta_processed_files m /\
    meta_processed_files m <= total_files m /\
    meta_unique_queries m = length (queries c).
Proof.
  split; [done|]. eexists. split; [apply main_spec|]. cbn.
  unfold spec_unique. rewrite !length_map.
  pose proof (length_first_keys (keys md_files)). pose proof (keys_le_readable md_files).
  pose proof (List.filter_length_le readable md_files). lia.
Qed.

Lemma catalog_hashes md_files c :
  main true md_files = Some c -> map query_hash (queries c) = map key_hash (first_keys (keys md_files)).
Proof.
  rewrite main_spec. intros [= <-]. cbn [queries]. unfold spec_unique. rewrite !map_map.
  apply map_ext. intros k. reflexivity.
Qed.

(** The catalog has one entry per normalised
    query: the hashes are distinct; each entry's hash is the
    normalisation of its non-empty query; its databases are sorted,
    without repetition, and are exactly the databases of the files whose
    query has that hash; and every file with a non-empty query has the
    entry of its hash. *)
Theorem catalog_entries_exact (md_files : list FileEntry) (c : QueryCatalog) :
  main true md_files = Some c ->
  List.NoDup (map query_hash (queries c)) /\
  (forall q, In q (queries c) ->
     query_hash q = normalize_query (embedding_ready_query q) /\ embedding_ready_query q <> "" /\
     List.NoDup (databases q) /\ Sorted (fun a b => String.leb a b = true) (databases q) /\
     forall db, In db (databases q) <-> exists f e, In f md_files /\ file_key f = Some (query_hash q, db, e)) /\
  (forall f h db e, In f md_files -> file_key f = Some (h, db, e) ->
     exists q, In q (queries c) /\ query_hash q = h).
Proof.
  intros Hc. split; [|split].
  - rewrite (catalog_hashes _ _ Hc). apply fromkeys_by_NoDup.
  - intros q Hq. destruct (catalog_query_of _ _ _ Hc Hq) as (k & Hk & ->). cbn.
    pose proof (fromkeys_by_sub _ _ _ _ Hk) as (f & Hf & Hfk)%In_keys.
    destruct (file_key_shape _ _ Hfk) as [Hh Hne].
    split; [done|]. split; [done|]. split; [|split].
    + eapply Permutation_NoDup; [symmetry; apply sort_strings_perm|apply NoDup_dict_fromkeys].
    + apply sort_strings_sorted.
    + intros db. pose proof (sort_strings_perm (dbs_of (key_hash k) (keys md_files))) as Hp. split.
      * intros (k' & (f' & Hf' & Hk')%In_keys & Hh' & Hd')%(Permutation_in _ Hp)%In_dbs_of.
        destruct k' as [[h' d'] e']. cbn in Hh', Hd'. subst. eauto.
      * intros (f' & e' & Hf' & Hk'). apply (Permutation_in _ (Permutation_sym Hp)), In_dbs_of.
        exists (key_hash k, db, e'). split; [|done]. apply In_keys. eauto.
  - intros f h db e Hf Hk.
    assert (Hin : In h (map key_hash (first_keys (keys md_files)))).
    { apply in_first_keys. apply (in_map key_hash (keys md_files) (h, db, e)), In_keys. eauto. }
    rewrite <-(catalog_hashes _ _ Hc) in Hin. apply in_map_iff in Hin as (q & Hq & Hqi). eauto.
Qed.

(** ** Extracting the embedding query of a documentation page *)

Lemma search_embedding_hit s q : embedding_match_at s = Some q -> search_embedding s = Some q.
Proof.
  intros H. destruct s as [|c s]; [revert H; vm_compute; discriminate|].
  change (search_embedding (String c s)) with
    (match embedding_match_at (String c s) with Some q => Some q | None => search_embedding s end).
  by rewrite H.
Qed.

Lemma nl_app x : nl +:+ x = String newline x.
Proof. reflexivity. Qed.

Lemma sdrop_app a b : sdrop (String.length a) (a +:+ b) = b.
Proof. induction a as [|c a IH]; simpl; done. Qed.

(** A literal without a newline matches across a newline only if it
    matches before it. *)
Lemma prefix_nl p x y :
  char_in newline p = false -> String.prefix p (x +:+ String newline y) = String.prefix p x.
Proof.
  revert x. induction p as [|c p IH]; intros x Hp; [by destruct x|].
  simpl in Hp. apply orb_false_elim in Hp as [Hc Hp].
  destruct x as [|d x]; simpl.
  - destruct (ascii_dec c newline) as [->|]; [revert Hc; vm_compute; discriminate|done].
  - destruct (ascii_dec c d); [by apply IH|done].
Qed.

Lemma drop_while_lstrip s : drop_while is_space s = lstrip s.
Proof. induction s as [|c s IH]; simpl; [done|]. by rewrite IH. Qed.

Lemma lstrip_app_nonempty a b : lstrip a <> "" -> lstrip (a +:+ b) = lstrip a +:+ b.
Proof. induction a as [|c a IH]; simpl; [done|]. destruct (is_space c); auto. Qed.

Lemma lstrip_app_empty a b : lstrip a = "" -> lstrip (a +:+ b) = lstrip b.
Proof. induction a as [|c a IH]; simpl; [done|]. destruct (is_space c); [auto|done]. Qed.

Lemma lstrip_idem s : lstrip (lstrip s) = lstrip s.
Proof. induction s as [|c s IH]; simpl; [done|]. destruct (is_space c) eqn:Hc; [done|]. simpl. by rewrite Hc. Qed.

Lemma rstrip_snoc_space x c : is_space c = true -> rstrip (x +:+ String c "") = rstrip x.
Proof. intros Hc. induction x as [|d x IH]; simpl; [by rewrite Hc|]. by rewrite IH. Qed.

Lemma contains_lstrip t q : contains t (lstrip q) = true -> contains t q = true.
Proof. induction q as [|c q IH]; simpl; [done|]. destruct (is_space c); [intros; by apply contains_cons, IH|done]. Qed.

Lemma before_first_fence a post :
  contains fence a = false -> before_first fence (a +:+ nl +:+ fence +:+ post) = Some (a +:+ nl).
Proof.
  rewrite nl_app.
  induction a as [|c a IH]; [intros _; simpl; by destruct post|]. intros Ha.
  rewrite contains_cons_eq in Ha. apply orb_false_elim in Ha as [Hp Ha].
  change (String c a +:+ String newline (fence +:+ post)) with (String c (a +:+ String newline (fence +:+ post))).
  assert (Hp' : String.prefix fence (String c (a +:+ String newline (fence +:+ post))) = false).
  { change (String c (a +:+ String newline (fence +:+ post))) with (String c a +:+ String newline (fence +:+ post)).
    rewrite prefix_nl; [exact Hp|reflexivity]. }
  cbn [before_first]. rewrite Hp', IH by done. reflexivity.
Qed.

Lemma lstrip_nl_fence post : lstrip (nl +:+ fence +:+ post) = fence +:+ post.
Proof. reflexivity. Qed.

Lemma before_first_here post : before_first fence (fence +:+ post) = Some "".
Proof. by destruct post. Qed.

Lemma search_embedding_skip pre rest :
  contains embedding_header pre = false -> search_embedding (pre +:+ String newline rest) = search_embedding rest.
Proof.
  induction pre as [|c pre IH]; intros Hpre; [reflexivity|].
  rewrite contains_cons_eq in Hpre. apply orb_false_elim in Hpre as [Hp Hpre].
  change (String c pre +:+ String newline rest) with (String c (pre +:+ String newline rest)).
  assert (Hp' : String.prefix embedding_header (String c (pre +:+ String newline rest)) = false).
  { change (String c (pre +:+ String newline rest)) with (String c pre +:+ String newline rest).
    rewrite prefix_nl; [exact Hp|reflexivity]. }
  cbn [search_embedding]. unfold embedding_match_at at 1. rewrite Hp'. auto.
Qed.

(** On a documentation page whose
    "Embedding-Ready Query" section is the first one and holds a query
    without a code fence, [extract_embedding_query] returns the query,
    stripped. *)
Theorem extract_embedding_roundtrip (pre q post : string) :
  contains embedding_header pre = false -> contains fence q = false ->
  extract_embedding_query
    (pre +:+ nl +:+ embedding_header +:+ nl +:+ fence_sql +:+ nl +:+ q +:+ nl +:+ fence +:+ post) = Some (strip q).
Proof.
  intros Hpre Hq. unfold extract_embedding_query. rewrite nl_app, (search_embedding_skip pre _ Hpre).
  set (rest := q +:+ nl +:+ fence +:+ post).
  assert (Hm : embedding_match_at (embedding_header +:+ nl +:+ fence_sql +:+ nl +:+ rest) =
               before_first fence (lstrip rest)).
  { unfold embedding_match_at. rewrite prefix_app_l, sdrop_app.
    change (drop_while is_space (nl +:+ fence_sql +:+ nl +:+ rest)) with (fence_sql +:+ nl +:+ rest).
    rewrite prefix_app_l, sdrop_app, drop_while_lstrip. reflexivity. }
  unfold rest in Hm |- *. destruct (String.eqb_spec (lstrip q) "") as [He|Hne].
  - rewrite lstrip_app_empty, lstrip_nl_fence, before_first_here in Hm by done.
    rewrite (search_embedding_hit _ _ Hm). unfold strip. by rewrite He.
  - rewrite lstrip_app_nonempty, before_first_fence in Hm by
      (try done; apply not_true_iff_false; intros H; apply contains_lstrip in H; congruence).
    rewrite (search_embedding_hit _ _ Hm). simpl. unfold strip.
    rewrite lstrip_app_nonempty by (by rewrite lstrip_idem).
    rewrite lstrip_idem. unfold nl. by rewrite rstrip_snoc_space.
Qed.

(** ** The tables of a query *)

Lemma fromkeys_head x l : dict_fromkeys (x :: l) = x :: fromkeys_by (fun y => y) [x] l.
Proof. reflexivity. Qed.

(** [extract_all_tables] lists each table
    once: the table of the first [FROM] (the main table) first, then the
    tables of the [JOIN]s, and nothing else. *)
Theorem extract_all_tables_spec (sql_query : string) :
  List.NoDup (extract_all_tables sql_query) /\
  (forall t, identify_main_table sql_query = Some t -> head (extract_all_tables sql_query) = Some t) /\
  (forall t, In t (extract_all_tables sql_query) <->
     identify_main_table sql_query = Some t \/ (sql_query <> "" /\ In t (findall_kw "join" 0 sql_query))).
Proof.
  unfold extract_all_tables, identify_main_table.
  destruct (String.eqb_spec sql_query "") as [->|Hne]; [split; [constructor|]; split; [done|]; intros t; simpl; intuition congruence|].
  split; [apply NoDup_dict_fromkeys|split].
  - intros t ->. reflexivity.
  - intros t. rewrite In_dict_fromkeys, in_app_iff.
    destruct (search_kw "from" sql_query); simpl; intuition congruence.
Qed.

(** ** A sample run *)

Definition page (q : string) : string :=
  "# Query" +:+ nl +:+ embedding_header +:+ nl +:+ fence_sql +:+ nl +:+ q +:+ nl +:+ fence +:+ nl.

Definition sample_files : list FileEntry :=
  [mkFileEntry "epic100_query_0001.md" (Some (page "SELECT * FROM Orders o JOIN Customer c ON o.c = c.id"));
   mkFileEntry "epic200_query_0007.md" (Some (page "select *  from orders O join customer C on o.c = c.id"));
   mkFileEntry "epic100_query_0003.md" (Some (page "SELECT * FROM Orders o JOIN Customer c ON o.c = c.id"));
   mkFileEntry "notes.md" None;
   mkFileEntry "epic300_query_0002.md" (Some "no section here")].

Definition empty_catalog : QueryCatalog := mkQueryCatalog (mkCatalogMetadata 0 0 0 0 0 "") [] [] ∅.

Definition sample_catalog : QueryCatalog := default empty_catalog (main true sample_files).

(** The two spellings of the query are one entry, seen in two
    databases; the unreadable file and the page without a section are
    counted apart. *)
Example sample_catalog_contents :
  map databases (queries sample_catalog) = [["epic100"; "epic200"]] /\
  map embedding_ready_query (queries sample_catalog) = ["SELECT * FROM Orders o JOIN Customer c ON o.c = c.id"] /\
  map all_tables (queries sample_catalog) = [["Orders"; "Customer"]] /\
  table_summary sample_catalog = [("Orders", 1%nat)] /\
  (meta_processed_files (catalog_metadata sample_catalog), meta_files_with_queries (catalog_metadata sample_catalog),
   duplicate_queries_removed (catalog_metadata sample_catalog)) = (4%nat, 3%nat, 2%nat).
Proof. vm_compute. repeat split. Qed.

Lemma catalog_entries_exact_witness :
  main true sample_files = Some sample_catalog /\ List.NoDup (map query_hash (queries sample_catalog)).
Proof.
  assert (H : main true sample_files = Some sample_catalog) by (vm_compute; reflexivity).
  split; [exact H|]. apply (catalog_entries_exact sample_files sample_catalog H).
Defined.

Lemma extract_embedding_roundtrip_witness :
  contains embedding_header "# Query" = false /\ contains fence "SELECT 1" = false /\
  extract_embedding_query ("# Query" +:+ nl +:+ embedding_header +:+ nl +:+ fence_sql +:+ nl +:+
                           "SELECT 1" +:+ nl +:+ fence +:+ "") = Some (strip "SELECT 1").
Proof.
  split; [reflexivity|]. split; [reflexivity|].
  apply extract_embedding_roundtrip; reflexivity.
Defined.

End Catalog.
