(* ===== verification/QueryAnalysis.v ===== *)
(** * SQL query analysis (src/src/query_analysis/query_parser.py)

    [QueryAnalyzer.analyze_query] combines three third-party parsers:
    sqlparse (statement type and formatting), sqlglot (tables, joins,
    columns, conditions) and sql_metadata (tables and columns), each of
    which may raise, and classifies the query's complexity from the
    merged result.  The parsers are an oracle ([Parsers]); what is
    modelled is how the code combines their answers: which exceptions
    are caught where and what partial result survives them, the merge of
    the two parsers' tables and columns, and the complexity score.

    The score is a Python float made of multiples of 0.5; below 2^52
    such sums are exact in binary floating point, so it is a rational
    number here.

    The file driver [process_query_file] is modelled too, with the
    [os.path] functions it uses on POSIX paths and the readers and the
    writer of the input and output files as an oracle ([QueryIO]). *)

From S2P Require Import Prelude PyStr PyPath.
From Stdlib Require Import QArith Lqa Ascii.

Open Scope string_scope.

Module QueryAnalysis.
Import PyStr PyPath.

(** ** What the parsers return *)

(** [join_info] (lines 109-115): the [kind] of the join and the name of
    the joined table, when the node has them. *)
Record JoinInfo := mkJoinInfo { join_kind : option string; join_table : option string }.

(** [condition_info] (lines 128-131). *)
Record ConditionInfo := mkConditionInfo { cond_column : string; cond_operator : string }.

(** A condition node of sqlglot: its left operand's name and its
    operator, when it has them. *)
Record ConditionNode := mkConditionNode { left_name : option string; op : option string }.

(** A statement parsed by sqlglot, by what [find_all] yields on it. *)
Record Statement := mkStatement {
  st_tables : list string;
  st_joins : list JoinInfo;
  st_columns : list string;
  st_conditions : list ConditionNode
}.

(** The parsers.  [sqlglot_parse] returns [None] for an empty statement
    (as sqlglot does for [";"]), on which [find_all] raises. *)
Record Parsers := mkParsers {
  sqlparse_parse : string -> result (option string);
  sqlparse_format : string -> result string;
  sqlglot_parse : string -> result (list (option Statement));
  metadata_tables : string -> result (list string);
  metadata_columns_dict : string -> result (list (string * list string))
}.

(** The dict [result] of [analyze_query] (lines 31-41, and [error] of
    line 86). *)
Record Analysis := mkAnalysis {
  qa_name : string;
  qa_query_text : string;
  qa_query_type : option string;
  qa_tables : list string;
  qa_columns : list string;
  qa_joins : list JoinInfo;
  qa_where_conditions : list ConditionInfo;
  qa_complexity : option string;
  qa_formatted_query : option string;
  qa_error : option string
}.

#[global] Instance JoinInfo_eq_dec : EqDecision JoinInfo.
Proof. intros [a b] [c d]. destruct (decide (a = c)), (decide (b = d)); [left|right..]; congruence. Defined.

#[global] Instance ConditionInfo_eq_dec : EqDecision ConditionInfo.
Proof. intros [a b] [c d]. destruct (decide (a = c)), (decide (b = d)); [left|right..]; congruence. Defined.

(** [if x not in l: l.append(x)] *)
Definition append_new {A} `{EqDecision A} (l : list A) (x : A) : list A :=
  if decide (x ∈ l) then l else (l ++ [x])%list.

(** The [_analyze_with_sqlglot] result (lines 91-96). *)
Record SqlglotResult := mkSqlglotResult {
  sg_tables : list string;
  sg_columns : list string;
  sg_joins : list JoinInfo;
  sg_where_conditions : list ConditionInfo
}.

(** The loop body for one statement (lines 102-133). *)
Definition sqlglot_statement (r : SqlglotResult) (st : Statement) : SqlglotResult :=
  let tables := fold_left append_new (st_tables st) (sg_tables r) in
  let joins := fold_left append_new (st_joins st) (sg_joins r) in
  let columns := fold_left append_new (st_columns st) (sg_columns r) in
  let conds := fold_left (fun acc c =>
                  match left_name c with
                  | Some n => append_new acc (mkConditionInfo n (default "?" (op c)))
                  | None => acc
                  end) (st_conditions st) (sg_where_conditions r) in
  mkSqlglotResult tables columns joins conds.

(** The loop over statements; an empty statement raises
    [AttributeError], caught at line 136, which returns what was
    collected so far. *)
Fixpoint sqlglot_statements (r : SqlglotResult) (sts : list (option Statement)) : SqlglotResult :=
  match sts with
  | [] => r
  | Some st :: rest => sqlglot_statements (sqlglot_statement r st) rest
  | None :: _ => r
  end.

(** [_analyze_with_sqlglot] (lines 89-138): it never raises. *)
Definition analyze_with_sqlglot (P : Parsers) (query_text : string) : SqlglotResult :=
  let r := mkSqlglotResult [] [] [] [] in
  match sqlglot_parse P query_text with
  | Ok sts => sqlglot_statements r sts
  | Err _ => r
  end.

(** [_analyze_with_sql_metadata] (lines 140-164): the tables when there
    are any, then the columns of every table of [columns_dict], in order;
    an exception keeps what was set before it. *)
Definition analyze_with_sql_metadata (P : Parsers) (query_text : string) : list string * list string :=
  match metadata_tables P query_text with
  | Err _ => ([], [])
  | Ok tables =>
      let ts := match tables with [] => [] | _ => tables end in
      match metadata_columns_dict P query_text with
      | Err _ => (ts, [])
      | Ok cd => (ts, List.concat (map snd cd))
      end
  end.

(** [_compute_complexity] (lines 166-198). *)
Definition complexity_score (q : Analysis) : Q :=
  let base : Q := match qa_query_type q with
                  | Some "SELECT" => 1
                  | Some "INSERT" | Some "UPDATE" | Some "DELETE" => 2
                  | _ => 0
                  end in
  let query_length := String.length (qa_query_text q) in
  let text : Q := if (1000 <? query_length)%nat then 2 else if (500 <? query_length)%nat then 1 else 0 in
  base + inject_Z (Z.of_nat (length (qa_tables q))) * (1#2)
       + inject_Z (Z.of_nat (length (qa_joins q))) * (3#2)
       + inject_Z (Z.of_nat (length (qa_where_conditions q))) * (1#2) + text.

Definition compute_complexity (q : Analysis) : string :=
  let c := complexity_score q in
  if Qlt_le_dec 8 c then "High" else if Qlt_le_dec 4 c then "Medium" else "Low".

(** Lines 56-60: [result.update(sqlglot_result)]. *)
Definition update_sqlglot (r : Analysis) (sg : SqlglotResult) : Analysis :=
  mkAnalysis (qa_name r) (qa_query_text r) (qa_query_type r) (sg_tables sg) (sg_columns sg) (sg_joins sg)
             (sg_where_conditions sg) (qa_complexity r) (qa_formatted_query r) (qa_error r).

(** Lines 63-74: sql_metadata's tables only when sqlglot found none; its
    columns not already present are appended. *)
Definition merge_metadata (r : Analysis) (md : list string * list string) : Analysis :=
  let '(md_tables, md_columns) := md in
  let tables := match qa_tables r with [] => md_tables | ts => ts end in
  let columns := match md_columns with
                 | [] => qa_columns r
                 | _ => (qa_columns r ++ List.filter (fun col => negb (bool_decide (col ∈ qa_columns r))) md_columns)%list
                 end in
  mkAnalysis (qa_name r) (qa_query_text r) (qa_query_type r) tables columns (qa_joins r)
             (qa_where_conditions r) (qa_complexity r) (qa_formatted_query r) (qa_error r).

Definition set_complexity (r : Analysis) : Analysis :=
  mkAnalysis (qa_name r) (qa_query_text r) (qa_query_type r) (qa_tables r) (qa_columns r) (qa_joins r)
             (qa_where_conditions r) (Some (compute_complexity r)) (qa_formatted_query r) (qa_error r).

(** [analyze_query] (lines 22-87).  Only sqlparse can raise into the
    outer [try]: the other two parsers are wrapped in their own. *)
Definition analyze_query (P : Parsers) (query_text : option string) (query_name : option string) : option Analysis :=
  match query_text with
  | None => None
  | Some raw =>
      if String.eqb raw "" then None else
      let q := strip raw in
      let name := match query_name with Some n => if String.eqb n "" then "Unnamed Query" else n
                                        | None => "Unnamed Query" end in
      let r0 := mkAnalysis name q None [] [] [] [] None None None in
      let with_error r e := mkAnalysis (qa_name r) (qa_query_text r) (qa_query_type r) (qa_tables r) (qa_columns r)
                               (qa_joins r) (qa_where_conditions r) (qa_complexity r) (qa_formatted_query r) (Some e) in
      match sqlparse_parse P q with
      | Err e => Some (with_error r0 e)
      | Ok parsed =>
          let r1 := match parsed with
                    | Some ty => match sqlparse_format P q with
                                 | Ok f => inr (mkAnalysis name q (Some ty) [] [] [] [] None (Some f) None)
                                 | Err e => inl (with_error (mkAnalysis name q (Some ty) [] [] [] [] None None None) e)
                                 end
                    | None => inr r0
                    end in
          match r1 with
          | inl failed => Some failed
          | inr r1 =>
              let r2 := update_sqlglot r1 (analyze_with_sqlglot P q) in
              let r3 := merge_metadata r2 (analyze_with_sql_metadata P q) in
              Some (set_complexity r3)
          end
      end
  end.

(** [analyze_query_batch] (lines 201-211). *)
Definition analyze_query_batch (P : Parsers) (queries : list (option string * option string)) : list (option Analysis) :=
  map (fun '(query_name, query_text) => analyze_query P query_text query_name) queries.

(** ** The file driver [process_query_file] (lines 214-286) *)

(** Lines 228-231: the default output path. *)
Definition default_output (input_file : string) : string :=
  path_join (dirname input_file) (fst (splitext (basename input_file)) +:+ "_analysis.json").

(** A JSON (or spreadsheet) value where a name or a query is expected:
    a string, a falsy value ([null], [0], [false], an empty container,
    an empty cell read as [None]) or another value, by its JSON text. *)
Inductive JValue := JStr (s : string) | JFalsy | JTruthy (json_text : string).

(** An item of the JSON list: an object by its fields, or anything
    else. *)
Inductive JItem := JObject (fields : list (string * JValue)) | JNotObject.

(** [item[k]]: the last value of the key, as [json.load] keeps it. *)
Fixpoint jlookup (k : string) (fields : list (string * JValue)) : option JValue :=
  match fields with
  | [] => None
  | (k', v) :: rest => match jlookup k rest with Some v' => Some v' | None => if String.eqb k k' then Some v else None end
  end.

(** The file system and the readers, each of which may raise. *)
Record QueryIO := mkQueryIO {
  (** [json.load]: a list, or [None] for another JSON value. *)
  load_json : string -> result (option (list JItem));
  (** [pd.read_csv] / [pd.read_excel] (by extension): the columns and
      the rows. *)
  read_table : string -> string -> result (list string * list (list (string * JValue)));
  read_text : string -> result string;
  write_json : string -> list (option Analysis) -> result unit
}.

(** Lines 243-248: the [(name, query)] pairs of the valid items. *)
Fixpoint json_queries (items : list JItem) : list (JValue * JValue) :=
  match items with
  | [] => []
  | JObject fields :: rest =>
      match jlookup "name" fields, jlookup "query" fields with
      | Some n, Some q => (n, q) :: json_queries rest
      | _, _ => json_queries rest
      end
  | JNotObject :: rest => json_queries rest
  end.

Definition row_value (row : list (string * JValue)) (k : string) : JValue :=
  default JFalsy (jlookup k row).

(** [analyzer.analyze_query(query_text, query_name)] on JSON values: a
    falsy query gives [None]; a non-string query raises at [strip()]; a
    non-string name is kept (here by its JSON text). *)
Definition analyze_value (P : Parsers) (nq : JValue * JValue) : result (option Analysis) :=
  let name := match nq.1 with JStr n => Some n | JFalsy => None | JTruthy t => Some t end in
  match nq.2 with
  | JStr q => Ok (analyze_query P (Some q) name)
  | JFalsy => Ok None
  | JTruthy _ => Err "'...' object has no attribute 'strip'"
  end.

Fixpoint analyze_values (P : Parsers) (l : list (JValue * JValue)) : result (list (option Analysis)) :=
  match l with
  | [] => Ok []
  | nq :: rest =>
      match analyze_value P nq, analyze_values P rest with
      | Ok r, Ok rs => Ok (r :: rs)
      | Err e, _ => Err e
      | _, Err e => Err e
      end
  end.

(** Lines 237-270: the queries of the input file, by its extension. *)
Definition read_queries (IO : QueryIO) (input_file : string) : result (list (JValue * JValue)) :=
  let ext := lower (snd (splitext input_file)) in
  if String.eqb ext ".json" then
    match load_json IO input_file with
    | Ok (Some items) => Ok (json_queries items)
    | Ok None => Ok []
    | Err e => Err e
    end
  else if String.eqb ext ".csv" || String.eqb ext ".xlsx" then
    match read_table IO ext input_file with
    | Ok (cols, rows) =>
        if existsb (String.eqb "name") cols && existsb (String.eqb "query") cols
        then Ok (map (fun row => (row_value row "name", row_value row "query")) rows)
        else Ok []
    | Err e => Err e
    end
  else
    match read_text IO input_file with
    | Ok text => Ok [(JStr (basename input_file), JStr text)]
    | Err e => Err e
    end.

(** [process_query_file] (lines 214-286): [True] once the results are
    written, [False] when anything raised.  The schema file is loaded
    but never used by the analysis, and is not modelled. *)
Definition process_query_file (IO : QueryIO) (P : Parsers) (input_file : string) (output_file : option string) : bool :=
  let out := match output_file with Some o => if String.eqb o "" then default_output input_file else o
                                  | None => default_output input_file end in
  match read_queries IO input_file with
  | Err _ => false
  | Ok queries =>
      match analyze_values P queries with
      | Err _ => false
      | Ok results => match write_json IO out results with Ok _ => true | Err _ => false end
      end
  end.

(** ** The outcome of an analysis *)

(** The analysis reached by the parse that succeeded: sqlglot's lists,
    then sql_metadata merged in. *)
Definition merged (P : Parsers) (q : string) (r1 : Analysis) : Analysis :=
  merge_metadata (update_sqlglot r1 (analyze_with_sqlglot P q)) (analyze_with_sql_metadata P q).

Lemma analyze_query_cases P raw name r :
  analyze_query P (Some raw) name = Some r ->
  qa_query_text r = strip raw /\
  ((exists e, qa_error r = Some e /\ qa_complexity r = None /\ qa_tables r = [] /\ qa_columns r = [] /\
              qa_joins r = [] /\ qa_where_conditions r = []) \/
   (exists r1, qa_error r1 = None /\ qa_query_text r1 = strip raw /\
              r = set_complexity (merged P (strip raw) r1))).
Proof.
  unfold analyze_query. destruct (String.eqb raw ""); [done|].
  destruct (sqlparse_parse P (strip raw)) as [[ty|]|e];
    [destruct (sqlparse_format P (strip raw)) as [f|e]| |]; intros [= <-].
  - split; [unfold set_complexity, merge_metadata; by destruct analyze_with_sql_metadata|].
    right. eexists. refine (conj _ (conj _ eq_refl)); reflexivity.
  - split; [done|]. left. eexists. repeat split.
  - split; [unfold set_complexity, merge_metadata; by destruct analyze_with_sql_metadata|].
    right. eexists. refine (conj _ (conj _ eq_refl)); reflexivity.
  - split; [done|]. left. eexists. repeat split.
Qed.

(** [analyze_query] answers [None]
    exactly for a missing or empty query; otherwise its result carries
    the stripped query, and either sqlparse raised, the result has the
    error and no complexity and nothing from the other parsers, or it
    has no error and the complexity computed from the merged result. *)
Theorem analysis_complexity_iff_no_error (P : Parsers) (query_text name : option string) :
  (analyze_query P query_text name = None <-> query_text = None \/ query_text = Some "") /\
  forall raw r, query_text = Some raw -> analyze_query P query_text name = Some r ->
    qa_query_text r = strip raw /\
    (qa_error r = None <-> qa_complexity r = Some (compute_complexity r)) /\
    (qa_error r <> None -> qa_complexity r = None /\ qa_tables r = [] /\ qa_columns r = []).
Proof.
  split.
  - destruct query_text as [raw|]; [|tauto]. unfold analyze_query.
    destruct (String.eqb_spec raw "") as [->|Hne]; [tauto|].
    split; [repeat case_match; done|]. intros [|]; congruence.
  - intros raw r -> Hr. destruct (analyze_query_cases _ _ _ _ Hr) as [Ht [(e & He & Hc & Htb & Hcl & _)|(r1 & He & _ & ->)]].
    + rewrite He, Hc. split; [done|]. split; [split; congruence|done].
    + split; [apply Ht|]. cbn. unfold merged, merge_metadata. destruct analyze_with_sql_metadata. cbn. rewrite He.
      split; [done|]. done.
Qed.

(** ** The merge of the two parsers *)

Lemma append_new_NoDup {A} `{EqDecision A} (l : list A) (xs : list A) :
  NoDup l -> NoDup (fold_left append_new xs l).
Proof.
  revert l. induction xs as [|x xs IH]; intros l Hl; simpl; [done|]. apply IH.
  unfold append_new. case_decide; [done|]. apply NoDup_app. split; [done|]. split; [|apply NoDup_singleton].
  intros y Hy ->%list_elem_of_singleton. done.
Qed.

Lemma conds_NoDup (acc : list ConditionInfo) cs :
  NoDup acc ->
  NoDup (fold_left (fun acc c => match left_name c with
                                 | Some n => append_new acc (mkConditionInfo n (default "?" (op c)))
                                 | None => acc end) cs acc).
Proof.
  revert acc. induction cs as [|c cs IH]; intros acc Hacc; simpl; [done|]. apply IH.
  destruct (left_name c); [|done]. unfold append_new. case_decide; [done|].
  apply NoDup_app. split; [done|]. split; [|apply NoDup_singleton].
  intros y Hy ->%list_elem_of_singleton. done.
Qed.

Definition sg_wf (r : SqlglotResult) : Prop :=
  NoDup (sg_tables r) /\ NoDup (sg_columns r) /\ NoDup (sg_joins r) /\ NoDup (sg_where_conditions r).

Lemma sqlglot_statements_wf r sts : sg_wf r -> sg_wf (sqlglot_statements r sts).
Proof.
  revert r. induction sts as [|[st|] sts IH]; intros r Hr; simpl; [done| |done].
  apply IH. destruct Hr as (? & ? & ? & ?).
  split; [|split; [|split]]; simpl; auto using append_new_NoDup, conds_NoDup.
Qed.

Lemma analyze_with_sqlglot_wf P q : sg_wf (analyze_with_sqlglot P q).
Proof.
  unfold analyze_with_sqlglot. assert (H0 : sg_wf (mkSqlglotResult [] [] [] [])) by (repeat split; constructor).
  destruct sqlglot_parse; [by apply sqlglot_statements_wf|done].
Qed.

Lemma analysis_merge_spec (P : Parsers) (raw : string) (name : option string) (r : Analysis) :
  analyze_query P (Some raw) name = Some r -> qa_error r = None ->
  let sg := analyze_with_sqlglot P (strip raw) in
  let md := analyze_with_sql_metadata P (strip raw) in
  qa_tables r = match sg_tables sg with [] => md.1 | ts => ts end /\
  qa_columns r = (sg_columns sg ++ List.filter (fun c => negb (bool_decide (c ∈ sg_columns sg))) md.2)%list /\
  qa_joins r = sg_joins sg /\ qa_where_conditions r = sg_where_conditions sg /\
  sg_wf sg.
Proof.
  intros Hr He. destruct (analyze_query_cases _ _ _ _ Hr) as [_ [(e & He' & _)|(r1 & _ & _ & ->)]]; [congruence|].
  cbn. unfold merged, merge_metadata, update_sqlglot. destruct (analyze_with_sql_metadata P (strip raw)) as [mt mc].
  cbn. split; [done|]. split; [destruct mc; cbn; [by rewrite app_nil_r|done]|].
  split; [done|]. split; [done|]. apply analyze_with_sqlglot_wf.
Qed.

(** After a successful sqlparse run, the
    analysis has sqlglot's joins and conditions, sqlglot's tables unless
    it found none (then sql_metadata's), and sqlglot's columns followed
    by sql_metadata's columns that sqlglot did not report; sqlglot's lists
    have no repetition. *)
Theorem analysis_merges_parsers (P : Parsers) (raw : string) (name : option string) (r : Analysis) :
  analyze_query P (Some raw) name = Some r -> qa_error r = None ->
  let sg := analyze_with_sqlglot P (strip raw) in
  let md := analyze_with_sql_metadata P (strip raw) in
  qa_tables r = match sg_tables sg with [] => md.1 | ts => ts end /\
  qa_columns r = (sg_columns sg ++ List.filter (fun c => negb (bool_decide (c ∈ sg_columns sg))) md.2)%list /\
  qa_joins r = sg_joins sg /\ qa_where_conditions r = sg_where_conditions sg /\
  sg_wf sg.
Proof. exact (analysis_merge_spec P raw name r). Qed.

(** The merged columns are free of repetition
    exactly when sql_metadata's columns that sqlglot did not report are:
    the membership test is made against sqlglot's columns only, so a
    column that sql_metadata lists under two tables appears twice. *)
Theorem analysis_columns_repeat (P : Parsers) (raw : string) (name : option string) (r : Analysis) :
  analyze_query P (Some raw) name = Some r -> qa_error r = None ->
  let sg := analyze_with_sqlglot P (strip raw) in
  let md := analyze_with_sql_metadata P (strip raw) in
  NoDup (qa_columns r) <-> NoDup (List.filter (fun c => negb (bool_decide (c ∈ sg_columns sg))) md.2).
Proof.
  intros Hr He. destruct (analysis_merge_spec _ _ _ _ Hr He) as (_ & -> & _ & _ & _ & Hc & _).
  cbv zeta. rewrite NoDup_app. split; [tauto|]. intros Hf. split; [done|]. split; [|done].
  intros x Hx Hin%list_elem_of_In. apply filter_In in Hin as [_ Hn].
  rewrite negb_true_iff, bool_decide_eq_false in Hn. done.
Qed.

(** ** Complexity *)

Definition complexity_rank (c : string) : nat :=
  if String.eqb c "High" then 2 else if String.eqb c "Medium" then 1 else 0.

Lemma inject_nat_le (m n : nat) : (m <= n)%nat -> inject_Z (Z.of_nat m) <= inject_Z (Z.of_nat n).
Proof. intros H. rewrite <-Zle_Qle. lia. Qed.

Lemma text_score_mono (m n : nat) : (m <= n)%nat ->
  (if (1000 <? m)%nat then 2 else if (500 <? m)%nat then 1 else 0 : Q) <=
  (if (1000 <? n)%nat then 2 else if (500 <? n)%nat then 1 else 0 : Q).
Proof.
  intros H. destruct (Nat.ltb_spec 1000 m), (Nat.ltb_spec 1000 n), (Nat.ltb_spec 500 m), (Nat.ltb_spec 500 n);
    try lia; vm_compute; discriminate.
Qed.

Lemma complexity_score_mono a b :
  qa_query_type a = qa_query_type b ->
  (length (qa_tables a) <= length (qa_tables b))%nat -> (length (qa_joins a) <= length (qa_joins b))%nat ->
  (length (qa_where_conditions a) <= length (qa_where_conditions b))%nat ->
  (String.length (qa_query_text a) <= String.length (qa_query_text b))%nat ->
  complexity_score a <= complexity_score b.
Proof.
  intros Hty Ht Hj Hc Hl. unfold complexity_score. rewrite Hty.
  apply inject_nat_le in Ht, Hj, Hc. apply text_score_mono in Hl.
  set (base := match qa_query_type b with Some "SELECT" => 1 | Some "INSERT" | Some "UPDATE" | Some "DELETE" => 2 | _ => 0 end : Q).
  lra.
Qed.

(** The complexity class never goes down when a
    query of the same type gains tables, joins, conditions or length. *)
Theorem complexity_monotone (a b : Analysis) :
  qa_query_type a = qa_query_type b ->
  (length (qa_tables a) <= length (qa_tables b))%nat -> (length (qa_joins a) <= length (qa_joins b))%nat ->
  (length (qa_where_conditions a) <= length (qa_where_conditions b))%nat ->
  (String.length (qa_query_text a) <= String.length (qa_query_text b))%nat ->
  (complexity_rank (compute_complexity a) <= complexity_rank (compute_complexity b))%nat.
Proof.
  intros. pose proof (complexity_score_mono a b) as Hm. unfold compute_complexity.
  destruct (Qlt_le_dec 8 (complexity_score a)), (Qlt_le_dec 8 (complexity_score b));
    destruct (Qlt_le_dec 4 (complexity_score a)), (Qlt_le_dec 4 (complexity_score b));
    cbn; try lia; exfalso; specialize (Hm ltac:(done) ltac:(done) ltac:(done) ltac:(done) ltac:(done)); lra.
Qed.

(** ** The file driver *)

(** Python's [os.path] on a few paths. *)
Example os_path_samples :
  default_output "data/queries.json" = "data/queries_analysis.json" /\
  default_output "queries.sql" = "queries_analysis.json" /\
  default_output "/q/.hidden" = "/q/.hidden_analysis.json" /\
  splitext "a/b.tar.gz" = ("a/b.tar", ".gz") /\ splitext "a.b/c" = ("a.b/c", "") /\
  dirname "a//b" = "a" /\ dirname "/x" = "/".
Proof. vm_compute. repeat split. Qed.

(** A JSON input that is not a list is only logged: the driver writes an
    empty result list and reports success. *)
Theorem json_not_list_reports_success (IO : QueryIO) (P : Parsers) (input_file : string) :
  lower (snd (splitext input_file)) = ".json" -> load_json IO input_file = Ok None ->
  process_query_file IO P input_file None =
    match write_json IO (default_output input_file) [] with Ok _ => true | Err _ => false end.
Proof. intros Hext Hj. unfold process_query_file, read_queries. by rewrite Hext, Hj. Qed.

Lemma analyze_values_strings P (l : list (JValue * JValue)) :
  Forall (fun nq => exists q, nq.2 = JStr q) l ->
  analyze_values P l = Ok (map (fun nq => match nq.2 with JStr q => analyze_query P (Some q)
                                             (match nq.1 with JStr n => Some n | JFalsy => None | JTruthy t => Some t end)
                                           | _ => None end) l).
Proof.
  induction 1 as [|[n q] l (q' & Hq) _ IH]; [done|]. cbn in Hq |- *. subst q. rewrite IH. done.
Qed.

(** A JSON list whose named items all hold string queries is analysed
    item by item, in order, and the analyses are written. *)
Theorem json_list_analysed_in_order (IO : QueryIO) (P : Parsers) (input_file out : string) (items : list JItem) :
  lower (snd (splitext input_file)) = ".json" -> load_json IO input_file = Ok (Some items) -> out <> "" ->
  Forall (fun nq => exists q, nq.2 = JStr q) (json_queries items) ->
  process_query_file IO P input_file (Some out) =
    match write_json IO out (map (fun nq => match nq.2 with
                                            | JStr q => analyze_query P (Some q)
                                                 (match nq.1 with JStr n => Some n | JFalsy => None | JTruthy t => Some t end)
                                            | _ => None end) (json_queries items)) with
    | Ok _ => true | Err _ => false end.
Proof.
  intros Hext Hj Hout Hq. unfold process_query_file, read_queries. rewrite Hext, Hj.
  destruct (String.eqb_spec out ""); [done|]. cbn. by rewrite analyze_values_strings.
Qed.

(** ** A sample analysis *)

Definition sample_parsers : Parsers :=
  mkParsers (fun _ => Ok (Some "SELECT")) (fun q => Ok q)
            (fun _ => Ok [Some (mkStatement ["orders"; "customer"] [mkJoinInfo (Some "INNER") (Some "customer")]
                                            ["id"; "total"] [mkConditionNode (Some "id") (Some "=")])])
            (fun _ => Ok ["orders"; "customer"])
            (fun _ => Ok [("orders", ["id"; "status"]); ("customer", ["status"])]).

Definition sample_query : string := " SELECT o.id, o.total, o.status FROM orders o JOIN customer c ON o.id = c.id ".

Definition empty_analysis : Analysis := mkAnalysis "" "" None [] [] [] [] None None None.

Definition sample_analysis : Analysis :=
  default empty_analysis (analyze_query sample_parsers (Some sample_query) (Some "orders by customer")).

(** sqlparse failing: the error is reported and nothing else is
    analysed. *)
Example sqlparse_failure_reported :
  analyze_query (mkParsers (fun _ => Err "boom") (fun q => Ok q) (fun _ => Ok []) (fun _ => Ok []) (fun _ => Ok []))
                (Some "SELECT 1") None =
  Some (mkAnalysis "Unnamed Query" "SELECT 1" None [] [] [] [] None None (Some "boom")).
Proof. reflexivity. Qed.

Lemma analysis_complexity_iff_no_error_witness :
  analyze_query sample_parsers (Some sample_query) (Some "orders by customer") = Some sample_analysis /\
  qa_complexity sample_analysis = Some (compute_complexity sample_analysis).
Proof.
  assert (H : analyze_query sample_parsers (Some sample_query) (Some "orders by customer") = Some sample_analysis)
    by (vm_compute; reflexivity).
  split; [exact H|].
  destruct (analysis_complexity_iff_no_error sample_parsers (Some sample_query) (Some "orders by customer"))
    as [_ Hc].
  apply (Hc sample_query sample_analysis eq_refl H). reflexivity.
Defined.

Lemma analysis_merges_parsers_witness :
  qa_tables sample_analysis = ["orders"; "customer"] /\ sg_wf (analyze_with_sqlglot sample_parsers (strip sample_query)).
Proof.
  assert (H : analyze_query sample_parsers (Some sample_query) (Some "orders by customer") = Some sample_analysis)
    by (vm_compute; reflexivity).
  destruct (analysis_merges_parsers sample_parsers sample_query (Some "orders by customer") sample_analysis H
              ltac:(vm_compute; reflexivity)) as (Ht & _ & _ & _ & Hwf).
  split; [rewrite Ht; vm_compute; reflexivity|exact Hwf].
Defined.

(** sql_metadata reports [status] under both tables: the merged columns
    repeat it. *)
Lemma analysis_columns_repeat_witness :
  qa_columns sample_analysis = ["id"; "total"; "status"; "status"] /\ ~ NoDup (qa_columns sample_analysis).
Proof.
  assert (H : analyze_query sample_parsers (Some sample_query) (Some "orders by customer") = Some sample_analysis)
    by (vm_compute; reflexivity).
  split; [vm_compute; reflexivity|].
  rewrite (analysis_columns_repeat sample_parsers sample_query (Some "orders by customer") sample_analysis H
             ltac:(vm_compute; reflexivity)).
  vm_compute. intros Hnd. inversion Hnd as [|? ? Hn]. apply Hn. left.
Defined.

Lemma complexity_monotone_witness :
  (complexity_rank (compute_complexity (mkAnalysis "a" "SELECT 1" (Some "SELECT") ["t"] [] [] [] None None None)) <=
   complexity_rank (compute_complexity sample_analysis))%nat.
Proof.
  apply complexity_monotone; vm_compute; try reflexivity; lia.
Defined.

End QueryAnalysis.
