(* ===== verification/Credentials.v ===== *)
(** * Chat database credentials and connection (src/app.py, lines 60-160)

    [get_db_credentials] reads the chat database's user and password
    from the SSM Parameter Store, falls back to the environment, and
    caches the answer in the global [cached_db_credentials];
    [get_ssm_client] caches the boto3 client in [ssm_client];
    [get_chat_db_config] adds the host, database and port, and
    [get_chat_db_connection] opens a MySQL connection.

    The process state is the two globals plus counters of the calls made
    to SSM and to MySQL; the environment, the availability of boto3 and
    of the MySQL driver, and the answers of SSM and MySQL (indexed by the
    call number, so that a service may fail and later recover) are the
    variables of the section.  Python's [int()] on the port string is a
    variable too. *)

From S2P Require Import Prelude PyStr.
From stdpp Require Import relations.

Open Scope string_scope.

Module Credentials.

Record Creds := mkCreds { cr_user : string; cr_password : string }.

(** The environment variables read (unset is [None]). *)
Record Env := mkEnv {
  CHAT_DB_USER : option string;
  CHAT_DB_PASSWORD : option string;
  CHAT_DB_PORT : option string
}.

(** [get_chat_db_config()] *)
Record DbConfig := mkDbConfig {
  host : string;
  database : string;
  user : string;
  password : string;
  port : Z
}.

(** The process state: the globals [ssm_client] and
    [cached_db_credentials], and the calls made so far. *)
Record CredState := mkCredState {
  ssm_client : bool;
  cached_db_credentials : option Creds;
  ssm_calls : nat;
  connect_calls : nat
}.

Definition initial_state : CredState := mkCredState false None 0 0.

Definition username_param : string := "/dbkb/chat/db/username".
Definition password_param : string := "/dbkb/chat/db/password".

Section Process.

Variable E : Env.
(** [boto3] imported, and [boto3.client('ssm')] succeeding. *)
Variable boto3_available : bool.
Variable ssm_client_ok : bool.
(** The answer of the [n]-th [ssm.get_parameters] call: the
    [(Name, Value)] pairs of [response['Parameters']], or an exception
    ([ClientError] or any other; both are handled alike). *)
Variable ssm_get_parameters : nat -> result (list (string * string)).
(** [mysql.connector] imported, and the [n]-th [connect] succeeding. *)
Variable mysql_available : bool.
Variable mysql_connect : nat -> DbConfig -> bool.
(** Python's [int()] on a string. *)
Variable py_int : string -> option Z.

Abbreviation CS := (M CredState).

(** [get_ssm_client] (lines 63-71) *)
Definition get_ssm_client : CS bool :=
  fun s =>
    if negb (ssm_client s) && boto3_available then
      if ssm_client_ok then (Ok true, mkCredState true (cached_db_credentials s) (ssm_calls s) (connect_calls s))
      else (Ok false, s)
    else (Ok (ssm_client s), s).

(** [os.getenv('CHAT_DB_USER', 'chat_user')] and
    [os.getenv('CHAT_DB_PASSWORD', '')] *)
Definition env_user : string := default "chat_user" (CHAT_DB_USER E).
Definition env_password : string := default "" (CHAT_DB_PASSWORD E).
Definition env_creds : Creds := mkCreds env_user env_password.

Definition set_cached (c : Creds) : CS Creds :=
  fun s => (Ok c, mkCredState (ssm_client s) (Some c) (ssm_calls s) (connect_calls s)).

(** The loop of lines 100-104: the value of the last parameter with the
    name. *)
Fixpoint param_value (name : string) (params : list (string * string)) (acc : option string) : option string :=
  match params with
  | [] => acc
  | (n, v) :: rest => param_value name rest (if String.eqb n name then Some v else acc)
  end.

(** [ssm.get_parameters(...)], counted. *)
Definition call_get_parameters : CS (list (string * string)) :=
  fun s =>
    let s' := mkCredState (ssm_client s) (cached_db_credentials s) (S (ssm_calls s)) (connect_calls s) in
    match ssm_get_parameters (ssm_calls s) with
    | Ok ps => (Ok ps, s')
    | Err e => (Err e, s')
    end.

(** [get_db_credentials] (lines 73-135) *)
Definition get_db_credentials : CS Creds :=
  fun s =>
    match cached_db_credentials s with
    | Some c => (Ok c, s)
    | None =>
        (let* ssm := get_ssm_client in
         if negb ssm then set_cached env_creds else
         try_catch
           (let* params := call_get_parameters in
            let credentials := mkCreds (default env_user (param_value username_param params None))
                                       (default env_password (param_value password_param params None)) in
            set_cached credentials)
           (fun _ => set_cached env_creds)) s
    end.

(** [get_chat_db_config] (lines 137-146): [int()] raises [ValueError] on
    a port that is not a number. *)
Definition get_chat_db_config : CS DbConfig :=
  let* credentials := get_db_credentials in
  match CHAT_DB_PORT E with
  | None => ret (mkDbConfig "dev.writer.pic.picbusiness.aws" "chat" (cr_user credentials) (cr_password credentials) 3306)
  | Some p =>
      match py_int p with
      | Some n => ret (mkDbConfig "dev.writer.pic.picbusiness.aws" "chat" (cr_user credentials) (cr_password credentials) n)
      | None => raise ("invalid literal for int() with base 10: '" +:+ p +:+ "'")
      end
  end.

(** [mysql.connector.connect] on the configuration, counted: [true] when the
    connection opens, [false] when it raises [mysql.connector.Error]. *)
Definition connect (cfg : DbConfig) : CS bool :=
  fun s => (Ok (mysql_connect (connect_calls s) cfg),
            mkCredState (ssm_client s) (cached_db_credentials s) (ssm_calls s) (S (connect_calls s))).

(** [get_chat_db_connection] (lines 148-160): the connection's
    configuration, or [None].  Its [except Error] catches the driver's
    errors only: the [ValueError] of the port propagates. *)
Definition get_chat_db_connection : CS (option DbConfig) :=
  if negb mysql_available then ret None else
  let* cfg := get_chat_db_config in
  let* ok := connect cfg in
  ret (if ok then Some cfg else None).

(** The process under calls of its entry points. *)
Inductive cred_step : CredState -> CredState -> Prop :=
| step_credentials s : cred_step s (snd (get_db_credentials s))
| step_connection s : cred_step s (snd (get_chat_db_connection s)).

(** ** Lemmas *)

Lemma get_db_credentials_cached s c : cached_db_credentials s = Some c -> get_db_credentials s = (Ok c, s).
Proof. intros H. unfold get_db_credentials. by rewrite H. Qed.

(** What one call of [get_db_credentials] does: it never raises and
    always leaves credentials cached; with a cache it changes nothing;
    without one it makes at most one SSM call, and its answer is the
    environment's unless that call succeeded. *)
Lemma get_db_credentials_effect s :
  exists c s', get_db_credentials s = (Ok c, s') /\ cached_db_credentials s' = Some c /\
    connect_calls s' = connect_calls s /\
    ((cached_db_credentials s = Some c /\ s' = s) \/
     (cached_db_credentials s = None /\ (ssm_calls s' <= S (ssm_calls s))%nat /\
      (c = env_creds \/ (ssm_calls s' = S (ssm_calls s) /\ exists ps, ssm_get_parameters (ssm_calls s) = Ok ps)))).
Proof.
  destruct (cached_db_credentials s) as [c|] eqn:Hc.
  - exists c, s. rewrite (get_db_credentials_cached s c Hc). do 3 (split; [done|]). by left.
  - unfold get_db_credentials, bind, get_ssm_client, try_catch, call_get_parameters, set_cached. rewrite Hc.
    repeat (case_match; simplify_eq/=); eexists _, _; (split; [reflexivity|]); cbn; repeat split; auto;
      right; (split; [done|]); (split; [lia|]); eauto.
Qed.

Definition cred_view (s : CredState) : bool * option Creds * nat :=
  (ssm_client s, cached_db_credentials s, ssm_calls s).

Lemma get_chat_db_connection_view s :
  cred_view (snd (get_chat_db_connection s)) = cred_view s \/
  cred_view (snd (get_chat_db_connection s)) = cred_view (snd (get_db_credentials s)).
Proof.
  unfold get_chat_db_connection. destruct mysql_available; cbn [negb]; [right|by left].
  destruct (get_db_credentials_effect s) as (c & s1 & Hg & _).
  unfold get_chat_db_config. rewrite bind_assoc, (bind_ok _ _ _ _ _ Hg), Hg.
  destruct (CHAT_DB_PORT E) as [p|]; [destruct (py_int p)|]; reflexivity.
Qed.

(** The invariant of the process started with empty globals: SSM has
    been asked at most once, and not before credentials were cached;
    cached credentials are the environment's when the first SSM call
    failed. *)
Definition cred_inv (s : CredState) : Prop :=
  (ssm_calls s <= 1)%nat /\ (cached_db_credentials s = None -> ssm_calls s = 0%nat) /\
  forall c e, cached_db_credentials s = Some c -> ssm_get_parameters 0 = Err e -> c = env_creds.

Lemma cred_inv_view s s' : cred_view s' = cred_view s -> cred_inv s -> cred_inv s'.
Proof. unfold cred_view, cred_inv. intros [= _ -> ->]. done. Qed.

Lemma cred_inv_credentials s : cred_inv s -> cred_inv (snd (get_db_credentials s)).
Proof.
  intros (H1 & H0 & Hp).
  destruct (get_db_credentials_effect s) as (c & s' & -> & Hc & _ & [[_ ->]|(Hn & Hle & Hor)]); [done|].
  cbn. rewrite (H0 Hn) in Hle, Hor. split; [lia|]. split; [congruence|].
  intros c' e Hc' He. rewrite Hc in Hc'. injection Hc' as <-.
  destruct Hor as [->|(_ & ps & Hps)]; [done|congruence].
Qed.

Lemma cred_inv_step s s' : cred_step s s' -> cred_inv s -> cred_inv s'.
Proof.
  intros [s0|s0] Hi; [by apply cred_inv_credentials|].
  destruct (get_chat_db_connection_view s0) as [Hv|Hv]; eapply cred_inv_view; eauto.
  by apply cred_inv_credentials.
Qed.

Lemma cred_inv_reachable s : rtc cred_step initial_state s -> cred_inv s.
Proof.
  intros Hr. assert (H0 : cred_inv initial_state) by (repeat split; cbn; [lia|done]).
  induction Hr as [|x y z Hxy _ IH]; [done|]. apply IH. eapply cred_inv_step; eauto.
Qed.

(** ** Theorems *)

(** Over any sequence of calls of
    [get_db_credentials] and [get_chat_db_connection] in a process, SSM
    is asked for the parameters at most once: the first call caches the
    credentials, whichever way it obtained them. *)
Theorem ssm_fetched_at_most_once (s : CredState) :
  rtc cred_step initial_state s -> (ssm_calls s <= 1)%nat.
Proof. intros Hr. apply (cred_inv_reachable s Hr). Qed.

(** When the first SSM call of the
    process fails, every later call returns the environment's
    credentials, even once SSM answers again: the fallback is cached for
    the life of the process. *)
Theorem ssm_failure_pins_env_credentials (s : CredState) (e : string) :
  rtc cred_step initial_state s -> ssm_get_parameters 0 = Err e ->
  fst (get_db_credentials s) = Ok env_creds.
Proof.
  intros Hr He. destruct (cred_inv_reachable s Hr) as (_ & H0 & Hp).
  destruct (get_db_credentials_effect s) as (c & s' & -> & _ & _ & [[Hc _]|(Hn & _ & [->|(_ & ps & Hps)])]);
    cbn; [by rewrite (Hp c e Hc He)|done|].
  rewrite (H0 Hn) in Hps. congruence.
Qed.

(** A [CHAT_DB_PORT] that [int()] rejects makes
    [get_chat_db_connection] raise instead of returning [None]: its
    [except Error] catches only the driver's errors. *)
Theorem bad_port_raises (s : CredState) (p : string) :
  mysql_available = true -> CHAT_DB_PORT E = Some p -> py_int p = None ->
  exists msg, fst (get_chat_db_connection s) = Err msg.
Proof.
  intros Hm Hp Hi. unfold get_chat_db_connection. rewrite Hm. cbn [negb].
  destruct (get_db_credentials_effect s) as (c & s1 & Hg & _).
  unfold get_chat_db_config. rewrite bind_assoc, (bind_ok _ _ _ _ _ Hg), Hp, Hi. eexists. reflexivity.
Qed.

End Process.

(** ** Witnesses *)

Definition sample_env : Env := mkEnv (Some "svc_chat") (Some "secret") (Some "33o6").

(** SSM fails on its first call and would answer afterwards. *)
Definition flaky_ssm (n : nat) : result (list (string * string)) :=
  match n with
  | O => Err "ThrottlingException"
  | _ => Ok [(username_param, "ssm_user"); (password_param, "ssm_pw")]
  end.

Definition port_int (p : string) : option Z := if String.eqb p "3306" then Some 3306%Z else None.

Definition after_first_call : CredState :=
  snd (get_db_credentials sample_env true true flaky_ssm initial_state).

Lemma ssm_fetched_at_most_once_witness :
  rtc (cred_step sample_env true true flaky_ssm true (fun _ _ => true) port_int) initial_state after_first_call /\
  (ssm_calls after_first_call <= 1)%nat.
Proof.
  assert (Hr : rtc (cred_step sample_env true true flaky_ssm true (fun _ _ => true) port_int)
                   initial_state after_first_call) by (apply rtc_once, step_credentials).
  split; [exact Hr|]. exact (ssm_fetched_at_most_once _ _ _ _ _ _ _ _ Hr).
Defined.

Lemma ssm_failure_pins_env_credentials_witness :
  fst (get_db_credentials sample_env true true flaky_ssm after_first_call) = Ok (mkCreds "svc_chat" "secret").
Proof.
  exact (ssm_failure_pins_env_credentials sample_env true true flaky_ssm true (fun _ _ => true) port_int
           after_first_call "ThrottlingException" (rtc_once _ _ (step_credentials _ _ _ _ _ _ _ _)) eq_refl).
Defined.

Lemma bad_port_raises_witness :
  exists msg, fst (get_chat_db_connection sample_env true true flaky_ssm true (fun _ _ => true) port_int
                     initial_state) = Err msg.
Proof. exact (bad_port_raises sample_env true true flaky_ssm true (fun _ _ => true) port_int initial_state "33o6"
                eq_refl eq_refl eq_refl). Defined.

End Credentials.
