(* ===== verification/RetrievalCli.v ===== *)
(** * The command line of the retrieval engine
    (src/src/advanced_retrieval/retrieval_techniques.py, lines 843-882)

    The [__main__] block parses [--kb-id], [--query], [--method] (one of
    six, [multi] by default), [--table] and [--sql], builds an
    [AdvancedRetrieval] client and runs one strategy, chosen by the
    method and by which arguments are present, then prints the result as
    JSON.  The outcome records what is printed and the exit status. *)

From S2P Require Import Prelude PyStr Aggregator Backend Cache Strategies Router.

Open Scope string_scope.

Module RetrievalCli.
Import Backend Cache Strategies Router.

Record CliArgs := mkCliArgs {
  kb_id_arg : option string;
  query_arg : option string;
  method_arg : string;
  table_arg : option string;
  sql_arg : option string
}.

(** [choices=[...]] of [--method] *)
Definition method_choices : list string :=
  ["standard"; "expansion"; "hyde"; "multi"; "relationship"; "optimize"].

Inductive CliOutcome (Score : Type) :=
| Printed (r : StrategyResult Score)
| MissingArguments
| ArgparseError
| Failed (msg : string).
Arguments Printed {Score} r.
Arguments MissingArguments {Score}.
Arguments ArgparseError {Score}.
Arguments Failed {Score} msg.

(** The exit status: [sys.exit(1)] on the two error paths, argparse's
    2 for a method outside the choices. *)
Definition exit_code {Score} (o : CliOutcome Score) : nat :=
  match o with Printed _ => 0 | ArgparseError => 2 | MissingArguments | Failed _ => 1 end.

Section Cli.
Context {Score : Type} `{ScoreOrder Score} `{ScoreLit Score}.
Variable B : Backend Score.
(** [os.environ.get('KNOWLEDGE_BASE_ID')] *)
Variable env_kb : option string.

(** [AdvancedRetrieval.__init__] (lines 21-25): [kb_id or
    os.environ.get('KNOWLEDGE_BASE_ID')], which must be truthy. *)
Definition init_kb (kb_id : option string) : option string :=
  match truthy_kb kb_id with Some k => Some k | None => truthy_kb env_kb end.

Definition run_strategy (c : M (ClientState Score) (StrategyResult Score)) (st : ClientState Score)
    : CliOutcome Score * ClientState Score :=
  match c st with
  | (Ok r, st') => (Printed r, st')
  | (Err e, st') => (Failed e, st')
  end.

(** The [try] block (lines 857-882), from the client's initial state. *)
Definition cli_main (args : CliArgs) (now : Z) : CliOutcome Score * ClientState Score :=
  let st := fresh_state now in
  if negb (existsb (String.eqb (method_arg args)) method_choices) then (ArgparseError, st) else
  match init_kb (kb_id_arg args) with
  | None => (Failed "Knowledge Base ID must be provided or set in KNOWLEDGE_BASE_ID environment variable", st)
  | Some kb =>
      match String.eqb (method_arg args) "relationship", truthy_kb (table_arg args),
            String.eqb (method_arg args) "optimize", truthy_kb (sql_arg args), truthy_kb (query_arg args) with
      | true, Some table, _, _, _ => run_strategy (relationship_retrieval B kb table 10) st
      | _, _, true, Some sql, _ => run_strategy (optimize_sql_query B kb sql) st
      | _, _, _, _, Some q =>
          if String.eqb (method_arg args) "standard" then run_strategy (standard_query B kb q 5) st
          else if String.eqb (method_arg args) "expansion" then run_strategy (query_expansion B kb q 5) st
          else if String.eqb (method_arg args) "hyde" then run_strategy (hyde_retrieval B kb q 5) st
          else run_strategy (multi_strategy_retrieval B kb q 8) st
      | _, _, _, _, None => (MissingArguments, st)
      end
  end.

(** ** Theorems *)

Lemma run_strategy_memoize key body on_error st :
  exists r st', run_strategy (memoize key body on_error) st = (Printed r, st').
Proof.
  unfold run_strategy. destruct (memoize_no_raise key body on_error st) as (r & st' & ->). eauto.
Qed.

(** With a valid method and a knowledge base, the tool fails only when
    it lacks the argument its method needs and a query: every strategy
    absorbs the backend's errors, so it otherwise prints a result. *)
Theorem cli_exit_code (args : CliArgs) (now : Z) :
  existsb (String.eqb (method_arg args)) method_choices = true -> init_kb (kb_id_arg args) <> None ->
  (exit_code (fst (cli_main args now)) = 0 <->
   truthy_kb (query_arg args) <> None \/
   (method_arg args = "relationship" /\ truthy_kb (table_arg args) <> None) \/
   (method_arg args = "optimize" /\ truthy_kb (sql_arg args) <> None)).
Proof.
  intros Hm Hkb. unfold cli_main. rewrite Hm. cbn [negb].
  destruct (init_kb (kb_id_arg args)) as [kb|]; [|done].
  destruct (String.eqb_spec (method_arg args) "relationship") as [Hr|Hr];
    destruct (truthy_kb (table_arg args)) as [t|];
    destruct (String.eqb_spec (method_arg args) "optimize") as [Ho|Ho];
    destruct (truthy_kb (sql_arg args)) as [q'|];
    destruct (truthy_kb (query_arg args)) as [q|]; try congruence;
    repeat match goal with
    | |- context [run_strategy (?c) ?st] =>
        let r := fresh "r" in let st' := fresh "st" in let E := fresh "E" in
        assert (E : exists r st', run_strategy c st = (Printed r, st')) by (apply run_strategy_memoize);
        destruct E as (r & st' & ->)
    | |- context [if String.eqb ?a ?b then _ else _] => destruct (String.eqb a b)
    end; cbn; intuition (try congruence).
Qed.

(** A relationship or optimisation request missing its table or SQL but
    carrying a query runs the multi-strategy retrieval on the query. *)
Theorem cli_missing_argument_falls_back_to_multi (args : CliArgs) (now : Z) (kb q : string) :
  method_arg args = "relationship" \/ method_arg args = "optimize" ->
  init_kb (kb_id_arg args) = Some kb ->
  truthy_kb (table_arg args) = None -> truthy_kb (sql_arg args) = None -> truthy_kb (query_arg args) = Some q ->
  cli_main args now = run_strategy (multi_strategy_retrieval B kb q 8) (fresh_state now).
Proof.
  intros Hm Hkb Ht Hs Hq. unfold cli_main. rewrite Hkb, Ht, Hs, Hq.
  destruct Hm as [Hm|Hm]; rewrite Hm; reflexivity.
Qed.

End Cli.

End RetrievalCli.
