(* ===== verification/Pipeline.v ===== *)
(** * The pipeline command line (src/main.py)

    [main] parses a subcommand and runs one of [run_extract_schema],
    [run_analyze_queries], [run_generate_docs], [run_upload],
    [run_setup_kb] or [run_all]; it returns 0 when the command returns
    [True], 1 when it returns [False] or raises.

    The world is the working directory, taken to be the repository root
    (where [main.py] is): its files by path and its directories, the
    database connections left open, and the calls made to S3 and to
    Bedrock.  A file is plain text (its lines), a JSON document written
    by [json.dump], or a markdown page.  The commands call the components
    of the other files: [Schema.extract_schema_to_json],
    [SchemaDocs.schema_site], [QueryAnalysis.analyze_query_batch],
    [Upload.upload_documentation] and
    [KbSetup.create_and_configure_knowledge_base].

    What the libraries do with text is a parameter: [configparser]'s
    parse of a file ([parse_ini]), [json.load] of a text file
    ([parse_json]) and the text [json.dump] writes ([json_lines]).  A
    JSON document is one of the four the tools read or write: the schema
    dict, the list of analyses, the knowledge-base info and the dict of
    analysed queries the query documentation reads.  The generators are
    [SchemaDocs] and [QueryDocs], writing through [write_file]; on a
    JSON list, which is what [run_analyze_queries] writes, the query
    generator raises at [.values()].  When a generator is given the JSON
    of another tool that has a key it reads (a query named [tables] for
    the schema generator, a table named like a field of a query for the
    query generator), what it does depends on Python's [repr] of nested
    dicts and is a parameter ([other_docs]). *)

From S2P Require Import Prelude PyStr PyDict PyPath DocSite Schema SchemaDocs QueryDocs QueryAnalysis KbSetup Upload.
From stdpp Require Import list.
From Stdlib Require Import Ascii.

Open Scope string_scope.

Module Pipeline.
Import PyStr PyDict PyPath DocSite.

(** The JSON documents the commands write. *)
Inductive JsonDoc :=
| JSchema (s : Schema.SchemaData)
| JAnalyses (results : list (option QueryAnalysis.Analysis))
| JKbInfo (fields : list (string * string))
| JQueries (queries : QueryDocs.Queries).

Inductive File :=
| FText (lines : list string)
| FJson (doc : JsonDoc)
| FMarkdown (p : Page).

Record World := mkWorld {
  fs : list (string * File);
  directories : list string;
  conns : nat;
  s3_log : list Upload.S3Call;
  kb_log : list KbSetup.Call
}.

Abbreviation X := (M World).

(** The parsed configuration: sections and their options. *)
Definition IniData := list (string * list (string * string)).

(** The connection parameters [run_extract_schema] passes on. *)
Record ConnParams := mkConnParams { host : string; port : string; dbname : string; user : string; password : string;
                                    db_schema : string }.

Section Pipeline.
Variables (parse_ini : list string -> result IniData) (parse_json : list string -> result JsonDoc)
          (json_lines : JsonDoc -> list string).
Variables (db : ConnParams -> Schema.Server) (P : QueryAnalysis.Parsers) (s3 : Upload.S3) (bd : KbSetup.Bedrock)
          (today : string).
Variable other_docs : string -> JsonDoc -> M (list (string * File)) bool.

(** ** Files *)

Definition file_lines (f : File) : list string :=
  match f with
  | FText l => l
  | FJson d => json_lines d
  | FMarkdown p => split_on newline (render p)
  end.

Definition path_exists (w : World) (p : string) : bool :=
  dmem p (fs w) || existsb (String.eqb p) (directories w).

Definition isdir (w : World) (p : string) : bool := existsb (String.eqb p) (directories w).

Definition set_fs (w : World) (f : list (string * File)) : World :=
  mkWorld f (directories w) (conns w) (s3_log w) (kb_log w).

Definition add_dir (d : string) (ds : list string) : list string :=
  if existsb (String.eqb d) ds then ds else ds ++ [d].

(** [os.makedirs(d, exist_ok=True)]: [d] and the directories above it. *)
Definition dir_chain (d : string) : list string :=
  let comps := split_on slash d in map (fun n => join "/" (firstn n comps)) (seq 1 (length comps)).

Definition makedirs (d : string) : X unit :=
  fun w => (Ok tt, mkWorld (fs w) (fold_left (fun acc d => add_dir d acc) (dir_chain d) (directories w)) (conns w)
                           (s3_log w) (kb_log w)).

(** [open(p, 'w')] and the writes: the directory must exist. *)
Definition write_file (p : string) (f : File) : X unit :=
  fun w =>
    let d := dirname p in
    if String.eqb d "" || isdir w d then (Ok tt, set_fs w (dset p f (fs w)))
    else (Err "FileNotFoundError", w).

Definition read_file (p : string) : X File :=
  fun w => match dget p (fs w) with
           | Some f => (Ok f, w)
           | None => (Err (if isdir w p then "IsADirectoryError" else "FileNotFoundError"), w)
           end.

(** [json.load(f)] *)
Definition load_json (p : string) : X JsonDoc :=
  let* f := read_file p in
  match f with
  | FJson d => ret d
  | f => match parse_json (file_lines f) with Ok d => ret d | Err e => raise ("JSONDecodeError: " +:+ e) end
  end.

(** [try: json.load(...) except (OSError, json.JSONDecodeError)]: every
    error of [load_json] is one of these. *)
Definition load_json_caught (p : string) : X (result JsonDoc) :=
  fun w => match load_json p w with (r, w') => (Ok r, w') end.

(** ** The components, inside the world *)

(** The extraction runs on a fresh extractor; the dict it saves is
    [docs/schema/schema_data.json] (lines 339-344 of extract_schema.py,
    the extractor's [output_dir] being [docs/schema] below the
    repository root). *)
Definition lift_extract {A} (m : Schema.X A) : X A :=
  fun w =>
    let '(r, st) := m (Schema.mkExtractState [] None (conns w)) in
    let w1 := mkWorld (fs w) (directories w) (Schema.open_connections st) (s3_log w) (kb_log w) in
    match Schema.saved st with
    | Some s => let '(_, w2) := (makedirs "docs/schema" ;;; write_file "docs/schema/schema_data.json" (FJson (JSchema s))) w1 in
                (r, w2)
    | None => (r, w1)
    end.

Definition lift_upload {A} (m : Upload.X A) : X A :=
  fun w => let '(r, log) := m (s3_log w) in (r, mkWorld (fs w) (directories w) (conns w) log (kb_log w)).

Definition lift_kb {A} (m : KbSetup.X A) : X A :=
  fun w => let '(r, log) := m (kb_log w) in (r, mkWorld (fs w) (directories w) (conns w) (s3_log w) log).

(** A computation on the files only. *)
Definition lift_fs {A} (m : M (list (string * File)) A) : X A :=
  fun w => let '(r, f) := m (fs w) in (r, set_fs w f).

(** The pages of a site, written in order. *)
Definition write_site (site : Site) : X unit :=
  mmap (fun '(p, page) => write_file p (FMarkdown page)) site ;;; ret tt.

(** [generate_schema_documentation] (schema_to_markdown.py, lines
    299-323): a file that cannot be read or parsed gives [False]; a JSON
    document that is not a schema dict raises at
    [self.schema_data['tables']] once the head of [index.md] is
    written (lines 65-75). *)
Definition generate_schema_documentation (input out : string) : X bool :=
  let* r := load_json_caught input in
  match r with
  | Err _ => ret false
  | Ok d =>
      makedirs out ;;; makedirs (path_join out "tables") ;;; makedirs (path_join out "relationships") ;;;
      makedirs (path_join out "indexes") ;;;
      match d with
      | JSchema s =>
          let '(ok, site) := SchemaDocs.generate_markdown_from_json (Ok s) out today in
          try_catch (write_site site ;;; ret ok) (fun _ => ret false)
      | JAnalyses _ =>
          write_file (SchemaDocs.index_path out) (FMarkdown (SchemaDocs.index_page today [])) ;;;
          raise "TypeError: list indices must be integers or slices, not str"
      | JKbInfo _ =>
          write_file (SchemaDocs.index_path out) (FMarkdown (SchemaDocs.index_page today [])) ;;;
          raise "KeyError: 'tables'"
      | JQueries q =>
          if dmem "tables" q then lift_fs (other_docs out d)
          else write_file (SchemaDocs.index_path out) (FMarkdown (SchemaDocs.index_page today [])) ;;;
               raise "KeyError: 'tables'"
      end
  end.

(** The pages of the query documentation are files of the world. *)
#[local] Instance world_writer : QueryDocs.MdWriter World := fun p pg => write_file p (FMarkdown pg).

(** [except (OSError, json.JSONDecodeError)]: the errors of the file
    operations are [OSError]s. *)
Definition os_error (e : string) : bool :=
  String.prefix "FileNotFoundError" e || String.prefix "IsADirectoryError" e.

Definition catch_os (m : X bool) : X bool :=
  fun w => match m w with
           | (Err e, w') => if os_error e then (Ok false, w') else (Err e, w')
           | r => r
           end.

(** The keys of the JSON object of a query, with the Python type of
    their value. *)
Definition present_fields (qd : QueryDocs.QueryData) : list (string * string) :=
  let f {A} (k ty : string) (o : option A) := match o with Some _ => [(k, ty)] | None => [] end in
  f "category" "str" (QueryDocs.category qd) ++ f "tables_referenced" "list" (QueryDocs.tables_referenced qd) ++
  f "complexity" "str" (QueryDocs.complexity qd) ++ f "sql_text" "str" (QueryDocs.sql_text qd) ++
  f "description" "str" (QueryDocs.description qd) ++ f "joins" "list" (QueryDocs.joins qd) ++
  f "where_conditions" "list" (QueryDocs.where_conditions qd).

(** What the query generator finds in the schema JSON (lines 185-188). *)
Definition schema_view_of (sd : option JsonDoc) : QueryDocs.SchemaView :=
  match sd with
  | Some (JSchema s) => QueryDocs.schema_view s
  | Some (JAnalyses (_ :: _)) => fun _ => Err "AttributeError: 'list' object has no attribute 'get'"
  | Some (JKbInfo ((_ :: _) as f)) =>
      fun t => match dget "tables" f with
               | Some v => if contains t v then Err "TypeError: string indices must be integers, not 'str'" else Ok None
               | None => Ok None
               end
  | Some (JQueries ((_ :: _) as q)) =>
      fun t => match dget "tables" q with
               | Some qd => match find (fun e => String.eqb t e.1) (present_fields qd) with
                            | Some (_, ty) => Err ("AttributeError: '" +:+ ty +:+ "' object has no attribute 'get'")
                            | None => Ok None
                            end
               | None => Ok None
               end
  | _ => QueryDocs.no_schema
  end.

(** The fields of a query the generator reads. *)
Definition query_fields : list string :=
  ["category"; "tables_referenced"; "complexity"; "sql_text"; "description"; "joins"; "where_conditions"].

(** [QueryMarkdownGenerator(queries_data, out_dir, schema_data).generate_all_docs()] *)
Definition query_docs_run (out : string) (sv : QueryDocs.SchemaView) (q : QueryDocs.Queries) : X bool :=
  catch_os (QueryDocs.generate_all_docs sv out q ;;; ret true).

(** [generate_query_documentation] (queries_to_markdown.py, lines
    265-293): the schema file is optional and its errors are only
    logged; the generator's constructor makes its directories, and
    [generate_index_file] first calls [self.queries_data.values()]. *)
Definition generate_query_documentation (input out schema_path : string) : X bool :=
  let* r := load_json_caught input in
  match r with
  | Err _ => ret false
  | Ok d =>
      let* sd := (if truthy schema_path then
                    let* r := load_json_caught schema_path in ret (match r with Ok d => Some d | Err _ => None end)
                  else ret None) in
      makedirs out ;;; makedirs (path_join out "query_patterns") ;;; makedirs (path_join out "tables_usage") ;;;
      match d with
      | JAnalyses _ => raise "AttributeError: 'list' object has no attribute 'values'"
      | JQueries q => query_docs_run out (schema_view_of sd) q
      | JKbInfo [] => query_docs_run out (schema_view_of sd) []
      | JKbInfo _ => raise "AttributeError: 'str' object has no attribute 'get'"
      | JSchema s =>
          if existsb (fun k => existsb (String.eqb k) query_fields) (dkeys s) then lift_fs (other_docs out d)
          else query_docs_run out (schema_view_of sd) [("tables", QueryDocs.mkQueryData None None None None None None None)]
      end
  end.

(** [__main__] of schema_to_markdown.py (lines 326-340): the line
    printed and the exit status; an exception is a traceback. *)
Definition schema_docs_cli (input output : string) : X (string * nat) :=
  fun w => match generate_schema_documentation input output w with
           | (Ok true, w') => (Ok ("Documentation successfully generated in: " +:+ output, 0%nat), w')
           | (Ok false, w') => (Ok ("Documentation generation failed. See logs for details.", 1%nat), w')
           | (Err e, w') => (Err e, w')
           end.

(** [__main__] of queries_to_markdown.py (lines 296-313); [--schema] is
    optional. *)
Definition query_docs_cli (input output : string) (schema : option string) : X (string * nat) :=
  fun w => match generate_query_documentation input output (default "" schema) w with
           | (Ok true, w') => (Ok ("Query documentation successfully generated in: " +:+ output, 0%nat), w')
           | (Ok false, w') => (Ok ("Query documentation generation failed. See logs for details.", 1%nat), w')
           | (Err e, w') => (Err e, w')
           end.

(** ** [configparser] *)

Definition read_config (p : string) : X IniData :=
  fun w => match dget p (fs w) with
           | Some f => match parse_ini (file_lines f) with Ok d => (Ok d, w) | Err e => (Err e, w) end
           | None => (Ok [], w)
           end.

(** [section in config]: [DEFAULT] is always there. *)
Definition ini_has (ini : IniData) (sec : string) : bool := String.eqb sec "DEFAULT" || dmem sec ini.

(** [config[sec].get(k)]: the section's option, else the default one. *)
Definition ini_get (ini : IniData) (sec k : string) : option string :=
  let own := if String.eqb sec "DEFAULT" then None else match dget sec ini with Some o => dget k o | None => None end in
  match own with
  | Some v => Some v
  | None => match dget "DEFAULT" ini with Some o => dget k o | None => None end
  end.

Definition ini_getd (ini : IniData) (sec k d : string) : string := match ini_get ini sec k with Some v => v | None => d end.

(** ** The commands *)

(** The database type of a section (line 147). *)
Definition config_db_type (ini : IniData) (section : string) : string := ini_getd ini section "db_type" section.

(** The connection parameters of a section (lines 141-151): for MySQL
    the schema defaults to the database name. *)
Definition config_params (ini : IniData) (section : string) : ConnParams :=
  let dbname_ := ini_getd ini section "database" "" in
  let schema := if String.eqb (lower (config_db_type ini section)) "mysql" && negb (truthy_opt (ini_get ini section "schema"))
                then dbname_ else ini_getd ini section "schema" "public" in
  mkConnParams (ini_getd ini section "host" "localhost") (ini_getd ini section "port" "5432") dbname_
               (ini_getd ini section "user" "") (ini_getd ini section "password" "") schema.

(** [run_extract_schema] (lines 121-176) *)
Definition run_extract_schema (config section output : string) (generate_markdown : bool) : X bool :=
  let* w := mget in
  let alt := path_join (path_join "src" "schema_extraction") config in
  if negb (path_exists w config) && negb (path_exists w alt) then ret false else
  let cfg := if path_exists w config then config else alt in
  let* ini := read_config cfg in
  if negb (ini_has ini section) then ret false else
  let params := config_params ini section in
  let db_type := config_db_type ini section in
  let* schema_data := lift_extract (Schema.extract_schema_to_json (db params) db_type) in
  write_file output (FJson (JSchema schema_data)) ;;;
  if generate_markdown then
    let output_dir := path_join "docs" "schema" in
    makedirs output_dir ;;; generate_schema_documentation output output_dir
  else ret true.

(** [(query_name, query_text) = s] on a string [s]. *)
Definition unpack2 (s : string) : result (string * string) :=
  match s with
  | String a (String b EmptyString) => Ok (String a EmptyString, String b EmptyString)
  | String _ (String _ (String _ _)) => Err "ValueError: too many values to unpack (expected 2)"
  | String _ EmptyString => Err "ValueError: not enough values to unpack (expected 2, got 1)"
  | EmptyString => Err "ValueError: not enough values to unpack (expected 2, got 0)"
  end.

Fixpoint unpack_all (l : list string) : result (list (string * string)) :=
  match l with
  | [] => Ok []
  | s :: l' => match unpack2 s with
               | Ok p => match unpack_all l' with Ok ps => Ok (p :: ps) | Err e => Err e end
               | Err e => Err e
               end
  end.

(** [analyze_query_batch(queries, schema_data)] on the list of lines
    (query_parser.py, lines 201-211): the loop unpacks each string into
    a name and a text. *)
Definition analyze_lines (queries : list string) : X (list (option QueryAnalysis.Analysis)) :=
  match unpack_all queries with
  | Ok pairs => ret (QueryAnalysis.analyze_query_batch P (map (fun '(n, t) => (Some n, Some t)) pairs))
  | Err e => raise e
  end.

(** [[line.strip() for line in f if line.strip()]] *)
Definition query_lines (f : File) : list string :=
  List.filter (fun l => negb (String.eqb l "")) (map strip (file_lines f)).

(** [run_analyze_queries] (lines 178-222) *)
Definition run_analyze_queries (input output schema : string) (generate_markdown : bool) : X bool :=
  let* w := mget in
  if negb (path_exists w input) then ret false else
  let* _ := (if truthy schema && path_exists w schema then let* d := load_json schema in ret (Some d)
             else ret None) in
  let* f := read_file input in
  let* analysis_results := analyze_lines (query_lines f) in
  write_file output (FJson (JAnalyses analysis_results)) ;;;
  if generate_markdown then
    let output_dir := path_join "docs" "queries" in
    makedirs output_dir ;;; generate_query_documentation output output_dir schema
  else ret true.

(** [run_generate_docs] (lines 224-260) *)
Definition run_generate_docs (schema queries output_dir : string) : X bool :=
  let* w := mget in
  let* ok1 := (if path_exists w schema then
                 let d := path_join output_dir "schema" in makedirs d ;;; generate_schema_documentation schema d
               else ret true) in
  let* w := mget in
  let* ok2 := (if path_exists w queries then
                 let d := path_join output_dir "queries" in makedirs d ;;; generate_query_documentation queries d schema
               else ret true) in
  ret (ok1 && ok2).

(** [run_upload] (lines 262-287): the base directory is the repository
    root, the working directory. *)
Definition run_upload (bucket prefix region : string) (create_bucket : bool) : X bool :=
  let* ok := (if create_bucket then lift_upload (Upload.create_bucket_if_not_exists s3 bucket (Some region))
              else ret true) in
  if negb ok then ret false else
  let* w := mget in
  lift_upload (Upload.upload_documentation s3 (Upload.mkLocal (dkeys (fs w)) (directories w)) bucket prefix).

(** [run_setup_kb] (lines 289-329) *)
Definition run_setup_kb (bucket prefix region name description : string) (test_query : option string) : X bool :=
  let* '(kb_id, ds_id) := lift_kb (KbSetup.create_and_configure_knowledge_base bd region name description bucket prefix
                                                                              test_query) in
  match kb_id, ds_id with
  | Some kb, Some ds =>
      if truthy kb then
        if truthy ds then
          write_file "kb_info.json"
            (FJson (JKbInfo [("kb_id", kb); ("data_source_id", ds); ("name", name); ("description", description);
                             ("region", region); ("s3_bucket", bucket); ("s3_prefix", prefix)])) ;;; ret true
        else ret false
      else ret false
  | Some kb, None => ret false
  | None, _ => ret false
  end.

(** [run_all] (lines 331-379): step 1 is given [config=args.section]. *)
Definition run_all (section queries bucket prefix region kb_name : string) (create_bucket : bool) : X bool :=
  let* ok := run_extract_schema section section "schema_data.json" true in
  if negb ok then ret false else
  let* ok := run_analyze_queries queries "query_analysis.json" "schema_data.json" true in
  if negb ok then ret false else
  let* ok := run_upload bucket prefix region create_bucket in
  if negb ok then ret false else
  let* ok := run_setup_kb bucket prefix region kb_name "Database Schema Knowledge Base"
                          (Some "What tables does the database have?") in
  if negb ok then ret false else ret true.

(** The subcommands and their arguments (lines 28-119). *)
Inductive Command :=
| ExtractSchema (config section output : string) (generate_markdown : bool)
| AnalyzeQueries (input output schema : string) (generate_markdown : bool)
| GenerateDocs (schema queries output_dir : string)
| UploadDocs (bucket prefix region : string) (create_bucket : bool)
| SetupKb (bucket prefix region name description : string) (test_query : option string)
| RunAll (section queries bucket prefix region kb_name : string) (create_bucket : bool).

Definition run_command (c : Command) : X bool :=
  match c with
  | ExtractSchema config section output gm => run_extract_schema config section output gm
  | AnalyzeQueries input output schema gm => run_analyze_queries input output schema gm
  | GenerateDocs schema queries out => run_generate_docs schema queries out
  | UploadDocs bucket prefix region cb => run_upload bucket prefix region cb
  | SetupKb bucket prefix region name desc tq => run_setup_kb bucket prefix region name desc tq
  | RunAll section queries bucket prefix region kb_name cb => run_all section queries bucket prefix region kb_name cb
  end.

(** [main] (lines 381-411): the exit status. *)
Definition main (c : Command) : X nat :=
  fun w => match run_command c w with
           | (Ok true, w') => (Ok 0%nat, w')
           | (Ok false, w') => (Ok 1%nat, w')
           | (Err _, w') => (Ok 1%nat, w')
           end.

(** ** What stays local *)

(** The S3 and Bedrock calls made so far are the same. *)
Definition frame (w w' : World) : Prop := s3_log w' = s3_log w /\ kb_log w' = kb_log w.

(** [m] makes no call to S3 or Bedrock. *)
Definition local {A} (m : X A) : Prop := forall w, frame w (snd (m w)).

Lemma frame_refl w : frame w w.
Proof. done. Qed.

Lemma frame_trans w1 w2 w3 : frame w1 w2 -> frame w2 w3 -> frame w1 w3.
Proof. intros [? ?] [? ?]. split; congruence. Qed.

Lemma local_run {A} (m : X A) w : local m -> exists r w', m w = (r, w') /\ frame w w'.
Proof. intros H. specialize (H w). destruct (m w) as [r w']. eauto. Qed.

Lemma local_ret {A} (a : A) : local (ret a).
Proof. intros w. done. Qed.

Lemma local_raise {A} e : local (raise (A:=A) e).
Proof. intros w. done. Qed.

Lemma local_mget : local mget.
Proof. intros w. done. Qed.

Lemma local_bind {A B} (m : X A) (k : A -> X B) : local m -> (forall a, local (k a)) -> local (bind m k).
Proof.
  intros Hm Hk w. unfold bind. pose proof (Hm w) as F. destruct (m w) as [[a|e] w']; [|exact F].
  eapply frame_trans; [exact F|]. apply Hk.
Qed.

Lemma local_try_catch {A} (c : X A) h : local c -> (forall e, local (h e)) -> local (try_catch c h).
Proof.
  intros Hc Hh w. unfold try_catch. pose proof (Hc w) as F. destruct (c w) as [[a|e] w']; [exact F|].
  eapply frame_trans; [exact F|]. apply Hh.
Qed.

Lemma local_makedirs d : local (makedirs d).
Proof. intros w. done. Qed.

Lemma local_write_file p f : local (write_file p f).
Proof. intros w. unfold write_file. by repeat case_match. Qed.

Lemma local_lift_fs {A} (m : M (list (string * File)) A) : local (lift_fs m).
Proof. intros w. unfold lift_fs. by destruct (m (fs w)).
Qed.

Lemma local_read_file p : local (read_file p).
Proof. intros w. unfold read_file. by destruct (dget p (fs w)). Qed.

Lemma local_read_config p : local (read_config p).
Proof. intros w. unfold read_config. destruct (dget p (fs w)) as [f|]; [by destruct (parse_ini _)|done]. Qed.

Lemma local_lift_extract {A} (m : Schema.X A) : local (lift_extract m).
Proof.
  intros w. unfold lift_extract. destruct (m _) as [r st]. destruct (Schema.saved st) as [s|]; [|done].
  match goal with |- frame _ (snd (let '(_, w2) := ?c ?w1 in _)) =>
    pose proof (local_bind _ _ (local_makedirs "docs/schema") (fun _ => local_write_file "docs/schema/schema_data.json" (FJson (JSchema s))) w1) as F;
    destruct (c w1) as [r' w2] end.
  exact F.
Qed.

Lemma local_mmap {A B} (f : A -> X B) l : (forall a, local (f a)) -> local (mmap f l).
Proof.
  intros Hf. induction l as [|a l IH]; cbn [mmap]; [apply local_ret|].
  apply local_bind; [apply Hf|]. intros b. apply local_bind; [exact IH|]. intros. apply local_ret.
Qed.

Create HintDb pipeline discriminated.
#[local] Hint Resolve local_ret local_raise local_mget local_bind local_try_catch local_makedirs local_write_file local_lift_fs
  local_read_file local_read_config local_lift_extract local_mmap : pipeline.

(** Split the binds and the cases of a computation that stays local. *)
Ltac local_tac :=
  repeat (intros; first
    [ progress eauto with pipeline
    | apply local_bind
    | apply local_try_catch
    | apply local_mmap
    | match goal with
      | |- local (match ?x with _ => _ end) => destruct x
      | |- local (if ?b then _ else _) => destruct b
      end ]).

Lemma local_load_json p : local (load_json p).
Proof. unfold load_json. local_tac. Qed.

Lemma local_load_json_caught p : local (load_json_caught p).
Proof. intros w. unfold load_json_caught. pose proof (local_load_json p w) as F. by destruct (load_json p w). Qed.

#[local] Hint Resolve local_load_json local_load_json_caught : pipeline.

Lemma local_generate_schema_documentation i o : local (generate_schema_documentation i o).
Proof. unfold generate_schema_documentation, write_site. local_tac. Qed.

#[local] Hint Resolve local_generate_schema_documentation : pipeline.

Lemma local_run_extract_schema c sec o gm : local (run_extract_schema c sec o gm).
Proof. unfold run_extract_schema. local_tac. Qed.

Lemma local_analyze_lines qs : local (analyze_lines qs).
Proof. unfold analyze_lines. local_tac. Qed.

#[local] Hint Resolve local_analyze_lines local_run_extract_schema : pipeline.

(** ** Reading back what was written *)

Lemma makedirs_run d w : exists ds, makedirs d w = (Ok tt, mkWorld (fs w) ds (conns w) (s3_log w) (kb_log w)).
Proof. eexists. reflexivity. Qed.

Lemma write_file_ok p f w :
  (String.eqb (dirname p) "" || isdir w (dirname p)) = true -> write_file p f w = (Ok tt, set_fs w (dset p f (fs w))).
Proof. intros H. unfold write_file. by rewrite H. Qed.

Lemma load_json_caught_json p d w : dget p (fs w) = Some (FJson d) -> load_json_caught p w = (Ok (Ok d), w).
Proof. intros H. unfold load_json_caught, load_json, read_file, bind. by rewrite H. Qed.

Lemma load_json_caught_ok p w : exists r w', load_json_caught p w = (Ok r, w').
Proof. unfold load_json_caught. destruct (load_json p w). eauto. Qed.

(** The query documentation of a JSON list raises [AttributeError]. *)
Lemma generate_query_documentation_list o out sch res w :
  dget o (fs w) = Some (FJson (JAnalyses res)) ->
  exists w', generate_query_documentation o out sch w = (Err "AttributeError: 'list' object has no attribute 'values'", w') /\
             frame w w'.
Proof.
  intros H. unfold generate_query_documentation. rewrite (bind_ok _ _ _ _ _ (load_json_caught_json _ _ _ H)).
  match goal with |- context [bind ?m _ w] => destruct (local_run m w) as (r & w1 & E & F); [local_tac|] end.
  destruct r as [sd|e].
  - rewrite (bind_ok _ _ _ _ _ E). unfold bind, makedirs, raise. cbn. eexists. split; [reflexivity|exact F].
  - rewrite (bind_err _ _ _ _ _ E).
    exfalso. destruct (truthy sch); [|cbv [ret] in E; congruence].
    destruct (load_json_caught_ok sch w) as (x & w0 & E0). rewrite (bind_ok _ _ _ _ _ E0) in E. cbv [ret] in E. congruence.
Qed.

(** With [--generate-markdown], [run_analyze_queries] never returns
    [True]: the JSON list it writes makes the query documentation raise,
    and nothing is sent to S3 or Bedrock. *)
Lemma analyze_markdown_never_true i o sch w :
  let '(r, w') := run_analyze_queries i o sch true w in r <> Ok true /\ frame w w'.
Proof.
  unfold run_analyze_queries. rewrite (bind_ok mget _ w w w) by reflexivity.
  destruct (negb (path_exists w i)); [done|].
  match goal with |- context [bind ?m _ w] => destruct (local_run m w) as ([x|e] & w1 & E1 & F1); [local_tac| |] end;
    [rewrite (bind_ok _ _ _ _ _ E1)|by rewrite (bind_err _ _ _ _ _ E1)].
  destruct (local_run (read_file i) w1) as ([f|e] & w2 & E2 & F2); [apply local_read_file| |];
    [rewrite (bind_ok _ _ _ _ _ E2)|rewrite (bind_err _ _ _ _ _ E2); split; [done|by eapply frame_trans]].
  destruct (local_run (analyze_lines (query_lines f)) w2) as ([res|e] & w3 & E3 & F3); [apply local_analyze_lines| |];
    [rewrite (bind_ok _ _ _ _ _ E3)|rewrite (bind_err _ _ _ _ _ E3); split; [done|by do 2 (eapply frame_trans; [eassumption|])]].
  destruct (String.eqb (dirname o) "" || isdir w3 (dirname o)) eqn:D.
  - rewrite (bind_ok _ _ _ _ _ (write_file_ok _ _ _ D)).
    destruct (makedirs_run (path_join "docs" "queries") (set_fs w3 (dset o (FJson (JAnalyses res)) (fs w3)))) as [ds E4].
    rewrite (bind_ok _ _ _ _ _ E4).
    destruct (generate_query_documentation_list o (path_join "docs" "queries") sch res
               (mkWorld (fs (set_fs w3 (dset o (FJson (JAnalyses res)) (fs w3)))) ds
                        (conns (set_fs w3 (dset o (FJson (JAnalyses res)) (fs w3))))
                        (s3_log (set_fs w3 (dset o (FJson (JAnalyses res)) (fs w3))))
                        (kb_log (set_fs w3 (dset o (FJson (JAnalyses res)) (fs w3))))))
      as (w5 & E5 & F5); [cbn; by rewrite dget_dset, String.eqb_refl|].
    rewrite E5. split; [done|]. destruct F1, F2, F3, F5. cbn in *. split; congruence.
  - unfold bind at 1, write_file. rewrite D. split; [done|]. by do 2 (eapply frame_trans; [eassumption|]).
Qed.

(** C21: [main.py run-all] always exits with status 1, and it never reaches
    the upload or the knowledge-base setup: step 1 gets
    [config=args.section] as its configuration file, and when that file
    exists, step 2 writes its analysis as a JSON list, on which the query
    documentation raises, if the analysis itself did not raise at the
    unpacking of a query line. *)
Theorem run_all_never_succeeds sec queries bucket prefix region kb_name cb w :
  exists w', main (RunAll sec queries bucket prefix region kb_name cb) w = (Ok 1%nat, w') /\
             s3_log w' = s3_log w /\ kb_log w' = kb_log w.
Proof.
  unfold main, run_command, run_all.
  destruct (local_run (run_extract_schema sec sec "schema_data.json" true) w) as ([ok|e] & w1 & E1 & [F1 G1]);
    [apply local_run_extract_schema| |]; [rewrite (bind_ok _ _ _ _ _ E1)|rewrite (bind_err _ _ _ _ _ E1); by exists w1].
  destruct ok; [|by exists w1]. cbn [negb].
  pose proof (analyze_markdown_never_true queries "query_analysis.json" "schema_data.json" w1) as H.
  destruct (run_analyze_queries queries "query_analysis.json" "schema_data.json" true w1) as [[[|]|e] w2] eqn:E2;
    destruct H as [Hr [F2 G2]]; [done| |].
  - rewrite (bind_ok _ _ _ _ _ E2). exists w2. split; [done|]. split; congruence.
  - rewrite (bind_err _ _ _ _ _ E2). exists w2. split; [done|]. split; congruence.
Qed.

(** ** The query lines *)

Lemma unpack2_ok q : (exists p, unpack2 q = Ok p) <-> String.length q = 2%nat.
Proof. destruct q as [|a [|b [|c q]]]; cbn; split; try (intros [? ?]; discriminate); try lia; eauto. Qed.

(** The lines unpack exactly when every one has two characters. *)
Lemma unpack_all_ok l : (exists ps, unpack_all l = Ok ps) <-> Forall (fun q => String.length q = 2%nat) l.
Proof.
  induction l as [|q l IH]; cbn; [split; [constructor|eauto]|].
  rewrite Forall_cons, <-IH, <-unpack2_ok. split.
  - intros [ps E]. destruct (unpack2 q) as [p|]; [|done]. destruct (unpack_all l) as [ps'|]; [|done]. eauto.
  - intros [[p E1] [ps E2]]. rewrite E1, E2. eauto.
Qed.

Lemma load_json_same p w : snd (load_json p w) = w.
Proof. unfold load_json, read_file, bind. destruct (dget p (fs w)) as [[]|]; cbn; try done; by destruct (parse_json _). Qed.

(** C23: [main.py analyze-queries] passes the list of query lines to
    [analyze_query_batch], whose loop unpacks each line into a name and a
    text: when some non-blank line of the input does not have exactly two
    characters, the command exits with status 1 and writes no file. *)
Theorem analyze_queries_rejects_lines i o sch gm w f :
  path_exists w i = true -> dget i (fs w) = Some f ->
  Exists (fun q => String.length q <> 2%nat) (query_lines f) ->
  exists w', main (AnalyzeQueries i o sch gm) w = (Ok 1%nat, w') /\ fs w' = fs w.
Proof.
  intros Hi Hf Hq. unfold main, run_command, run_analyze_queries. rewrite (bind_ok mget _ w w w) by reflexivity.
  rewrite Hi. cbn [negb].
  assert (Hs : exists r, (if truthy sch && path_exists w sch then let* d := load_json sch in ret (Some d)
                          else ret None) w = (r, w)).
  { destruct (_ && _); [|by eexists]. unfold bind. pose proof (load_json_same sch w) as E.
    destruct (load_json sch w) as [[d|e] w']; cbn in E; subst; eauto. }
  destruct Hs as ([x|e] & Hs); [rewrite (bind_ok _ _ _ _ _ Hs)|rewrite (bind_err _ _ _ _ _ Hs); by exists w].
  assert (Hr : read_file i w = (Ok f, w)) by (unfold read_file; by rewrite Hf). rewrite (bind_ok _ _ _ _ _ Hr).
  destruct (unpack_all (query_lines f)) as [ps|e] eqn:U.
  - exfalso. assert (Hall : Forall (fun q => String.length q = 2%nat) (query_lines f)) by (apply unpack_all_ok; eauto).
    apply List.Exists_exists in Hq as (q & Hin & Hlen). apply Hlen. exact (proj1 (List.Forall_forall _ _) Hall q Hin).
  - assert (Ha : analyze_lines (query_lines f) w = (Err e, w)) by (unfold analyze_lines; by rewrite U).
    rewrite (bind_err _ _ _ _ _ Ha). by exists w.
Qed.

(** [run_extract_schema] compares [db_type.lower()] with ['mysql']
    to choose the schema, but [extract_schema_to_json] and
    [connect_by_params] compare [db_type] as written: a section whose
    [db_type] is [MySQL] (any case but [mysql]) makes [main.py
    extract-schema] exit with status 1 before any connection is made and
    without writing a file. *)
Theorem mysql_db_type_case_rejected config sec o gm w f ini :
  path_exists w config = true -> dget config (fs w) = Some f -> parse_ini (file_lines f) = Ok ini ->
  ini_has ini sec = true -> lower (config_db_type ini sec) = "mysql" -> config_db_type ini sec <> "mysql" ->
  exists w', main (ExtractSchema config sec o gm) w = (Ok 1%nat, w') /\ fs w' = fs w /\ conns w' = conns w.
Proof.
  intros Hc Hf Hp Hs Hl Hn. unfold main, run_command, run_extract_schema. rewrite (bind_ok mget _ w w w) by reflexivity.
  rewrite Hc. cbn [negb andb]. assert (Hr : read_config config w = (Ok ini, w)) by (unfold read_config; by rewrite Hf, Hp).
  rewrite (bind_ok _ _ _ _ _ Hr), Hs. cbn [negb].
  assert (Hpg : config_db_type ini sec <> "postgresql") by (intros E; rewrite E in Hl; discriminate).
  assert (He : lift_extract (Schema.extract_schema_to_json (db (config_params ini sec)) (config_db_type ini sec)) w =
               (Err ("Unsupported database type: " +:+ config_db_type ini sec),
                mkWorld (fs w) (directories w) (conns w) (s3_log w) (kb_log w))).
  { unfold lift_extract, Schema.extract_schema_to_json, Schema.connect_by_params, bind.
    apply String.eqb_neq in Hpg, Hn. by rewrite Hpg, Hn. }
  rewrite (bind_err _ _ _ _ _ He). eexists. split; [reflexivity|done].
Qed.

(** ** Writing a site *)

Definition write_all (site : Site) (d : list (string * File)) : list (string * File) :=
  fold_left (fun acc '(p, page) => dset p (FMarkdown page) acc) site d.

(** Every page is written when its directory exists. *)
Lemma mmap_write_ok site w :
  (forall p page, In (p, page) site -> (String.eqb (dirname p) "" || isdir w (dirname p)) = true) ->
  exists ys, mmap (fun '(p, page) => write_file p (FMarkdown page)) site w = (Ok ys, set_fs w (write_all site (fs w))).
Proof.
  revert w. induction site as [|[p page] site IH]; intros w Hd; [exists []; by destruct w|].
  cbn [mmap]. rewrite (bind_ok _ _ _ _ _ (write_file_ok p (FMarkdown page) w (Hd p page (or_introl eq_refl)))).
  destruct (IH (set_fs w (dset p (FMarkdown page) (fs w)))) as [ys E]; [intros p' pg H; exact (Hd p' pg (or_intror H))|].
  rewrite (bind_ok _ _ _ _ _ E). by eexists.
Qed.

Lemma write_site_ok site w :
  (forall p page, In (p, page) site -> (String.eqb (dirname p) "" || isdir w (dirname p)) = true) ->
  write_site site w = (Ok tt, set_fs w (write_all site (fs w))).
Proof. intros Hd. unfold write_site. destruct (mmap_write_ok site w Hd) as [ys E]. by rewrite (bind_ok _ _ _ _ _ E). Qed.

Lemma dget_write_all site d p :
  NoDup (dkeys site) ->
  dget p (write_all site d) = match dget p site with Some pg => Some (FMarkdown pg) | None => dget p d end.
Proof.
  unfold write_all. revert d. induction site as [|[p0 pg0] site IH]; intros d Hnd; [done|].
  inversion Hnd as [|? ? Hn Hnd0]; subst. rewrite list_elem_of_In in Hn.
  cbn [fold_left]. rewrite IH by exact Hnd0. cbn [dget].
  destruct (String.eqb_spec p p0) as [->|Hne].
  - rewrite (proj2 (dget_None _ _) Hn), dget_dset, String.eqb_refl. done.
  - destruct (dget p site); [done|]. rewrite dget_dset. by apply String.eqb_neq in Hne as ->.
Qed.

Lemma add_dir_in d ds : In d (add_dir d ds).
Proof.
  unfold add_dir. destruct (existsb _ _) eqn:E; [|apply in_or_app; by right; left].
  apply existsb_exists in E as (x & Hx & Ex%String.eqb_eq). by subst.
Qed.

Lemma add_dir_mono x d ds : In x ds -> In x (add_dir d ds).
Proof. unfold add_dir. destruct (existsb _ _); [done|]. intros H. apply in_or_app. by left. Qed.

Lemma fold_add_dir_in x l ds : In x l \/ In x ds -> In x (fold_left (fun acc d => add_dir d acc) l ds).
Proof.
  revert ds. induction l as [|d l IH]; intros ds H; cbn [fold_left]; [by destruct H as [[]|]|].
  apply IH. destruct H as [[->|H]|H]; [right; apply add_dir_in|by left|right; by apply add_dir_mono].
Qed.

Lemma isdir_In w d : In d (directories w) -> isdir w d = true.
Proof. intros H. unfold isdir. apply existsb_exists. exists d. by rewrite String.eqb_refl. Qed.

(** ** Extraction followed by documentation *)

Definition schema_doc_dirs : list string := ["docs/schema"; "docs/schema/tables"; "docs/schema/relationships"].

(** The pages of the schema documentation lie in three directories. *)
Lemma schema_page_dirname s k :
  SchemaDocs.table_names_ok s = true -> In k (dkeys (SchemaDocs.schema_site "docs/schema" today s)) ->
  In (dirname k) schema_doc_dirs.
Proof.
  intros Hn Hk. apply SchemaDocs.schema_site_keys in Hk as [-> | [-> | [(t & Ht & ->) | ->]]];
    [by left|by right; left| |by right; right; left].
  rewrite (SchemaDocs.table_path_under "docs/schema") by (try discriminate; reflexivity).
  rewrite under_two, dirname_sub;
    first [by right; left | discriminate | reflexivity | rewrite char_in_app; by rewrite (SchemaDocs.table_names_ok_In s t)].
Qed.

Lemma schema_page_not_top s k : SchemaDocs.table_names_ok s = true ->
  In k (dkeys (SchemaDocs.schema_site "docs/schema" today s)) -> dirname k <> "".
Proof. intros Hn Hk E. pose proof (schema_page_dirname s k Hn Hk) as H. rewrite E in H. by repeat destruct H as [H|H]. Qed.

Lemma schema_data_not_page s :
  ~ In "docs/schema/schema_data.json" (dkeys (SchemaDocs.schema_site "docs/schema" today s)).
Proof.
  intros Hk. apply SchemaDocs.schema_site_keys in Hk as [E | [E | [(t & Ht & E) | E]]]; discriminate E.
Qed.

Lemma makedirs_eq d w :
  makedirs d w = (Ok tt, mkWorld (fs w) (fold_left (fun acc d => add_dir d acc) (dir_chain d) (directories w)) (conns w)
                                 (s3_log w) (kb_log w)).
Proof. reflexivity. Qed.

(** What the extractor saves lands in [docs/schema/schema_data.json]. *)
Lemma lift_extract_saved {A} (m : Schema.X A) w r st s :
  m (Schema.mkExtractState [] None (conns w)) = (r, st) -> Schema.saved st = Some s ->
  lift_extract m w =
  (r, mkWorld (dset "docs/schema/schema_data.json" (FJson (JSchema s)) (fs w))
              (fold_left (fun acc d => add_dir d acc) (dir_chain "docs/schema") (directories w))
              (Schema.open_connections st) (s3_log w) (kb_log w)).
Proof.
  intros Hm Hs. unfold lift_extract. rewrite Hm, Hs. unfold bind. rewrite makedirs_eq, write_file_ok; [reflexivity|].
  change (dirname "docs/schema/schema_data.json") with "docs/schema". apply orb_true_intro. right.
  apply isdir_In, fold_add_dir_in. left. vm_compute. right. left. reflexivity.
Qed.

(** [x] is one of the directories made along the way. *)
Ltac in_dirs :=
  repeat match goal with
         | |- In ?x (fold_left _ ?l _) =>
             apply fold_add_dir_in; first [left; solve [vm_compute; repeat (first [left; reflexivity | right])] | right]
         end.

(** [main.py extract-schema --generate-markdown] on a PostgreSQL
    section whose server answers every catalogue query exits with status
    0, leaves no connection open, writes the extracted dict to the
    output file and to [docs/schema/schema_data.json], and writes every
    page of the schema documentation of that dict below [docs/schema];
    nothing is sent to S3 or Bedrock. *)
Theorem extract_schema_writes_docs config sec o w f ini ts cs ps fks xs :
  let srv := db (config_params ini sec) in
  path_exists w config = true -> dget config (fs w) = Some f -> parse_ini (file_lines f) = Ok ini ->
  ini_has ini sec = true -> config_db_type ini sec = "postgresql" ->
  Schema.connect_ok srv Schema.PostgreSQL = true -> Schema.session_ok srv Schema.PostgreSQL = true ->
  Schema.tables_rows (Schema.pg_answers srv) = Ok ts -> Schema.columns_rows (Schema.pg_answers srv) = Ok cs ->
  Schema.primary_key_rows (Schema.pg_answers srv) = Ok ps -> Schema.foreign_key_rows (Schema.pg_answers srv) = Ok fks ->
  Schema.index_rows (Schema.pg_answers srv) = Ok xs ->
  dirname o = "" -> Forall (fun r => char_in slash (Schema.tr_name r) = false) ts ->
  let s := Schema.schema_of ts cs ps fks xs in
  exists w', main (ExtractSchema config sec o true) w = (Ok 0%nat, w') /\
    dget o (fs w') = Some (FJson (JSchema s)) /\
    dget "docs/schema/schema_data.json" (fs w') = Some (FJson (JSchema s)) /\
    (forall p page, dget p (SchemaDocs.schema_site "docs/schema" today s) = Some page -> dget p (fs w') = Some (FMarkdown page)) /\
    conns w' = conns w /\ frame w w'.
Proof.
  intros srv Hc Hf Hp Hs Ht Hco Hse E1 E2 E3 E4 E5 Ho Hn s.
  assert (Hnames : SchemaDocs.table_names_ok s = true) by (apply SchemaDocs.schema_of_names_ok, Hn).
  unfold main, run_command, run_extract_schema. rewrite (bind_ok mget _ w w w) by reflexivity.
  rewrite Hc. cbn [negb andb]. assert (Hr : read_config config w = (Ok ini, w)) by (unfold read_config; by rewrite Hf, Hp).
  rewrite (bind_ok _ _ _ _ _ Hr), Hs. cbn [negb]. rewrite Ht.
  rewrite (bind_ok _ _ _ _ _ (lift_extract_saved _ w _ _ s (Schema.pg_extract_run srv _ ts cs ps fks xs Hco Hse E1 E2 E3 E4 E5)
                                                 eq_refl)).
  rewrite (bind_ok _ _ _ _ _ (write_file_ok o _ _ ltac:(by rewrite Ho))).
  change (path_join "docs" "schema") with "docs/schema". rewrite (bind_ok _ _ _ _ _ (makedirs_eq _ _)).
  unfold generate_schema_documentation.
  erewrite (bind_ok (load_json_caught o)); [|apply load_json_caught_json; cbn [fs set_fs]; by rewrite dget_dset, String.eqb_refl].
  cbv beta iota. rewrite !(bind_ok _ _ _ _ _ (makedirs_eq _ _)). cbn [SchemaDocs.generate_markdown_from_json].
  unfold try_catch. erewrite (bind_ok (write_site _)).
  2: { apply write_site_ok. intros p page Hin. apply orb_true_intro. right. apply isdir_In.
       apply (in_map fst) in Hin. pose proof (schema_page_dirname s p Hnames Hin) as Hd. cbn [fs set_fs directories].
       by repeat (destruct Hd as [<-|Hd]; [in_dirs|]). }
  eexists. split; [reflexivity|]. cbn [fs set_fs conns].
  pose proof (SchemaDocs.schema_site_NoDup "docs/schema" today s) as Hnd.
  split; [|split; [|split; [|split; [done|done]]]].
  - rewrite dget_write_all by done. destruct (dget o _) eqn:E.
    + exfalso. apply (schema_page_not_top s o Hnames); [|exact Ho]. apply dget_In in E. by apply (in_map fst) in E.
    + by rewrite dget_dset, String.eqb_refl.
  - rewrite dget_write_all by done. destruct (dget _ (SchemaDocs.schema_site _ _ _)) eqn:E.
    + exfalso. apply (schema_data_not_page s). apply dget_In in E. by apply (in_map fst) in E.
    + rewrite !dget_dset, String.eqb_refl. by destruct (String.eqb _ o).
  - intros p page Hpg. rewrite dget_write_all by done. unfold s in Hpg. by rewrite Hpg.
Qed.

End Pipeline.

(** ** Sample runs *)

Definition sample_world : World :=
  mkWorld [("database.ini", FText ["[postgresql]"; "host = db"]); ("queries.sql", FText ["SELECT * FROM orders"])]
          [] 0 [] [].

Definition sample_main (ini : IniData) : Command -> X nat :=
  main (fun _ => Ok ini) (fun _ => Err "Expecting value") (fun _ => []) (fun _ => SchemaDocs.sample_server)
       QueryAnalysis.sample_parsers (Upload.sample_s3 "") (KbSetup.sample_bedrock 0 "COMPLETE") "2025-01-01"
       (fun _ _ => ret true).

Lemma analyze_queries_rejects_lines_witness :
  exists w', sample_main [] (AnalyzeQueries "queries.sql" "query_analysis.json" "schema_data.json" true) sample_world =
             (Ok 1%nat, w') /\ fs w' = fs sample_world.
Proof.
  eapply (analyze_queries_rejects_lines _ _ _ _ _ _ _ _ _ _ _ _ _ _ (FText ["SELECT * FROM orders"])); [reflexivity|reflexivity|].
  apply Exists_cons_hd. vm_compute. discriminate.
Defined.

Lemma mysql_db_type_case_rejected_witness :
  exists w', sample_main [("mysql", [("db_type", "MySQL"); ("database", "shop")])]
                         (ExtractSchema "database.ini" "mysql" "schema_data.json" true) sample_world = (Ok 1%nat, w') /\
             fs w' = fs sample_world /\ conns w' = conns sample_world.
Proof.
  eapply mysql_db_type_case_rejected; [reflexivity|reflexivity|reflexivity|reflexivity|reflexivity|discriminate].
Defined.

Lemma extract_schema_writes_docs_witness :
  let s := Schema.schema_of [Schema.mkTableRow "customers" None; Schema.mkTableRow "orders" (Some "Orders")]
             [Schema.mkColumnRow "customers" "id" "integer" None (Some 32%Z) (Some 0%Z) "NO" None None;
              Schema.mkColumnRow "orders" "id" "integer" None (Some 32%Z) (Some 0%Z) "NO" None None;
              Schema.mkColumnRow "orders" "customer_id" "integer" None (Some 32%Z) (Some 0%Z) "YES" None None]
             [Schema.mkKeyRow "customers" "id"; Schema.mkKeyRow "orders" "id"]
             [Schema.mkFkRow "orders" "customer_id" "customers" "id" "orders_customer_id_fkey"]
             [Schema.mkIndexRow "orders" "orders_pkey" ["id"] true true] in
  exists w', sample_main [("postgresql", [("host", "db")])] (ExtractSchema "database.ini" "postgresql" "schema_data.json" true)
                         sample_world = (Ok 0%nat, w') /\
    dget "schema_data.json" (fs w') = Some (FJson (JSchema s)) /\
    dget "docs/schema/schema_data.json" (fs w') = Some (FJson (JSchema s)) /\
    (forall p page, dget p (SchemaDocs.schema_site "docs/schema" "2025-01-01" s) = Some page ->
                    dget p (fs w') = Some (FMarkdown page)) /\
    conns w' = conns sample_world /\ frame sample_world w'.
Proof.
  eapply (extract_schema_writes_docs _ _ _ _ _ _ _ _ _ _ _ _ _ (FText ["[postgresql]"; "host = db"]));
    try reflexivity. repeat constructor.
Defined.

End Pipeline.
