(* ===== verification/Ui.v ===== *)
(** * The UI endpoints and the server start of src/app.py

    [serve_js] and [serve_ui] read a file under src/ui/ at each request;
    [serve_ui] puts the value of the environment variable [API_ENDPOINT]
    in place of the placeholder [{{API_ENDPOINT}}] and falls back to a
    fixed page when index.html is missing.  The [__main__] block reads
    [HOST], [PORT] and [LOG_LEVEL] and starts uvicorn, or exits with
    status 1 when the import of uvicorn failed (lines 38-41).  The files
    and the environment are the record [UiEnv]; [int()] is
    [PyInt.py_int]. *)

From S2P Require Import Prelude PyStr PyInt.
From Stdlib Require Import Ascii ZArith.

Open Scope string_scope.

Module Ui.
Import PyStr PyInt.

(** What the endpoints read: the text of a file ([None] for
    [FileNotFoundError]), [os.getenv], and whether [import uvicorn]
    succeeded. *)
Record UiEnv := mkUiEnv {
  ui_file : string -> option string;
  env : string -> option string;
  uvicorn_imported : bool
}.

Inductive Response :=
| HTMLResponse (content : string) (media_type : string)
| HTTPException (status_code : Z) (detail : string).

(** [serve_js] (lines 662-671) *)
Definition serve_js (u : UiEnv) : Response :=
  match ui_file u "src/ui/db-knowledge-assistant.js" with
  | Some js => HTMLResponse js "application/javascript"
  | None => HTTPException 404 "JavaScript file not found"
  end.

Definition dq : string := String (ascii_of_nat 34) EmptyString.

(** The page of the [except FileNotFoundError] branch (lines 686-694). *)
Definition fallback_page : string :=
  nl +:+ "        <html>" +:+ nl +:+
  "            <head><title>DBKB API</title></head>" +:+ nl +:+
  "            <body>" +:+ nl +:+
  "                <h1>Database Knowledge Base API</h1>" +:+ nl +:+
  "                <p>API is running. Access the documentation at <a href=" +:+ dq +:+ "/docs" +:+ dq +:+
  ">/docs</a></p>" +:+ nl +:+
  "            </body>" +:+ nl +:+
  "        </html>" +:+ nl +:+
  "        ".

Definition placeholder : string := "{{API_ENDPOINT}}".

(** [serve_ui] (lines 673-694); [HTMLResponse]'s media type is
    [text/html]. *)
Definition serve_ui (u : UiEnv) : Response :=
  match ui_file u "src/ui/index.html" with
  | Some html => HTMLResponse (replace placeholder (default "" (env u "API_ENDPOINT")) html) "text/html"
  | None => HTMLResponse fallback_page "text/html"
  end.

(** How the [__main__] block ends. *)
Inductive Start :=
| UvicornRun (app host : string) (port : Z) (log_level : string)
| Exit (status : Z)
| Raised (error : string).

(** The [__main__] block (lines 847-864): [int(os.getenv("PORT", 8000))]
    is [int(8000)] when [PORT] is unset. *)
Definition app_main (u : UiEnv) : Start :=
  let host := default "0.0.0.0" (env u "HOST") in
  match (match env u "PORT" with None => Some 8000%Z | Some p => py_int p end) with
  | None => Raised "ValueError: invalid literal for int() with base 10"
  | Some port =>
      let log_level := default "info" (env u "LOG_LEVEL") in
      if uvicorn_imported u then UvicornRun "app:app" host port log_level else Exit 1
  end.

(** ** Theorems *)

(** A non-empty endpoint that shares no character with the placeholder
    leaves no placeholder in the served page. *)
Theorem serve_ui_fills_placeholder u html ep :
  ui_file u "src/ui/index.html" = Some html -> env u "API_ENDPOINT" = Some ep ->
  ep <> "" -> chars_disjoint placeholder ep = true ->
  exists page, serve_ui u = HTMLResponse page "text/html" /\ contains placeholder page = false.
Proof.
  intros Hf He Hne Hd. unfold serve_ui. rewrite Hf, He. eexists. split; [reflexivity|].
  by apply replace_removes.
Qed.

(** With [API_ENDPOINT] unset the placeholder is removed in one pass,
    which can leave a placeholder formed by what surrounds it. *)
Example serve_ui_unset_endpoint :
  serve_ui (mkUiEnv (fun _ => Some "{{API_{{API_ENDPOINT}}ENDPOINT}}") (fun _ => None) true) =
  HTMLResponse "{{API_ENDPOINT}}" "text/html".
Proof. vm_compute. reflexivity. Qed.




(** [int()] on other spellings of [PORT]. *)
Example app_main_ports :
  map (fun p => app_main (mkUiEnv (fun _ => None) (fun k => if String.eqb k "PORT" then Some p else None) true))
      [" 8080" +:+ nl; "8_080"; "+80"; "8__0"; "_80"; "8080.0"; ""] =
  [UvicornRun "app:app" "0.0.0.0" 8080 "info"; UvicornRun "app:app" "0.0.0.0" 8080 "info";
   UvicornRun "app:app" "0.0.0.0" 80 "info";
   Raised "ValueError: invalid literal for int() with base 10"; Raised "ValueError: invalid literal for int() with base 10";
   Raised "ValueError: invalid literal for int() with base 10"; Raised "ValueError: invalid literal for int() with base 10"].
Proof. vm_compute. reflexivity. Qed.

End Ui.
