(* ===== verification/DataSource.v ===== *)
(** * The data-source maintenance scripts (src/create_new_data_source.py
      and src/update_kb_data_source.py)

    Both scripts act on the knowledge base [KRD3MW7QFS] through the
    [bedrock-agent] client: one creates a data source with hierarchical
    chunking, the other rewrites the chunking of the data source
    [PFF80JIRZB]; both then start an ingestion job, poll it every 30
    seconds until [time.time()] says that [max_wait_minutes] have passed,
    and ask four (three) test questions through [retrieve_and_generate].
    Every function catches [Exception] and returns [None] or [False].

    The client is an oracle [Agent]: the answer of each call, a missing
    key of a response being [None] and an exception [Err]; the [i]-th
    poll may take [poll_latency i] seconds.  The state is the clock read
    by [time.time()] and the list of calls made, [time.sleep] included.
    What the scripts print is not modelled, except where a [print]
    reads a key that may be missing (its [KeyError] is caught like any
    other exception).

    The polling loop is a [while] on the clock: [monitor_loop] recurses
    on a fuel that [monitor_fuel] makes large enough, which
    [monitor_total] proves. *)

From S2P Require Import Prelude PyStr.
From stdpp Require Import list.
From Stdlib Require Import ZArith Lia.

Open Scope string_scope.
Open Scope Z_scope.

Module DataSource.
Import PyStr.

(** ** The client *)

(** The calls to [bedrock-agent], [bedrock-agent-runtime] and
    [time.sleep]. *)
Inductive AgentCall :=
| CreateDataSource (kb name bucket : string) (prefixes : list string) (strategy : string) (levels : list nat)
    (overlap : nat)
| GetDataSource (kb ds : string)
| UpdateDataSource (kb ds name description configuration strategy : string) (levels : list nat) (overlap : nat)
| StartIngestionJob (kb ds description : string)
| GetIngestionJob (kb ds job : string)
| DeleteDataSource (kb ds : string)
| RetrieveAndGenerate (kb query : string)
| Sleep (seconds : Z).

(** The fields of [get_data_source(...)['dataSource']] the update reads:
    [name], [description], [dataSourceConfiguration] and the chunking
    strategy ([None] when the key is missing). *)
Record DsInfo := mkDsInfo {
  ds_name : option string;
  ds_description : option string;
  ds_configuration : option string;
  ds_strategy : option string
}.

(** The answers: the id and [status] of a created data source or started
    job, the status of the [i]-th poll, the [status] after an update,
    the text of an answer. *)
Record Agent := mkAgent {
  create_answer : result (option string * option string);
  get_ds_answer : result DsInfo;
  update_answer : result (option string);
  start_answer : result (option string * option string);
  job_answer : nat -> result (option string);
  poll_latency : nat -> nat;
  delete_answer : result unit;
  rag_answer : string -> result (option string)
}.

Record ScriptState := mkScriptState { now : Z; calls : list AgentCall }.

Abbreviation SX := (M ScriptState).

Definition call {A} (c : AgentCall) (answer : result A) : SX A :=
  fun st => (answer, mkScriptState (now st) (calls st ++ [c])%list).

(** [response[k]]: a [KeyError] when the key is missing. *)
Definition key {A} (k : string) (v : option A) : SX A :=
  match v with Some a => ret a | None => raise ("KeyError: '" +:+ k +:+ "'") end.

(** [time.time()] *)
Definition time : SX Z := fun st => (Ok (now st), st).

(** [time.sleep(s)] *)
Definition sleep (s : Z) : SX unit :=
  fun st => (Ok tt, mkScriptState (now st + s) (calls st ++ [Sleep s])%list).

Definition KB_ID : string := "KRD3MW7QFS".
Definition OLD_DATA_SOURCE_ID : string := "PFF80JIRZB".

(** The chunking both scripts ask for: 512/300 tokens, 50 of overlap. *)
Definition LEVELS : list nat := [512; 300]%nat.
Definition OVERLAP : nat := 50.

Section Scripts.
Variable ag : Agent.

(** [get_ingestion_job]: the [i]-th poll, [poll_latency i] seconds. *)
Definition get_ingestion_job (kb ds job : string) (i : nat) : SX (option string) :=
  fun st => (job_answer ag i,
             mkScriptState (now st + Z.of_nat (poll_latency ag i)) (calls st ++ [GetIngestionJob kb ds job])%list).

(** The [while] loop of [monitor_ingestion_job] (create_new_data_source.py
    lines 93-124): [None] when the fuel runs out.  [STARTING],
    [IN_PROGRESS] and an unexpected status differ only in what they
    print. *)
Fixpoint monitor_loop (fuel : nat) (kb ds job : string) (start max_wait_seconds : Z) (i : nat) : SX (option bool) :=
  match fuel with
  | O => ret None
  | S fuel' =>
      let* t := time in
      if negb (t - start <? max_wait_seconds) then ret (Some false)
      else
        let* status := get_ingestion_job kb ds job i in
        let* status := key "status" status in
        if String.eqb status "COMPLETE" then ret (Some true)
        else if String.eqb status "FAILED" then ret (Some false)
        else sleep 30 ;;; monitor_loop fuel' kb ds job start max_wait_seconds (S i)
  end.

(** One iteration per 30 seconds of the limit, and one more for the
    last test of the clock. *)
Definition monitor_fuel (max_wait_minutes : Z) : nat := S (Z.to_nat (max_wait_minutes * 60 / 30)).

(** [monitor_ingestion_job] (lines 83-131 of create_new_data_source.py,
    89-136 of update_kb_data_source.py). *)
Definition monitor_ingestion_job (kb ds job : string) (max_wait_minutes : Z) : SX (option bool) :=
  try_catch
    (let* start := time in
     monitor_loop (monitor_fuel max_wait_minutes) kb ds job start (max_wait_minutes * 60) 0)
    (fun _ => ret (Some false)).

(** [start_ingestion_job] (create_new_data_source.py lines 60-81,
    update_kb_data_source.py 66-87): the job id, after the [status]
    that the [print] reads. *)
Definition start_ingestion_job (kb ds description : string) : SX (option string) :=
  try_catch
    (let* '(job_id, status) := call (StartIngestionJob kb ds description) (start_answer ag) in
     let* job_id := key "ingestionJobId" job_id in
     let* _ := key "status" status in
     ret (Some job_id))
    (fun _ => ret None).

(** The loop over the test questions: an exception of one question is
    caught and the next one asked. *)
Definition ask_all (kb : string) (queries : list string) : SX bool :=
  mmap (fun q => try_catch (let* r := call (RetrieveAndGenerate kb q) (rag_answer ag q) in
                            let* _ := key "text" r in ret tt)
                           (fun _ => ret tt)) queries ;;;
  ret true.

End Scripts.

(** ** create_new_data_source.py *)

Module Create.
Section Create.
Variable ag : Agent.

(** [create_hierarchical_data_source] (lines 14-58) *)
Definition create_hierarchical_data_source (kb : string) : SX (option string) :=
  try_catch
    (let* '(ds_id, status) := call (CreateDataSource kb "pic-database-kb-hierarchical" "arn:aws:s3:::pic-dbkb" ["dbkb/"]
                                                     "HIERARCHICAL" LEVELS OVERLAP) (create_answer ag) in
     let* ds_id := key "dataSourceId" ds_id in
     let* _ := key "status" status in
     ret (Some ds_id))
    (fun _ => ret None).

(** [delete_old_data_source] (lines 133-150) *)
Definition delete_old_data_source (kb ds : string) : SX bool :=
  try_catch (call (DeleteDataSource kb ds) (delete_answer ag) ;;; ret true) (fun _ => ret false).

Definition test_queries : list string :=
  ["Show me the customers table structure"; "How do I join customers with orders?";
   "Get all active customers from the database"; "Create a query to find customers with recent orders"].

(** [test_knowledge_base_with_hierarchical_chunking] (lines 152-207) *)
Definition test_knowledge_base (kb : string) : SX bool := ask_all ag kb test_queries.

(** [main] (lines 209-242): each step stops the script when it fails
    ([if not ...: return]). *)
Definition main : SX unit :=
  let* ds := create_hierarchical_data_source KB_ID in
  match ds with
  | Some ds_id =>
      if negb (truthy ds_id) then ret tt else
      let* job := start_ingestion_job ag KB_ID ds_id
                    "Initial ingestion with hierarchical chunking (512/300/50 tokens) and semantic markers" in
      match job with
      | Some job_id =>
          if negb (truthy job_id) then ret tt else
          let* ok := monitor_ingestion_job ag KB_ID ds_id job_id 15 in
          if negb (default false ok) then ret tt else
          test_knowledge_base KB_ID ;;; ret tt
      | None => ret tt
      end
  | None => ret tt
  end.

End Create.
End Create.

(** ** update_kb_data_source.py *)

Module Update.
Section Update.
Variable ag : Agent.

(** [update_data_source_chunking] (lines 14-64): the [print] of the
    current strategy, then the new configuration built from the old
    one's [name], [description] and [dataSourceConfiguration]. *)
Definition update_data_source_chunking (kb ds : string) : SX bool :=
  try_catch
    (let* info := call (GetDataSource kb ds) (get_ds_answer ag) in
     let* _ := key "chunkingStrategy" (ds_strategy info) in
     let* name := key "name" (ds_name info) in
     let description := default "Updated with hierarchical chunking (512/300/50 tokens)" (ds_description info) in
     let* configuration := key "dataSourceConfiguration" (ds_configuration info) in
     let* status := call (UpdateDataSource kb ds name description configuration "HIERARCHICAL" LEVELS OVERLAP)
                         (update_answer ag) in
     let* _ := key "status" status in
     ret true)
    (fun _ => ret false).

Definition test_queries : list string :=
  ["Show me the customers table structure"; "How do I join customers with orders?";
   "Get all active customers from the database"].

(** [test_updated_kb] (lines 138-187) *)
Definition test_updated_kb (kb : string) : SX bool := ask_all ag kb test_queries.

(** [main] (lines 189-217) *)
Definition main : SX unit :=
  let* ok := update_data_source_chunking KB_ID OLD_DATA_SOURCE_ID in
  if negb ok then ret tt else
  let* job := start_ingestion_job ag KB_ID OLD_DATA_SOURCE_ID
                "Refresh with hierarchical chunking (512/300/50 tokens) and semantic markers" in
  match job with
  | Some job_id =>
      if negb (truthy job_id) then ret tt else
      let* ok := monitor_ingestion_job ag KB_ID OLD_DATA_SOURCE_ID job_id 10 in
      if negb (default false ok) then ret tt else
      test_updated_kb KB_ID ;;; ret tt
  | None => ret tt
  end.

End Update.
End Update.

(** ** The polling loop ends, within its time limit *)

Definition is_poll (c : AgentCall) : bool := match c with GetIngestionJob _ _ _ => true | _ => false end.

(** The number of [get_ingestion_job] calls of a log. *)
Definition polls (l : list AgentCall) : nat := length (List.filter is_poll l).

Section Loop.
Variables (ag : Agent) (kb ds job : string) (start mw : Z).

(** One iteration of the [while] loop. *)
Lemma monitor_loop_step f i st :
  monitor_loop ag (S f) kb ds job start mw i st =
  if negb (now st - start <? mw) then (Ok (Some false), st) else
  let st1 := mkScriptState (now st + Z.of_nat (poll_latency ag i)) (calls st ++ [GetIngestionJob kb ds job])%list in
  match job_answer ag i with
  | Ok (Some status) =>
      if String.eqb status "COMPLETE" then (Ok (Some true), st1)
      else if String.eqb status "FAILED" then (Ok (Some false), st1)
      else monitor_loop ag f kb ds job start mw (S i) (mkScriptState (now st1 + 30) (calls st1 ++ [Sleep 30])%list)
  | Ok None => (Err "KeyError: 'status'", st1)
  | Err e => (Err e, st1)
  end.
Proof.
  cbn [monitor_loop]. unfold bind, time, get_ingestion_job, key, sleep, ret, raise. cbn -[monitor_loop].
  destruct (now st - start <? mw); [|done]. cbn -[monitor_loop].
  destruct (job_answer ag i) as [[status|]|e]; [|done|done].
  by destruct (String.eqb status "COMPLETE"); [|destruct (String.eqb status "FAILED")].
Qed.

(** With one iteration of fuel per 30 seconds left, the loop ends by
    the clock or by a final status, never by running out of fuel. *)
Lemma monitor_loop_fuel f i st :
  mw - (now st - start) <= 30 * Z.of_nat f -> fst (monitor_loop ag (S f) kb ds job start mw i st) <> Ok None.
Proof.
  revert i st. induction f as [|f IH]; intros i st Hf; rewrite monitor_loop_step;
    destruct (Z.ltb_spec (now st - start) mw) as [Hlt|Hge]; cbn [negb]; try (cbn; discriminate); [lia|].
  destruct (job_answer ag i) as [[status|]|e]; cbn zeta; try (cbn; discriminate).
  destruct (String.eqb status "COMPLETE"); [cbn; discriminate|]. destruct (String.eqb status "FAILED"); [cbn; discriminate|].
  apply IH. cbn. lia.
Qed.

(** Each poll but the last is followed by 30 seconds of sleep, so the
    polls made fit in the time left. *)
Lemma monitor_loop_polls f i st :
  exists new, calls (snd (monitor_loop ag f kb ds job start mw i st)) = (calls st ++ new)%list /\
              (polls new = 0%nat \/ 30 * (Z.of_nat (polls new) - 1) < mw - (now st - start)).
Proof.
  revert i st. induction f as [|f IH]; intros i st; [exists []; rewrite app_nil_r; auto|].
  rewrite monitor_loop_step. destruct (Z.ltb_spec (now st - start) mw) as [Hlt|Hge]; cbn [negb];
    [|exists []; rewrite app_nil_r; auto].
  destruct (job_answer ag i) as [[status|]|e]; cbn zeta;
    [destruct (String.eqb status "COMPLETE"); [|destruct (String.eqb status "FAILED")]|..];
    try (exists [GetIngestionJob kb ds job]; split; [reflexivity|right; unfold polls; cbn [List.filter is_poll length Z.of_nat]; lia]).
  edestruct IH as (new & Hc & Hp). rewrite Hc. exists (GetIngestionJob kb ds job :: Sleep 30 :: new).
  split; [cbn [calls]; by rewrite <-!app_assoc|]. cbn [now] in Hp. unfold polls in *. cbn [List.filter is_poll length]. right. lia.
Qed.

End Loop.

(** [max_wait_minutes * 60 / 30] iterations cover the whole limit. *)
Lemma monitor_fuel_enough mins : mins * 60 <= 30 * Z.of_nat (pred (monitor_fuel mins)).
Proof.
  unfold monitor_fuel. cbn [pred]. replace (mins * 60) with (mins * 2 * 30) at 2 by lia.
  rewrite Z.div_mul by lia. lia.
Qed.

(** C24: [monitor_ingestion_job] always returns [True] or [False]: the
    [while] loop on [time.time()] ends within its limit whatever the job
    answers and however long each poll takes. *)
Theorem monitor_total ag kb ds job mins st :
  exists b, fst (monitor_ingestion_job ag kb ds job mins st) = Ok (Some b).
Proof.
  unfold monitor_ingestion_job, try_catch, bind, time.
  pose proof (monitor_loop_fuel ag kb ds job (now st) (mins * 60) (pred (monitor_fuel mins)) 0 st) as Hf.
  unfold monitor_fuel in *. cbn [pred] in Hf.
  destruct (monitor_loop ag _ kb ds job (now st) (mins * 60) 0 st) as [[[b|]|e] st'];
    [by exists b| |by exists false].
  exfalso. apply Hf; [|done]. pose proof (monitor_fuel_enough mins) as H. unfold monitor_fuel in H. cbn [pred] in H. lia.
Qed.

(** C37: [monitor_ingestion_job(..., max_wait_minutes)] asks for the job's
    status at most [2 * max_wait_minutes] times: 30 times for the 15
    minutes of create_new_data_source.py, 20 for the 10 of
    update_kb_data_source.py. *)
Theorem monitor_polls_bound ag kb ds job mins st :
  0 <= mins ->
  exists new, calls (snd (monitor_ingestion_job ag kb ds job mins st)) = (calls st ++ new)%list /\
              Z.of_nat (polls new) <= 2 * mins.
Proof.
  intros Hm. unfold monitor_ingestion_job, try_catch, bind, time.
  destruct (monitor_loop_polls ag kb ds job (now st) (mins * 60) (monitor_fuel mins) 0 st) as (new & Hc & Hp).
  destruct (monitor_loop ag _ kb ds job (now st) (mins * 60) 0 st) as [[o|e] st'];
    cbn in Hc |- *; exists new; (split; [done|]); lia.
Qed.

(** ** No data source is deleted *)

(** No [delete_data_source] call in the log. *)
Definition no_delete (st : ScriptState) : Prop := forall kb ds, ~ In (DeleteDataSource kb ds) (calls st).

Lemma no_delete_snoc st c : no_delete st -> (forall kb ds, c <> DeleteDataSource kb ds) ->
  forall kb ds, ~ In (DeleteDataSource kb ds) (calls st ++ [c])%list.
Proof. intros Hs Hc kb ds [H|[Heq|[]]]%in_app_or; [by apply (Hs kb ds)|by apply (Hc kb ds)]. Qed.

Lemma preserves_call {A} c (answer : result A) :
  (forall kb ds, c <> DeleteDataSource kb ds) -> preserves no_delete (call c answer).
Proof. intros Hc st Hs kb ds. exact (no_delete_snoc st c Hs Hc kb ds). Qed.

Lemma preserves_key {A} k (v : option A) : preserves no_delete (key k v).
Proof. destruct v; [apply preserves_ret|apply preserves_raise]. Qed.

Lemma preserves_time : preserves no_delete time.
Proof. by intros st. Qed.

Lemma preserves_sleep n : preserves no_delete (sleep n).
Proof. intros st Hs kb' ds'. apply (no_delete_snoc st); [done|discriminate]. Qed.

Lemma preserves_poll ag kb ds job i : preserves no_delete (get_ingestion_job ag kb ds job i).
Proof. intros st Hs kb' ds'. apply (no_delete_snoc st); [done|discriminate]. Qed.

#[local] Hint Resolve preserves_key preserves_time preserves_sleep preserves_poll : dbkb.

(** Split a computation into its steps, down to the calls. *)
Ltac preserves_steps :=
  repeat first
    [ apply preserves_try_catch; [|intros ?]
    | apply preserves_bind; [|intros ?]
    | apply preserves_ret
    | apply preserves_call; intros ? ?; discriminate
    | solve [eauto with dbkb]
    | match goal with |- preserves _ (match ?x with _ => _ end) => destruct x end
    | match goal with |- preserves _ (if ?b then _ else _) => destruct b end ].

Lemma preserves_monitor_loop ag f kb ds job start mw i :
  preserves no_delete (monitor_loop ag f kb ds job start mw i).
Proof. revert i. induction f as [|f IH]; intros i; cbn [monitor_loop]; preserves_steps. Qed.

Lemma preserves_ask_all ag kb qs : preserves no_delete (ask_all ag kb qs).
Proof. unfold ask_all. apply preserves_bind; [apply preserves_mmap; intros q _|intros _]; preserves_steps. Qed.

#[local] Hint Resolve preserves_monitor_loop preserves_ask_all : dbkb.

(** C39: create_new_data_source.py announces that it replaces the data
    source [PFF80JIRZB], but whatever Bedrock answers, its [main] never
    deletes a data source: [delete_old_data_source] is never called, so
    the old data source stays next to the new one. *)
Theorem create_main_never_deletes ag st :
  no_delete st -> no_delete (snd (Create.main ag st)).
Proof.
  revert st. change (preserves no_delete (Create.main ag)).
  unfold Create.main, Create.create_hierarchical_data_source, start_ingestion_job, monitor_ingestion_job,
    Create.test_knowledge_base.
  preserves_steps.
Qed.

(** ** Samples *)

(** A service that answers every call; the job is complete at the third
    poll, and each poll takes a second. *)
Definition smooth_agent : Agent :=
  mkAgent (Ok (Some "DS1", Some "CREATING")) (Ok (mkDsInfo (Some "pic") None (Some "s3") (Some "SEMANTIC")))
          (Ok (Some "UPDATING")) (Ok (Some "JOB1", Some "STARTING"))
          (fun i => Ok (Some (if (i <? 2)%nat then "IN_PROGRESS" else "COMPLETE"))) (fun _ => 1%nat)
          (Ok tt) (fun _ => Ok (Some "SELECT 1")).

(** A job that never leaves [IN_PROGRESS], polled instantly. *)
Definition stuck_agent : Agent :=
  mkAgent (Ok (Some "DS1", Some "CREATING")) (Err "ValidationException") (Ok None) (Ok (Some "JOB1", Some "STARTING"))
          (fun _ => Ok (Some "IN_PROGRESS")) (fun _ => 0%nat) (Ok tt) (fun _ => Err "ThrottlingException").

Definition st0 : ScriptState := mkScriptState 0 [].

Example create_main_run :
  calls (snd (Create.main smooth_agent st0)) = (
  [CreateDataSource KB_ID "pic-database-kb-hierarchical" "arn:aws:s3:::pic-dbkb" ["dbkb/"] "HIERARCHICAL" LEVELS OVERLAP;
   StartIngestionJob KB_ID "DS1" "Initial ingestion with hierarchical chunking (512/300/50 tokens) and semantic markers";
   GetIngestionJob KB_ID "DS1" "JOB1"; Sleep 30; GetIngestionJob KB_ID "DS1" "JOB1"; Sleep 30;
   GetIngestionJob KB_ID "DS1" "JOB1"] ++ map (RetrieveAndGenerate KB_ID) Create.test_queries)%list.
Proof. vm_compute. reflexivity. Qed.

(** The stuck job is polled exactly 30 times in 15 minutes, and the
    script stops before the test questions. *)
Example stuck_job_polls :
  polls (calls (snd (Create.main stuck_agent st0))) = 30%nat /\
  ~ In (RetrieveAndGenerate KB_ID (hd "" Create.test_queries)) (calls (snd (Create.main stuck_agent st0))).
Proof. vm_compute. split; [reflexivity|]. intuition discriminate. Qed.

(** A data source whose [get_data_source] raises is not updated and no
    job is started. *)
Example update_main_fails_early :
  calls (snd (Update.main stuck_agent st0)) = [GetDataSource KB_ID OLD_DATA_SOURCE_ID].
Proof. vm_compute. reflexivity. Qed.

Lemma monitor_polls_bound_witness :
  0 <= 15 /\
  exists new, calls (snd (monitor_ingestion_job stuck_agent KB_ID "DS1" "JOB1" 15 st0)) = (calls st0 ++ new)%list /\
              Z.of_nat (polls new) <= 2 * 15.
Proof. split; [lia|]. apply (monitor_polls_bound stuck_agent KB_ID "DS1" "JOB1" 15 st0). lia. Defined.

Lemma create_main_never_deletes_witness :
  no_delete st0 /\ no_delete (snd (Create.main smooth_agent st0)).
Proof.
  assert (H0 : no_delete st0) by (intros kb ds; cbn; tauto).
  split; [exact H0|]. exact (create_main_never_deletes smooth_agent st0 H0).
Defined.

End DataSource.
