(* ===== verification/AppKbs.v ===== *)
(** * The application registry update (src/update_application_kbs.py)

    The script points the active application [epic] of the chat database
    at the knowledge bases [KRD3MW7QFS] (database) and [ECC3L7C2PG]
    (support), printing the active applications before and after.  It
    works on the chat database of [Chat] (the [application] table and
    whether [get_chat_db_connection()] connects), so its effect reaches
    [get_application_kbs] and the router of [Router].

    The statements are taken to succeed once connected, as in [Chat];
    [cursor.rowcount] is the number of rows the [WHERE] clause matches
    ([UpdatedAt = NOW()] changes each of them).  [ORDER BY Name] is the
    byte order of the names, and a query without [ORDER BY] returns the
    rows in table order.  The columns [UpdatedAt] and [IsActive]'s SQL
    type are not modelled. *)

From S2P Require Import Prelude PyStr PyDict Router Chat.
From stdpp Require Import list.

Open Scope string_scope.

Module AppKbs.
Import PyStr PyDict Router Chat.

Definition EPIC_DB_KB : string := "KRD3MW7QFS".
Definition EPIC_SUPPORT_KB : string := "ECC3L7C2PG".

(** [WHERE Name = 'epic' AND IsActive = TRUE] *)
Definition is_active_epic (a : ApplicationRow) : bool := String.eqb (app_Name a) "epic" && app_IsActive a.

(** [SET DatabaseKnowledgeBaseId = %s, SupportKnowledgeBaseId = %s] on
    a row the [WHERE] clause matches. *)
Definition set_kbs (a : ApplicationRow) : ApplicationRow :=
  if is_active_epic a
  then mkAppRow (app_Id a) (app_Name a) (app_IsActive a) EPIC_DB_KB (Some EPIC_SUPPORT_KB) (app_DocumentationKnowledgeBaseId a)
  else a.

Definition set_application (l : list ApplicationRow) (s : ChatDB) : ChatDB :=
  {| application := l; company := company s; user := user s; chat_sessions := chat_sessions s;
     chat_messages := chat_messages s; next_company_id := next_company_id s; next_user_id := next_user_id s;
     next_message_id := next_message_id s; chat_now := chat_now s; connection_ok := connection_ok s;
     uuid_stream := uuid_stream s |}.

(** [print(f"  {app['Name']}: DB={...}, Support={...}")] *)
Definition config_line (a : ApplicationRow) : string :=
  "  " +:+ app_Name a +:+ ": DB=" +:+ app_DatabaseKnowledgeBaseId a +:+ ", Support=" +:+
  py_opt (app_SupportKnowledgeBaseId a).

(** [ORDER BY Name] *)
Definition by_name (l : list ApplicationRow) : list ApplicationRow :=
  sort_by (fun a b => String.ltb (app_Name a) (app_Name b)) l.

(** [show_current_application_config] (lines 60-81): the lines printed. *)
Definition show_current_application_config : CDB (list string) :=
  fun s =>
    (Ok ("📋 Current Application Configuration:" ::
         if connection_ok s then map config_line (by_name (List.filter app_IsActive (application s)))
         else ["❌ Could not connect to database"]), s).

(** [update_epic_application_kbs] (lines 13-58): the result and the
    lines printed.  The check reads the first row named [epic], active
    or not. *)
Definition update_epic_application_kbs : CDB (bool * list string) :=
  fun s =>
    let head := "🔧 Updating Epic application with correct KB IDs..." in
    if negb (connection_ok s) then (Ok (false, [head; "❌ Could not connect to database"]), s) else
    let rows_affected := length (List.filter is_active_epic (application s)) in
    let s' := set_application (map set_kbs (application s)) s in
    if (0 <? rows_affected)%nat then
      let verified := match List.find (fun a => String.eqb (app_Name a) "epic") (application s') with
                      | Some r => ["✅ Verified: Epic -> DB: " +:+ app_DatabaseKnowledgeBaseId r +:+ ", Support: " +:+
                                   py_opt (app_SupportKnowledgeBaseId r)]
                      | None => []
                      end in
      (Ok (true, head :: ("✅ Updated " +:+ str_nat rows_affected +:+ " Epic application record(s)") :: verified), s')
    else (Ok (false, [head; "❌ No Epic application records found to update"]), s').

Definition rule : string := String.concat "" (repeat "=" 50).

(** [main] (lines 83-98) *)
Definition main : CDB (list string) :=
  let* before := show_current_application_config in
  let* '(success, upd) := update_epic_application_kbs in
  let lines := (["🚀 Application KB Configuration Update"; rule] ++ before ++ [nl +:+ rule] ++ upd)%list in
  if success then
    let* after := show_current_application_config in
    ret (lines ++ [nl +:+ "📋 Updated Application Configuration:"] ++ after)%list
  else ret (lines ++ [nl +:+ "❌ Update failed"])%list.

(** ** Theorems *)

(** [set_kbs] keeps what [find_application] looks at. *)
Lemma find_application_set_kbs name l :
  List.find (fun a => String.eqb (app_Name a) name && app_IsActive a) (map set_kbs l) =
  option_map set_kbs (List.find (fun a => String.eqb (app_Name a) name && app_IsActive a) l).
Proof.
  induction l as [|a l IH]; [done|]. cbn.
  assert (Ha : app_Name (set_kbs a) = app_Name a /\ app_IsActive (set_kbs a) = app_IsActive a)
    by (unfold set_kbs; by destruct (is_active_epic a)).
  destruct Ha as [-> ->]. by destruct (String.eqb (app_Name a) name && app_IsActive a).
Qed.

Lemma set_kbs_epic r : is_active_epic r = true ->
  set_kbs r = mkAppRow (app_Id r) (app_Name r) (app_IsActive r) EPIC_DB_KB (Some EPIC_SUPPORT_KB)
                       (app_DocumentationKnowledgeBaseId r).
Proof. intros H. unfold set_kbs. by rewrite H. Qed.

Lemma set_kbs_other r : is_active_epic r = false -> set_kbs r = r.
Proof. intros H. unfold set_kbs. by rewrite H. Qed.

Lemma find_application_spec name s r :
  find_application name s = Some r -> String.eqb (app_Name r) name && app_IsActive r = true.
Proof. unfold find_application. intros H. by apply (List.find_some _ _ H). Qed.

(** C31: After update_application_kbs.py succeeds on a chat database with
    an active [epic] application, the registry answers the new
    knowledge bases for [epic], the router sends epic's database
    questions to [KRD3MW7QFS], and every other application keeps its
    knowledge bases. *)
Theorem update_then_route s r q :
  connection_ok s = true -> find_application "epic" s = Some r ->
  let '(res, s') := update_epic_application_kbs s in
  (exists out, res = Ok (true, out)) /\
  get_application_kbs "epic" s' = Some (mkApplicationKBs EPIC_DB_KB (Some EPIC_SUPPORT_KB) (app_DocumentationKnowledgeBaseId r)) /\
  classify_query_and_get_targets q (mkApplicationKBs EPIC_DB_KB (Some EPIC_SUPPORT_KB) (app_DocumentationKnowledgeBaseId r))
                                 "database" = [target "database" EPIC_DB_KB] /\
  (forall name, name <> "epic" -> get_application_kbs name s' = get_application_kbs name s).
Proof.
  intros Hc Hr. pose proof (find_application_spec _ _ _ Hr) as Hm.
  assert (He : is_active_epic r = true) by exact Hm.
  assert (Hn : (0 < length (List.filter is_active_epic (application s)))%nat).
  { unfold find_application in Hr. apply List.find_some in Hr as [Hin _].
    destruct (List.filter is_active_epic (application s)) eqn:E; [|cbn; lia].
    assert (Hin' : In r (List.filter is_active_epic (application s))) by (apply filter_In; done).
    by rewrite E in Hin'. }
  unfold update_epic_application_kbs. rewrite Hc. cbn [negb]. apply Nat.ltb_lt in Hn. rewrite Hn.
  split; [by eexists|]. split; [|split; [done|]].
  - unfold get_application_kbs, find_application. cbn [application connection_ok set_application].
    rewrite Hc, find_application_set_kbs. fold (find_application "epic" s). rewrite Hr. cbn. by rewrite set_kbs_epic.
  - intros name Hne. unfold get_application_kbs, find_application. cbn [application connection_ok set_application].
    rewrite Hc, find_application_set_kbs. fold (find_application name s).
    destruct (find_application name s) as [a|] eqn:Ha; [|done]. cbn. rewrite set_kbs_other; [done|].
    apply find_application_spec in Ha. unfold is_active_epic.
    apply andb_prop in Ha as [Hname _]. apply String.eqb_eq in Hname. subst name.
    destruct (String.eqb_spec (app_Name a) "epic"); [done|]. done.
Qed.

(** ** Samples *)

Definition sample_registry : ChatDB :=
  {| application := [mkAppRow 2 "zeta" true "KBZ" None None; mkAppRow 1 "epic" true "OLD" None (Some "DOC");
                     mkAppRow 3 "epic" false "ARCH" (Some "S") None];
     company := []; user := []; chat_sessions := []; chat_messages := []; next_company_id := 1;
     next_user_id := 1; next_message_id := 1; chat_now := 0; connection_ok := true; uuid_stream := [] |}.

Lemma update_then_route_witness :
  connection_ok sample_registry = true /\ find_application "epic" sample_registry = Some (mkAppRow 1 "epic" true "OLD" None (Some "DOC")) /\
  let '(res, s') := update_epic_application_kbs sample_registry in
  (exists out, res = Ok (true, out)) /\
  get_application_kbs "epic" s' = Some (mkApplicationKBs EPIC_DB_KB (Some EPIC_SUPPORT_KB) (Some "DOC")) /\
  classify_query_and_get_targets "Show me the customers table" (mkApplicationKBs EPIC_DB_KB (Some EPIC_SUPPORT_KB) (Some "DOC"))
                                 "database" = [target "database" EPIC_DB_KB] /\
  (forall name, name <> "epic" -> get_application_kbs name s' = get_application_kbs name sample_registry).
Proof.
  split; [reflexivity|]. split; [vm_compute; reflexivity|].
  exact (update_then_route sample_registry (mkAppRow 1 "epic" true "OLD" None (Some "DOC")) "Show me the customers table"
           eq_refl eq_refl).
Defined.

(** What the script prints on the sample registry: the active
    applications sorted by name, then the update and its check. *)
Example main_output :
  fst (main sample_registry) =
  Ok (["🚀 Application KB Configuration Update"; rule; "📋 Current Application Configuration:";
       "  epic: DB=OLD, Support=None"; "  zeta: DB=KBZ, Support=None"; nl +:+ rule;
       "🔧 Updating Epic application with correct KB IDs...";
       "✅ Updated 1 Epic application record(s)"; "✅ Verified: Epic -> DB: KRD3MW7QFS, Support: ECC3L7C2PG";
       nl +:+ "📋 Updated Application Configuration:"; "📋 Current Application Configuration:";
       "  epic: DB=KRD3MW7QFS, Support=ECC3L7C2PG"; "  zeta: DB=KBZ, Support=None"]).
Proof. vm_compute. reflexivity. Qed.

(** The check after the update reads the first row named [epic], not
    the first active one: with an archived row first it reports the
    archived row's knowledge bases. *)
Example verify_reads_inactive_row :
  fst (update_epic_application_kbs
         (set_application [mkAppRow 3 "epic" false "ARCH" (Some "S") None; mkAppRow 1 "epic" true "OLD" None None]
                          sample_registry)) =
  Ok (true, ["🔧 Updating Epic application with correct KB IDs..."; "✅ Updated 1 Epic application record(s)";
             "✅ Verified: Epic -> DB: ARCH, Support: S"]).
Proof. vm_compute. reflexivity. Qed.

End AppKbs.
