(* ===== verification/KbDeployment.v ===== *)
(** * The per-customer Pulumi program (src/infrastructure/per_kb_deployment.py)

    [deploy_customer_kb] calls [create_kb_specific_infrastructure], which
    declares an IAM role and policy, a target group, a listener rule of
    the shared load balancer, a security group with a database rule and
    a log group, then [create_kb_ecs_service], which declares an ECS task
    definition and service, and exports four outputs.  Every resource is
    named from [safe_customer_name] (the customer name in lower case,
    spaces and underscores turned into hyphens).

    The program runs inside a Pulumi program: [declare] registers a
    resource, [export] an output, and the state [Program] lists both in
    order.  A resource is its Pulumi type, its logical name (the first
    argument, unique per type within a stack) and the arguments the
    theorems read ([Resource]).  The lookups [aws.lb.get_load_balancer]
    and [aws.ec2.get_subnets] return plain values, as the provider's
    invokes do: the ARN of the load balancer is a [str], and so is each
    of the subnet ids.  What the resources do in AWS is not modelled. *)

From S2P Require Import Prelude PyStr PyDict.
From stdpp Require Import list.
From Stdlib Require Import Ascii.

Open Scope string_scope.

Module KbDeployment.
Import PyStr PyDict.

Record Resource := mkResource {
  r_type : string;
  r_name : string;
  r_attrs : list (string * string)
}.

(** The value of a [pulumi.export]: a string, or an attribute of a
    declared resource known once it is created. *)
Inductive ExportValue :=
| Str (s : string)
| ArnOf (r : Resource).

Record Program := mkProgram { declared : list Resource; exported : list (string * ExportValue) }.

Abbreviation P := (M Program).

(** Constructing a resource object registers it. *)
Definition declare (r : Resource) : P unit :=
  fun s => (Ok tt, mkProgram (declared s ++ [r])%list (exported s)).

(** [pulumi.export(k, v)] *)
Definition export (k : string) (v : ExportValue) : P unit :=
  fun s => (Ok tt, mkProgram (declared s) (exported s ++ [(k, v)])%list).

(** [customer_name.lower().replace(' ', '-').replace('_', '-')] *)
Definition safe_customer_name (customer_name : string) : string :=
  replace "_" "-" (replace " " "-" (lower customer_name)).

(** [f"dbkb-{safe_customer_name}"] *)
Definition resource_prefix (customer_name : string) : string := "dbkb-" +:+ safe_customer_name customer_name.

(** [f"{resource_prefix}-tg"[:32]] *)
Definition target_group_name (customer_name : string) : string := slice_to 32 (resource_prefix customer_name +:+ "-tg").

(** [f"/aws/ecs/{resource_prefix}"] *)
Definition log_group_name (customer_name : string) : string := "/aws/ecs/" +:+ resource_prefix customer_name.

(** [existing_alb.arn.apply(...)]: the ARN of [get_load_balancer] is a
    [str], which has no [apply]. *)
Definition alb_arn_apply : P string := raise "AttributeError: 'str' object has no attribute 'apply'".

(** [[subnet.id for subnet in aws.ec2.get_subnets(...).ids]]: each id is
    a [str], which has no [id]. *)
Definition subnet_ids (ids : list string) : P (list string) :=
  match ids with
  | [] => ret []
  | _ :: _ => raise "AttributeError: 'str' object has no attribute 'id'"
  end.

(** The dict [create_kb_specific_infrastructure] returns. *)
Record Infra := mkInfra {
  role : Resource; policy : Resource; target_group : Resource;
  security_group : Resource; log_group : Resource; listener_rule : Resource
}.

(** [create_kb_specific_infrastructure] (lines 11-233) *)
Definition create_kb_specific_infrastructure (kb_id customer_name : string) : P Infra :=
  let p := resource_prefix customer_name in
  let kb_role := mkResource "aws:iam/Role" (p +:+ "-role") [] in
  declare kb_role ;;;
  let kb_policy := mkResource "aws:iam/Policy" (p +:+ "-policy") [("knowledge_base_id", kb_id)] in
  declare kb_policy ;;;
  declare (mkResource "aws:iam/RolePolicyAttachment" (p +:+ "-policy-attachment") []) ;;;
  let tg := mkResource "aws:lb/TargetGroup" (p +:+ "-tg") [("name", target_group_name customer_name); ("port", "8000")] in
  declare tg ;;;
  let* listener_arn := alb_arn_apply in
  let rule := mkResource "aws:lb/ListenerRule" (p +:+ "-listener-rule")
                [("listener_arn", listener_arn); ("priority", "100");
                 ("host_header", safe_customer_name customer_name +:+ ".your-domain.com")] in
  declare rule ;;;
  let sg := mkResource "aws:ec2/SecurityGroup" (p +:+ "-ecs-sg") [("name", p +:+ "-ecs-sg")] in
  declare sg ;;;
  declare (mkResource "aws:ec2/SecurityGroupRule" (p +:+ "-db-access") [("type", "egress"); ("to_port", "3306")]) ;;;
  let lg := mkResource "aws:cloudwatch/LogGroup" (p +:+ "-logs") [("name", log_group_name customer_name)] in
  declare lg ;;;
  ret (mkInfra kb_role kb_policy tg sg lg rule).

(** [create_kb_ecs_service] (lines 235-346), given the ids that
    [aws.ec2.get_subnets] returns.  The container definition is built
    from [Output.all(repository_url, kb_id, region, log_group.name)];
    its region entries read [args[3]]. *)
Definition create_kb_ecs_service (kb_id customer_name : string) (infrastructure : Infra) (ids : list string)
  : P (Resource * Resource) :=
  let p := resource_prefix customer_name in
  let args3 := default "" (dget "name" (r_attrs (log_group infrastructure))) in
  let task := mkResource "aws:ecs/TaskDefinition" (p +:+ "-task")
                [("family", p +:+ "-task"); ("container.name", p +:+ "-container");
                 ("env.KNOWLEDGE_BASE_ID", kb_id); ("env.CUSTOMER_NAME", customer_name); ("env.LOG_LEVEL", "INFO");
                 ("env.AWS_DEFAULT_REGION", args3); ("logs.awslogs-group", args3); ("logs.awslogs-region", args3);
                 ("logs.awslogs-stream-prefix", "ecs")] in
  declare task ;;;
  let* subnets := subnet_ids ids in
  let service := mkResource "aws:ecs/Service" (p +:+ "-service")
                   [("name", p +:+ "-service"); ("subnets", join "," subnets);
                    ("container_name", p +:+ "-container"); ("container_port", "8000")] in
  declare service ;;;
  ret (task, service).

(** [deploy_customer_kb] (lines 348-371): [customer_config["name"]] and
    [["knowledge_base_id"]] ([None] for a [KeyError]), with the subnet
    ids of the default VPC. *)
Definition deploy_customer_kb (ids : list string) (name kb_id : option string) : P (Infra * (Resource * Resource)) :=
  match name, kb_id with
  | None, _ => raise "KeyError: 'name'"
  | Some _, None => raise "KeyError: 'knowledge_base_id'"
  | Some customer_name, Some kb =>
      let* infrastructure := create_kb_specific_infrastructure kb customer_name in
      let* service := create_kb_ecs_service kb customer_name infrastructure ids in
      let safe_name := safe_customer_name customer_name in
      export (safe_name +:+ "_kb_id") (Str kb) ;;;
      export (safe_name +:+ "_role_arn") (ArnOf (role infrastructure)) ;;;
      export (safe_name +:+ "_target_group_arn") (ArnOf (target_group infrastructure)) ;;;
      export (safe_name +:+ "_api_url") (Str ("https://" +:+ safe_name +:+ ".your-domain.com")) ;;;
      ret (infrastructure, service)
  end.

(** ** Theorems *)

(** The resources declared before the listener rule. *)
Definition declared_before_listener (kb customer_name : string) : list Resource :=
  let p := resource_prefix customer_name in
  [mkResource "aws:iam/Role" (p +:+ "-role") [];
   mkResource "aws:iam/Policy" (p +:+ "-policy") [("knowledge_base_id", kb)];
   mkResource "aws:iam/RolePolicyAttachment" (p +:+ "-policy-attachment") [];
   mkResource "aws:lb/TargetGroup" (p +:+ "-tg") [("name", target_group_name customer_name); ("port", "8000")]].

(** C28: [deploy_customer_kb] never completes: for every customer it
    declares the role, the policy, the policy attachment and the target
    group, then raises [AttributeError] at the listener rule, whose
    [listener_arn] calls [apply] on the load balancer's ARN; nothing is
    exported. *)
Theorem deploy_customer_kb_fails ids name kb s :
  deploy_customer_kb ids (Some name) (Some kb) s =
  (Err "AttributeError: 'str' object has no attribute 'apply'",
   mkProgram (declared s ++ declared_before_listener kb name)%list (exported s)).
Proof. destruct s as [d e]. cbn. by rewrite <-!app_assoc. Qed.

Definition empty_program : Program := mkProgram [] [].

(** What [safe_customer_name] does to one character: spaces and
    underscores become hyphens, upper-case letters lower case, and every
    other character is kept. *)
Definition sanitize_char (c : ascii) : ascii :=
  if ascii_dec c " " then "-" else if ascii_dec c "_" then "-" else char_lower c.

Lemma safe_customer_name_smap n : safe_customer_name n = smap sanitize_char n.
Proof.
  unfold safe_customer_name. rewrite lower_smap, !replace_char, !smap_smap. apply smap_ext.
  intros c. destruct c as [[] [] [] [] [] [] [] []]; reflexivity.
Qed.

(** C19: Deployed into a stack, a customer's program declares exactly one
    target group: its logical name is [dbkb-] followed by the customer
    name with spaces and underscores turned into hyphens and letters in
    lower case, then [-tg]; its AWS name is that name cut to 32
    characters.  So [Acme Corp] and [acme_corp] get the same target
    group, and so do two names whose sanitized forms agree on their
    first 27 characters. *)
Theorem declared_target_group ids n kb :
  List.filter (fun r => String.eqb (r_type r) "aws:lb/TargetGroup")
              (declared (snd (deploy_customer_kb ids (Some n) (Some kb) empty_program))) =
  [mkResource "aws:lb/TargetGroup" ("dbkb-" +:+ smap sanitize_char n +:+ "-tg")
              [("name", "dbkb-" +:+ slice_to 27 (smap sanitize_char n +:+ "-tg")); ("port", "8000")]].
Proof.
  unfold deploy_customer_kb, create_kb_specific_infrastructure, target_group_name, resource_prefix.
  rewrite safe_customer_name_smap. cbn. by rewrite <-?sappend_assoc.
Qed.

(** Called with the infrastructure of a customer, [create_kb_ecs_service]
    declares a task whose container gets the log group's name as its
    [AWS_DEFAULT_REGION] and [awslogs-region]: the code reads [args[3]]
    where the region is [args[2]].  With at least one subnet it then
    raises [AttributeError] before the service is declared. *)
Lemma create_kb_ecs_service_task kb n rl pl tg sg rule id ids s :
  let infra := mkInfra rl pl tg sg (mkResource "aws:cloudwatch/LogGroup" (resource_prefix n +:+ "-logs")
                                                [("name", log_group_name n)]) rule in
  exists task, create_kb_ecs_service kb n infra (id :: ids) s =
    (Err "AttributeError: 'str' object has no attribute 'id'", mkProgram (declared s ++ [task])%list (exported s)) /\
    r_type task = "aws:ecs/TaskDefinition" /\
    In ("env.AWS_DEFAULT_REGION", "/aws/ecs/dbkb-" +:+ safe_customer_name n) (r_attrs task) /\
    In ("logs.awslogs-region", "/aws/ecs/dbkb-" +:+ safe_customer_name n) (r_attrs task).
Proof.
  eexists. split; [reflexivity|]. split; [done|]. cbn [r_attrs dget]. cbn. split; [do 5 right|do 7 right]; by left.
Qed.

(** Target group names are cut to 32 characters, so two long customer
    names whose sanitized forms differ only after their 27th character
    get the same target group. *)
Example target_group_names_collide :
  safe_customer_name "Northwind Traders International" <> safe_customer_name "Northwind Traders Internationale" /\
  target_group_name "Northwind Traders International" = target_group_name "Northwind Traders Internationale" /\
  target_group_name "Northwind Traders International" = "dbkb-northwind-traders-internati".
Proof. vm_compute. split; [discriminate|split; reflexivity]. Qed.

(** [Acme Corp] and [acme_corp] declare the same resources. *)
Example acme_corp_same_resources :
  declared (snd (deploy_customer_kb [] (Some "Acme Corp") (Some "KB1") empty_program)) =
  declared (snd (deploy_customer_kb [] (Some "acme_corp") (Some "KB1") empty_program)).
Proof. vm_compute. reflexivity. Qed.

(** A configuration without [knowledge_base_id] raises before anything
    is declared. *)
Example deploy_customer_kb_no_kb :
  deploy_customer_kb [] (Some "Acme Corp") None empty_program = (Err "KeyError: 'knowledge_base_id'", empty_program).
Proof. reflexivity. Qed.

End KbDeployment.
