(* ===== verification/DeployCustomer.v ===== *)
(** * The deployment command line (src/infrastructure/deploy_customer.py)

    [main] parses [customer_code], [--list] and [--urls] and either lists
    the customers of customer_configs.yaml, prints an example URL per
    customer, or deploys one customer with [deploy_customer_kb] of
    per_kb_deployment.py.  The parsed YAML is the oracle [Loaded]: a
    customer entry is the list of its keys and (string) values, and the
    [domain.base_domain] entry is an option.  The state is the list of
    lines printed; [sys.exit(1)] raises [SystemExit: 1], which
    [except Exception] lets through.  The script is a plain Python
    process: [deploy_customer_kb] needs the Pulumi engine from its first
    statement on, so the deployment raises the SDK's exception
    [no_engine] before declaring anything ([KbDeployment] models the
    same function run inside a Pulumi program).  argparse's
    own errors and [--help] are not modelled; the help text is the one
    argparse prints for these arguments. *)

From S2P Require Import Prelude PyStr PyDict.
From stdpp Require Import list.
From Stdlib Require Import Ascii ZArith.

Open Scope string_scope.

Module DeployCustomer.
Import PyStr PyDict.

Definition Customer := list (string * string).

(** [configs['customers']] and [configs['domain']] ([None] when the
    key is missing). *)
Record Configs := mkConfigs {
  customers : option (list Customer);
  domain : option (list (string * string))
}.

(** What [yaml.safe_load] of customer_configs.yaml gives. *)
Inductive Loaded :=
| FileMissing
| YamlError (e : string)
| Parsed (c : Configs).

(** The lines printed so far. *)
Abbreviation D := (M (list string)).

Definition print (line : string) : D unit := fun out => (Ok tt, (out ++ [line])%list).

(** [sys.exit(1)] *)
Definition sys_exit {A} : D A := raise "SystemExit: 1".

(** [d[k]] *)
Definition getitem (k : string) (c : Customer) : D string :=
  match dget k c with Some v => ret v | None => raise ("KeyError: '" +:+ k +:+ "'") end.

(** [str(e)]: the message after the class name. *)
Fixpoint exc_str (e : string) : string :=
  match e with
  | String ":"%char (String " "%char rest) => rest
  | String _ rest => exc_str rest
  | EmptyString => EmptyString
  end.

(** [except Exception as e]: [SystemExit] is not an [Exception]. *)
Definition except_exception {A} (c : D A) (h : string -> D A) : D A :=
  try_catch c (fun e => if String.prefix "SystemExit:" e then raise e else h e).

(** [', '.join(l)] of values that may be [None]. *)
Fixpoint join_opts (i : nat) (l : list (option string)) : result (list string) :=
  match l with
  | [] => Ok []
  | None :: _ => Err ("TypeError: sequence item " +:+ str_nat i +:+ ": expected str instance, NoneType found")
  | Some x :: l' => match join_opts (S i) l' with Ok xs => Ok (x :: xs) | Err e => Err e end
  end.

Definition py_join (sep : string) (l : list (option string)) : D string :=
  fun st => match join_opts 0 l with Ok xs => (Ok (join sep xs), st) | Err e => (Err e, st) end.

(** [configs['customers']] *)
Definition get_customers (c : Configs) : D (list Customer) :=
  match customers c with Some l => ret l | None => raise "KeyError: 'customers'" end.

(** [configs['domain']['base_domain']] *)
Definition get_base_domain (c : Configs) : D string :=
  match domain c with Some d => getitem "base_domain" d | None => raise "KeyError: 'domain'" end.

Definition dashes (n : nat) : string := String.concat "" (repeat "-" n).

(** [load_customer_configs] (lines 12-22) *)
Definition load_customer_configs (L : Loaded) : D Configs :=
  match L with
  | Parsed c => ret c
  | FileMissing => print "Error: customer_configs.yaml not found" ;;; sys_exit
  | YamlError e => print ("Error parsing customer_configs.yaml: " +:+ e) ;;; sys_exit
  end.

(** [find_customer_config] (lines 24-29) *)
Definition find_customer_config (cs : list Customer) (customer_code : string) : option Customer :=
  List.find (fun c => match dget "company_code" c with Some x => String.eqb x customer_code | None => false end) cs.

(** [if customer_config.get(k): print(f"... {customer_config[k]}")] *)
Definition print_optional (label k : string) (c : Customer) : D unit :=
  if truthy_opt (dget k c) then let* v := getitem k c in print (label +:+ v) else ret tt.

Section Script.
(** The exception the Pulumi SDK raises when a program runs without the
    engine (a [RunError]; some SDK versions fail first in [Config()] for
    the missing project name). *)
Variable no_engine : string.

(** [deploy_customer_kb({...})] called from this plain process (lines
    53-61): its first statement, [config = Config()]
    (per_kb_deployment.py line 350), and every lookup and resource after
    it need the engine, so it raises before declaring anything. *)
Definition deploy : D unit := raise no_engine.

(** [deploy_customer] (lines 31-70) *)
Definition deploy_customer (L : Loaded) (customer_code : string) : D unit :=
  let* configs := load_customer_configs L in
  let* cs := get_customers configs in
  match find_customer_config cs customer_code with
  | None =>
      print ("Error: Customer with code '" +:+ customer_code +:+ "' not found in configuration") ;;;
      let* available := py_join ", " (map (dget "company_code") cs) in
      print ("Available customers: " +:+ available) ;;;
      sys_exit
  | Some cc =>
      let* name := getitem "name" cc in
      print ("Deploying DBKB API for " +:+ name +:+ " (" +:+ customer_code +:+ ")") ;;;
      let* db := getitem "database_kb_id" cc in
      print ("Database KB: " +:+ db) ;;;
      print_optional "Support KB: " "support_kb_id" cc ;;;
      print_optional "Product KB: " "product_kb_id" cc ;;;
      except_exception
        (let* n := getitem "name" cc in
         let* kb := getitem "database_kb_id" cc in
         let* _ := getitem "company_code" cc in
         let* _ := getitem "subdomain" cc in
         let* result := deploy in
         print ("✅ Successfully deployed " +:+ n +:+ " API") ;;;
         let* sub := getitem "subdomain" cc in
         let* bd := get_base_domain configs in
         print ("🌐 API URL: https://" +:+ sub +:+ "." +:+ bd) ;;;
         ret result)
        (fun e => print ("❌ Deployment failed: " +:+ exc_str e) ;;; sys_exit)
  end.

(** The body of the loop of [list_customers] (lines 79-90). *)
Definition list_customer (c : Customer) : D unit :=
  print ("Code: " +:+ py_opt (dget "company_code" c)) ;;;
  let* n := getitem "name" c in print ("Name: " +:+ n) ;;;
  print ("Industry: " +:+ default "Unknown" (dget "industry" c)) ;;;
  let* s := getitem "subdomain" c in print ("Subdomain: " +:+ s) ;;;
  let* d := getitem "database_kb_id" c in print ("Database KB: " +:+ d) ;;;
  print_optional "Support KB: " "support_kb_id" c ;;;
  print_optional "Product KB: " "product_kb_id" c ;;;
  print (dashes 30).

(** [list_customers] (lines 72-90) *)
Definition list_customers (L : Loaded) : D unit :=
  let* configs := load_customer_configs L in
  print "Available customers for deployment:" ;;;
  print (dashes 50) ;;;
  let* cs := get_customers configs in
  mmap list_customer cs ;;; ret tt.

(** [url_params] (lines 111-128) *)
Definition url_params (db_kb : string) (company_code : option string) (name industry support_kb product_kb : string)
  : list string :=
  (["DatabaseKnowledgeBaseId=" +:+ db_kb; "Company=" +:+ py_opt company_code;
    "CompanyName=" +:+ replace " " "%20" name; "Industry=" +:+ industry;
    "DatabaseHost=your-db-host"; "DatabaseSchema=your-schema"; "LoginId=user123";
    "FirstName=John"; "LastName=Doe"; "Email=john.doe@company.com"] ++
   (if truthy support_kb then ["SupportKnowledgeBaseId=" +:+ support_kb] else []) ++
   (if truthy product_kb then ["ProductKnowledgeBaseId=" +:+ product_kb] else []))%list.

(** [example_url] (line 130) *)
Definition example_url (subdomain base_domain : string) (params : list string) : string :=
  "https://" +:+ subdomain +:+ "." +:+ base_domain +:+ "/?" +:+ join "&" params.

(** The body of the loop of [generate_url_examples] (lines 101-132). *)
Definition url_example (base_domain : string) (c : Customer) : D unit :=
  let* subdomain := getitem "subdomain" c in
  let company_code := dget "company_code" c in
  let* db_kb := getitem "database_kb_id" c in
  let support_kb := default "" (dget "support_kb_id" c) in
  let product_kb := default "" (dget "product_kb_id" c) in
  let* name := getitem "name" c in
  print (nl +:+ name +:+ " (" +:+ py_opt company_code +:+ "):") ;;;
  print ("API Base: https://" +:+ subdomain +:+ "." +:+ base_domain) ;;;
  let params := url_params db_kb company_code name (default "Unknown" (dget "industry" c)) support_kb product_kb in
  print "Example URL:" ;;;
  print ("  " +:+ example_url subdomain base_domain params).

(** [generate_url_examples] (lines 92-132) *)
Definition generate_url_examples (L : Loaded) : D unit :=
  let* configs := load_customer_configs L in
  let* bd := get_base_domain configs in
  print "Example URLs for customer access:" ;;;
  print (String.concat "" (repeat "=" 60)) ;;;
  let* cs := get_customers configs in
  mmap (url_example bd) cs ;;; ret tt.

(** The parsed arguments. *)
Record Args := mkArgs { customer_code : option string; list_flag : bool; urls_flag : bool }.

(** [parser.print_help()] *)
Definition usage : string :=
  "usage: deploy_customer.py [-h] [--list] [--urls] [customer_code]" +:+ nl +:+ nl +:+
  "Deploy customer-specific DBKB API instances" +:+ nl +:+ nl +:+
  "positional arguments:" +:+ nl +:+
  "  customer_code  Customer company code (e.g., ACME001)" +:+ nl +:+ nl +:+
  "options:" +:+ nl +:+
  "  -h, --help     show this help message and exit" +:+ nl +:+
  "  --list         List all available customers" +:+ nl +:+
  "  --urls         Generate example URLs for all customers".

(** [main] (lines 134-149) *)
Definition main (L : Loaded) (args : Args) : D unit :=
  if list_flag args then list_customers L
  else if urls_flag args then generate_url_examples L
  else if truthy_opt (customer_code args) then deploy_customer L (default "" (customer_code args)) ;;; ret tt
  else print usage.

End Script.

(** ** Running the script *)

(** The lines [print_optional] prints. *)
Definition optional_lines (label k : string) (c : Customer) : list string :=
  match dget k c with Some v => if truthy v then [label +:+ v] else [] | None => [] end.

Lemma print_optional_run label k c out :
  print_optional label k c out = (Ok tt, (out ++ optional_lines label k c)%list).
Proof.
  unfold print_optional, optional_lines, truthy_opt, getitem.
  destruct (dget k c) as [v|]; [destruct (truthy v)|]; cbn; [done| |]; by rewrite app_nil_r.
Qed.

Ltac run_prints := repeat (erewrite bind_ok by (reflexivity || apply print_optional_run)).

Lemma find_customer_config_code cs code cc :
  find_customer_config cs code = Some cc -> dget "company_code" cc = Some code.
Proof.
  unfold find_customer_config. intros H. apply List.find_some in H as [_ H].
  destruct (dget "company_code" cc) as [x|]; [|done]. by apply String.eqb_eq in H as ->.
Qed.

(** The lines printed before the [try] of line 52. *)
Definition announce_lines (code n kb : string) (cc : Customer) : list string :=
  (["Deploying DBKB API for " +:+ n +:+ " (" +:+ code +:+ ")"; "Database KB: " +:+ kb] ++
   optional_lines "Support KB: " "support_kb_id" cc ++ optional_lines "Product KB: " "product_kb_id" cc)%list.

(** The handler of line 68 on an exception that is not [SystemExit]. *)
Lemma deploy_failed_run {A} e out : String.prefix "SystemExit:" e = false ->
  (if String.prefix "SystemExit:" e then raise e
   else print ("❌ Deployment failed: " +:+ exc_str e) ;;; sys_exit (A:=A)) out =
  (Err "SystemExit: 1", (out ++ ["❌ Deployment failed: " +:+ exc_str e])%list).
Proof. intros ->. reflexivity. Qed.

Section Run.
Variable no_engine : string.
Variables (configs : Configs) (cs : list Customer) (code : string) (cc : Customer) (n kb : string).
Hypothesis Hc : customers configs = Some cs.
Hypothesis Hf : find_customer_config cs code = Some cc.
Hypothesis Hn : dget "name" cc = Some n.
Hypothesis Hk : dget "database_kb_id" cc = Some kb.

(** The run of [deploy_customer] for the entry [find_customer_config]
    selects, up to the [try] of line 52. *)
Lemma deploy_customer_prefix out :
  deploy_customer no_engine (Parsed configs) code out =
  except_exception
    (let* n := getitem "name" cc in
     let* kb := getitem "database_kb_id" cc in
     let* _ := getitem "company_code" cc in
     let* _ := getitem "subdomain" cc in
     let* result := deploy no_engine in
     print ("✅ Successfully deployed " +:+ n +:+ " API") ;;;
     let* sub := getitem "subdomain" cc in
     let* bd := get_base_domain configs in
     print ("🌐 API URL: https://" +:+ sub +:+ "." +:+ bd) ;;;
     ret result)
    (fun e => print ("❌ Deployment failed: " +:+ exc_str e) ;;; sys_exit)
    (out ++ announce_lines code n kb cc)%list.
Proof.
  unfold deploy_customer. cbn [load_customer_configs]. rewrite bind_ret.
  unfold get_customers. rewrite Hc, bind_ret, Hf. unfold getitem at 1 2. rewrite Hn, Hk, !bind_ret.
  run_prints. unfold announce_lines. by rewrite <-!app_assoc.
Qed.

(** C30: For an entry of customer_configs.yaml that the code selects and
    that has a name, a database knowledge base and a subdomain,
    [python deploy_customer.py <code>] prints the announcement and the
    knowledge bases the entry sets, then reports the exception of the
    Pulumi SDK, raised because the script runs without the engine, as a
    failed deployment and exits with status 1: it never prints the
    success line or the URL. *)
Theorem deploy_customer_fails sub out :
  String.prefix "SystemExit:" no_engine = false -> dget "subdomain" cc = Some sub ->
  deploy_customer no_engine (Parsed configs) code out =
  (Err "SystemExit: 1", (out ++ announce_lines code n kb cc ++ ["❌ Deployment failed: " +:+ exc_str no_engine])%list).
Proof.
  intros He Hs. rewrite deploy_customer_prefix. unfold except_exception, try_catch, getitem.
  rewrite Hn, Hk, (find_customer_config_code _ _ _ Hf), Hs, !bind_ret.
  cbn [bind deploy raise]. rewrite deploy_failed_run by done. by rewrite <-!app_assoc.
Qed.

(** Without a subdomain the [KeyError] is raised in the [try] before
    [deploy_customer_kb] is called. *)
Lemma deploy_customer_no_subdomain out :
  dget "subdomain" cc = None ->
  deploy_customer no_engine (Parsed configs) code out =
  (Err "SystemExit: 1", (out ++ announce_lines code n kb cc ++ ["❌ Deployment failed: 'subdomain'"])%list).
Proof.
  intros Hs. rewrite deploy_customer_prefix. unfold except_exception, try_catch, getitem.
  rewrite Hn, Hk, (find_customer_config_code _ _ _ Hf), Hs, !bind_ret.
  cbn [bind raise]. rewrite deploy_failed_run by reflexivity. by rewrite <-!app_assoc.
Qed.

End Run.

(** ** Samples *)

Definition acme : Customer :=
  [("company_code", "ACME001"); ("name", "Acme Corp"); ("database_kb_id", "KB1"); ("subdomain", "acme");
   ("support_kb_id", "KB2"); ("industry", "Retail")].

Definition initech : Customer := [("name", "Initech"); ("database_kb_id", "KB3"); ("subdomain", "initech")].

Definition sample_configs : Configs :=
  mkConfigs (Some [acme; initech]) (Some [("base_domain", "dbkb.example.com")]).

(** A message of the kind the SDK raises outside the engine. *)
Definition run_error : string :=
  "RunError: Program run without the Pulumi engine available; re-run using the pulumi CLI".

Lemma deploy_customer_fails_witness :
  customers sample_configs = Some [acme; initech] /\ find_customer_config [acme; initech] "ACME001" = Some acme /\
  dget "name" acme = Some "Acme Corp" /\ dget "database_kb_id" acme = Some "KB1" /\
  String.prefix "SystemExit:" run_error = false /\ dget "subdomain" acme = Some "acme" /\
  deploy_customer run_error (Parsed sample_configs) "ACME001" [] =
  (Err "SystemExit: 1", ([] ++ announce_lines "ACME001" "Acme Corp" "KB1" acme ++
                         ["❌ Deployment failed: " +:+ exc_str run_error])%list).
Proof.
  do 6 (split; [reflexivity|]).
  exact (deploy_customer_fails run_error sample_configs [acme; initech] "ACME001" acme "Acme Corp" "KB1"
           eq_refl eq_refl eq_refl eq_refl "acme" [] eq_refl eq_refl).
Defined.

(** What [python deploy_customer.py ACME001] prints. *)
Example deploy_acme :
  main run_error (Parsed sample_configs) (mkArgs (Some "ACME001") false false) [] =
  (Err "SystemExit: 1",
   ["Deploying DBKB API for Acme Corp (ACME001)"; "Database KB: KB1"; "Support KB: KB2";
    "❌ Deployment failed: Program run without the Pulumi engine available; re-run using the pulumi CLI"]).
Proof. vm_compute. reflexivity. Qed.

(** An unknown code with an entry that has no [company_code]: the join
    of line 39 raises [TypeError] instead of listing the codes and
    exiting with status 1. *)
Example unknown_code_type_error :
  main run_error (Parsed sample_configs) (mkArgs (Some "GLOBEX") false false) [] =
  (Err "TypeError: sequence item 1: expected str instance, NoneType found",
   ["Error: Customer with code 'GLOBEX' not found in configuration"]).
Proof. vm_compute. reflexivity. Qed.

(** Only spaces of the name are escaped in the example URL: an [&] in
    the name starts a new query parameter. *)
Example url_example_ampersand :
  snd (url_example "dbkb.example.com"
         [("company_code", "SMI01"); ("name", "Smith & Sons"); ("database_kb_id", "KB9"); ("subdomain", "smith")] []) =
  [nl +:+ "Smith & Sons (SMI01):"; "API Base: https://smith.dbkb.example.com"; "Example URL:";
   "  https://smith.dbkb.example.com/?DatabaseKnowledgeBaseId=KB9&Company=SMI01&CompanyName=Smith%20&%20Sons&" +:+
   "Industry=Unknown&DatabaseHost=your-db-host&DatabaseSchema=your-schema&LoginId=user123&FirstName=John&" +:+
   "LastName=Doe&Email=john.doe@company.com"].
Proof. vm_compute. reflexivity. Qed.

End DeployCustomer.
